(** * Argus: decision synthesis, weight optimiser and paper ledgers

    A shallow embedding of the decision-and-simulation pipeline of the
    Argus trading bot:

    - [Chiron]       the weight optimiser ([ChironEngine]),
    - [Argus]        the decision synthesiser ([ArgusDecisionEngine]),
    - [PaperBroker]  the single-portfolio ledger ([PaperBrokerService]),
    - [Agent]        the single-symbol trading agent ([AITradingAgent]),
    - [MultiAI]      the trader pool and its tick ([MultiAIBrokerService]),
    - [PaperView]    the portfolio projection and stored state of the ledger,
    - [Cronos], [Atlas], [Orion], [Aether], [Phoenix]
                     the timing, fundamentals, technical, macro and channel
                     engines whose scores the synthesiser receives,
    - [News]         the keyword sentiment and the simulated feed,
    - [Pipeline]     the engines wired in front of the synthesiser,
    - [Backtest]     the strategy backtests ([BacktestEngine]).

    JavaScript numbers are modelled as exact rationals ([Q]): sums,
    products and quotients are the mathematical ones, so equalities between
    amounts are stated with [==].  Three computations carry the rounding
    of double arithmetic instead ([JS.double]: to the nearest number with
    a 53-bit significand, ties to even, after every operation), because
    there the rounding decides an outcome on ordinary prices: the profit
    percentage that [shouldStopLoss] of the paper ledger compares with
    -10, the profit percentage and the thresholds of the exit checks of
    the trader pool, and the whole of [runBuyAndHold], whose win flag is
    the sign of a rounded difference.  What is proved about them holds up
    to a stated margin, and the cases inside the margin are shown by
    evaluation.  Division by zero, which produces
    [Infinity] or [NaN] in JavaScript, has no counterpart here; every
    statement that depends on a quotient assumes its divisor is not zero
    (prices and average costs are positive); the bounds proved for the
    scores of the engines hold along every branch their comparisons can
    take and need no such assumption.  Trade identifiers and
    timestamps (clock and random source) and the rendered explanation texts
    are left out of the records; reasons are kept as tags.  [Math.sqrt]
    has no exact rational value: the engines that call it are modelled for
    an arbitrary square-root function, and what is proved about them holds
    whatever it returns.  Data the program fetches (quotes, candles,
    fundamentals, news, the clock) enters the models as arguments. *)

From stdpp Require Import gmap strings.
From Stdlib Require Import QArith Qround Qminmax Qabs Qpower Lqa.

Open Scope Q_scope.

(** ** JavaScript [Math] helpers on exact numbers *)

Module JS.

(** [Math.floor] and [Math.ceil]. *)
Definition Math_floor (x : Q) : Z := Qfloor x.
Definition Math_ceil (x : Q) : Z := Qceiling x.

(** [Math.round]: nearest integer, ties towards [+Infinity]. *)
Definition Math_round (x : Q) : Z := Qfloor (x + 0.5).

Definition Math_min (x y : Q) : Q := Qmin x y.
Definition Math_max (x y : Q) : Q := Qmax x y.
Definition Math_abs (x : Q) : Q := Qabs x.

(** Comparisons as the booleans the source branches on. *)
Definition ltb (x y : Q) : bool := if Qlt_le_dec x y then true else false.
Definition leb (x y : Q) : bool := if Qlt_le_dec y x then false else true.
Definition gtb (x y : Q) : bool := ltb y x.
Definition geb (x y : Q) : bool := leb y x.

(** [a ?? b] on an optional number. *)
Definition nullish (o : option Q) (d : Q) : Q :=
  match o with Some v => v | None => d end.

(** [a || b] on a number: zero is falsy. *)
Definition or_else (o : option Q) (d : Q) : Q :=
  match o with
  | Some v => if Qeq_dec v 0 then d else v
  | None => d
  end.

(** *** Double-precision rounding

    The number nearest to [x] among those with a significand of 53 bits,
    ties going to the even significand: the rounding that double
    arithmetic applies to the exact result of an operation (and to a
    decimal literal).  The exponent is not bounded, so overflow and
    underflow are not represented. *)

Definition pow2 (e : Z) : Q := Qpower 2 e.

(** For [0 < x], the exponent [k] with [2^k <= x < 2^(k+1)]. *)
Definition ilog2 (x : Q) : Z :=
  let k := (Z.log2 (Qnum x) - Z.log2 (Z.pos (Qden x)))%Z in
  if Qlt_le_dec x (pow2 k) then (k - 1)%Z else k.

(** The nearest integer, ties to the even one. *)
Definition roundEven (m : Q) : Z :=
  let f := Qfloor m in
  let r := m - inject_Z f in
  if Qlt_le_dec r (1 # 2) then f
  else if Qlt_le_dec (1 # 2) r then (f + 1)%Z
  else if Z.even f then f else (f + 1)%Z.

Definition double (x : Q) : Q :=
  if Qeq_dec x 0 then 0
  else
    let a := Qabs x in
    let e := (ilog2 a - 52)%Z in
    let r := inject_Z (roundEven (a / pow2 e)) * pow2 e in
    Qred (if Qlt_le_dec x 0 then - r else r).

(** The four operations of double arithmetic. *)
Definition fadd (x y : Q) : Q := double (x + y).
Definition fsub (x y : Q) : Q := double (x - y).
Definition fmul (x y : Q) : Q := double (x * y).
Definition fdiv (x y : Q) : Q := double (x / y).

(** The unit roundoff [2^-53], and [2^-51], which bounds the relative
    error three operations in a row accumulate. *)
Definition unitRoundoff : Q := 1 # 9007199254740992.
Definition roundoff3 : Q := 1 # 2251799813685248.

(** [t] is [x] up to the relative error [eps]. *)
Definition near (eps x t : Q) : Prop := Qabs (t - x) <= eps * Qabs x.

End JS.

(** ** Chiron: regime detection and weight tables *)

Module Chiron.

Inductive ChironMarketRegime := Neutral | Trend | Chop | RiskOff | NewsShock.

Record ModuleWeights := mkWeights {
  atlas : Q; orion : Q; aether : Q; demeter : Q;
  phoenix : Q; hermes : Q; athena : Q; cronos : Q
}.

Record ChironContext := {
  atlasScore : option Q;
  orionScore : option Q;
  aetherScore : option Q;
  phoenixScore : option Q;
  hermesScore : option Q;
  demeterScore : option Q;
  athenaScore : option Q;
  cronosScore : option Q;
  symbol : string;
  orionTrendStrength : option Q;
  chopIndex : option Q;
  volatilityHint : option Q;
  isHermesAvailable : bool
}.

Record WeightPair := { core : ModuleWeights; pulse : ModuleWeights }.

Record StoredWeights := {
  learnedCore : ModuleWeights;
  learnedPulse : ModuleWeights;
  learningNotes : list string
}.

Record ChironResult := {
  regime : ChironMarketRegime;
  coreWeights : ModuleWeights;
  pulseWeights : ModuleWeights;
  notes : option (list string)
}.

Definition detectRegime (context : ChironContext) : ChironMarketRegime :=
  let orion := JS.nullish (orionScore context) 50 in
  let aether := JS.nullish (aetherScore context) 50 in
  let chop := JS.nullish (chopIndex context) 50 in
  if JS.ltb aether 40 then RiskOff
  else if JS.geb orion 60 && JS.ltb chop 45 then Trend
  else if JS.gtb chop 60 then Chop
  else Neutral.

Definition getBaseWeights (r : ChironMarketRegime) : WeightPair :=
  match r with
  | Trend =>
      {| core := mkWeights 0.20 0.25 0.20 0.15 0.10 0.05 0.05 0.0;
         pulse := mkWeights 0.10 0.35 0.15 0.10 0.20 0.05 0.05 0.0 |}
  | Chop =>
      {| core := mkWeights 0.30 0.15 0.25 0.15 0.05 0.05 0.05 0.0;
         pulse := mkWeights 0.20 0.20 0.20 0.15 0.15 0.05 0.05 0.0 |}
  | RiskOff =>
      {| core := mkWeights 0.35 0.10 0.30 0.15 0.0 0.05 0.05 0.0;
         pulse := mkWeights 0.25 0.15 0.30 0.15 0.05 0.05 0.05 0.0 |}
  | _ =>
      {| core := mkWeights 0.25 0.20 0.20 0.15 0.05 0.05 0.10 0.0;
         pulse := mkWeights 0.15 0.25 0.20 0.10 0.15 0.10 0.05 0.0 |}
  end.

Definition blendWeight (factor : Q) (baseW learnedW : ModuleWeights) : ModuleWeights :=
  {| atlas := atlas baseW * (1 - factor) + atlas learnedW * factor;
     orion := orion baseW * (1 - factor) + orion learnedW * factor;
     aether := aether baseW * (1 - factor) + aether learnedW * factor;
     demeter := demeter baseW * (1 - factor) + demeter learnedW * factor;
     phoenix := phoenix baseW * (1 - factor) + phoenix learnedW * factor;
     hermes := hermes baseW * (1 - factor) + hermes learnedW * factor;
     athena := athena baseW * (1 - factor) + athena learnedW * factor;
     cronos := cronos baseW * (1 - factor) + cronos learnedW * factor |}.

Definition blendWeights (base : WeightPair) (learned : StoredWeights) (factor : Q)
  : WeightPair :=
  {| core := blendWeight factor (core base) (learnedCore learned);
     pulse := blendWeight factor (pulse base) (learnedPulse learned) |}.

(** The sum the source writes out slot by slot. *)
Definition weightSum (w : ModuleWeights) : Q :=
  atlas w + orion w + aether w + demeter w + phoenix w + hermes w + athena w + cronos w.

Definition normalizeWeights (weights : ModuleWeights) : ModuleWeights :=
  let sum := weightSum weights in
  if Qeq_dec sum 0 then weights
  else
    {| atlas := atlas weights / sum;
       orion := orion weights / sum;
       aether := aether weights / sum;
       demeter := demeter weights / sum;
       phoenix := phoenix weights / sum;
       hermes := hermes weights / sum;
       athena := athena weights / sum;
       cronos := cronos weights / sum |}.

(** [evaluate]; the engine's [dynamicConfig] field is the first argument. *)
Definition evaluate (dynamicConfig : option StoredWeights) (context : ChironContext)
  : ChironResult :=
  let regime := detectRegime context in
  let weights :=
    match dynamicConfig with
    | Some learned => blendWeights (getBaseWeights regime) learned 0.6
    | None => getBaseWeights regime
    end in
  {| regime := regime;
     coreWeights := normalizeWeights (core weights);
     pulseWeights := normalizeWeights (pulse weights);
     notes := learningNotes <$> dynamicConfig |}.

(** Every slot of a weight vector is non-negative. *)
Definition nonneg (w : ModuleWeights) : Prop :=
  0 <= atlas w /\ 0 <= orion w /\ 0 <= aether w /\ 0 <= demeter w /\
  0 <= phoenix w /\ 0 <= hermes w /\ 0 <= athena w /\ 0 <= cronos w.

Definition allZero (w : ModuleWeights) : Prop :=
  atlas w == 0 /\ orion w == 0 /\ aether w == 0 /\ demeter w == 0 /\
  phoenix w == 0 /\ hermes w == 0 /\ athena w == 0 /\ cronos w == 0.

Definition learnedNonneg (cfg : option StoredWeights) : Prop :=
  match cfg with
  | Some l => nonneg (learnedCore l) /\ nonneg (learnedPulse l)
  | None => True
  end.

End Chiron.

(** ** Argus: the decision synthesiser *)

Module Argus.

Record ModuleScores := {
  atlas : option Q;
  orion : option Q;
  phoenix : option Q;
  aether : option Q;
  demeter : option Q;
  cronos : option Q;
  news : option Q
}.

Inductive Confidence := High | Medium | Low.

(** The five labels of [getSignal]: "Guclu Al", "Al", "Tut", "Sat",
    "Guclu Sat". *)
Inductive Signal := StrongBuy | Buy | Hold | Sell | StrongSell.

Record NewsSentiment := { score : Q; summary : string }.

(** [ModuleInputs].  Of each module result only its [score] reaches the
    numbers of a decision, so a present result is kept as its score. *)
Record ModuleInputs := {
  in_atlas : option Q;
  in_orion : option Q;
  in_phoenix : option Q;
  in_aether : option Q;
  in_demeter : option Q;
  in_cronos : option Q;
  newsSentiment : option NewsSentiment;
  symbol : string
}.

Record ArgusDecision := {
  coreScore : Z;
  pulseScore : Z;
  newsScore : Q;
  compositeScore : Z;
  coreSignal : Signal;
  pulseSignal : Signal;
  finalSignal : Signal;
  confidence : Confidence;
  moduleScores : ModuleScores
}.

(** One [if (score !== undefined) { weightedSum += ...; totalWeight += ... }]
    step on the pair of accumulators [(weightedSum, totalWeight)]. *)
Definition accumulate (s : option Q) (w : Q) (acc : Q * Q) : Q * Q :=
  match s with
  | Some v => (fst acc + v * w, snd acc + w)
  | None => acc
  end.

Definition normalizeNews (newsScore : Q) : Q :=
  JS.Math_max 0 (JS.Math_min 100 (50 + newsScore / 2)).

Definition calculateWeightedScore (scores : ModuleScores) (weights : Chiron.ModuleWeights) : Q :=
  let acc := (0, 0) in
  let acc := accumulate (atlas scores) (Chiron.atlas weights) acc in
  let acc := accumulate (orion scores) (Chiron.orion weights) acc in
  let acc := accumulate (phoenix scores) (Chiron.phoenix weights) acc in
  let acc := accumulate (aether scores) (Chiron.aether weights) acc in
  let acc := accumulate (demeter scores) (Chiron.demeter weights) acc in
  let acc := accumulate (cronos scores) (Chiron.cronos weights) acc in
  let acc := accumulate (normalizeNews <$> news scores) (Chiron.hermes weights) acc in
  let weightedSum := fst acc in
  let totalWeight := snd acc in
  if Qeq_dec totalWeight 0 then 50 else weightedSum / totalWeight.

Definition getSignal (score : Q) : Signal :=
  if JS.geb score 80 then StrongBuy
  else if JS.geb score 65 then Buy
  else if JS.geb score 50 then Hold
  else if JS.geb score 35 then Sell
  else StrongSell.

(** [Object.values(scores)]. *)
Definition Object_values (scores : ModuleScores) : list (option Q) :=
  [atlas scores; orion scores; phoenix scores; aether scores;
   demeter scores; cronos scores; news scores].

Definition availableModules (scores : ModuleScores) : nat :=
  length (filter (fun s : option Q => is_Some s) (Object_values scores)).

Definition calculateConfidence (coreScore pulseScore newsScore : Q) (scores : ModuleScores)
  : Confidence :=
  if Nat.ltb (availableModules scores) 3 then Low
  else
    let scoreDiff := JS.Math_abs (coreScore - pulseScore) in
    if JS.ltb scoreDiff 15 then
      if (JS.geb coreScore 65 && JS.geb pulseScore 65 && JS.gtb newsScore 20)
         || (JS.leb coreScore 35 && JS.leb pulseScore 35 && JS.ltb newsScore (-20))
      then High else Medium
    else if JS.ltb scoreDiff 30 then Medium
    else Low.

(** The [moduleScores] object built at the top of [makeDecision]. *)
Definition collectScores (inputs : ModuleInputs) : ModuleScores :=
  {| atlas := in_atlas inputs;
     orion := in_orion inputs;
     phoenix := in_phoenix inputs;
     aether := in_aether inputs;
     demeter := in_demeter inputs;
     cronos := in_cronos inputs;
     news := (fun s => inject_Z (JS.Math_round (score s * 100))) <$> newsSentiment inputs |}.

Definition chironContext (inputs : ModuleInputs) : Chiron.ChironContext :=
  let moduleScores := collectScores inputs in
  {| Chiron.atlasScore := atlas moduleScores;
     Chiron.orionScore := orion moduleScores;
     Chiron.aetherScore := aether moduleScores;
     Chiron.phoenixScore := phoenix moduleScores;
     Chiron.hermesScore := None;
     Chiron.demeterScore := demeter moduleScores;
     Chiron.athenaScore := None;
     Chiron.cronosScore := cronos moduleScores;
     Chiron.symbol := symbol inputs;
     Chiron.orionTrendStrength := None;
     Chiron.chopIndex := None;
     Chiron.volatilityHint := None;
     Chiron.isHermesAvailable := bool_decide (is_Some (newsSentiment inputs)) |}.

(** The local [coreScore] and [pulseScore] of [makeDecision], before the
    rounding applied to the fields of the returned decision. *)
Definition rawCoreScore (dynamicConfig : option Chiron.StoredWeights) (inputs : ModuleInputs) : Q :=
  calculateWeightedScore (collectScores inputs)
    (Chiron.coreWeights (Chiron.evaluate dynamicConfig (chironContext inputs))).

Definition rawPulseScore (dynamicConfig : option Chiron.StoredWeights) (inputs : ModuleInputs) : Q :=
  calculateWeightedScore (collectScores inputs)
    (Chiron.pulseWeights (Chiron.evaluate dynamicConfig (chironContext inputs))).

Definition makeDecision (dynamicConfig : option Chiron.StoredWeights) (inputs : ModuleInputs)
  : ArgusDecision :=
  let moduleScores := collectScores inputs in
  let coreScore := rawCoreScore dynamicConfig inputs in
  let pulseScore := rawPulseScore dynamicConfig inputs in
  let newsScore := JS.nullish (news moduleScores) 0 in
  let normalizedNewsScore := normalizeNews newsScore in
  let compositeScore :=
    JS.Math_round (coreScore * 0.4 + pulseScore * 0.45 + normalizedNewsScore * 0.15) in
  {| coreScore := JS.Math_round coreScore;
     pulseScore := JS.Math_round pulseScore;
     newsScore := newsScore;
     compositeScore := compositeScore;
     coreSignal := getSignal coreScore;
     pulseSignal := getSignal pulseScore;
     finalSignal := getSignal (inject_Z compositeScore);
     confidence := calculateConfidence coreScore pulseScore newsScore moduleScores;
     moduleScores := moduleScores |}.

(** [makeDecisionLegacy]. *)
Definition makeDecisionLegacy (dynamicConfig : option Chiron.StoredWeights)
    (atlas orion : option Q) (newsSentiment : option NewsSentiment) : ArgusDecision :=
  makeDecision dynamicConfig
    {| in_atlas := atlas; in_orion := orion; in_phoenix := None; in_aether := None;
       in_demeter := None; in_cronos := None; newsSentiment := newsSentiment;
       symbol := "UNKNOWN" |}.

(** A score as the data model has it: a number between 0 and 100. *)
Definition inRange (s : option Q) : Prop :=
  match s with Some v => 0 <= v <= 100 | None => True end.

Definition scoresInRange (inputs : ModuleInputs) : Prop :=
  inRange (in_atlas inputs) /\ inRange (in_orion inputs) /\ inRange (in_phoenix inputs) /\
  inRange (in_aether inputs) /\ inRange (in_demeter inputs) /\ inRange (in_cronos inputs).

(** The accumulator invariant of [calculateWeightedScore]: the weighted
    sum stays between 0 and 100 times the total weight. *)
Definition accBounded (acc : Q * Q) : Prop :=
  0 <= snd acc /\ 0 <= fst acc /\ fst acc <= 100 * snd acc.

(** Inputs with no module result and no sentiment. *)
Definition noInputs (sym : string) : ModuleInputs :=
  {| in_atlas := None; in_orion := None; in_phoenix := None; in_aether := None;
     in_demeter := None; in_cronos := None; newsSentiment := None; symbol := sym |}.

End Argus.

(** ** Shared vocabulary of the ledgers *)

Inductive Action := BUY | SELL.

(** The reason texts of trades and signals, as tags: the stop-loss,
    take-profit and sell-signal exits, the entries, and any other text a
    caller of the ledger passes. *)
Inductive Reason :=
| StopLossReason
| TakeProfitReason
| SellSignalReason
| BuySignalReason
| AddToWinnerReason
| HoldReason
| OtherReason (text : string).

(** ** PaperBroker: the single-portfolio ledger *)

Module PaperBroker.

Definition INITIAL_CAPITAL : Q := 100000.
Definition MAX_POSITION_SIZE : Q := 0.20.
Definition STOP_LOSS_PERCENT : Q := -10.

(** The values of the position map: [{ shares, avgCost }]. *)
Record Holding := { shares : Q; avgCost : Q }.

Record Trade := {
  t_symbol : string;
  t_action : Action;
  t_shares : Q;
  t_price : Q;
  t_total : Q;
  t_reason : Reason;
  t_argusScore : Q
}.

Record Ledger := {
  cash : Q;
  positions : gmap string Holding;
  trades : list Trade;
  startingCapital : Q
}.

Definition initial : Ledger :=
  {| cash := INITIAL_CAPITAL; positions := ∅; trades := [];
     startingCapital := INITIAL_CAPITAL |}.

(** [getTotalValue]: cash plus every holding at its listed price, or at
    its average cost when the price is missing or zero. *)
Definition getTotalValue (prices : gmap string Q) (st : Ledger) : Q :=
  map_fold (fun (symbol : string) (pos : Holding) (total : Q) =>
              total + shares pos * JS.or_else (prices !! symbol) (avgCost pos))
           (cash st) (positions st).

(** The [investment] local of [buy]. *)
Definition investment (symbol : string) (price : Q) (st : Ledger) : Q :=
  let maxInvestment := getTotalValue {[symbol := price]} st * MAX_POSITION_SIZE in
  JS.Math_min maxInvestment (cash st * 0.9).

Definition buy (symbol : string) (price : Q) (reason : Reason) (argusScore : Q)
    (st : Ledger) : option Trade * Ledger :=
  let investment := investment symbol price st in
  if JS.ltb investment 100 then (None, st)
  else
    let shares' := inject_Z (JS.Math_floor (investment / price)) in
    if JS.ltb shares' 1 then (None, st)
    else
      let total := shares' * price in
      let holding :=
        match positions st !! symbol with
        | Some existing =>
            let totalShares := shares existing + shares' in
            let totalCost := shares existing * avgCost existing + total in
            {| shares := totalShares; avgCost := totalCost / totalShares |}
        | None => {| shares := shares'; avgCost := price |}
        end in
      let trade :=
        {| t_symbol := symbol; t_action := BUY; t_shares := shares'; t_price := price;
           t_total := total; t_reason := reason; t_argusScore := argusScore |} in
      (Some trade,
       {| cash := cash st - total;
          positions := <[symbol := holding]> (positions st);
          trades := trade :: trades st;
          startingCapital := startingCapital st |}).

Definition sell (symbol : string) (price : Q) (reason : Reason) (argusScore : Q)
    (sellAll : bool) (st : Ledger) : option Trade * Ledger :=
  match positions st !! symbol with
  | None => (None, st)
  | Some position =>
      if JS.leb (shares position) 0 then (None, st)
      else
        let sharesToSell :=
          if sellAll then shares position
          else inject_Z (JS.Math_ceil (shares position / 2)) in
        let total := sharesToSell * price in
        let positions' :=
          if sellAll then delete symbol (positions st)
          else <[symbol := {| shares := shares position - sharesToSell;
                              avgCost := avgCost position |}]> (positions st) in
        let trade :=
          {| t_symbol := symbol; t_action := SELL; t_shares := sharesToSell;
             t_price := price; t_total := total; t_reason := reason;
             t_argusScore := argusScore |} in
        (Some trade,
         {| cash := cash st + total;
            positions := positions';
            trades := trade :: trades st;
            startingCapital := startingCapital st |})
  end.

Definition getPosition (symbol : string) (st : Ledger) : option Holding :=
  positions st !! symbol.

Definition getTrades (st : Ledger) : list Trade := trades st.

Definition getRecentTrades (count : nat) (st : Ledger) : list Trade :=
  take count (trades st).

Definition reset (st : Ledger) : Ledger := initial.

(** [shouldStopLoss]; the percentage compared with the threshold is the
    rounded result of the three operations that compute it. *)
Definition shouldStopLoss (symbol : string) (currentPrice : Q) (st : Ledger) : bool :=
  match positions st !! symbol with
  | None => false
  | Some position =>
      let plPercent :=
        JS.fmul (JS.fdiv (JS.fsub currentPrice (avgCost position)) (avgCost position)) 100 in
      JS.leb plPercent STOP_LOSS_PERCENT
  end.

(** *** Histories of operations *)

Inductive Op :=
| OpBuy (symbol : string) (price : Q) (reason : Reason) (argusScore : Q)
| OpSell (symbol : string) (price : Q) (reason : Reason) (argusScore : Q) (sellAll : bool).

Definition opPrice (op : Op) : Q :=
  match op with
  | OpBuy _ price _ _ => price
  | OpSell _ price _ _ _ => price
  end.

Definition step (op : Op) (st : Ledger) : option Trade * Ledger :=
  match op with
  | OpBuy symbol price reason argusScore => buy symbol price reason argusScore st
  | OpSell symbol price reason argusScore sellAll =>
      sell symbol price reason argusScore sellAll st
  end.

(** The ledger after a history; a call that returns [null] changes nothing. *)
Definition run (ops : list Op) (st : Ledger) : Ledger :=
  fold_left (fun s op => snd (step op s)) ops st.

(** Totals debited by the recorded buys and credited by the recorded sells. *)
Definition sumBuys (ts : list Trade) : Q :=
  foldr (fun t acc => match t_action t with BUY => t_total t + acc | SELL => acc end) 0 ts.

Definition sumSells (ts : list Trade) : Q :=
  foldr (fun t acc => match t_action t with SELL => t_total t + acc | BUY => acc end) 0 ts.

(** A fresh ledger opened with a given capital. *)
Definition opened (capital : Q) : Ledger :=
  {| cash := capital; positions := ∅; trades := []; startingCapital := capital |}.

(** The accounting identity between cash and the trade history. *)
Definition balanced (st : Ledger) : Prop :=
  cash st == startingCapital st - sumBuys (trades st) + sumSells (trades st).

Definition positiveShares (st : Ledger) : Prop :=
  map_Forall (fun (_ : string) (h : Holding) => 0 < shares h) (positions st).

End PaperBroker.

(** ** Agent: the single-symbol trading agent *)

Module Agent.

Definition BUY_THRESHOLD : Q := 50.
Definition SELL_THRESHOLD : Q := 40.
Definition MIN_CONFIDENCE_FOR_BUY : list Argus.Confidence :=
  [Argus.High; Argus.Medium; Argus.Low].

Inductive SignalAction := ActBuy | ActSell | ActHold.

Record TradingSignal := {
  symbol : string;
  action : SignalAction;
  reason : Reason;
  decision : Argus.ArgusDecision;
  executed : bool;
  trade : option PaperBroker.Trade
}.

(** What the data provider and the analysis engines hand to one call. *)
Record Observation := {
  quotePrice : Q;
  atlasScore : Q;
  orionScore : Q;
  newsSentiment : option Argus.NewsSentiment
}.

Definition includes (c : Argus.Confidence) (l : list Argus.Confidence) : bool :=
  existsb (fun c' => match c, c' with
                     | Argus.High, Argus.High
                     | Argus.Medium, Argus.Medium
                     | Argus.Low, Argus.Low => true
                     | _, _ => false
                     end) l.

Definition decide_inputs (symbol : string) (obs : Observation) : Argus.ModuleInputs :=
  {| Argus.in_atlas := Some (atlasScore obs);
     Argus.in_orion := Some (orionScore obs);
     Argus.in_phoenix := None; Argus.in_aether := None;
     Argus.in_demeter := None; Argus.in_cronos := None;
     Argus.newsSentiment := newsSentiment obs;
     Argus.symbol := symbol |}.

Definition hasPosition (symbol : string) (st : PaperBroker.Ledger) : bool :=
  match PaperBroker.getPosition symbol st with
  | Some currentPosition => JS.gtb (PaperBroker.shares currentPosition) 0
  | None => false
  end.

(** The "Determine action" chain of [analyzeAndTrade]. *)
Definition determineAction (symbol : string) (price : Q) (d : Argus.ArgusDecision)
    (st : PaperBroker.Ledger) : SignalAction * Reason :=
  let hasPosition := hasPosition symbol st in
  let composite := inject_Z (Argus.compositeScore d) in
  if hasPosition && PaperBroker.shouldStopLoss symbol price st then (ActSell, StopLossReason)
  else if hasPosition && JS.ltb composite SELL_THRESHOLD then (ActSell, SellSignalReason)
  else if JS.geb composite BUY_THRESHOLD
          && includes (Argus.confidence d) MIN_CONFIDENCE_FOR_BUY then
    if negb hasPosition then (ActBuy, BuySignalReason)
    else if JS.geb composite 65 then (ActBuy, AddToWinnerReason)
    else (ActHold, HoldReason)
  else (ActHold, HoldReason).

Definition analyzeAndTrade (isAutoTrading : bool) (dynamicConfig : option Chiron.StoredWeights)
    (symbol : string) (obs : Observation) (st : PaperBroker.Ledger)
  : TradingSignal * PaperBroker.Ledger :=
  let d := Argus.makeDecision dynamicConfig (decide_inputs symbol obs) in
  let '(action, reason) := determineAction symbol (quotePrice obs) d st in
  let composite := inject_Z (Argus.compositeScore d) in
  let '(result, st') :=
    if isAutoTrading then
      match action with
      | ActBuy => PaperBroker.buy symbol (quotePrice obs) reason composite st
      | ActSell => PaperBroker.sell symbol (quotePrice obs) reason composite true st
      | ActHold => (None, st)
      end
    else (None, st) in
  ({| symbol := symbol; action := action; reason := reason; decision := d;
      executed := bool_decide (is_Some result); trade := result |}, st').

(** [scanWatchlist]; a symbol whose data cannot be fetched is skipped. *)
Definition scanWatchlist (isAutoTrading : bool) (dynamicConfig : option Chiron.StoredWeights)
    (market : string -> option Observation) (symbols : list string)
    (st : PaperBroker.Ledger) : list TradingSignal * PaperBroker.Ledger :=
  fold_left
    (fun (acc : list TradingSignal * PaperBroker.Ledger) symbol =>
       match market symbol with
       | Some obs =>
           let '(signal, st') := analyzeAndTrade isAutoTrading dynamicConfig symbol obs (snd acc) in
           (fst acc ++ [signal], st')
       | None => acc
       end)
    symbols ([], st).

End Agent.

(** ** MultiAI: the trader pool and its tick *)

Module MultiAI.

Inductive AIPersonality := aggressive | balanced | conservative | highFrequency | value.

Record AITrade := {
  t_symbol : string;
  t_action : Action;
  t_price : Q;
  t_shares : Q;
  t_amount : Q;
  t_reason : Reason;
  t_pnl : option Q
}.

Record AIPosition := {
  symbol : string;
  shares : Q;
  avgCost : Q;
  currentPrice : Q;
  pnl : Q;
  pnlPercent : Q
}.

(** One entry of the [thoughts] array of a tick: the symbol and what
    was done with it. *)
Definition Thought : Type := string * Reason.

(** [AITrader], without its display name, emoji and description.
    [lastThought] holds the joined thoughts of the last tick; the empty
    list stands for one of the idle phrases. *)
Record AITrader := {
  id : AIPersonality;
  initialCapital : Q;
  currentCash : Q;
  positions : gmap string AIPosition;
  trades : list AITrade;
  lastThought : list Thought;
  totalValue : Q;
  totalPnL : Q;
  totalPnLPercent : Q;
  winRate : Q;
  tradeCount : nat
}.

Record Thresholds := {
  buyScore : Q;
  sellScore : Q;
  positionSize : Q;
  maxPositions : nat;
  stopLoss : Q;
  takeProfit : Q;
  symbols : list string
}.

Definition THRESHOLDS (personality : AIPersonality) : Thresholds :=
  match personality with
  | aggressive =>
      {| buyScore := 58; sellScore := 42; positionSize := 0.25; maxPositions := 4;
         stopLoss := 0.06; takeProfit := 0.12;
         symbols := ["NVDA"; "AMD"; "TSLA"; "PLTR"; "META"; "MSFT"] |}
  | balanced =>
      {| buyScore := 62; sellScore := 38; positionSize := 0.20; maxPositions := 5;
         stopLoss := 0.05; takeProfit := 0.10;
         symbols := ["AAPL"; "MSFT"; "GOOGL"; "AMZN"; "V"; "MA"] |}
  | conservative =>
      {| buyScore := 70; sellScore := 30; positionSize := 0.15; maxPositions := 6;
         stopLoss := 0.04; takeProfit := 0.08;
         symbols := ["JNJ"; "PG"; "XOM"; "V"; "GC=F"; "KO"] |}
  | highFrequency =>
      {| buyScore := 50; sellScore := 50; positionSize := 0.10; maxPositions := 10;
         stopLoss := 0.015; takeProfit := 0.03;
         symbols := ["COIN"; "MSTR"; "RIOT"; "MARA"; "PLTR"; "AMD"] |}
  | value =>
      {| buyScore := 75; sellScore := 25; positionSize := 0.25; maxPositions := 4;
         stopLoss := 0.08; takeProfit := 0.25;
         symbols := ["BRK-B"; "JPM"; "UNH"; "CVX"; "MCD"; "PEP"] |}
  end.

(** A trader as [initializeTraders] and [resetTrader] create it. *)
Definition newTrader (personality : AIPersonality) : AITrader :=
  {| id := personality; initialCapital := 1000; currentCash := 1000;
     positions := ∅; trades := []; lastThought := [];
     totalValue := 1000; totalPnL := 0; totalPnLPercent := 0;
     winRate := 0; tradeCount := 0 |}.

Definition withPositions (trader : AITrader) (ps : gmap string AIPosition) : AITrader :=
  {| id := id trader; initialCapital := initialCapital trader;
     currentCash := currentCash trader; positions := ps; trades := trades trader;
     lastThought := lastThought trader; totalValue := totalValue trader;
     totalPnL := totalPnL trader; totalPnLPercent := totalPnLPercent trader;
     winRate := winRate trader; tradeCount := tradeCount trader |}.

Definition executeBuy (trader : AITrader) (symbol : string) (price amount : Q)
    (reason : Reason) : AITrader :=
  let shares := amount / price in
  let trade :=
    {| t_symbol := symbol; t_action := BUY; t_price := price; t_shares := shares;
       t_amount := amount; t_reason := reason; t_pnl := None |} in
  {| id := id trader; initialCapital := initialCapital trader;
     currentCash := currentCash trader - amount;
     positions := <[symbol := {| symbol := symbol; shares := shares; avgCost := price;
                                 currentPrice := price; pnl := 0; pnlPercent := 0 |}]>
                    (positions trader);
     trades := trade :: trades trader;
     lastThought := lastThought trader; totalValue := totalValue trader;
     totalPnL := totalPnL trader; totalPnLPercent := totalPnLPercent trader;
     winRate := winRate trader; tradeCount := S (tradeCount trader) |}.

Definition executeSell (trader : AITrader) (symbol : string) (price : Q)
    (reason : Reason) : AITrader :=
  match positions trader !! symbol with
  | None => trader
  | Some position =>
      let amount := shares position * price in
      let pnl := (price - avgCost position) * shares position in
      let trade :=
        {| t_symbol := symbol; t_action := SELL; t_price := price;
           t_shares := shares position; t_amount := amount; t_reason := reason;
           t_pnl := Some pnl |} in
      {| id := id trader; initialCapital := initialCapital trader;
         currentCash := currentCash trader + amount;
         positions := delete symbol (positions trader);
         trades := trade :: trades trader;
         lastThought := lastThought trader; totalValue := totalValue trader;
         totalPnL := totalPnL trader; totalPnLPercent := totalPnLPercent trader;
         winRate := winRate trader; tradeCount := S (tradeCount trader) |}
  end.

Definition isSell (t : AITrade) : bool :=
  match t_action t with SELL => true | BUY => false end.

Definition isWinning (t : AITrade) : bool := JS.gtb (JS.nullish (t_pnl t) 0) 0.

Definition updateTraderStats (trader : AITrader) : AITrader :=
  let positionValue :=
    map_fold (fun (_ : string) (pos : AIPosition) (acc : Q) =>
                acc + shares pos * currentPrice pos) 0 (positions trader) in
  let totalValue := currentCash trader + positionValue in
  let totalPnL := totalValue - initialCapital trader in
  let closedTrades := List.filter isSell (trades trader) in
  let winningTrades := length (List.filter isWinning closedTrades) in
  {| id := id trader; initialCapital := initialCapital trader;
     currentCash := currentCash trader; positions := positions trader;
     trades := trades trader; lastThought := lastThought trader;
     totalValue := totalValue;
     totalPnL := totalPnL;
     totalPnLPercent := (totalPnL / initialCapital trader) * 100;
     winRate := if Nat.ltb 0 (length closedTrades)
                then (inject_Z (Z.of_nat winningTrades)
                      / inject_Z (Z.of_nat (length closedTrades))) * 100
                else 0;
     tradeCount := tradeCount trader |}.

(** What the data provider and the engines hand to the tick for one
    symbol: the quote and the scores of the four engines it runs
    (fundamentals and the macro engine may be unavailable). *)
Record Observation := {
  quotePrice : Q;
  atlasScore : option Q;
  orionScore : Q;
  phoenixScore : Q;
  aetherScore : option Q
}.

Definition decisionInputs (symbol : string) (obs : Observation) : Argus.ModuleInputs :=
  {| Argus.in_atlas := atlasScore obs;
     Argus.in_orion := Some (orionScore obs);
     Argus.in_phoenix := Some (phoenixScore obs);
     Argus.in_aether := aetherScore obs;
     Argus.in_demeter := None; Argus.in_cronos := None;
     Argus.newsSentiment := None;
     Argus.symbol := symbol |}.

(** The position with its price and P&L refreshed, as the tick rewrites
    it in place before the exit checks.  The percentage is the one the
    exit checks compare with the thresholds, so it carries the rounding
    of the three operations that compute it. *)
Definition refresh (position : AIPosition) (price : Q) : AIPosition :=
  {| symbol := symbol position; shares := shares position; avgCost := avgCost position;
     currentPrice := price;
     pnl := (price - avgCost position) * shares position;
     pnlPercent :=
       JS.fmul (JS.fdiv (JS.fsub price (avgCost position)) (avgCost position)) 100 |}.

(** The body of the [for (const symbol of config.symbols)] loop of
    [analyzeAndTrade].  A failed fetch ([market symbol = None]) is caught
    and the symbol is skipped.  The thresholds of the table are decimal
    literals: [config.stopLoss * 100] is the rounded product of the
    double nearest to the decimal. *)
Definition analyzeSymbol (dynamicConfig : option Chiron.StoredWeights) (config : Thresholds)
    (market : string -> option Observation) (acc : AITrader * list Thought)
    (symbol : string) : AITrader * list Thought :=
  let trader := fst acc in
  let thoughts := snd acc in
  match market symbol with
  | None => acc
  | Some obs =>
      let decision := Argus.makeDecision dynamicConfig (decisionInputs symbol obs) in
      let composite := inject_Z (Argus.compositeScore decision) in
      let price := quotePrice obs in
      match positions trader !! symbol with
      | Some position =>
          let position := refresh position price in
          let trader := withPositions trader (<[symbol := position]> (positions trader)) in
          if JS.leb (pnlPercent position) (- JS.fmul (JS.double (stopLoss config)) 100) then
            (executeSell trader symbol price StopLossReason,
             thoughts ++ [(symbol, StopLossReason)])
          else if JS.geb (pnlPercent position) (JS.fmul (JS.double (takeProfit config)) 100) then
            (executeSell trader symbol price TakeProfitReason,
             thoughts ++ [(symbol, TakeProfitReason)])
          else if JS.ltb composite (sellScore config) then
            (executeSell trader symbol price SellSignalReason,
             thoughts ++ [(symbol, SellSignalReason)])
          else (trader, thoughts)
      | None =>
          if JS.geb composite (buyScore config) then
            let positionCount := size (positions trader) in
            if Nat.ltb positionCount (maxPositions config) then
              let amount := currentCash trader * positionSize config in
              if JS.geb amount 10 && JS.geb (currentCash trader) amount then
                (executeBuy trader symbol price amount BuySignalReason,
                 thoughts ++ [(symbol, BuySignalReason)])
              else acc
            else acc
          else acc
      end
  end.

Definition withThought (trader : AITrader) (thoughts : list Thought) : AITrader :=
  {| id := id trader; initialCapital := initialCapital trader;
     currentCash := currentCash trader; positions := positions trader;
     trades := trades trader; lastThought := thoughts;
     totalValue := totalValue trader; totalPnL := totalPnL trader;
     totalPnLPercent := totalPnLPercent trader; winRate := winRate trader;
     tradeCount := tradeCount trader |}.

(** The symbol loop of a tick over a list of symbols. *)
Definition analyzeSymbols (dynamicConfig : option Chiron.StoredWeights) (config : Thresholds)
    (market : string -> option Observation) (syms : list string)
    (acc : AITrader * list Thought) : AITrader * list Thought :=
  fold_left (analyzeSymbol dynamicConfig config market) syms acc.

(** A tick of one personality. *)
Definition analyzeAndTrade (dynamicConfig : option Chiron.StoredWeights)
    (market : string -> option Observation) (personality : AIPersonality)
    (trader : AITrader) : AITrader :=
  let config := THRESHOLDS personality in
  let result := analyzeSymbols dynamicConfig config market (symbols config) (trader, []) in
  updateTraderStats (withThought (fst result) (snd result)).

(** [runAnalysis] on the pool, one trader per personality. *)
Definition runAnalysis (dynamicConfig : option Chiron.StoredWeights)
    (market : AIPersonality -> string -> option Observation)
    (traders : AIPersonality -> AITrader) : AIPersonality -> AITrader :=
  fun personality =>
    analyzeAndTrade dynamicConfig (market personality) personality (traders personality).

(** *** Vocabulary of the statements *)

(** A trader after a sequence of ticks, each with its own market data. *)
Definition ticks (dynamicConfig : option Chiron.StoredWeights)
    (personality : AIPersonality) (markets : list (string -> option Observation))
    (trader : AITrader) : AITrader :=
  fold_left (fun t market => analyzeAndTrade dynamicConfig market personality t)
            markets trader.

Definition positivePrices (market : string -> option Observation) : Prop :=
  forall symbol obs, market symbol = Some obs -> 0 < quotePrice obs.

Definition sumBuys (ts : list AITrade) : Q :=
  foldr (fun t acc => match t_action t with BUY => t_amount t + acc | SELL => acc end) 0 ts.

Definition sumSells (ts : list AITrade) : Q :=
  foldr (fun t acc => match t_action t with SELL => t_amount t + acc | BUY => acc end) 0 ts.

(** The accounting identity, non-negative cash, and holdings with positive
    shares and a positive average cost (the divisor of the P&L percentage). *)
Definition sound (trader : AITrader) : Prop :=
  currentCash trader == initialCapital trader - sumBuys (trades trader) + sumSells (trades trader)
  /\ 0 <= currentCash trader
  /\ map_Forall (fun (_ : string) (p : AIPosition) => 0 < shares p /\ 0 < avgCost p)
                (positions trader).

(** The stop-loss and take-profit conditions of the tick on a position
    at a quoted price. *)
Definition stopLossHit (config : Thresholds) (position : AIPosition) (price : Q) : Prop :=
  pnlPercent (refresh position price) <= - JS.fmul (JS.double (stopLoss config)) 100.

Definition takeProfitHit (config : Thresholds) (position : AIPosition) (price : Q) : Prop :=
  JS.fmul (JS.double (takeProfit config)) 100 <= pnlPercent (refresh position price).

(** The composite score the tick computes for a symbol. *)
Definition compositeOf (dynamicConfig : option Chiron.StoredWeights) (symbol : string)
    (obs : Observation) : Q :=
  inject_Z (Argus.compositeScore (Argus.makeDecision dynamicConfig (decisionInputs symbol obs))).

(** The conditions under which an exit carries a reason: stop-loss
    first, take-profit only without stop-loss, the sell signal only
    without either. *)
Definition exitFor (config : Thresholds) (position : AIPosition) (price composite : Q)
    (reason : Reason) : Prop :=
  (reason = StopLossReason /\ stopLossHit config position price)
  \/ (reason = TakeProfitReason /\ ~ stopLossHit config position price
      /\ takeProfitHit config position price)
  \/ (reason = SellSignalReason /\ ~ stopLossHit config position price
      /\ ~ takeProfitHit config position price /\ composite < sellScore config).

(** The trader with the position of a symbol refreshed at a price. *)
Definition refreshed (trader : AITrader) (symbol : string) (position : AIPosition)
    (price : Q) : AITrader :=
  withPositions trader (<[symbol := refresh position price]> (positions trader)).

(** A trader has just exited a symbol for a reason: the sell is on top
    of the history and the position is gone. *)
Definition exited (before after : AITrader) (symbol : string) (reason : Reason) : Prop :=
  exists trade,
    trades after = trade :: trades before /\
    t_action trade = SELL /\ t_symbol trade = symbol /\ t_reason trade = reason /\
    positions after !! symbol = None.

End MultiAI.

(** ** Notions used to state properties of the synthesiser *)

Module Notions.

(** The order of the five signal labels, from Strong-Sell to Strong-Buy. *)
Definition signalRank (s : Argus.Signal) : nat :=
  match s with
  | Argus.StrongSell => 0
  | Argus.Sell => 1
  | Argus.Hold => 2
  | Argus.Buy => 3
  | Argus.StrongBuy => 4
  end.

(** The inputs with the timing result replaced. *)
Definition withCronos (inputs : Argus.ModuleInputs) (c : option Q) : Argus.ModuleInputs :=
  {| Argus.in_atlas := Argus.in_atlas inputs;
     Argus.in_orion := Argus.in_orion inputs;
     Argus.in_phoenix := Argus.in_phoenix inputs;
     Argus.in_aether := Argus.in_aether inputs;
     Argus.in_demeter := Argus.in_demeter inputs;
     Argus.in_cronos := c;
     Argus.newsSentiment := Argus.newsSentiment inputs;
     Argus.symbol := Argus.symbol inputs |}.

(** The values that enter a weighted average: the module scores as they
    are and the news score normalised. *)
Definition enteringValues (scores : Argus.ModuleScores) : list (option Q) :=
  [Argus.atlas scores; Argus.orion scores; Argus.phoenix scores; Argus.aether scores;
   Argus.demeter scores; Argus.cronos scores; Argus.normalizeNews <$> Argus.news scores].

Definition within (lo hi : Q) (s : option Q) : Prop :=
  match s with Some v => lo <= v <= hi | None => True end.

(** The accumulators of a weighted average stay between [lo] and [hi]
    times the total weight. *)
Definition accBetween (lo hi : Q) (acc : Q * Q) : Prop :=
  0 <= snd acc /\ lo * snd acc <= fst acc /\ fst acc <= hi * snd acc.

(** Two pairs of accumulators, the second the first scaled by [k]. *)
Definition accScaled (k : Q) (acc acc' : Q * Q) : Prop :=
  fst acc' == fst acc * k /\ snd acc' == snd acc * k.

(** The blend of the composite score taken over the [coreScore] and
    [pulseScore] fields of a returned decision. *)
Definition blendOfFields (d : Argus.ArgusDecision) : Z :=
  JS.Math_round (0.40 * inject_Z (Argus.coreScore d)
                 + 0.45 * inject_Z (Argus.pulseScore d)
                 + 0.15 * Qmax 0 (Qmin 100 (50 + Argus.newsScore d / 2))).

(** How many of the six analysis modules supplied a score, and the slot
    the news sentiment takes in [moduleScores] when it is supplied. *)
Definition reportingModules (inputs : Argus.ModuleInputs) : nat :=
  length (filter (fun s : option Q => is_Some s)
            [Argus.in_atlas inputs; Argus.in_orion inputs; Argus.in_phoenix inputs;
             Argus.in_aether inputs; Argus.in_demeter inputs; Argus.in_cronos inputs]).

Definition sentimentSlot (inputs : Argus.ModuleInputs) : nat :=
  match Argus.newsSentiment inputs with Some _ => 1 | None => 0 end.

(** The margin, one part in [10^15] of the reference price, within which
    the rounding of a percentage decides on which side of a threshold a
    price falls. *)
Definition margin : Q := 1 # 1000000000000000.

End Notions.

(** ** The portfolio projection and the stored state of the paper ledger *)

Module PaperView.

Record Position := {
  symbol : string;
  shares : Q;
  avgCost : Q;
  currentPrice : Q;
  marketValue : Q;
  unrealizedPL : Q;
  unrealizedPLPercent : Q
}.

Record Portfolio := {
  cash : Q;
  positions : list Position;
  totalValue : Q;
  totalPL : Q;
  totalPLPercent : Q
}.

(** The entry [getPortfolio] pushes for one holding. *)
Definition project (currentPrices : gmap string Q) (symbol : string)
    (pos : PaperBroker.Holding) : Position :=
  let currentPrice := JS.or_else (currentPrices !! symbol) (PaperBroker.avgCost pos) in
  let marketValue := PaperBroker.shares pos * currentPrice in
  let costBasis := PaperBroker.shares pos * PaperBroker.avgCost pos in
  let unrealizedPL := marketValue - costBasis in
  {| symbol := symbol;
     shares := PaperBroker.shares pos;
     avgCost := PaperBroker.avgCost pos;
     currentPrice := currentPrice;
     marketValue := marketValue;
     unrealizedPL := unrealizedPL;
     unrealizedPLPercent := (unrealizedPL / costBasis) * 100 |}.

(** [getPortfolio].  The loop over the position map threads the list of
    entries and the running total; the map is walked in the order of the
    finite map, which need not be the insertion order of the source. *)
Definition getPortfolio (currentPrices : gmap string Q) (st : PaperBroker.Ledger) : Portfolio :=
  let acc :=
    map_fold (fun (symbol : string) (pos : PaperBroker.Holding) (acc : list Position * Q) =>
                let p := project currentPrices symbol pos in
                (fst acc ++ [p], snd acc + marketValue p))
             ([], PaperBroker.cash st) (PaperBroker.positions st) in
  let totalValue := snd acc in
  let totalPL := totalValue - PaperBroker.startingCapital st in
  {| cash := PaperBroker.cash st;
     positions := fst acc;
     totalValue := totalValue;
     totalPL := totalPL;
     totalPLPercent := (totalPL / PaperBroker.startingCapital st) * 100 |}.

(** The object [saveState] serialises: the position map as its array of
    entries.  The JSON text in between is taken to carry finite numbers
    and strings unchanged. *)
Record SavedState := {
  s_cash : Q;
  s_positions : list (string * PaperBroker.Holding);
  s_trades : list PaperBroker.Trade;
  s_startingCapital : Q
}.

Definition saveState (st : PaperBroker.Ledger) : SavedState :=
  {| s_cash := PaperBroker.cash st;
     s_positions := map_to_list (PaperBroker.positions st);
     s_trades := PaperBroker.trades st;
     s_startingCapital := PaperBroker.startingCapital st |}.

(** [new Map(entries)]: entries are set one after the other, a later
    entry replacing an earlier one of the same key. *)
Definition newMap (entries : list (string * PaperBroker.Holding))
    : gmap string PaperBroker.Holding :=
  fold_left (fun m entry => <[fst entry := snd entry]> m) entries ∅.

(** [loadState]: nothing stored leaves the ledger as it is. *)
Definition loadState (saved : option SavedState) (st : PaperBroker.Ledger)
    : PaperBroker.Ledger :=
  match saved with
  | None => st
  | Some state =>
      {| PaperBroker.cash := s_cash state;
         PaperBroker.positions := newMap (s_positions state);
         PaperBroker.trades := s_trades state;
         PaperBroker.startingCapital :=
           JS.or_else (Some (s_startingCapital state)) PaperBroker.INITIAL_CAPITAL |}
  end.

(** The value of the holdings alone, priced as [getTotalValue] prices them. *)
Definition heldValue (prices : gmap string Q) (m : gmap string PaperBroker.Holding) : Q :=
  map_fold (fun (symbol : string) (pos : PaperBroker.Holding) (total : Q) =>
              total + PaperBroker.shares pos * JS.or_else (prices !! symbol) (PaperBroker.avgCost pos))
           0 m.

(** Every holding is a whole, non-negative number of shares. *)
Definition wholeShares (st : PaperBroker.Ledger) : Prop :=
  map_Forall (fun (_ : string) (h : PaperBroker.Holding) =>
                exists n : Z, (0 <= n)%Z /\ PaperBroker.shares h == inject_Z n)
             (PaperBroker.positions st).

End PaperView.

(** ** Cronos: the timing engine *)

Module Cronos.

Inductive SeasonalitySignal := BullishSeason | BearishSeason | NeutralSeason.

Inductive TradingDay := NormalDay | MondayCaution | FridayClose | MarketClosed.

Inductive Warning :=
| EarningsWarning (days : Z)
| MarketClosedWarning
| MondayWarning
| FridayWarning.

Record CronosResult := {
  score : Q;
  isEarningsSoon : bool;
  daysToEarnings : option Z;
  seasonality : SeasonalitySignal;
  tradingDay : TradingDay;
  warnings : list Warning
}.

(** What [analyze] reads off [new Date()]: [getMonth() + 1], [getDay()]
    and [getDate()]. *)
Record Clock := { month : Z; weekday : Z; day : Z }.

Definition MONTHLY_RETURNS (month : Z) : option Q :=
  match month with
  | 1%Z => Some 1.0
  | 2%Z => Some (-0.3)
  | 3%Z => Some 1.2
  | 4%Z => Some 1.5
  | 5%Z => Some 0.3
  | 6%Z => Some (-0.1)
  | 7%Z => Some 1.0
  | 8%Z => Some (-0.1)
  | 9%Z => Some (-0.5)
  | 10%Z => Some 0.8
  | 11%Z => Some 1.5
  | 12%Z => Some 1.3
  | _ => None
  end.

Definition checkEarnings (symbol : string) : bool * option Z := (false, None).

Definition getSeasonality (month : Z) : SeasonalitySignal :=
  match MONTHLY_RETURNS month with
  | None => NeutralSeason
  | Some returns =>
      if JS.geb returns 1.0 then BullishSeason
      else if JS.ltb returns 0 then BearishSeason
      else NeutralSeason
  end.

Definition getTradingDay (weekday : Z) : TradingDay :=
  match weekday with
  | 0%Z => MarketClosed
  | 1%Z => MondayCaution
  | 5%Z => FridayClose
  | 6%Z => MarketClosed
  | _ => NormalDay
  end.

Definition analyze (now : Clock) (symbol : string) : CronosResult :=
  let score : Q := 50 in
  let warnings : list Warning := [] in
  let '(isEarningsSoon, daysToEarnings) := checkEarnings symbol in
  let '(warnings, score) :=
    if isEarningsSoon
    then (warnings ++ [EarningsWarning (default 0%Z daysToEarnings)], score - 10)
    else (warnings, score) in
  let seasonality := getSeasonality (month now) in
  let score :=
    match MONTHLY_RETURNS (month now) with
    | Some monthReturn =>
        if JS.gtb monthReturn 1.0 then score + 15
        else if JS.gtb monthReturn 0 then score + 5
        else score - 10
    | None => score
    end in
  let tradingDay := getTradingDay (weekday now) in
  let warnings :=
    match tradingDay with
    | MarketClosed => warnings ++ [MarketClosedWarning]
    | MondayCaution => warnings ++ [MondayWarning]
    | FridayClose => warnings ++ [FridayWarning]
    | NormalDay => warnings
    end in
  let score := if (28 <=? day now)%Z then score + 5 else score in
  {| score := JS.Math_min 100 (JS.Math_max 0 score);
     isEarningsSoon := isEarningsSoon;
     daysToEarnings := daysToEarnings;
     seasonality := seasonality;
     tradingDay := tradingDay;
     warnings := warnings |}.

End Cronos.

(** ** Atlas: the fundamentals engine *)

Module Atlas.

(** The fields of [Fundamentals] the engine reads; each may be missing. *)
Record Fundamentals := {
  profitMargin : option Q;
  roe : option Q;
  debtToEquity : option Q;
  currentRatio : option Q;
  peRatio : option Q;
  pbRatio : option Q;
  dividendYield : option Q
}.

Inductive Verdict := Excellent | Good | Fair | Weak | Poor.

(** The detail lines, without the figures they print. *)
Inductive Detail :=
| ExcellentProfitMargin | GoodProfitMargin
| OutstandingROE | StrongROE
| MinimalDebt | LowDebt | HighDebtRisk
| ExcellentLiquidity | LiquidityConcern
| Undervalued | FairValue | PossiblyOvervalued
| BelowBookValue
| DividendYieldDetail.

Record Components := { profitability : Q; health : Q; valuation : Q }.

Record AtlasResult := {
  score : Q;
  verdict : Verdict;
  components : Components;
  details : list Detail
}.

Definition getVerdict (score : Q) : Verdict :=
  if JS.geb score 80 then Excellent
  else if JS.geb score 65 then Good
  else if JS.geb score 50 then Fair
  else if JS.geb score 35 then Weak
  else Poor.

(** The blocks of [analyze], each giving the points it adds and the
    detail lines it pushes. *)
Definition profitMarginPoints (fundamentals : Fundamentals) : Q * list Detail :=
  let pm := JS.or_else (profitMargin fundamentals) 0 in
  if JS.gtb pm 25 then (15, [ExcellentProfitMargin])
  else if JS.gtb pm 15 then (10, [GoodProfitMargin])
  else if JS.gtb pm 8 then (5, [])
  else if JS.gtb pm 0 then (2, [])
  else (0, []).

Definition roePoints (fundamentals : Fundamentals) : Q * list Detail :=
  let roe := JS.or_else (roe fundamentals) 0 in
  if JS.gtb roe 25 then (20, [OutstandingROE])
  else if JS.gtb roe 15 then (15, [StrongROE])
  else if JS.gtb roe 10 then (10, [])
  else if JS.gtb roe 5 then (5, [])
  else (0, []).

Definition debtToEquityPoints (fundamentals : Fundamentals) : Q * list Detail :=
  let de := JS.or_else (debtToEquity fundamentals) 0 in
  if JS.ltb de 0.3 then (15, [MinimalDebt])
  else if JS.ltb de 0.7 then (12, [LowDebt])
  else if JS.ltb de 1.5 then (8, [])
  else if JS.gtb de 2.5 then (-5, [HighDebtRisk])
  else (0, []).

Definition currentRatioPoints (fundamentals : Fundamentals) : Q * list Detail :=
  let cr := JS.or_else (currentRatio fundamentals) 1 in
  if JS.gtb cr 2.5 then (15, [ExcellentLiquidity])
  else if JS.gtb cr 1.5 then (12, [])
  else if JS.gtb cr 1 then (8, [])
  else (-5, [LiquidityConcern]).

Definition peRatioPoints (fundamentals : Fundamentals) : Q * list Detail :=
  let pe := JS.or_else (peRatio fundamentals) 0 in
  if JS.gtb pe 0 && JS.ltb pe 15 then (18, [Undervalued])
  else if JS.gtb pe 0 && JS.ltb pe 25 then (12, [FairValue])
  else if JS.gtb pe 0 && JS.ltb pe 40 then (6, [])
  else if JS.geb pe 40 then (-3, [PossiblyOvervalued])
  else (0, []).

Definition pbRatioPoints (fundamentals : Fundamentals) : Q * list Detail :=
  let pb := JS.or_else (pbRatio fundamentals) 0 in
  if JS.gtb pb 0 && JS.ltb pb 1.5 then (12, [BelowBookValue])
  else if JS.gtb pb 0 && JS.ltb pb 3 then (8, [])
  else if JS.gtb pb 0 && JS.ltb pb 6 then (4, [])
  else (0, []).

Definition dividendYieldPoints (fundamentals : Fundamentals) : Q * list Detail :=
  let dy := JS.or_else (dividendYield fundamentals) 0 in
  if JS.gtb dy 3 then (5, [DividendYieldDetail]) else (0, []).

Definition analyze (fundamentals : Fundamentals) : AtlasResult :=
  let profitability : Q :=
    0 + fst (profitMarginPoints fundamentals) + fst (roePoints fundamentals) in
  let health : Q :=
    0 + fst (debtToEquityPoints fundamentals) + fst (currentRatioPoints fundamentals) in
  let valuation : Q :=
    0 + fst (peRatioPoints fundamentals) + fst (pbRatioPoints fundamentals)
    + fst (dividendYieldPoints fundamentals) in
  let details :=
    snd (profitMarginPoints fundamentals) ++ snd (roePoints fundamentals)
    ++ snd (debtToEquityPoints fundamentals) ++ snd (currentRatioPoints fundamentals)
    ++ snd (peRatioPoints fundamentals) ++ snd (pbRatioPoints fundamentals)
    ++ snd (dividendYieldPoints fundamentals) in
  let totalScore := JS.Math_min 100 (JS.Math_max 0 (profitability + health + valuation)) in
  {| score := totalScore;
     verdict := getVerdict totalScore;
     components := {| profitability := JS.Math_min 35 profitability;
                      health := JS.Math_min 30 health;
                      valuation := JS.Math_min 35 valuation |};
     details := details |}.

(** The sum of the three raw component totals of [analyze]. *)
Definition rawTotal (fundamentals : Fundamentals) : Q :=
  (0 + fst (profitMarginPoints fundamentals) + fst (roePoints fundamentals))
  + (0 + fst (debtToEquityPoints fundamentals) + fst (currentRatioPoints fundamentals))
  + (0 + fst (peRatioPoints fundamentals) + fst (pbRatioPoints fundamentals)
     + fst (dividendYieldPoints fundamentals)).

(** No figure of the fundamentals is available. *)
Definition noData : Fundamentals :=
  {| profitMargin := None; roe := None; debtToEquity := None; currentRatio := None;
     peRatio := None; pbRatio := None; dividendYield := None |}.

End Atlas.

(** ** Market data and array helpers *)

Module Provider.

(** [Candle] of the data provider. *)
Record Candle := {
  date : string;
  open : Q;
  high : Q;
  low : Q;
  close : Q;
  volume : Q
}.

End Provider.

Module JSArray.

(** [data[i]]; the loops of the source read inside the array only. *)
Definition at_ (data : list Q) (i : nat) : Q := nth i data 0.

(** [data.reduce((a, b) => a + b, 0)]. *)
Definition sum (data : list Q) : Q := fold_left Qplus data 0.

(** [data.slice(-n)]: the last [n] elements, all of them when there are
    fewer (and for [n = 0], where [-0] is [0]). *)
Definition slice_last {A : Type} (n : nat) (data : list A) : list A :=
  match n with
  | O => data
  | S _ => drop (length data - n) data
  end.

(** [data.slice(start, end)] for non-negative bounds. *)
Definition slice {A : Type} (start end_ : nat) (data : list A) : list A :=
  take (end_ - start) (drop start data).

(** [data.slice(-a, -b)] for positive [a] and [b]. *)
Definition slice_neg {A : Type} (a b : nat) (data : list A) : list A :=
  slice (length data - a) (length data - b) data.

End JSArray.

(** ** Orion: the technical engine *)

Module Orion.

Inductive Verdict :=
| InsufficientData | StronglyBullish | Bullish | NeutralVerdict | Bearish | StronglyBearish.

Inductive Regime := Bull | Bear | NeutralRegime.

Record Components := { trend : Q; momentum : Q; structure : Q }.

Record Indicators := { sma20 : Q; sma50 : Q; sma200 : Q; rsi : Q; priceVsSma50 : Q }.

(** [OrionResult], without its detail lines. *)
Record OrionResult := {
  score : Q;
  verdict : Verdict;
  regime : Regime;
  components : Components;
  indicators : Indicators
}.

Definition calculateSMA (data : list Q) (period : nat) : Q :=
  if (length data <? period)%nat then JS.or_else (last data) 0
  else JSArray.sum (JSArray.slice_last period data) / inject_Z (Z.of_nat period).

(** The loop of [calculateRSI] over [i = length - period .. length - 1],
    threading [(gains, losses)]. *)
Definition rsiTotals (data : list Q) (period : nat) : Q * Q :=
  fold_left
    (fun (acc : Q * Q) (i : nat) =>
       let diff := JSArray.at_ data i - JSArray.at_ data (i - 1) in
       if JS.geb diff 0 then (fst acc + diff, snd acc)
       else (fst acc, snd acc + JS.Math_abs diff))
    (seq (length data - period) period) (0, 0).

Definition calculateRSI (data : list Q) (period : nat) : Q :=
  if (length data <? period + 1)%nat then 50
  else
    let '(gains, losses) := rsiTotals data period in
    if Qeq_dec losses 0 then 100
    else
      let rs := (gains / inject_Z (Z.of_nat period)) / (losses / inject_Z (Z.of_nat period)) in
      100 - (100 / (1 + rs)).

Definition percentChange (data : list Q) (days : nat) : Q :=
  if (length data <? days + 1)%nat then 0
  else
    let current := JSArray.at_ data (length data - 1) in
    let past := JSArray.at_ data (length data - 1 - days) in
    ((current - past) / past) * 100.

Definition average (data : list Q) : Q :=
  if (length data =? 0)%nat then 0
  else JSArray.sum data / inject_Z (Z.of_nat (length data)).

Definition getVerdict (score : Q) : Verdict :=
  if JS.geb score 75 then StronglyBullish
  else if JS.geb score 60 then Bullish
  else if JS.geb score 45 then NeutralVerdict
  else if JS.geb score 30 then Bearish
  else StronglyBearish.

(** The "trend score" block of [calculateOrionScore]. *)
Definition trendScore (currentPrice sma20 sma50 sma200 : Q) : Q :=
  let trend : Q := 0 in
  let trend := if JS.gtb currentPrice sma20 then trend + 8 else trend in
  let trend := if JS.gtb currentPrice sma50 then trend + 10 else trend in
  let trend := if JS.gtb currentPrice sma200 then trend + 8 else trend in
  if JS.gtb sma20 sma50 && JS.gtb sma50 sma200 then trend + 9
  else if JS.ltb sma20 sma50 && JS.ltb sma50 sma200 then trend - 5
  else trend.

(** The "momentum score" block. *)
Definition momentumScore (rsi priceChange5d priceChange20d : Q) : Q :=
  let momentum : Q := 0 in
  let momentum :=
    if JS.geb rsi 50 && JS.ltb rsi 70 then momentum + 15
    else if JS.geb rsi 30 && JS.ltb rsi 50 then momentum + 10
    else if JS.geb rsi 70 then momentum + 5
    else if JS.ltb rsi 30 then momentum + 5
    else momentum in
  let momentum :=
    if JS.gtb priceChange5d 3 then momentum + 10
    else if JS.gtb priceChange5d 0 then momentum + 5
    else if JS.ltb priceChange5d (-3) then momentum - 5
    else momentum in
  if JS.gtb priceChange20d 5 then momentum + 10
  else if JS.gtb priceChange20d 0 then momentum + 5
  else momentum.

(** The "structure score" block. *)
Definition structureScore (volumeRatio priceChange5d volatility : Q) : Q :=
  let structure : Q := 0 in
  let structure :=
    if JS.gtb volumeRatio 1.3 && JS.gtb priceChange5d 0 then structure + 15
    else if JS.gtb volumeRatio 1 then structure + 10
    else structure + 5 in
  if JS.ltb volatility 15 then structure + 15
  else if JS.ltb volatility 25 then structure + 10
  else structure + 5.

Definition insufficient : OrionResult :=
  {| score := 50; verdict := InsufficientData; regime := NeutralRegime;
     components := {| trend := 15; momentum := 15; structure := 15 |};
     indicators := {| sma20 := 0; sma50 := 0; sma200 := 0; rsi := 50; priceVsSma50 := 0 |} |}.

Section SquareRoot.

(** [Math.sqrt] has no exact rational value; the engine is modelled
    for an arbitrary square-root function. *)
Variable Math_sqrt : Q -> Q.

Definition calculateVolatility (data : list Q) (period : nat) : Q :=
  let slice := JSArray.slice_last period data in
  if (length slice <? 2)%nat then 0
  else
    let returns :=
      map (fun i : nat =>
             ((JSArray.at_ slice i - JSArray.at_ slice (i - 1)) / JSArray.at_ slice (i - 1)) * 100)
          (seq 1 (length slice - 1)) in
    let mean := average returns in
    let variance :=
      fold_left (fun (sum : Q) (r : Q) => sum + (r - mean) * (r - mean)) returns 0
      / inject_Z (Z.of_nat (length returns)) in
    Math_sqrt variance * Math_sqrt 252.

Definition calculateOrionScore (candles : list Provider.Candle) : OrionResult :=
  if (length candles <? 50)%nat then insufficient
  else
    let closePrices := map Provider.close candles in
    let volumes := map Provider.volume candles in
    let currentPrice := JSArray.at_ closePrices (length closePrices - 1) in
    let sma20 := calculateSMA closePrices 20 in
    let sma50 := calculateSMA closePrices 50 in
    let sma200 :=
      if (200 <=? length candles)%nat then calculateSMA closePrices 200 else sma50 in
    let rsi := calculateRSI closePrices 14 in
    let priceVsSma50 := ((currentPrice - sma50) / sma50) * 100 in
    let trend := trendScore currentPrice sma20 sma50 sma200 in
    let priceChange5d := percentChange closePrices 5 in
    let priceChange20d := percentChange closePrices 20 in
    let momentum := momentumScore rsi priceChange5d priceChange20d in
    let avgVolume := average (JSArray.slice_last 20 volumes) in
    let recentVolume := average (JSArray.slice_last 5 volumes) in
    let volumeRatio := recentVolume / avgVolume in
    let volatility := calculateVolatility closePrices 20 in
    let structure := structureScore volumeRatio priceChange5d volatility in
    let totalScore := JS.Math_min 100 (JS.Math_max 0 (trend + momentum + structure)) in
    let regime :=
      if JS.gtb currentPrice sma50 && JS.gtb sma50 sma200 && JS.gtb rsi 50 then Bull
      else if JS.ltb currentPrice sma50 && JS.ltb sma50 sma200 && JS.ltb rsi 50 then Bear
      else NeutralRegime in
    {| score := totalScore;
       verdict := getVerdict totalScore;
       regime := regime;
       components :=
         {| trend := JS.Math_min 35 (JS.Math_max 0 trend);
            momentum := JS.Math_min 35 (JS.Math_max 0 momentum);
            structure := JS.Math_min 30 (JS.Math_max 0 structure) |};
       indicators :=
         {| sma20 := sma20; sma50 := sma50; sma200 := sma200; rsi := rsi;
            priceVsSma50 := priceVsSma50 |} |}.

End SquareRoot.

End Orion.

(** ** Aether: the macro engine *)

Module Aether.

Inductive MarketRegime := RiskOn | RiskOff | Neutral | Caution.

(** The trend text: a direction followed by a strength, or one of the
    two texts of the early returns. *)
Inductive Direction := Flat | Rising | Falling.
Inductive Strength := Strong | Weak.
Inductive Trend := TrendNoData | TrendFailed | TrendOf (direction : Direction) (strength : Strength).

Inductive Bias := RiskOnOffensive | SlightRiskOn | SlightRiskOff | RiskOffDefensive.

Inductive Detail := VixDetail (vixLevel : Q) | SpyDetail (trend : Trend) | SectorDetail (bias : Bias).

Record AetherResult := {
  score : Z;
  regime : MarketRegime;
  vixLevel : option Q;
  marketTrend : Trend;
  sectorRotation : Bias;
  details : list Detail
}.

Definition defensiveSectors : list string := ["XLU"; "XLP"; "XLV"].
Definition offensiveSectors : list string := ["XLK"; "XLY"; "XLF"].

Definition calculateSMA (data : list Q) (period : nat) : Q :=
  if (length data <? period)%nat then JS.or_else (last data) 0
  else JSArray.sum (JSArray.slice_last period data) / inject_Z (Z.of_nat period).

Definition determineRegime (score : Q) (vix : option Q) : MarketRegime :=
  if match vix with Some v => JS.gtb v 30 | None => false end then RiskOff
  else if JS.geb score 70 then RiskOn
  else if JS.geb score 50 then Neutral
  else if JS.geb score 35 then Caution
  else RiskOff.

Section Fetch.

(** [YahooFinanceProvider.fetchCandles]: the candles of a symbol, or
    [None] when the fetch fails. *)
Variable fetchCandles : string -> option (list Provider.Candle).

Definition analyzeVIX : Q * option Q :=
  match fetchCandles "^VIX" with
  | None => (50, None)
  | Some candles =>
      match last candles with
      | None => (50, None)
      | Some latest =>
          let vixValue := Provider.close latest in
          let score : Q :=
            if JS.ltb vixValue 15 then 80
            else if JS.ltb vixValue 20 then 70
            else if JS.ltb vixValue 25 then 50
            else if JS.ltb vixValue 30 then 30
            else 15 in
          (score, Some vixValue)
      end
  end.

Definition analyzeMarketTrend : Q * Trend :=
  match fetchCandles "SPY" with
  | None => (50, TrendFailed)
  | Some candles =>
      if (length candles <? 50)%nat then (50, TrendNoData)
      else
        let closes := map Provider.close candles in
        let current := JSArray.at_ closes (length closes - 1) in
        let sma50 := calculateSMA closes 50 in
        let sma200 :=
          if (200 <=? length closes)%nat then calculateSMA closes 200 else sma50 in
        let score : Q := 50 in
        let '(score, direction) :=
          if JS.gtb current sma50 && JS.gtb current sma200 then (score + 25, Rising)
          else if JS.ltb current sma50 && JS.ltb current sma200 then (score - 25, Falling)
          else (score, Flat) in
        let '(score, strength) :=
          if JS.gtb sma50 sma200 then (score + 15, Strong) else (score - 15, Weak) in
        let recent20 := JSArray.slice_last 20 closes in
        let first := JSArray.at_ recent20 0 in
        let change := ((current - first) / first) * 100 in
        let score :=
          if JS.gtb change 5 then score + 10
          else if JS.ltb change (-5) then score - 10
          else score in
        (JS.Math_max 0 (JS.Math_min 100 score), TrendOf direction strength)
  end.

Definition get1MPerformance (symbol : string) : Q :=
  match fetchCandles symbol with
  | None => 0
  | Some candles =>
      if (length candles <? 2)%nat then 0
      else
        let first := JSArray.at_ (map Provider.close candles) 0 in
        let last := JSArray.at_ (map Provider.close candles) (length candles - 1) in
        ((last - first) / first) * 100
  end.

(** [analyzeSectorRotation]; [get1MPerformance] catches its own
    failures, so the outer [catch] is never entered. *)
Definition analyzeSectorRotation : Q * Bias :=
  let defPerf :=
    fold_left (fun (defPerf : Q) symbol => defPerf + get1MPerformance symbol)
              defensiveSectors 0
    / inject_Z (Z.of_nat (length defensiveSectors)) in
  let offPerf :=
    fold_left (fun (offPerf : Q) symbol => offPerf + get1MPerformance symbol)
              offensiveSectors 0
    / inject_Z (Z.of_nat (length offensiveSectors)) in
  let diff := offPerf - defPerf in
  if JS.gtb diff 3 then (75, RiskOnOffensive)
  else if JS.gtb diff 0 then (60, SlightRiskOn)
  else if JS.gtb diff (-3) then (40, SlightRiskOff)
  else (25, RiskOffDefensive).

(** The running [totalScore] of [evaluateMacro]. *)
Definition totalScore : Q :=
  0 + fst analyzeVIX * 0.30 + fst analyzeMarketTrend * 0.35
  + fst analyzeSectorRotation * 0.20 + 50 * 0.15.

Definition evaluateMacro : AetherResult :=
  let vixResult := analyzeVIX in
  let marketResult := analyzeMarketTrend in
  let sectorResult := analyzeSectorRotation in
  let details :=
    match snd vixResult with Some v => [VixDetail v] | None => [] end
    ++ [SpyDetail (snd marketResult)] ++ [SectorDetail (snd sectorResult)] in
  {| score := JS.Math_round totalScore;
     regime := determineRegime totalScore (snd vixResult);
     vixLevel := snd vixResult;
     marketTrend := snd marketResult;
     sectorRotation := snd sectorResult;
     details := details |}.

End Fetch.

(** A provider whose every fetch fails. *)
Definition outage : string -> option (list Provider.Candle) := fun _ => None.

End Aether.

(** ** Phoenix: the channel engine *)

Module Phoenix.

Inductive Status := active | inactive.

Inductive Mode := trend | reversion.

Inductive Reason :=
| PullbackOpportunity | NearChannelBottom | StrongSignal | MediumSignal | WeakConditions
| InsufficientDataReason.

Record Indicators := { slope : Q; sigma : Q; rsi : Q; hasDivergence : bool }.

Record PhoenixResult := {
  score : Q;
  status : Status;
  mode : Mode;
  channelUpper : Q;
  channelMid : Q;
  channelLower : Q;
  entryZoneLow : Q;
  entryZoneHigh : Q;
  targets : list Q;
  reason : Reason;
  indicators : Indicators
}.

Record PhoenixConfig := { lookback : nat; regressionMultiplier : Q; atrPeriod : nat }.

Definition DEFAULT_CONFIG : PhoenixConfig :=
  {| lookback := 50; regressionMultiplier := 2.0; atrPeriod := 14 |}.

Record Channel := { c_slope : Q; c_sigma : Q; c_mid : Q; c_upper : Q; c_lower : Q }.

Definition insufficientData : PhoenixResult :=
  {| score := 0; status := inactive; mode := reversion;
     channelUpper := 0; channelMid := 0; channelLower := 0;
     entryZoneLow := 0; entryZoneHigh := 0; targets := [];
     reason := InsufficientDataReason;
     indicators := {| slope := 0; sigma := 0; rsi := 50; hasDivergence := false |} |}.

(** [Math.max] of the three candidates of the true range. *)
Definition trueRange (high low prevClose : Q) : Q :=
  JS.Math_max (JS.Math_max (high - low) (JS.Math_abs (high - prevClose)))
              (JS.Math_abs (low - prevClose)).

Definition calculateATR (candles : list Provider.Candle) (period : nat) : Q :=
  if (length candles <? period + 1)%nat then 0
  else
    let highs := map Provider.high candles in
    let lows := map Provider.low candles in
    let closes := map Provider.close candles in
    let trs :=
      map (fun i : nat =>
             trueRange (JSArray.at_ highs i) (JSArray.at_ lows i) (JSArray.at_ closes (i - 1)))
          (seq 1 (length candles - 1)) in
    JSArray.sum (JSArray.slice_last period trs) / inject_Z (Z.of_nat period).

(** The inner loop of [calculateRSIArray] over [j = 1 .. slice.length - 1],
    threading [(gains, losses)]. *)
Definition windowTotals (slice : list Q) : Q * Q :=
  fold_left
    (fun (acc : Q * Q) (j : nat) =>
       let change := JSArray.at_ slice j - JSArray.at_ slice (j - 1) in
       if JS.gtb change 0 then (fst acc + change, snd acc)
       else (fst acc, snd acc - change))
    (seq 1 (length slice - 1)) (0, 0).

(** The value pushed for one window. *)
Definition windowRSI (slice : list Q) (period : nat) : Q :=
  let '(gains, losses) := windowTotals slice in
  let avgGain := gains / inject_Z (Z.of_nat period) in
  let avgLoss := losses / inject_Z (Z.of_nat period) in
  let rs := if Qeq_dec avgLoss 0 then 100 else avgGain / avgLoss in
  100 - (100 / (1 + rs)).

Definition calculateRSIArray (candles : list Provider.Candle) (period : nat) : list Q :=
  let closes := map Provider.close candles in
  if (length closes <? period + 1)%nat then []
  else
    map (fun i : nat => windowRSI (JSArray.slice (i - period) (i + 1) closes) period)
        (seq period (length closes - period)).

(** The dips of the last twenty RSI values, in the order they are pushed. *)
Definition dipsOf (rsiSlice : list Q) : list (nat * Q) :=
  fold_left
    (fun (dips : list (nat * Q)) (i : nat) =>
       if JS.ltb (JSArray.at_ rsiSlice i) (JSArray.at_ rsiSlice (i - 1))
          && JS.ltb (JSArray.at_ rsiSlice i) (JSArray.at_ rsiSlice (i + 1))
       then dips ++ [(i, JSArray.at_ rsiSlice i)]
       else dips)
    (seq 1 (length rsiSlice - 2)) [].

Definition checkBullishDivergence (candles : list Provider.Candle) (rsi : list Q) : bool :=
  if (length rsi <? 20)%nat then false
  else
    let rsiSlice := JSArray.slice_last 20 rsi in
    let dips := dipsOf rsiSlice in
    if (length dips <? 2)%nat then false
    else
      match dips !! (length dips - 1)%nat, dips !! (length dips - 2)%nat with
      | Some lastDip, Some priorDip =>
          let candleSlice := JSArray.slice_last 20 candles in
          let lastDipPrice := JS.nullish (Provider.low <$> candleSlice !! fst lastDip) 0 in
          let priorDipPrice := JS.nullish (Provider.low <$> candleSlice !! fst priorDip) 0 in
          JS.ltb lastDipPrice priorDipPrice && JS.gtb (snd lastDip) (snd priorDip)
      | _, _ => false
      end.

Definition generateReason (score : Q) (isUptrend isPullback touch _rsi : bool) : Reason :=
  if JS.geb score 70 then
    if isUptrend && isPullback then PullbackOpportunity
    else if touch then NearChannelBottom
    else StrongSignal
  else if JS.geb score 50 then MediumSignal
  else WeakConditions.

(** The "hybrid scoring" of [analyze], before the clamp. *)
Definition hybridScore (isUptrend isPullback touchLowerBand rsiReversal divergence : bool)
    (currentRSI slope mid sigma vol avgVol : Q) : Q :=
  let score : Q := 50 in
  let score :=
    if isUptrend then
      let score := score + 10 in
      let score := if isPullback then score + 15 else score in
      let score := if JS.ltb currentRSI 50 then score + 5 else score in
      if JS.gtb slope (mid * 0.001) then score + 10 else score
    else
      let score := if touchLowerBand then score + 15 else score in
      let score := if rsiReversal then score + 10 else score in
      let score := if divergence then score + 15 else score in
      if JS.gtb slope 0 then score + 10 else score in
  let score :=
    if JS.gtb avgVol 0 && JS.gtb vol (1.5 * avgVol) then score + 5 else score in
  let score := if JS.ltb slope (- (mid * 0.0005)) then score - 15 else score in
  if JS.gtb (sigma / mid) 0.08 then score - 10 else score.

Section SquareRoot.

Variable Math_sqrt : Q -> Q.

(** The first loop of [calculateLinRegChannel], threading
    [(sumX, sumY, sumXY, sumX2)]. *)
Definition regressionSums (closes : list Q) : Q * Q * Q * Q :=
  fold_left
    (fun (acc : Q * Q * Q * Q) (i : nat) =>
       let '(sumX, sumY, sumXY, sumX2) := acc in
       let x := inject_Z (Z.of_nat i) in
       (sumX + x, sumY + JSArray.at_ closes i, sumXY + x * JSArray.at_ closes i, sumX2 + x * x))
    (seq 0 (length closes)) (0, 0, 0, 0).

Definition calculateLinRegChannel (closes : list Q) (k : Q) : Channel :=
  let n := inject_Z (Z.of_nat (length closes)) in
  let '(sumX, sumY, sumXY, sumX2) := regressionSums closes in
  let slope := (n * sumXY - sumX * sumY) / (n * sumX2 - sumX * sumX) in
  let intercept := (sumY - slope * sumX) / n in
  let deviations :=
    map (fun i : nat =>
           let predicted := intercept + slope * inject_Z (Z.of_nat i) in
           JSArray.at_ closes i - predicted)
        (seq 0 (length closes)) in
  let sigma := Math_sqrt (JSArray.sum (map (fun d => d * d) deviations) / n) in
  let finalX := n - 1 in
  let mid := intercept + slope * finalX in
  {| c_slope := slope; c_sigma := sigma; c_mid := mid;
     c_upper := mid + k * sigma; c_lower := mid - k * sigma |}.

(** [analyze]; [None] stands for the exception of reading the latest
    candle of an empty slice. *)
Definition analyze (candles : list Provider.Candle) (config : PhoenixConfig)
    : option PhoenixResult :=
  let n := length candles in
  let N := Nat.min (lookback config) n in
  if (n <? 60)%nat then Some insufficientData
  else
    let analysisSlice := JSArray.slice_last N candles in
    let closes := map Provider.close analysisSlice in
    let channel := calculateLinRegChannel closes (regressionMultiplier config) in
    let slope := c_slope channel in
    let sigma := c_sigma channel in
    let mid := c_mid channel in
    let upper := c_upper channel in
    let lower := c_lower channel in
    let atr := calculateATR analysisSlice (atrPeriod config) in
    let bufferBase := JS.Math_max (0.15 * sigma) (atr * 0.1) in
    let entryZoneLow := lower - (0.10 * bufferBase) in
    let entryZoneHigh := lower + (0.90 * bufferBase) in
    let t1 := mid in
    let isDowntrend := JS.ltb slope (- (mid * 0.0005)) in
    let t2 := if isDowntrend then mid + (upper - mid) * 0.5 else upper in
    match last analysisSlice with
    | None => None
    | Some latest =>
        let touchLowerBand := JS.leb (Provider.low latest) (lower + 0.10 * bufferBase) in
        let rsiValues := calculateRSIArray analysisSlice 14 in
        let currentRSI := JS.or_else (rsiValues !! (length rsiValues - 1)%nat) 50 in
        let prevRSI :=
          JS.or_else (if (length rsiValues <? 2)%nat then None
                      else rsiValues !! (length rsiValues - 2)%nat) 50 in
        let rsiReversal :=
          JS.geb currentRSI 40 && JS.ltb prevRSI 40 && JS.gtb currentRSI prevRSI in
        let divergence := checkBullishDivergence analysisSlice rsiValues in
        let isUptrend := JS.gtb slope 0 && JS.gtb (Provider.close latest) mid in
        let isPullback :=
          isUptrend && JS.ltb (Provider.close latest) (mid + 0.3 * sigma)
          && JS.ltb currentRSI 60 in
        let vol := Provider.volume latest in
        let volSlice := JSArray.slice_neg 21 1 analysisSlice in
        let avgVol :=
          fold_left (fun (a : Q) (b : Provider.Candle) => a + Provider.volume b) volSlice 0
          / inject_Z (Z.of_nat (length volSlice)) in
        let score :=
          hybridScore isUptrend isPullback touchLowerBand rsiReversal divergence
                      currentRSI slope mid sigma vol avgVol in
        let score := JS.Math_min (JS.Math_max score 0) 100 in
        Some {| score := score;
                status := if JS.gtb score 60 then active else inactive;
                mode := if isUptrend then trend else reversion;
                channelUpper := upper;
                channelMid := mid;
                channelLower := lower;
                entryZoneLow := entryZoneLow;
                entryZoneHigh := entryZoneHigh;
                targets := [t1; t2];
                reason := generateReason score isUptrend isPullback touchLowerBand rsiReversal;
                indicators := {| slope := slope; sigma := sigma; rsi := currentRSI;
                                 hasDivergence := divergence |} |}
    end.

End SquareRoot.

End Phoenix.

(** ** News: keyword sentiment and the simulated feed *)

Module News.

Inductive Sentiment := positive | negative | neutral.

(** The fields of [NewsItem] the sentiment reads. *)
Record NewsItem := {
  title : string;
  summary : string;
  sentiment : option Sentiment;
  sentimentScore : option Q
}.

Definition POSITIVE_KEYWORDS : list string :=
  ["surge"; "jump"; "rally"; "gain"; "rise"; "soar"; "record"; "beat"; "exceed";
   "growth"; "profit"; "bullish"; "upgrade"; "buy"; "outperform"; "strong";
   "success"; "innovation"; "breakthrough"; "expansion"; "partnership"].

Definition NEGATIVE_KEYWORDS : list string :=
  ["drop"; "fall"; "crash"; "plunge"; "decline"; "loss"; "miss"; "cut"; "layoff";
   "bearish"; "downgrade"; "sell"; "underperform"; "weak"; "warning"; "concern";
   "lawsuit"; "investigation"; "scandal"; "recall"; "bankruptcy"; "debt"].

Definition CACHE_TTL : Z := 300000.

Record CacheEntry := { data : list NewsItem; timestamp : Z }.

(** The result of [analyzeSentiment]; the analysis text quotes the first
    three keywords found. *)
Record Analysis := {
  a_sentiment : Sentiment;
  a_score : Q;
  a_quoted : list string
}.

(** One [forEach] over a keyword list, threading the count and the
    keywords found. *)
Definition countKeywords (includes : string -> bool) (keywords : list string)
    : nat * list string :=
  fold_left
    (fun (acc : nat * list string) (keyword : string) =>
       if includes keyword then (S (fst acc), snd acc ++ [keyword]) else acc)
    keywords (O, []).

(** [analyzeSentiment], for a text given by what its lower-cased form
    includes. *)
Definition analyzeSentiment (includes : string -> bool) : Analysis :=
  let '(positiveCount, foundPositive) := countKeywords includes POSITIVE_KEYWORDS in
  let '(negativeCount, foundNegative) := countKeywords includes NEGATIVE_KEYWORDS in
  let score :=
    (inject_Z (Z.of_nat positiveCount) - inject_Z (Z.of_nat negativeCount))
    / JS.Math_max 1 (inject_Z (Z.of_nat positiveCount) + inject_Z (Z.of_nat negativeCount)) in
  if JS.gtb score 0.2 then
    {| a_sentiment := positive; a_score := score; a_quoted := take 3 foundPositive |}
  else if JS.ltb score (-0.2) then
    {| a_sentiment := negative; a_score := score; a_quoted := take 3 foundNegative |}
  else {| a_sentiment := neutral; a_score := score; a_quoted := [] |}.

(** The templates of the simulated feed. *)
Record Template := { t : string; s : string; sent : Sentiment; score : Q }.

Definition templates : list Template :=
  [ {| t := "Reports Strong Q4 Results";
       s := "Exceeded analyst expectations with robust revenue growth.";
       sent := positive; score := 0.8 |};
    {| t := "Facing Supply Chain Headwinds";
       s := "Warns of potential delays due to global shortages.";
       sent := negative; score := -0.6 |};
    {| t := "Announces Strategic Partnership";
       s := "Partners with key industry player to expand market reach.";
       sent := positive; score := 0.7 |};
    {| t := "New Product Line Unveiled";
       s := "Innovative features aim to capture market share.";
       sent := positive; score := 0.9 |};
    {| t := "Analyst Downgrade";
       s := "Rating cut citing valuation concerns.";
       sent := negative; score := -0.4 |} ].

(** [ToInt32]: the value of a 32-bit shift result. *)
Definition toInt32 (x : Z) : Z := ((x + 2 ^ 31) mod 2 ^ 32 - 2 ^ 31)%Z.

(** The hash of [generateMockNews] over the character codes of the
    symbol (an ASCII ticker): [char.charCodeAt(0) + ((acc << 5) - acc)]. *)
Definition hashOf (symbol : string) : Z :=
  fold_left
    (fun (acc : Z) (char : Ascii.ascii) =>
       (Z.of_N (Ascii.N_of_ascii char) + (toInt32 (Z.shiftl (toInt32 acc) 5) - acc))%Z)
    (String.list_ascii_of_string symbol) 0%Z.

Definition mockItem (symbol : string) (item : Template) : NewsItem :=
  {| title := symbol +:+ " " +:+ t item;
     summary := s item;
     sentiment := Some (sent item);
     sentimentScore := Some (score item) |}.

(** [generateMockNews]; the index is below the number of templates, so
    the template read always exists. *)
Definition generateMockNews (symbol : string) : list NewsItem :=
  let safeHash := Z.abs (hashOf symbol) in
  fold_left
    (fun (selectedNews : list NewsItem) (i : Z) =>
       let index := ((safeHash + i) mod Z.of_nat (length templates))%Z in
       match templates !! Z.to_nat index with
       | Some item => selectedNews ++ [mockItem symbol item]
       | None => selectedNews
       end)
    [0; 1; 2; 3; 4]%Z [].

(** [fetchNewsForSymbol]: [fetched] is what [fetchYahooNews] returns,
    [None] when it throws; [now] is [Date.now()]. *)
Definition fetchNewsForSymbol (now : Z) (fetched : option (list NewsItem))
    (cache : gmap string CacheEntry) (symbol : string)
    : list NewsItem * gmap string CacheEntry :=
  let cacheKey := "news_" +:+ symbol in
  let fresh :=
    match cache !! cacheKey with
    | Some cached => if (now - timestamp cached <? CACHE_TTL)%Z then Some (data cached) else None
    | None => None
    end in
  match fresh with
  | Some cachedData => (cachedData, cache)
  | None =>
      match fetched with
      | Some news =>
          if (0 <? length news)%nat
          then (news, <[cacheKey := {| data := news; timestamp := now |}]> cache)
          else (generateMockNews symbol, cache)
      | None => (generateMockNews symbol, cache)
      end
  end.

Inductive Summary :=
| NoNews
| MostlyPositive (count total : nat)
| MostlyNegative (count total : nat)
| Mixed.

Record SentimentResult := { r_score : Q; r_summary : Summary; newsCount : nat }.

Definition isSentiment (wanted : Sentiment) (n : NewsItem) : bool :=
  match sentiment n, wanted with
  | Some positive, positive | Some negative, negative | Some neutral, neutral => true
  | _, _ => false
  end.

(** [getNewsBasedSentiment] on the news [fetchNewsForSymbol] returned. *)
Definition sentimentOf (news : list NewsItem) : SentimentResult :=
  if (length news =? 0)%nat then {| r_score := 0; r_summary := NoNews; newsCount := 0 |}
  else
    let totalScore :=
      fold_left (fun (sum : Q) (n : NewsItem) => sum + JS.or_else (sentimentScore n) 0) news 0 in
    let avgScore := totalScore / inject_Z (Z.of_nat (length news)) in
    let summary :=
      if JS.gtb avgScore 0.3
      then MostlyPositive (length (List.filter (isSentiment positive) news)) (length news)
      else if JS.ltb avgScore (-0.3)
      then MostlyNegative (length (List.filter (isSentiment negative) news)) (length news)
      else Mixed in
    {| r_score := avgScore; r_summary := summary; newsCount := length news |}.

Definition getNewsBasedSentiment (now : Z) (fetched : option (list NewsItem))
    (cache : gmap string CacheEntry) (symbol : string)
    : SentimentResult * gmap string CacheEntry :=
  let '(news, cache') := fetchNewsForSymbol now fetched cache symbol in
  (sentimentOf news, cache').

(** The cache only holds what was stored: lists with at least one item. *)
Definition cacheFilled (cache : gmap string CacheEntry) : Prop :=
  map_Forall (fun (_ : string) (entry : CacheEntry) => data entry <> []) cache.

(** Item scores as the keyword analysis and the templates give them. *)
Definition scoresWithinOne (news : list NewsItem) : Prop :=
  Forall (fun n => -1 <= JS.or_else (sentimentScore n) 0 <= 1) news.

End News.

(** ** The engines in front of the synthesiser *)

Module Pipeline.

Section SquareRoot.

Variable Math_sqrt : Q -> Q.

(** The summary text of a sentiment, which the synthesiser carries but
    does not read, shortened to a label. *)
Definition summaryLabel (summary : News.Summary) : string :=
  match summary with
  | News.NoNews => "none"
  | News.MostlyPositive _ _ => "positive"
  | News.MostlyNegative _ _ => "negative"
  | News.Mixed => "mixed"
  end.

(** The observation of the agent: [AtlasEngine.analyze] of the
    fundamentals, [calculateOrionScore] of the candles and the sentiment. *)
Definition agentObservation (price : Q) (candles : list Provider.Candle)
    (fundamentals : Atlas.Fundamentals) (newsSentiment : option News.SentimentResult)
    : Agent.Observation :=
  {| Agent.quotePrice := price;
     Agent.atlasScore := Atlas.score (Atlas.analyze fundamentals);
     Agent.orionScore := Orion.score (Orion.calculateOrionScore Math_sqrt candles);
     Agent.newsSentiment :=
       (fun r => {| Argus.score := News.r_score r;
                    Argus.summary := summaryLabel (News.r_summary r) |})
         <$> newsSentiment |}.

(** The observation of a tick of the pool for one symbol: the four
    engines it runs; fundamentals may be missing, and an exception of an
    engine makes the tick skip the symbol. *)
Definition poolObservation (fetchCandles : string -> option (list Provider.Candle))
    (price : Q) (candles : list Provider.Candle) (fundamentals : option Atlas.Fundamentals)
    : option MultiAI.Observation :=
  match Phoenix.analyze Math_sqrt candles Phoenix.DEFAULT_CONFIG with
  | None => None
  | Some phoenix =>
      Some {| MultiAI.quotePrice := price;
              MultiAI.atlasScore := (fun f => Atlas.score (Atlas.analyze f)) <$> fundamentals;
              MultiAI.orionScore := Orion.score (Orion.calculateOrionScore Math_sqrt candles);
              MultiAI.phoenixScore := Phoenix.score phoenix;
              MultiAI.aetherScore :=
                Some (inject_Z (Aether.score (Aether.evaluateMacro fetchCandles))) |}
  end.

End SquareRoot.

End Pipeline.

(** ** Backtest: replaying a strategy over candles *)

Module Backtest.

Inductive StrategyType := OrionV3 | PhoenixChannel | BuyAndHold.

Record BacktestConfig := {
  symbol : string;
  strategy : StrategyType;
  initialCapital : Q;
  startDate : option string;
  endDate : option string;
  positionSizePercent : Q
}.

(** The [Partial<BacktestConfig>] a caller passes. *)
Record PartialConfig := {
  p_strategy : option StrategyType;
  p_initialCapital : option Q;
  p_startDate : option string;
  p_endDate : option string;
  p_positionSizePercent : option Q
}.

Inductive TradeId := T (number : nat) | BH1.

Inductive TradeReason := EndOfPeriod | OrionSellSignal | BuyAndHoldReason.

Record BacktestTrade := {
  id : TradeId;
  entryDate : string;
  entryPrice : Q;
  exitDate : option string;
  exitPrice : option Q;
  shares : Q;
  pnl : Q;
  pnlPercent : Q;
  reason : TradeReason;
  isWin : bool
}.

Record BacktestResult := {
  config : BacktestConfig;
  trades : list BacktestTrade;
  finalCapital : Q;
  totalReturn : Q;
  maxDrawdown : Q;
  winRate : Q;
  sharpeRatio : Q;
  equityCurve : list (string * Q)
}.

(** The open position of the Orion strategy. *)
Record OpenPosition := { o_shares : Q; o_entryPrice : Q; o_entryDate : string }.

(** The variables the loop of [runOrionStrategy] updates. *)
Record LoopState := {
  l_capital : Q;
  l_position : option OpenPosition;
  l_peakCapital : Q;
  l_maxDrawdown : Q;
  l_returns : list Q;
  l_tradeId : nat;
  l_trades : list BacktestTrade;
  l_equityCurve : list (string * Q)
}.

(** A date string counts when it is present and not empty. *)
Definition given (date : option string) : option string :=
  match date with
  | Some EmptyString => None
  | other => other
  end.

Section SquareRoot.

Variable Math_sqrt : Q -> Q.

Definition calculateSharpe (returns : list Q) : Q :=
  if (length returns <? 2)%nat then 0
  else
    let mean := JSArray.sum returns / inject_Z (Z.of_nat (length returns)) in
    let variance :=
      fold_left (fun (sum : Q) (r : Q) => sum + (r - mean) * (r - mean)) returns 0
      / inject_Z (Z.of_nat (length returns)) in
    let stdDev := Math_sqrt variance in
    if Qeq_dec stdDev 0 then 0
    else
      let annualizedReturn := mean * 12 in
      let annualizedStdDev := stdDev * Math_sqrt 12 in
      let riskFreeRate := 4 in
      (annualizedReturn - riskFreeRate) / annualizedStdDev.

(** The body of the loop of [runOrionStrategy] for the candle at index
    [i], which exists for every index the loop visits. *)
Definition orionStep (candles : list Provider.Candle) (config : BacktestConfig)
    (st : LoopState) (i : nat) : LoopState :=
  match candles !! i with
  | None => st
  | Some current =>
      let slice := JSArray.slice 0 (i + 1) candles in
      let prevCapital :=
        match l_position st with
        | Some position =>
            l_capital st
            + o_shares position * (Provider.close current - o_entryPrice position)
        | None => l_capital st
        end in
      let equityCurve := l_equityCurve st ++ [(Provider.date current, prevCapital)] in
      let peakCapital :=
        if JS.gtb prevCapital (l_peakCapital st) then prevCapital else l_peakCapital st in
      let drawdown := ((peakCapital - prevCapital) / peakCapital) * 100 in
      let maxDrawdown :=
        if JS.gtb drawdown (l_maxDrawdown st) then drawdown else l_maxDrawdown st in
      let score := Orion.score (Orion.calculateOrionScore Math_sqrt slice) in
      match l_position st with
      | None =>
          if JS.geb score 65 then
            let amount := l_capital st * (positionSizePercent config / 100) in
            let shares := amount / Provider.close current in
            {| l_capital := l_capital st;
               l_position := Some {| o_shares := shares;
                                     o_entryPrice := Provider.close current;
                                     o_entryDate := Provider.date current |};
               l_peakCapital := peakCapital; l_maxDrawdown := maxDrawdown;
               l_returns := l_returns st; l_tradeId := l_tradeId st;
               l_trades := l_trades st; l_equityCurve := equityCurve |}
          else
            {| l_capital := l_capital st; l_position := None;
               l_peakCapital := peakCapital; l_maxDrawdown := maxDrawdown;
               l_returns := l_returns st; l_tradeId := l_tradeId st;
               l_trades := l_trades st; l_equityCurve := equityCurve |}
      | Some position =>
          if JS.ltb score 45 || (i =? length candles - 1)%nat then
            let pnl := o_shares position * (Provider.close current - o_entryPrice position) in
            let pnlPercent :=
              ((Provider.close current - o_entryPrice position) / o_entryPrice position)
              * 100 in
            let trade :=
              {| id := T (S (l_tradeId st));
                 entryDate := o_entryDate position;
                 entryPrice := o_entryPrice position;
                 exitDate := Some (Provider.date current);
                 exitPrice := Some (Provider.close current);
                 shares := o_shares position;
                 pnl := pnl;
                 pnlPercent := pnlPercent;
                 reason := if (i =? length candles - 1)%nat then EndOfPeriod
                           else OrionSellSignal;
                 isWin := JS.gtb pnl 0 |} in
            {| l_capital := l_capital st + pnl; l_position := None;
               l_peakCapital := peakCapital; l_maxDrawdown := maxDrawdown;
               l_returns := l_returns st ++ [pnlPercent];
               l_tradeId := S (l_tradeId st);
               l_trades := l_trades st ++ [trade]; l_equityCurve := equityCurve |}
          else
            {| l_capital := l_capital st; l_position := Some position;
               l_peakCapital := peakCapital; l_maxDrawdown := maxDrawdown;
               l_returns := l_returns st; l_tradeId := l_tradeId st;
               l_trades := l_trades st; l_equityCurve := equityCurve |}
      end
  end.

Definition orionLoop (candles : list Provider.Candle) (config : BacktestConfig) : LoopState :=
  let lookback := 50%nat in
  fold_left (orionStep candles config)
            (seq lookback (length candles - lookback))
            {| l_capital := initialCapital config; l_position := None;
               l_peakCapital := initialCapital config; l_maxDrawdown := 0;
               l_returns := []; l_tradeId := 0; l_trades := []; l_equityCurve := [] |}.

Definition runOrionStrategy (candles : list Provider.Candle) (config : BacktestConfig)
    : BacktestResult :=
  let st := orionLoop candles config in
  let winningTrades := length (List.filter isWin (l_trades st)) in
  let winRate :=
    if (0 <? length (l_trades st))%nat
    then (inject_Z (Z.of_nat winningTrades) / inject_Z (Z.of_nat (length (l_trades st)))) * 100
    else 0 in
  let totalReturn :=
    ((l_capital st - initialCapital config) / initialCapital config) * 100 in
  {| config := config;
     trades := l_trades st;
     finalCapital := l_capital st;
     totalReturn := totalReturn;
     maxDrawdown := l_maxDrawdown st;
     winRate := winRate;
     sharpeRatio := calculateSharpe (l_returns st);
     equityCurve := l_equityCurve st |}.

(** The loop of [runBuyAndHold], threading [(peak, maxDrawdown, equityCurve)].
    Whether a buy-and-hold run counts as a win is decided by the sign of
    [shares * lastPrice - initialCapital] with [shares = initialCapital /
    firstPrice], which rounding can move off zero; the arithmetic of
    [runBuyAndHold] is therefore the rounded one throughout. *)
Definition holdLoop (candles : list Provider.Candle) (shares peak : Q)
    : Q * Q * list (string * Q) :=
  fold_left
    (fun (acc : Q * Q * list (string * Q)) (candle : Provider.Candle) =>
       let '(peak, maxDrawdown, equityCurve) := acc in
       let value := JS.fmul shares (Provider.close candle) in
       let equityCurve := equityCurve ++ [(Provider.date candle, value)] in
       let peak := if JS.gtb value peak then value else peak in
       let dd := JS.fmul (JS.fdiv (JS.fsub peak value) peak) 100 in
       let maxDrawdown := if JS.gtb dd maxDrawdown then dd else maxDrawdown in
       (peak, maxDrawdown, equityCurve))
    candles (peak, 0, []).

Definition runBuyAndHold (candles : list Provider.Candle) (config : BacktestConfig)
    : BacktestResult :=
  match candles, last candles with
  | first :: _ :: _, Some latest =>
      let firstPrice := Provider.close first in
      let lastPrice := Provider.close latest in
      let shares := JS.fdiv (initialCapital config) firstPrice in
      let finalValue := JS.fmul shares lastPrice in
      let pnl := JS.fsub finalValue (initialCapital config) in
      let pnlPercent := JS.fmul (JS.fdiv (JS.fsub lastPrice firstPrice) firstPrice) 100 in
      let '(_, maxDrawdown, equityCurve) := holdLoop candles shares (initialCapital config) in
      let trade :=
        {| id := BH1;
           entryDate := Provider.date first;
           entryPrice := firstPrice;
           exitDate := Some (Provider.date latest);
           exitPrice := Some lastPrice;
           shares := shares;
           pnl := pnl;
           pnlPercent := pnlPercent;
           reason := BuyAndHoldReason;
           isWin := JS.gtb pnl 0 |} in
      {| config := config;
         trades := [trade];
         finalCapital := finalValue;
         totalReturn := pnlPercent;
         maxDrawdown := maxDrawdown;
         winRate := if JS.gtb pnl 0 then 100 else 0;
         sharpeRatio := 0;
         equityCurve := equityCurve |}
  | _, _ =>
      {| config := config; trades := []; finalCapital := initialCapital config;
         totalReturn := 0; maxDrawdown := 0; winRate := 0; sharpeRatio := 0;
         equityCurve := [] |}
  end.

Definition runBacktest (symbol : string) (candles : list Provider.Candle)
    (config : PartialConfig) : BacktestResult :=
  let fullConfig :=
    {| symbol := symbol;
       strategy := default OrionV3 (p_strategy config);
       initialCapital := JS.nullish (p_initialCapital config) 10000;
       startDate := p_startDate config;
       endDate := p_endDate config;
       positionSizePercent := JS.nullish (p_positionSizePercent config) 100 |} in
  let filteredCandles := candles in
  let filteredCandles :=
    match given (startDate fullConfig) with
    | Some startDate =>
        List.filter (fun c => String.leb startDate (Provider.date c)) filteredCandles
    | None => filteredCandles
    end in
  let filteredCandles :=
    match given (endDate fullConfig) with
    | Some endDate =>
        List.filter (fun c => String.leb (Provider.date c) endDate) filteredCandles
    | None => filteredCandles
    end in
  match strategy fullConfig with
  | OrionV3 => runOrionStrategy filteredCandles fullConfig
  | BuyAndHold => runBuyAndHold filteredCandles fullConfig
  | PhoenixChannel => runOrionStrategy filteredCandles fullConfig
  end.

End SquareRoot.

(** The sum of the profits of the recorded trades. *)
Definition sumPnl (ts : list BacktestTrade) : Q :=
  fold_right (fun t acc => pnl t + acc) 0 ts.

(** A trade as the strategies record it: closed, with the profit of its
    shares over the price move, and a win exactly when that is positive. *)
Definition closedTrade (t : BacktestTrade) : Prop :=
  exists exit,
    exitPrice t = Some exit /\ is_Some (exitDate t) /\
    pnl t == shares t * (exit - entryPrice t) /\
    (isWin t = true <-> 0 < pnl t).

End Backtest.

(** ** Notions used to state properties of the trader pool *)

Module PoolView.

(** The value of the open positions at the prices they were last
    refreshed at, as [updateTraderStats] adds it up. *)
Definition positionValue (ps : gmap string MultiAI.AIPosition) : Q :=
  map_fold (fun (_ : string) (pos : MultiAI.AIPosition) (acc : Q) =>
              acc + MultiAI.shares pos * MultiAI.currentPrice pos) 0 ps.

Definition worth (trader : MultiAI.AITrader) : Q :=
  MultiAI.currentCash trader + positionValue (MultiAI.positions trader).

(** The bookkeeping of a trader under the thresholds of its personality:
    no more open positions than allowed, a trade counter that counts the
    recorded trades, and positions filed under their own symbol, all of
    them symbols of the personality. *)
Definition tidy (config : MultiAI.Thresholds) (trader : MultiAI.AITrader) : Prop :=
  (size (MultiAI.positions trader) <= MultiAI.maxPositions config)%nat /\
  MultiAI.tradeCount trader = length (MultiAI.trades trader) /\
  map_Forall (fun (s : string) (p : MultiAI.AIPosition) =>
                MultiAI.symbol p = s /\ s ∈ MultiAI.symbols config)
             (MultiAI.positions trader).

(** Every quote is the price the position of that symbol was last
    refreshed at. *)
Definition quotesUnchanged (market : string -> option MultiAI.Observation)
    (trader : MultiAI.AITrader) : Prop :=
  forall s p obs,
    MultiAI.positions trader !! s = Some p -> market s = Some obs ->
    MultiAI.quotePrice obs = MultiAI.currentPrice p.

(** The cost of a position: what was paid for its shares. *)
Definition costBasis (position : MultiAI.AIPosition) : Q :=
  MultiAI.avgCost position * MultiAI.shares position.

End PoolView.

(** * Properties *)

(** ** Arithmetic of the [Math] helpers *)

Lemma Math_round_range (x : Q) (lo hi : Z) :
  inject_Z lo <= x -> x <= inject_Z hi -> (lo <= JS.Math_round x <= hi)%Z.
Proof.
  intros Hlo Hhi. unfold JS.Math_round. split.
  - rewrite <- (Qfloor_Z lo). apply Qfloor_resp_le. lra.
  - assert (Hlt : inject_Z (Qfloor (x + 0.5)) < inject_Z (hi + 1)).
    { eapply Qle_lt_trans; [apply Qfloor_le|]. rewrite inject_Z_plus.
      change (inject_Z 1) with 1. lra. }
    rewrite <- Zlt_Qlt in Hlt. lia.
Qed.

Lemma Math_round_integer (z : Z) : JS.Math_round (inject_Z z) = z.
Proof.
  unfold JS.Math_round.
  pose proof (Qfloor_le (inject_Z z + 0.5)) as Hle.
  pose proof (Qlt_floor (inject_Z z + 0.5)) as Hlt.
  set (f := Qfloor (inject_Z z + 0.5)) in *.
  assert (H1 : inject_Z f < inject_Z (z + 1)) by (rewrite inject_Z_plus; change (inject_Z 1) with 1; lra).
  assert (H2 : inject_Z z < inject_Z (f + 1)).
  { rewrite inject_Z_plus in Hlt |- *. change (inject_Z 1) with 1 in *. lra. }
  rewrite <- Zlt_Qlt in H1, H2. lia.
Qed.

Lemma Math_round_comp (x y : Q) : x == y -> JS.Math_round x = JS.Math_round y.
Proof. intros H. unfold JS.Math_round. apply Qfloor_comp. lra. Qed.

Lemma ltb_true (x y : Q) : JS.ltb x y = true <-> x < y.
Proof. unfold JS.ltb. destruct (Qlt_le_dec x y); split; intros; try easy; lra. Qed.

Lemma leb_true (x y : Q) : JS.leb x y = true <-> x <= y.
Proof. unfold JS.leb. destruct (Qlt_le_dec y x); split; intros; try easy; lra. Qed.

(** ** Double-precision rounding *)

Lemma pow2_pos (e : Z) : 0 < JS.pow2 e.
Proof. apply Qpower_0_lt. reflexivity. Qed.

Lemma pow2_add (a b : Z) : JS.pow2 (a + b) == JS.pow2 a * JS.pow2 b.
Proof. apply Qpower_plus. discriminate. Qed.

Lemma pow2_succ (a : Z) : JS.pow2 (a + 1) == 2 * JS.pow2 a.
Proof. rewrite pow2_add. change (JS.pow2 1) with 2. ring. Qed.

Lemma pow2_pred (a : Z) : 2 * JS.pow2 (a - 1) == JS.pow2 a.
Proof.
  rewrite <- pow2_succ. replace (a - 1 + 1)%Z with a by lia. reflexivity.
Qed.

Lemma pow2_log2 (n : Z) :
  (0 < n)%Z -> JS.pow2 (Z.log2 n) <= inject_Z n < 2 * JS.pow2 (Z.log2 n).
Proof.
  intros Hn. destruct (Z.log2_spec n Hn) as [Hlo Hhi].
  pose proof (Z.log2_nonneg n) as Hnn.
  rewrite <- pow2_succ. unfold JS.pow2.
  change 2 with (inject_Z 2).
  rewrite <- !Zpower_Qpower by lia.
  rewrite <- Zle_Qle, <- Zlt_Qlt. split; [exact Hlo|].
  replace (Z.log2 n + 1)%Z with (Z.succ (Z.log2 n)) by lia. exact Hhi.
Qed.

Lemma ilog2_spec (x : Q) :
  0 < x -> JS.pow2 (JS.ilog2 x) <= x < 2 * JS.pow2 (JS.ilog2 x).
Proof.
  intros Hx. destruct x as [n d].
  assert (Hn : (0 < n)%Z).
  { unfold Qlt in Hx. cbn in Hx. lia. }
  unfold JS.ilog2. cbn [Qnum Qden].
  pose proof (pow2_log2 n Hn) as [HN1 HN2].
  pose proof (pow2_log2 (Z.pos d) eq_refl) as [HD1 HD2].
  set (ln := Z.log2 n) in *. set (ld := Z.log2 (Z.pos d)) in *.
  pose proof (pow2_pos ln) as Hpn. pose proof (pow2_pos ld) as Hpd.
  assert (Hk : JS.pow2 (ln - ld) * JS.pow2 ld == JS.pow2 ln).
  { rewrite <- pow2_add. replace (ln - ld + ld)%Z with ln by lia. reflexivity. }
  pose proof (pow2_pos (ln - ld)) as Hpk.
  assert (Hxd : (n # d) * inject_Z (Z.pos d) == inject_Z n).
  { rewrite (Qmake_Qdiv n d). field. discriminate. }
  set (x := n # d) in *. set (N := inject_Z n) in *. set (D := inject_Z (Z.pos d)) in *.
  set (K := JS.pow2 (ln - ld)) in *. set (PN := JS.pow2 ln) in *. set (PD := JS.pow2 ld) in *.
  assert (HD : 0 < D) by lra.
  assert (Hup : x < 2 * K).
  { apply Qnot_le_lt. intros Hc.
    assert (H1 : 2 * K * D <= x * D) by (apply Qmult_le_compat_r; lra).
    assert (H2 : 2 * K * PD <= 2 * K * D) by (apply Qmult_le_l; lra).
    lra. }
  assert (Hlow : K <= 2 * x).
  { apply Qnot_lt_le. intros Hc.
    assert (H1 : 2 * x * D < K * D) by (apply Qmult_lt_compat_r; lra).
    assert (H2 : K * D < K * (2 * PD)) by (apply Qmult_lt_l; lra).
    lra. }
  destruct (Qlt_le_dec x K) as [Hlt|Hge].
  - pose proof (pow2_pred (ln - ld)) as Hp. fold K in Hp.
    set (K' := JS.pow2 (ln - ld - 1)) in *. split; lra.
  - split; [exact Hge | exact Hup].
Qed.

Lemma roundEven_near (m : Q) : Qabs (inject_Z (JS.roundEven m) - m) <= 1 # 2.
Proof.
  unfold JS.roundEven.
  pose proof (Qfloor_le m) as Hlo. pose proof (Qlt_floor m) as Hhi.
  rewrite inject_Z_plus in Hhi. change (inject_Z 1) with 1 in Hhi.
  set (f := Qfloor m) in *.
  apply Qabs_Qle_condition.
  destruct (Qlt_le_dec (m - inject_Z f) (1 # 2)) as [H1|H1]; [split; lra|].
  assert (Hup : -(1 # 2) <= inject_Z (f + 1) - m <= 1 # 2).
  { rewrite inject_Z_plus. change (inject_Z 1) with 1. split; lra. }
  destruct (Qlt_le_dec (1 # 2) (m - inject_Z f)) as [H2|H2]; [exact Hup|].
  destruct (Z.even f); [split; lra | exact Hup].
Qed.



(** The rounding moves a number by at most [2^-53] of its magnitude. *)
Lemma double_error (x : Q) : Qabs (JS.double x - x) <= JS.unitRoundoff * Qabs x.
Proof.
  unfold JS.double.
  destruct (Qeq_dec x 0) as [Hz|Hnz].
  - rewrite Hz. discriminate.
  - rewrite Qred_correct.
    assert (Ha : 0 < Qabs x).
    { pose proof (Qabs_nonneg x) as Hnn.
      destruct (Qeq_dec (Qabs x) 0) as [H0|H0]; [|lra].
      exfalso. apply Hnz.
      destruct (Qlt_le_dec x 0) as [Hneg|Hpos].
      - rewrite (Qabs_neg x) in H0 by lra. lra.
      - rewrite (Qabs_pos x Hpos) in H0. exact H0. }
    set (a := Qabs x) in *.
    pose proof (ilog2_spec a Ha) as [Hlo _].
    set (e := (JS.ilog2 a - 52)%Z).
    assert (He : JS.pow2 (JS.ilog2 a) == JS.pow2 e * 4503599627370496).
    { replace (JS.ilog2 a) with (e + 52)%Z by (unfold e; lia).
      rewrite pow2_add. reflexivity. }
    pose proof (pow2_pos e) as HP.
    pose proof (roundEven_near (a / JS.pow2 e)) as Hr.
    apply Qabs_Qle_condition in Hr. destruct Hr as [Hr1 Hr2].
    set (P := JS.pow2 e) in *.
    set (r := inject_Z (JS.roundEven (a / P))) in *.
    assert (Hm : a / P * P == a) by (field; lra).
    assert (H1 : (-(1 # 2)) * P <= (r - a / P) * P) by (apply Qmult_le_compat_r; lra).
    assert (H2 : (r - a / P) * P <= (1 # 2) * P) by (apply Qmult_le_compat_r; lra).
    assert (HR : - (JS.unitRoundoff * a) <= r * P - a <= JS.unitRoundoff * a).
    { unfold JS.unitRoundoff. split; lra. }
    apply Qabs_Qle_condition.
    destruct (Qlt_le_dec x 0) as [Hneg|Hpos].
    + assert (Hax : a == - x) by (unfold a; apply Qabs_neg; lra).
      split; lra.
    + assert (Hax : a == x) by (unfold a; apply Qabs_pos; exact Hpos).
      split; lra.
Qed.

Lemma double_pos (x : Q) :
  0 <= x -> x * (1 - JS.unitRoundoff) <= JS.double x <= x * (1 + JS.unitRoundoff).
Proof.
  intros Hx. pose proof (double_error x) as H.
  apply Qabs_Qle_condition in H. rewrite (Qabs_pos x Hx) in H. split; lra.
Qed.

Lemma double_neg (x : Q) :
  x <= 0 -> x * (1 + JS.unitRoundoff) <= JS.double x <= x * (1 - JS.unitRoundoff).
Proof.
  intros Hx. pose proof (double_error x) as H.
  apply Qabs_Qle_condition in H. rewrite (Qabs_neg x Hx) in H. split; lra.
Qed.

Lemma double_sign (x : Q) :
  (0 < x -> 0 < JS.double x) /\ (x < 0 -> JS.double x < 0) /\ (x == 0 -> JS.double x == 0).
Proof.
  split; [|split]; intros Hx.
  - pose proof (double_pos x ltac:(lra)) as [H _]. unfold JS.unitRoundoff in H. lra.
  - pose proof (double_neg x ltac:(lra)) as [_ H]. unfold JS.unitRoundoff in H. lra.
  - unfold JS.double. destruct (Qeq_dec x 0); [reflexivity | contradiction].
Qed.

Lemma near_double_exact (x : Q) : JS.near JS.unitRoundoff x (JS.double x).
Proof. apply double_error. Qed.

Lemma near_double (eps x t : Q) :
  0 <= eps -> JS.near eps x t ->
  JS.near (eps + JS.unitRoundoff + eps * JS.unitRoundoff) x (JS.double t).
Proof.
  unfold JS.near. intros He Hn.
  pose proof (double_error t) as Hd.
  pose proof (Qabs_triangle (JS.double t - t) (t - x)) as H1.
  pose proof (Qabs_triangle (t - x) x) as H2.
  assert (E1 : JS.double t - t + (t - x) == JS.double t - x) by ring.
  assert (E2 : t - x + x == t) by ring.
  rewrite E1 in H1. rewrite E2 in H2.
  pose proof (Qabs_nonneg x) as Hx.
  set (ax := Qabs x) in *. set (at' := Qabs t) in *.
  set (d1 := Qabs (JS.double t - t)) in *. set (d2 := Qabs (t - x)) in *.
  set (d := Qabs (JS.double t - x)) in *.
  unfold JS.unitRoundoff in *.
  assert (H3 : eps * ((1 # 9007199254740992) * ax) == eps * (1 # 9007199254740992) * ax) by ring.
  assert (H4 : (1 # 9007199254740992) * (eps * ax) == eps * (1 # 9007199254740992) * ax) by ring.
  assert (H5 : (1 # 9007199254740992) * at' <= (1 # 9007199254740992) * (ax + eps * ax))
    by (apply Qmult_le_l; [reflexivity | lra]).
  lra.
Qed.

Lemma near_mul_r (eps x t c : Q) : JS.near eps x t -> JS.near eps (x * c) (t * c).
Proof.
  unfold JS.near. intros Hn.
  assert (E : t * c - x * c == (t - x) * c) by ring.
  rewrite E, !Qabs_Qmult.
  pose proof (Qabs_nonneg c) as Hc.
  assert (H : Qabs (t - x) * Qabs c <= eps * Qabs x * Qabs c)
    by (apply Qmult_le_compat_r; assumption).
  lra.
Qed.

Lemma near_div_r (eps x t c : Q) : JS.near eps x t -> JS.near eps (x / c) (t / c).
Proof. apply near_mul_r. Qed.

Lemma near_weaken (eps eps' x t : Q) : eps <= eps' -> JS.near eps x t -> JS.near eps' x t.
Proof.
  unfold JS.near. intros He Hn. pose proof (Qabs_nonneg x) as Hx.
  assert (H : eps * Qabs x <= eps' * Qabs x) by (apply Qmult_le_compat_r; assumption).
  lra.
Qed.

Lemma near_bounds (eps x t : Q) :
  JS.near eps x t ->
  (0 <= x -> x * (1 - eps) <= t <= x * (1 + eps)) /\
  (x <= 0 -> x * (1 + eps) <= t <= x * (1 - eps)).
Proof.
  unfold JS.near. intros Hn. apply Qabs_Qle_condition in Hn.
  split; intros Hx.
  - rewrite (Qabs_pos x Hx) in Hn. split; lra.
  - rewrite (Qabs_neg x Hx) in Hn. split; lra.
Qed.

(** Two operations in a row. *)
Lemma near_two_ops (x t : Q) :
  JS.near JS.unitRoundoff x t -> JS.near JS.roundoff3 x (JS.double t).
Proof.
  intros H. eapply near_weaken; [|apply near_double; [|exact H]]; discriminate.
Qed.

(** A percentage [((x - y) / d) * 100] as rounded arithmetic computes it. *)
Lemma ratio_percent_near (x y d : Q) :
  JS.near JS.roundoff3 (((x - y) / d) * 100) (JS.fmul (JS.fdiv (JS.fsub x y) d) 100).
Proof.
  unfold JS.fmul, JS.fdiv, JS.fsub.
  pose proof (near_double_exact (x - y)) as H1.
  apply (near_div_r _ _ _ d) in H1.
  apply near_double in H1; [|discriminate].
  apply (near_mul_r _ _ _ 100) in H1.
  apply near_double in H1; [|discriminate].
  eapply near_weaken; [|exact H1]. discriminate.
Qed.

Lemma percent_near (x base : Q) :
  JS.near JS.roundoff3 (((x - base) / base) * 100)
          (JS.fmul (JS.fdiv (JS.fsub x base) base) 100).
Proof. apply ratio_percent_near. Qed.

(** A quotient multiplied on, as rounded arithmetic computes it. *)
Lemma scaled_near (c f l : Q) :
  JS.near JS.roundoff3 (c / f * l) (JS.fmul (JS.fdiv c f) l).
Proof.
  unfold JS.fmul, JS.fdiv.
  apply near_two_ops, near_mul_r, near_double_exact.
Qed.

(** On which side of a threshold of [S] percent a rounded percentage falls. *)
Lemma percent_below (x base S : Q) :
  0 < base -> 0 < S -> S <= 100 ->
  let t := JS.fmul (JS.fdiv (JS.fsub x base) base) 100 in
  (x <= base * (1 - S / 100 - Notions.margin) -> t <= - S) /\
  (t <= - S -> x <= base * (1 - S / 100 + Notions.margin)).
Proof.
  intros Hb HS HS'. cbv zeta.
  pose proof (percent_near x base) as Hn. apply near_bounds in Hn.
  set (t := JS.fmul _ _) in *. set (e := ((x - base) / base) * 100) in *.
  assert (He : e * base == (x - base) * 100) by (unfold e; field; lra).
  unfold JS.roundoff3, Notions.margin in *. destruct Hn as [Hpos Hneg].
  change (S / 100) with (S * (1 # 100)).
  split; intros H.
  - assert (Hle : e * base <= (- (S + (1 # 10000000000000))) * base) by lra.
    apply Qmult_le_r in Hle; [|exact Hb].
    destruct (Hneg ltac:(lra)) as [_ Hup]. lra.
  - destruct (Qlt_le_dec e 0) as [Hlt|Hge].
    + destruct (Hneg ltac:(lra)) as [Hlo _].
      assert (Hle : e <= - (S - (1 # 10000000000000))) by lra.
      assert (Hm : e * base <= (- (S - (1 # 10000000000000))) * base)
        by (apply Qmult_le_compat_r; lra).
      lra.
    + destruct (Hpos Hge) as [Hlo _]. lra.
Qed.

Lemma percent_above (x base S : Q) :
  0 < base -> 0 < S -> S <= 100 ->
  let t := JS.fmul (JS.fdiv (JS.fsub x base) base) 100 in
  (base * (1 + S / 100 + Notions.margin) <= x -> S <= t) /\
  (S <= t -> base * (1 + S / 100 - Notions.margin) <= x).
Proof.
  intros Hb HS HS'. cbv zeta.
  pose proof (percent_near x base) as Hn. apply near_bounds in Hn.
  set (t := JS.fmul _ _) in *. set (e := ((x - base) / base) * 100) in *.
  assert (He : e * base == (x - base) * 100) by (unfold e; field; lra).
  unfold JS.roundoff3, Notions.margin in *. destruct Hn as [Hpos Hneg].
  change (S / 100) with (S * (1 # 100)).
  split; intros H.
  - assert (Hle : (S + (1 # 10000000000000)) * base <= e * base) by lra.
    apply Qmult_le_r in Hle; [|exact Hb].
    destruct (Hpos ltac:(lra)) as [Hlo _]. lra.
  - destruct (Qlt_le_dec 0 e) as [Hlt|Hge].
    + destruct (Hpos ltac:(lra)) as [_ Hup].
      assert (Hle : S - (1 # 10000000000000) <= e) by lra.
      assert (Hm : (S - (1 # 10000000000000)) * base <= e * base)
        by (apply Qmult_le_compat_r; lra).
      lra.
    + destruct (Hneg Hge) as [_ Hup]. lra.
Qed.

(** ** Chiron *)

Lemma weightSum_nonneg (w : Chiron.ModuleWeights) : Chiron.nonneg w -> 0 <= Chiron.weightSum w.
Proof. unfold Chiron.nonneg, Chiron.weightSum. intros H. lra. Qed.

Lemma normalizeWeights_sum (w : Chiron.ModuleWeights) :
  ~ Chiron.weightSum w == 0 -> Chiron.weightSum (Chiron.normalizeWeights w) == 1.
Proof.
  intros Hne. unfold Chiron.normalizeWeights.
  destruct (Qeq_dec (Chiron.weightSum w) 0) as [H0|_]; [contradiction|].
  unfold Chiron.weightSum at 1. simpl.
  set (s := Chiron.weightSum w) in *.
  assert (Hs : Chiron.atlas w + Chiron.orion w + Chiron.aether w + Chiron.demeter w +
               Chiron.phoenix w + Chiron.hermes w + Chiron.athena w + Chiron.cronos w == s)
    by reflexivity.
  field_simplify_eq; [lra | exact Hne].
Qed.

Lemma normalizeWeights_zero_sum (w : Chiron.ModuleWeights) :
  Chiron.weightSum w == 0 -> Chiron.normalizeWeights w = w.
Proof.
  intros H. unfold Chiron.normalizeWeights.
  destruct (Qeq_dec (Chiron.weightSum w) 0); [reflexivity | contradiction].
Qed.

Lemma allZero_sum (w : Chiron.ModuleWeights) : Chiron.allZero w -> Chiron.weightSum w == 0.
Proof. unfold Chiron.allZero, Chiron.weightSum. intros H. lra. Qed.

Lemma normalizeWeights_nonneg (w : Chiron.ModuleWeights) :
  Chiron.nonneg w -> Chiron.nonneg (Chiron.normalizeWeights w).
Proof.
  intros Hw. pose proof (weightSum_nonneg w Hw) as Hs.
  unfold Chiron.normalizeWeights.
  destruct (Qeq_dec (Chiron.weightSum w) 0) as [|Hne]; [exact Hw|].
  assert (Hpos : 0 < Chiron.weightSum w) by lra.
  unfold Chiron.nonneg in *. simpl.
  repeat split; apply Qle_shift_div_l; try exact Hpos; lra.
Qed.

Lemma getBaseWeights_nonneg (r : Chiron.ChironMarketRegime) :
  Chiron.nonneg (Chiron.core (Chiron.getBaseWeights r)) /\
  Chiron.nonneg (Chiron.pulse (Chiron.getBaseWeights r)).
Proof. destruct r; unfold Chiron.nonneg; simpl; repeat split; discriminate. Qed.

Lemma blendWeight_nonneg (b l : Chiron.ModuleWeights) :
  Chiron.nonneg b -> Chiron.nonneg l -> Chiron.nonneg (Chiron.blendWeight 0.6 b l).
Proof. unfold Chiron.nonneg. simpl. intros Hb Hl. repeat split; lra. Qed.

Lemma evaluate_nonneg (cfg : option Chiron.StoredWeights) (ctx : Chiron.ChironContext) :
  Chiron.learnedNonneg cfg ->
  Chiron.nonneg (Chiron.coreWeights (Chiron.evaluate cfg ctx)) /\
  Chiron.nonneg (Chiron.pulseWeights (Chiron.evaluate cfg ctx)).
Proof.
  intros Hcfg. unfold Chiron.evaluate. simpl.
  destruct (getBaseWeights_nonneg (Chiron.detectRegime ctx)) as [Hc Hp].
  destruct cfg as [l|]; simpl in *.
  - destruct Hcfg as [Hlc Hlp].
    split; apply normalizeWeights_nonneg, blendWeight_nonneg; assumption.
  - split; apply normalizeWeights_nonneg; assumption.
Qed.

(** C7: a weight vector whose slots do not sum to zero is normalised to a
    vector whose slots sum to one; a vector whose slots sum to zero, the
    all-zero vector in particular, is returned unchanged. *)
Theorem normalizeWeights_unit_sum_or_identity (w : Chiron.ModuleWeights) :
  (~ Chiron.weightSum w == 0 -> Chiron.weightSum (Chiron.normalizeWeights w) == 1) /\
  (Chiron.allZero w -> Chiron.normalizeWeights w = w) /\
  Chiron.normalizeWeights (Chiron.mkWeights 0 0 0 0 0 0 0 0) = Chiron.mkWeights 0 0 0 0 0 0 0 0.
Proof.
  split; [apply normalizeWeights_sum|]. split.
  - intros Hz. apply normalizeWeights_zero_sum, allZero_sum, Hz.
  - apply normalizeWeights_zero_sum. reflexivity.
Qed.

Lemma normalizeWeights_unit_sum_or_identity_witness :
  ~ Chiron.weightSum (Chiron.mkWeights 2 1 1 0 0 0 0 0) == 0 /\
  Chiron.weightSum (Chiron.normalizeWeights (Chiron.mkWeights 2 1 1 0 0 0 0 0)) == 1 /\
  Chiron.allZero (Chiron.mkWeights 0 0 0 0 0 0 0 0) /\
  Chiron.normalizeWeights (Chiron.mkWeights 0 0 0 0 0 0 0 0) = Chiron.mkWeights 0 0 0 0 0 0 0 0.
Proof.
  assert (Hne : ~ Chiron.weightSum (Chiron.mkWeights 2 1 1 0 0 0 0 0) == 0) by discriminate.
  assert (Hz : Chiron.allZero (Chiron.mkWeights 0 0 0 0 0 0 0 0))
    by (unfold Chiron.allZero; simpl; repeat split; reflexivity).
  split; [exact Hne|]. split.
  - exact (proj1 (normalizeWeights_unit_sum_or_identity _) Hne).
  - split; [exact Hz|].
    exact (proj1 (proj2 (normalizeWeights_unit_sum_or_identity _)) Hz).
Defined.

(** ** Argus *)

Section WeightedScore.

Lemma accumulate_bounded (s : option Q) (w : Q) (acc : Q * Q) :
  Argus.inRange s -> 0 <= w -> Argus.accBounded acc -> Argus.accBounded (Argus.accumulate s w acc).
Proof.
  intros Hs Hw (Ht & Hlo & Hhi). destruct s as [v|]; simpl in *; [|easy].
  unfold Argus.accBounded; cbn [fst snd].
  assert (0 <= v * w) by (apply Qmult_le_0_compat; lra).
  assert (v * w <= 100 * w) by (apply Qmult_le_compat_r; lra).
  lra.
Qed.

Lemma normalizeNews_range (n : Q) : 0 <= Argus.normalizeNews n <= 100.
Proof.
  unfold Argus.normalizeNews, JS.Math_max, JS.Math_min. split.
  - apply Q.le_max_l.
  - apply Q.max_lub; [lra | apply Q.le_min_l].
Qed.

Lemma normalizeNews_exact (n : Q) :
  -100 <= n <= 100 -> Argus.normalizeNews n == 50 + n / 2.
Proof.
  intros [Hlo Hhi]. unfold Argus.normalizeNews, JS.Math_max, JS.Math_min.
  change (n / 2) with (n * (1 # 2)).
  assert (H1 : 50 + n * (1 # 2) <= 100) by lra.
  assert (H2 : 0 <= 50 + n * (1 # 2)) by lra.
  rewrite (Q.min_r _ _ H1). rewrite (Q.max_r _ _ H2). reflexivity.
Qed.

Lemma calculateWeightedScore_range (scores : Argus.ModuleScores) (w : Chiron.ModuleWeights) :
  Argus.inRange (Argus.atlas scores) -> Argus.inRange (Argus.orion scores) ->
  Argus.inRange (Argus.phoenix scores) -> Argus.inRange (Argus.aether scores) ->
  Argus.inRange (Argus.demeter scores) -> Argus.inRange (Argus.cronos scores) ->
  Chiron.nonneg w ->
  0 <= Argus.calculateWeightedScore scores w <= 100.
Proof.
  intros Ha Ho Hp Hae Hd Hc (Wa & Wo & Wae & Wd & Wp & Wh & _ & Wc).
  unfold Argus.calculateWeightedScore.
  assert (Hnews : Argus.inRange (Argus.normalizeNews <$> Argus.news scores)).
  { destruct (Argus.news scores); simpl; [apply normalizeNews_range | exact I]. }
  assert (H0 : Argus.accBounded (0, 0)) by (unfold Argus.accBounded; cbn [fst snd]; lra).
  pose proof (accumulate_bounded _ _ _ Ha Wa H0) as H1.
  pose proof (accumulate_bounded _ _ _ Ho Wo H1) as H2.
  pose proof (accumulate_bounded _ _ _ Hp Wp H2) as H3.
  pose proof (accumulate_bounded _ _ _ Hae Wae H3) as H4.
  pose proof (accumulate_bounded _ _ _ Hd Wd H4) as H5.
  pose proof (accumulate_bounded _ _ _ Hc Wc H5) as H6.
  pose proof (accumulate_bounded _ _ _ Hnews Wh H6) as H7.
  clear H0 H1 H2 H3 H4 H5 H6.
  match goal with H : Argus.accBounded ?a |- _ => set (acc := a) in * end.
  destruct H7 as (Ht & Hlo & Hhi).
  destruct (Qeq_dec (snd acc) 0) as [|Hne]; [lra|].
  assert (Hpos : 0 < snd acc) by lra.
  split.
  - apply Qle_shift_div_l; [exact Hpos | lra].
  - apply Qle_shift_div_r; [exact Hpos | lra].
Qed.

Lemma calculateWeightedScore_absent (w : Chiron.ModuleWeights) (sym : string) :
  Argus.calculateWeightedScore (Argus.collectScores (Argus.noInputs sym)) w = 50.
Proof.
  unfold Argus.calculateWeightedScore. simpl.
  destruct (Qeq_dec 0 0) as [|Hne]; [reflexivity | exfalso; apply Hne; reflexivity].
Qed.

End WeightedScore.

Lemma Math_round_near (x : Q) :
  x - (1 # 2) < inject_Z (JS.Math_round x) <= x + (1 # 2).
Proof.
  unfold JS.Math_round.
  pose proof (Qfloor_le (x + 0.5)) as Hle. pose proof (Qlt_floor (x + 0.5)) as Hlt.
  rewrite inject_Z_plus in Hlt. change (inject_Z 1) with 1 in Hlt. split; lra.
Qed.

(** Two numbers less than one apart round to integers at most one apart. *)
Lemma Math_round_close (x y : Q) :
  Qabs (x - y) < 1 -> (Z.abs (JS.Math_round x - JS.Math_round y) <= 1)%Z.
Proof.
  intros Hxy.
  assert (Hd : -1 < x - y < 1).
  { destruct (Qlt_le_dec (x - y) 0) as [Hneg|Hpos].
    - rewrite (Qabs_neg (x - y)) in Hxy by lra. split; lra.
    - rewrite (Qabs_pos (x - y) Hpos) in Hxy. split; lra. }
  pose proof (Math_round_near x) as [Hx1 Hx2]. pose proof (Math_round_near y) as [Hy1 Hy2].
  set (rx := JS.Math_round x) in *. set (ry := JS.Math_round y) in *.
  assert (H1 : inject_Z rx < inject_Z (ry + 2)).
  { rewrite inject_Z_plus. change (inject_Z 2) with 2. lra. }
  assert (H2 : inject_Z ry < inject_Z (rx + 2)).
  { rewrite inject_Z_plus. change (inject_Z 2) with 2. lra. }
  rewrite <- Zlt_Qlt in H1, H2. lia.
Qed.

(** C2 as stated fails on both counts.  The blend taken over the
    [coreScore] and [pulseScore] fields of the decision is not the
    composite score: for fundamentals at 60, technicals at 50 and a
    sentiment of 0.5 the weighted averages are 57.5 and 58, the fields
    are 58 and 58, the composite score is 60 and the blend of the fields
    rounds to 61.  And the composite score is not always between 0 and
    100: with a stored learned weight of -1 on fundamentals, module
    scores of 100 and 0 give the composite score 110. *)
Lemma compositeScore_not_blend_of_fields :
  let inputs := {| Argus.in_atlas := Some 60; Argus.in_orion := Some 50;
                   Argus.in_phoenix := None; Argus.in_aether := None;
                   Argus.in_demeter := None; Argus.in_cronos := None;
                   Argus.newsSentiment := Some {| Argus.score := 0.5; Argus.summary := "mixed" |};
                   Argus.symbol := "NVDA" |} in
  let d := Argus.makeDecision None inputs in
  let skewed := Chiron.mkWeights (-1) 0 0 0 0 0 0 0 in
  let learned := {| Chiron.learnedCore := skewed; Chiron.learnedPulse := skewed;
                    Chiron.learningNotes := [] |} in
  let inputs' := {| Argus.in_atlas := Some 100; Argus.in_orion := Some 0;
                    Argus.in_phoenix := None; Argus.in_aether := None;
                    Argus.in_demeter := None; Argus.in_cronos := None;
                    Argus.newsSentiment := None; Argus.symbol := "NVDA" |} in
  Argus.rawCoreScore None inputs == 57.5 /\ Argus.rawPulseScore None inputs == 58 /\
  Argus.coreScore d = 58%Z /\ Argus.pulseScore d = 58%Z /\ Argus.newsScore d == 50 /\
  Argus.compositeScore d = 60%Z /\
  Notions.blendOfFields d = 61%Z /\
  Argus.compositeScore d <> Notions.blendOfFields d /\
  Argus.scoresInRange inputs' /\
  Argus.compositeScore (Argus.makeDecision (Some learned) inputs') = 110%Z.
Proof.
  cbv zeta.
  split; [vm_compute; reflexivity|]. split; [vm_compute; reflexivity|].
  split; [vm_compute; reflexivity|]. split; [vm_compute; reflexivity|].
  split; [vm_compute; reflexivity|]. split; [vm_compute; reflexivity|].
  split; [vm_compute; reflexivity|]. split; [vm_compute; discriminate|].
  split; [|vm_compute; reflexivity].
  unfold Argus.scoresInRange; simpl. repeat split; try exact I; discriminate.
Qed.

(** C2, amended: the composite score of a decision is the rounded blend
    0.40 core + 0.45 pulse + 0.15 normalizedNews of the weighted averages
    core and pulse, of which the [coreScore] and [pulseScore] fields are
    the roundings, so that the blend taken over the fields is the
    composite score or one off it; normalizedNews is 50 + newsScore/2
    clamped to [0,100]; and for module scores between 0 and 100 (and
    non-negative learned weights, when some are stored) the composite
    score lies between 0 and 100. *)
Theorem compositeScore_blend_and_range
    (cfg : option Chiron.StoredWeights) (inputs : Argus.ModuleInputs) :
  let d := Argus.makeDecision cfg inputs in
  let normalizedNews := Qmax 0 (Qmin 100 (50 + Argus.newsScore d / 2)) in
  Argus.compositeScore d =
    JS.Math_round (0.40 * Argus.rawCoreScore cfg inputs
                   + 0.45 * Argus.rawPulseScore cfg inputs
                   + 0.15 * normalizedNews) /\
  Argus.coreScore d = JS.Math_round (Argus.rawCoreScore cfg inputs) /\
  Argus.pulseScore d = JS.Math_round (Argus.rawPulseScore cfg inputs) /\
  (Z.abs (Argus.compositeScore d - Notions.blendOfFields d) <= 1)%Z /\
  0 <= normalizedNews <= 100 /\
  (Argus.scoresInRange inputs -> Chiron.learnedNonneg cfg ->
   (0 <= Argus.compositeScore d <= 100)%Z).
Proof.
  cbv zeta.
  assert (Hblend : Argus.compositeScore (Argus.makeDecision cfg inputs) =
            JS.Math_round (0.40 * Argus.rawCoreScore cfg inputs
                           + 0.45 * Argus.rawPulseScore cfg inputs
                           + 0.15 * Qmax 0 (Qmin 100
                               (50 + Argus.newsScore (Argus.makeDecision cfg inputs) / 2)))).
  { unfold Argus.makeDecision. cbn [Argus.compositeScore Argus.newsScore].
    apply Math_round_comp. unfold Argus.normalizeNews, JS.Math_max, JS.Math_min.
    set (n := Qmax _ _). ring. }
  split; [exact Hblend|]. split; [reflexivity|]. split; [reflexivity|].
  split; [|split].
  - rewrite Hblend. unfold Notions.blendOfFields. apply Math_round_close.
    cbn [Argus.makeDecision Argus.coreScore Argus.pulseScore Argus.newsScore].
    pose proof (Math_round_near (Argus.rawCoreScore cfg inputs)) as [Hc1 Hc2].
    pose proof (Math_round_near (Argus.rawPulseScore cfg inputs)) as [Hp1 Hp2].
    set (c := Argus.rawCoreScore cfg inputs) in *.
    set (p := Argus.rawPulseScore cfg inputs) in *.
    set (rc := inject_Z (JS.Math_round c)) in *. set (rp := inject_Z (JS.Math_round p)) in *.
    set (n := Qmax 0 _).
    apply Qabs_case; intros _; lra.
  - apply normalizeNews_range.
  - intros (Ha & Ho & Hp & Hae & Hd & Hc) Hcfg.
    destruct (evaluate_nonneg cfg (Argus.chironContext inputs) Hcfg) as [Wc Wp].
    assert (Hcore : 0 <= Argus.rawCoreScore cfg inputs <= 100)
      by (apply calculateWeightedScore_range; assumption).
    assert (Hpulse : 0 <= Argus.rawPulseScore cfg inputs <= 100)
      by (apply calculateWeightedScore_range; assumption).
    unfold Argus.makeDecision. cbn [Argus.compositeScore].
    pose proof (normalizeNews_range (JS.nullish (Argus.news (Argus.collectScores inputs)) 0)) as Hn.
    set (c := Argus.rawCoreScore cfg inputs) in *.
    set (p := Argus.rawPulseScore cfg inputs) in *.
    set (n := Argus.normalizeNews _) in *.
    apply Math_round_range; change (inject_Z 0) with 0; change (inject_Z 100) with 100; lra.
Qed.

Lemma compositeScore_blend_and_range_witness :
  let inputs := {| Argus.in_atlas := Some 80; Argus.in_orion := Some 60;
                   Argus.in_phoenix := None; Argus.in_aether := Some 30;
                   Argus.in_demeter := None; Argus.in_cronos := None;
                   Argus.newsSentiment := Some {| Argus.score := 0.4; Argus.summary := "mixed" |};
                   Argus.symbol := "NVDA" |} in
  Argus.scoresInRange inputs /\ Chiron.learnedNonneg None /\
  (0 <= Argus.compositeScore (Argus.makeDecision None inputs) <= 100)%Z.
Proof.
  cbv zeta.
  assert (Hin : Argus.scoresInRange
      {| Argus.in_atlas := Some 80; Argus.in_orion := Some 60;
         Argus.in_phoenix := None; Argus.in_aether := Some 30;
         Argus.in_demeter := None; Argus.in_cronos := None;
         Argus.newsSentiment := Some {| Argus.score := 0.4; Argus.summary := "mixed" |};
         Argus.symbol := "NVDA" |}).
  { unfold Argus.scoresInRange; simpl. repeat split; try exact I; discriminate. }
  split; [exact Hin|]. split; [exact I|].
  exact (proj2 (proj2 (proj2 (proj2 (proj2 (compositeScore_blend_and_range None _))))) Hin I).
Defined.

(** C6 as stated fails when the modules are the six analysis modules:
    two module scores together with a sentiment fill three of the seven
    slots the count runs over, and the confidence can be High. *)
Lemma two_modules_and_sentiment_give_high :
  let inputs := {| Argus.in_atlas := Some 95; Argus.in_orion := Some 95;
                   Argus.in_phoenix := None; Argus.in_aether := None;
                   Argus.in_demeter := None; Argus.in_cronos := None;
                   Argus.newsSentiment := Some {| Argus.score := 0.5; Argus.summary := "positive" |};
                   Argus.symbol := "AAPL" |} in
  Notions.reportingModules inputs = 2%nat /\
  (Notions.reportingModules inputs < 3)%nat /\
  Argus.availableModules (Argus.collectScores inputs) = 3%nat /\
  Argus.confidence (Argus.makeDecision None inputs) = Argus.High.
Proof.
  cbv zeta. split; [reflexivity|]. split; [vm_compute; lia|].
  split; [reflexivity|]. vm_compute. reflexivity.
Qed.

(** C6, amended: the count runs over the seven slots of [moduleScores],
    the six module scores and the news score, which is present whenever a
    sentiment is supplied; with fewer than three of them filled the
    confidence is Low whatever the scores are. *)
Theorem confidence_low_below_three_slots
    (cfg : option Chiron.StoredWeights) (inputs : Argus.ModuleInputs)
    (core pulse news : Q) :
  (Notions.reportingModules inputs + Notions.sentimentSlot inputs < 3)%nat ->
  Argus.availableModules (Argus.collectScores inputs)
  = (Notions.reportingModules inputs + Notions.sentimentSlot inputs)%nat /\
  Argus.calculateConfidence core pulse news (Argus.collectScores inputs) = Argus.Low /\
  Argus.confidence (Argus.makeDecision cfg inputs) = Argus.Low.
Proof.
  assert (Hcount : Argus.availableModules (Argus.collectScores inputs)
                   = (Notions.reportingModules inputs + Notions.sentimentSlot inputs)%nat).
  { unfold Argus.availableModules, Argus.Object_values, Notions.reportingModules,
      Notions.sentimentSlot, Argus.collectScores.
    cbn [Argus.atlas Argus.orion Argus.phoenix Argus.aether Argus.demeter Argus.cronos
         Argus.news].
    destruct (Argus.in_atlas inputs), (Argus.in_orion inputs), (Argus.in_phoenix inputs),
      (Argus.in_aether inputs), (Argus.in_demeter inputs), (Argus.in_cronos inputs),
      (Argus.newsSentiment inputs); reflexivity. }
  intros Hlt. rewrite <- Hcount in Hlt. apply Nat.ltb_lt in Hlt.
  split; [exact Hcount|].
  split; [|simpl]; unfold Argus.calculateConfidence; rewrite Hlt; reflexivity.
Qed.

Lemma confidence_low_below_three_slots_witness :
  let inputs := {| Argus.in_atlas := Some 95; Argus.in_orion := Some 95;
                   Argus.in_phoenix := None; Argus.in_aether := None;
                   Argus.in_demeter := None; Argus.in_cronos := None;
                   Argus.newsSentiment := None; Argus.symbol := "AAPL" |} in
  (Notions.reportingModules inputs + Notions.sentimentSlot inputs < 3)%nat /\
  Argus.confidence (Argus.makeDecision None inputs) = Argus.Low.
Proof.
  cbv zeta. split.
  - vm_compute. lia.
  - refine (proj2 (proj2 (confidence_low_below_three_slots None _ 0 0 0 _))). vm_compute. lia.
Defined.

(** C9 as stated fails: the news score of a decision is not the supplied
    sentiment score.  A sentiment of 0.5 gives the news score 50. *)
Lemma newsScore_not_supplied_score :
  let s := {| Argus.score := 0.5; Argus.summary := "mixed" |} in
  let inputs := {| Argus.in_atlas := None; Argus.in_orion := None;
                   Argus.in_phoenix := None; Argus.in_aether := None;
                   Argus.in_demeter := None; Argus.in_cronos := None;
                   Argus.newsSentiment := Some s; Argus.symbol := "NVDA" |} in
  -100 <= Argus.score s <= 100 /\
  Argus.newsScore (Argus.makeDecision None inputs) == 50 /\
  ~ Argus.newsScore (Argus.makeDecision None inputs) == Argus.score s.
Proof. cbv zeta. repeat split; discriminate. Qed.

(** C9, amended: the news score is the supplied sentiment score scaled by
    100 and rounded (so a sentiment between -1 and 1 gives a news score
    between -100 and 100, where the normalisation is exactly
    50 + newsScore/2), and 0 when no sentiment is supplied; a decision is
    produced in either case, with the composite blending the normalised
    news score. *)
Theorem newsScore_scaled_sentiment
    (cfg : option Chiron.StoredWeights) (inputs : Argus.ModuleInputs) :
  let d := Argus.makeDecision cfg inputs in
  Argus.newsScore d =
    match Argus.newsSentiment inputs with
    | Some s => inject_Z (JS.Math_round (Argus.score s * 100))
    | None => 0
    end /\
  (forall s, Argus.newsSentiment inputs = Some s -> -1 <= Argus.score s <= 1 ->
     -100 <= Argus.newsScore d <= 100 /\
     Argus.normalizeNews (Argus.newsScore d) == 50 + Argus.newsScore d / 2) /\
  Argus.compositeScore d =
    JS.Math_round (Argus.rawCoreScore cfg inputs * 0.4
                   + Argus.rawPulseScore cfg inputs * 0.45
                   + Argus.normalizeNews (Argus.newsScore d) * 0.15) /\
  (Argus.newsSentiment inputs = None ->
     Argus.newsScore d = 0 /\
     Argus.compositeScore d =
       JS.Math_round (Argus.rawCoreScore cfg inputs * 0.4
                      + Argus.rawPulseScore cfg inputs * 0.45 + 7.5)).
Proof.
  cbv zeta.
  assert (Hnews : Argus.newsScore (Argus.makeDecision cfg inputs) =
                  match Argus.newsSentiment inputs with
                  | Some s => inject_Z (JS.Math_round (Argus.score s * 100))
                  | None => 0
                  end).
  { unfold Argus.makeDecision, Argus.collectScores. cbn [Argus.newsScore Argus.news].
    destruct (Argus.newsSentiment inputs); reflexivity. }
  split; [exact Hnews|]. split; [|split].
  - intros s Hs [Hlo Hhi]. rewrite Hnews, Hs.
    assert (Hr : (-100 <= JS.Math_round (Argus.score s * 100) <= 100)%Z).
    { apply Math_round_range; [change (inject_Z (-100)) with (-100)
                              | change (inject_Z 100) with 100]; lra. }
    assert (Hq : -100 <= inject_Z (JS.Math_round (Argus.score s * 100)) <= 100).
    { destruct Hr as [H1 H2]. rewrite Zle_Qle in H1, H2. exact (conj H1 H2). }
    split; [exact Hq | apply normalizeNews_exact, Hq].
  - reflexivity.
  - intros Hnone. rewrite Hnews, Hnone. split; [reflexivity|].
    unfold Argus.makeDecision, Argus.collectScores. cbn [Argus.compositeScore Argus.news].
    rewrite Hnone. apply Math_round_comp.
    assert (Hn : Argus.normalizeNews 0 == 50) by reflexivity.
    change (JS.nullish (_ <$> None) 0) with 0. rewrite Hn. ring.
Qed.

Lemma newsScore_scaled_sentiment_witness :
  let s := {| Argus.score := 0.5; Argus.summary := "mixed" |} in
  let inputs := {| Argus.in_atlas := Some 70; Argus.in_orion := Some 70;
                   Argus.in_phoenix := None; Argus.in_aether := None;
                   Argus.in_demeter := None; Argus.in_cronos := None;
                   Argus.newsSentiment := Some s; Argus.symbol := "NVDA" |} in
  -1 <= Argus.score s <= 1 /\
  -100 <= Argus.newsScore (Argus.makeDecision None inputs) <= 100 /\
  Argus.newsSentiment (Argus.noInputs "NVDA") = None /\
  Argus.newsScore (Argus.makeDecision None (Argus.noInputs "NVDA")) = 0.
Proof.
  intros s inputs.
  assert (Hs : -1 <= Argus.score s <= 1) by (split; discriminate).
  split; [exact Hs|]. split.
  - exact (proj1 (proj1 (proj2 (newsScore_scaled_sentiment None inputs)) s eq_refl Hs)).
  - split; [reflexivity|].
    exact (proj1 (proj2 (proj2 (proj2 (newsScore_scaled_sentiment None (Argus.noInputs "NVDA")))) eq_refl)).
Defined.

(** C10: with no module score and no sentiment the weighted average is the
    neutral 50 for any weight vector, and the decision has core, pulse and
    composite score 50. *)
Theorem no_scores_neutral_decision
    (cfg : option Chiron.StoredWeights) (w : Chiron.ModuleWeights) (sym : string) :
  let inputs := Argus.noInputs sym in
  let d := Argus.makeDecision cfg inputs in
  Argus.calculateWeightedScore (Argus.collectScores inputs) w = 50 /\
  Argus.rawCoreScore cfg inputs = 50 /\
  Argus.rawPulseScore cfg inputs = 50 /\
  Argus.coreScore d = 50%Z /\
  Argus.pulseScore d = 50%Z /\
  Argus.compositeScore d = 50%Z.
Proof.
  cbv zeta.
  assert (Hc : Argus.rawCoreScore cfg (Argus.noInputs sym) = 50)
    by apply calculateWeightedScore_absent.
  assert (Hp : Argus.rawPulseScore cfg (Argus.noInputs sym) = 50)
    by apply calculateWeightedScore_absent.
  split; [apply calculateWeightedScore_absent|].
  unfold Argus.makeDecision.
  cbn [Argus.coreScore Argus.pulseScore Argus.compositeScore].
  rewrite Hc, Hp. repeat split; reflexivity.
Qed.

(** ** PaperBroker *)

Lemma ltb_false (x y : Q) : JS.ltb x y = false <-> y <= x.
Proof. unfold JS.ltb. destruct (Qlt_le_dec x y); split; intros; try easy; lra. Qed.

Lemma leb_false (x y : Q) : JS.leb x y = false <-> y < x.
Proof. unfold JS.leb. destruct (Qlt_le_dec y x); split; intros; try easy; lra. Qed.

(** Turn the outcome of a comparison of the source into an inequality. *)
Ltac compare_in H :=
  first [ apply ltb_true in H | apply ltb_false in H
        | apply leb_true in H | apply leb_false in H ].

Lemma floor_times_le (x p : Q) : 0 < p -> inject_Z (JS.Math_floor (x / p)) * p <= x.
Proof.
  intros Hp. unfold JS.Math_floor.
  assert (Hfl : inject_Z (Qfloor (x / p)) * p <= (x / p) * p).
  { apply Qmult_le_compat_r; [apply Qfloor_le | lra]. }
  assert (Hdiv : (x / p) * p == x) by (field; lra).
  lra.
Qed.

Lemma ceil_half_pos (s : Q) : 0 < s -> 0 < inject_Z (JS.Math_ceil (s / 2)).
Proof.
  intros Hs. unfold JS.Math_ceil.
  pose proof (Qle_ceiling (s / 2)) as Hc.
  change (s / 2) with (s * (1 # 2)) in *. lra.
Qed.

(** What an executed [buy] does to the ledger. *)
Lemma buy_executed (symbol : string) (price : Q) (reason : Reason) (score : Q)
    (st st' : PaperBroker.Ledger) (trade : PaperBroker.Trade) :
  PaperBroker.buy symbol price reason score st = (Some trade, st') ->
  100 <= PaperBroker.investment symbol price st /\
  1 <= PaperBroker.t_shares trade /\
  PaperBroker.t_shares trade =
    inject_Z (JS.Math_floor (PaperBroker.investment symbol price st / price)) /\
  PaperBroker.t_total trade = PaperBroker.t_shares trade * price /\
  PaperBroker.t_action trade = BUY /\
  PaperBroker.t_symbol trade = symbol /\
  PaperBroker.cash st' = PaperBroker.cash st - PaperBroker.t_total trade /\
  PaperBroker.trades st' = trade :: PaperBroker.trades st /\
  PaperBroker.startingCapital st' = PaperBroker.startingCapital st /\
  PaperBroker.positions st' =
    <[symbol :=
        match PaperBroker.positions st !! symbol with
        | Some existing =>
            {| PaperBroker.shares := PaperBroker.shares existing + PaperBroker.t_shares trade;
               PaperBroker.avgCost :=
                 (PaperBroker.shares existing * PaperBroker.avgCost existing
                  + PaperBroker.t_total trade)
                 / (PaperBroker.shares existing + PaperBroker.t_shares trade) |}
        | None => {| PaperBroker.shares := PaperBroker.t_shares trade;
                     PaperBroker.avgCost := price |}
        end]> (PaperBroker.positions st).
Proof.
  unfold PaperBroker.buy.
  destruct (JS.ltb (PaperBroker.investment symbol price st) 100) eqn:Einv; [discriminate|].
  destruct (JS.ltb _ 1) eqn:Esh; [discriminate|].
  intros Heq. injection Heq as <- <-. compare_in Einv. compare_in Esh.
  cbn. repeat split; try assumption.
Qed.

(** What an executed [sell] does to the ledger. *)
Lemma sell_executed (symbol : string) (price : Q) (reason : Reason) (score : Q)
    (sellAll : bool) (st st' : PaperBroker.Ledger) (trade : PaperBroker.Trade) :
  PaperBroker.sell symbol price reason score sellAll st = (Some trade, st') ->
  exists position,
    PaperBroker.positions st !! symbol = Some position /\
    0 < PaperBroker.shares position /\
    PaperBroker.t_shares trade =
      (if sellAll then PaperBroker.shares position
       else inject_Z (JS.Math_ceil (PaperBroker.shares position / 2))) /\
    PaperBroker.t_total trade = PaperBroker.t_shares trade * price /\
    PaperBroker.t_action trade = SELL /\
    PaperBroker.t_symbol trade = symbol /\
    PaperBroker.cash st' = PaperBroker.cash st + PaperBroker.t_total trade /\
    PaperBroker.trades st' = trade :: PaperBroker.trades st /\
    PaperBroker.startingCapital st' = PaperBroker.startingCapital st /\
    PaperBroker.positions st' =
      (if sellAll then delete symbol (PaperBroker.positions st)
       else <[symbol := {| PaperBroker.shares :=
                             PaperBroker.shares position - PaperBroker.t_shares trade;
                           PaperBroker.avgCost := PaperBroker.avgCost position |}]>
              (PaperBroker.positions st)).
Proof.
  unfold PaperBroker.sell.
  destruct (PaperBroker.positions st !! symbol) as [position|] eqn:Hpos; [|discriminate].
  destruct (JS.leb (PaperBroker.shares position) 0) eqn:Esh; [discriminate|].
  intros Heq. injection Heq as <- <-. compare_in Esh.
  exists position. cbn. repeat split; assumption.
Qed.

(** A call that returns [null] leaves the ledger as it was. *)
Lemma buy_null_unchanged (symbol : string) (price : Q) (reason : Reason) (score : Q)
    (st : PaperBroker.Ledger) :
  fst (PaperBroker.buy symbol price reason score st) = None ->
  snd (PaperBroker.buy symbol price reason score st) = st.
Proof.
  unfold PaperBroker.buy.
  destruct (JS.ltb _ 100); [reflexivity|].
  destruct (JS.ltb _ 1); [reflexivity | discriminate].
Qed.

Lemma sell_null_unchanged (symbol : string) (price : Q) (reason : Reason) (score : Q)
    (sellAll : bool) (st : PaperBroker.Ledger) :
  fst (PaperBroker.sell symbol price reason score sellAll st) = None ->
  snd (PaperBroker.sell symbol price reason score sellAll st) = st.
Proof.
  unfold PaperBroker.sell.
  destruct (PaperBroker.positions st !! symbol) as [position|]; [|reflexivity].
  destruct (JS.leb _ 0); [reflexivity | discriminate].
Qed.

(** C8: an invalid operation changes nothing and returns [null]: [buy]
    when the sized investment is below 100 or buys less than one whole
    share (at a price that is not zero), [sell] when the symbol has no
    position; both are total, and whenever one returns [null] the ledger
    is the one it was called on.  The sell of the trader pool likewise
    does nothing for a symbol without a position. *)
Theorem invalid_operations_are_noops (symbol : string) (price : Q) (reason : Reason)
    (score : Q) (sellAll : bool) (st : PaperBroker.Ledger) (trader : MultiAI.AITrader) :
  (PaperBroker.investment symbol price st < 100 ->
   PaperBroker.buy symbol price reason score st = (None, st)) /\
  (~ price == 0 ->
   inject_Z (JS.Math_floor (PaperBroker.investment symbol price st / price)) < 1 ->
   PaperBroker.buy symbol price reason score st = (None, st)) /\
  (PaperBroker.positions st !! symbol = None ->
   PaperBroker.sell symbol price reason score sellAll st = (None, st)) /\
  (~ price == 0 ->
   fst (PaperBroker.buy symbol price reason score st) = None ->
   snd (PaperBroker.buy symbol price reason score st) = st) /\
  (fst (PaperBroker.sell symbol price reason score sellAll st) = None ->
   snd (PaperBroker.sell symbol price reason score sellAll st) = st) /\
  (MultiAI.positions trader !! symbol = None ->
   MultiAI.executeSell trader symbol price reason = trader).
Proof.
  split; [|split; [|split; [|split; [|split]]]].
  - intros H. apply ltb_true in H. unfold PaperBroker.buy. rewrite H. reflexivity.
  - intros _ H. apply ltb_true in H. unfold PaperBroker.buy.
    destruct (JS.ltb _ 100); [reflexivity|]. rewrite H. reflexivity.
  - intros H. unfold PaperBroker.sell. rewrite H. reflexivity.
  - intros _. apply buy_null_unchanged.
  - apply sell_null_unchanged.
  - intros H. unfold MultiAI.executeSell. rewrite H. reflexivity.
Qed.

Lemma invalid_operations_are_noops_witness :
  let poor := PaperBroker.opened 50 in
  let rich := PaperBroker.opened 1000 in
  PaperBroker.investment "AAPL" 10 poor < 100 /\
  PaperBroker.buy "AAPL" 10 BuySignalReason 70 poor = (None, poor) /\
  inject_Z (JS.Math_floor (PaperBroker.investment "AAPL" 500 rich / 500)) < 1 /\
  PaperBroker.buy "AAPL" 500 BuySignalReason 70 rich = (None, rich) /\
  PaperBroker.positions rich !! "AAPL" = None /\
  PaperBroker.sell "AAPL" 500 SellSignalReason 30 true rich = (None, rich).
Proof.
  intros poor rich.
  assert (H1 : PaperBroker.investment "AAPL" 10 poor < 100) by (vm_compute; reflexivity).
  assert (H2 : inject_Z (JS.Math_floor (PaperBroker.investment "AAPL" 500 rich / 500)) < 1)
    by (vm_compute; reflexivity).
  split; [exact H1|]. split.
  { exact (proj1 (invalid_operations_are_noops "AAPL" 10 BuySignalReason 70 true poor
                    (MultiAI.newTrader MultiAI.value)) H1). }
  split; [exact H2|]. split.
  { refine (proj1 (proj2 (invalid_operations_are_noops "AAPL" 500 BuySignalReason 70 true rich
                             (MultiAI.newTrader MultiAI.value)))
              _ H2).
    discriminate. }
  split; [reflexivity|].
  exact (proj1 (proj2 (proj2 (invalid_operations_are_noops "AAPL" 500 SellSignalReason 30 true rich
                                (MultiAI.newTrader MultiAI.value))))
           eq_refl).
Defined.

(** *** Positive holdings *)

Lemma ceil_half_lt (s : Q) : 1 < s -> inject_Z (JS.Math_ceil (s / 2)) < s.
Proof.
  intros Hs. unfold JS.Math_ceil.
  destruct (Qlt_le_dec s 2) as [Hlt|Hge].
  - assert (Hle : (Qceiling (s / 2) <= Qceiling (inject_Z 1))%Z).
    { apply Qceiling_resp_le. change (s / 2) with (s * (1 # 2)).
      change (inject_Z 1) with 1. lra. }
    rewrite Qceiling_Z in Hle. rewrite Zle_Qle in Hle.
    change (inject_Z 1) with 1 in Hle. lra.
  - pose proof (Qceiling_lt (s / 2)) as Hc.
    unfold Z.sub in Hc. rewrite inject_Z_plus, inject_Z_opp in Hc.
    change (inject_Z 1) with 1 in Hc.
    change (s / 2) with (s * (1 # 2)) in *. lra.
Qed.

Lemma buy_preserves_positive (symbol : string) (price : Q) (reason : Reason) (score : Q)
    (st : PaperBroker.Ledger) :
  PaperBroker.positiveShares st ->
  PaperBroker.positiveShares (snd (PaperBroker.buy symbol price reason score st)).
Proof.
  intros Hpos.
  destruct (PaperBroker.buy symbol price reason score st) as [[trade|] st'] eqn:Hbuy.
  - apply buy_executed in Hbuy as (_ & Hone & _ & _ & _ & _ & _ & _ & _ & Hps).
    unfold PaperBroker.positiveShares in *. cbn [snd]. rewrite Hps.
    apply map_Forall_insert_2; [|exact Hpos].
    destruct (PaperBroker.positions st !! symbol) as [existing|] eqn:Hex; cbn.
    + pose proof (Hpos _ _ Hex) as Hexpos. cbn in Hexpos. lra.
    + lra.
  - pose proof (buy_null_unchanged symbol price reason score st) as Hsame.
    rewrite Hbuy in Hsame. cbn in *. rewrite Hsame; [exact Hpos | reflexivity].
Qed.

Lemma sell_preserves_positive (symbol : string) (price : Q) (reason : Reason) (score : Q)
    (sellAll : bool) (st : PaperBroker.Ledger) :
  PaperBroker.positiveShares st ->
  (sellAll = false ->
   forall position, PaperBroker.positions st !! symbol = Some position ->
                    1 < PaperBroker.shares position) ->
  PaperBroker.positiveShares (snd (PaperBroker.sell symbol price reason score sellAll st)).
Proof.
  intros Hpos Hmore.
  destruct (PaperBroker.sell symbol price reason score sellAll st) as [[trade|] st'] eqn:Hsell.
  - apply sell_executed in Hsell
      as (position & Hlook & _ & Hsh & _ & _ & _ & _ & _ & _ & Hps).
    unfold PaperBroker.positiveShares in *. cbn [snd]. rewrite Hps.
    destruct sellAll.
    + apply map_Forall_delete, Hpos.
    + apply map_Forall_insert_2; [|exact Hpos]. cbn. rewrite Hsh.
      pose proof (ceil_half_lt _ (Hmore eq_refl _ Hlook)). lra.
  - pose proof (sell_null_unchanged symbol price reason score sellAll st) as Hsame.
    rewrite Hsell in Hsame. cbn in *. rewrite Hsame; [exact Hpos | reflexivity].
Qed.

(** C5 on the code: a partial sell of a one-share position sells that
    share and leaves the position in the map with zero shares.  The ledger
    is the one a fresh account of 600 reaches by buying at 100. *)
Theorem partial_sell_of_last_share_keeps_position :
  let st := PaperBroker.run [PaperBroker.OpBuy "AAPL" 100 BuySignalReason 70]
                            (PaperBroker.opened 600) in
  let res := PaperBroker.sell "AAPL" 100 SellSignalReason 30 false st in
  PaperBroker.positions st !! "AAPL"
    = Some {| PaperBroker.shares := 1; PaperBroker.avgCost := 100 |} /\
  PaperBroker.positiveShares st /\
  (exists trade, fst res = Some trade /\ PaperBroker.t_shares trade = 1) /\
  PaperBroker.positions (snd res) !! "AAPL"
    = Some {| PaperBroker.shares := 0; PaperBroker.avgCost := 100 |} /\
  ~ PaperBroker.positiveShares (snd res).
Proof.
  intros st res.
  assert (Hres : PaperBroker.positions (snd res) !! "AAPL"
                 = Some {| PaperBroker.shares := 0; PaperBroker.avgCost := 100 |})
    by (vm_compute; reflexivity).
  split; [vm_compute; reflexivity|]. split; [|split; [|split]].
  - apply (buy_preserves_positive "AAPL" 100 BuySignalReason 70 (PaperBroker.opened 600)).
    unfold PaperBroker.positiveShares. cbn. apply map_Forall_empty.
  - eexists. split; vm_compute; reflexivity.
  - exact Hres.
  - intros Hpos. pose proof (Hpos _ _ Hres) as Habs. cbn in Habs. lra.
Qed.

(** *** Average cost *)

Lemma blend_between (s a n p : Q) :
  0 < s -> 0 < n -> a < p ->
  a < (s * a + n * p) / (s + n) /\ (s * a + n * p) / (s + n) < p.
Proof.
  intros Hs Hn Hap.
  assert (Hsum : 0 < s + n) by lra.
  assert (H1 : n * a < n * p) by (apply Qmult_lt_l; assumption).
  assert (H2 : s * a < s * p) by (apply Qmult_lt_l; assumption).
  split.
  - apply Qlt_shift_div_l; [exact Hsum | lra].
  - apply Qlt_shift_div_r; [exact Hsum | lra].
Qed.

Lemma blend_between_above (s a n p : Q) :
  0 < s -> 0 < n -> p < a ->
  p < (s * a + n * p) / (s + n) /\ (s * a + n * p) / (s + n) < a.
Proof.
  intros Hs Hn Hpa.
  assert (Hsum : 0 < s + n) by lra.
  assert (H1 : n * p < n * a) by (apply Qmult_lt_l; assumption).
  assert (H2 : s * p < s * a) by (apply Qmult_lt_l; assumption).
  split.
  - apply Qlt_shift_div_l; [exact Hsum | lra].
  - apply Qlt_shift_div_r; [exact Hsum | lra].
Qed.

Lemma buy_blend (symbol : string) (price : Q) (reason : Reason) (score : Q)
    (st st' : PaperBroker.Ledger) (trade : PaperBroker.Trade) (existing : PaperBroker.Holding) :
  PaperBroker.positions st !! symbol = Some existing ->
  PaperBroker.buy symbol price reason score st = (Some trade, st') ->
  PaperBroker.t_price trade = price /\
  1 <= PaperBroker.t_shares trade /\
  PaperBroker.positions st' !! symbol =
    Some {| PaperBroker.shares := PaperBroker.shares existing + PaperBroker.t_shares trade;
            PaperBroker.avgCost :=
              (PaperBroker.shares existing * PaperBroker.avgCost existing
               + PaperBroker.t_shares trade * price)
              / (PaperBroker.shares existing + PaperBroker.t_shares trade) |}.
Proof.
  intros Hex Hbuy.
  assert (Hprice : PaperBroker.t_price trade = price).
  { revert Hbuy. unfold PaperBroker.buy.
    destruct (JS.ltb _ 100); [discriminate|]. destruct (JS.ltb _ 1); [discriminate|].
    intros Heq. injection Heq as <- _. reflexivity. }
  apply buy_executed in Hbuy as (_ & Hone & _ & Htot & _ & _ & _ & _ & _ & Hps).
  split; [exact Hprice|]. split; [exact Hone|].
  rewrite Hps, Hex, lookup_insert_eq, Htot. reflexivity.
Qed.

(** ** MultiAI *)

(** The four ways the loop body leaves a symbol: untouched (no data, or no
    entry), held with the position refreshed, exited, entered. *)
Lemma analyzeSymbol_inv (cfg : option Chiron.StoredWeights) (config : MultiAI.Thresholds)
    (market : string -> option MultiAI.Observation) (trader : MultiAI.AITrader)
    (th : list MultiAI.Thought) (s : string) :
  let r := MultiAI.analyzeSymbol cfg config market (trader, th) s in
  (r = (trader, th) /\
   (market s = None \/ MultiAI.positions trader !! s = None))
  \/ (exists obs position,
        market s = Some obs /\ MultiAI.positions trader !! s = Some position /\
        ~ MultiAI.stopLossHit config position (MultiAI.quotePrice obs) /\
        ~ MultiAI.takeProfitHit config position (MultiAI.quotePrice obs) /\
        MultiAI.sellScore config <= MultiAI.compositeOf cfg s obs /\
        r = (MultiAI.refreshed trader s position (MultiAI.quotePrice obs), th))
  \/ (exists obs position reason,
        market s = Some obs /\ MultiAI.positions trader !! s = Some position /\
        MultiAI.exitFor config position (MultiAI.quotePrice obs)
                        (MultiAI.compositeOf cfg s obs) reason /\
        r = (MultiAI.executeSell (MultiAI.refreshed trader s position (MultiAI.quotePrice obs))
                                 s (MultiAI.quotePrice obs) reason,
             th ++ [(s, reason)]))
  \/ (exists obs,
        market s = Some obs /\ MultiAI.positions trader !! s = None /\
        MultiAI.buyScore config <= MultiAI.compositeOf cfg s obs /\
        (size (MultiAI.positions trader) < MultiAI.maxPositions config)%nat /\
        10 <= MultiAI.currentCash trader * MultiAI.positionSize config /\
        MultiAI.currentCash trader * MultiAI.positionSize config <= MultiAI.currentCash trader /\
        r = (MultiAI.executeBuy trader s (MultiAI.quotePrice obs)
                                (MultiAI.currentCash trader * MultiAI.positionSize config)
                                BuySignalReason,
             th ++ [(s, BuySignalReason)])).
Proof.
  cbv zeta. unfold MultiAI.analyzeSymbol. cbn [fst snd].
  destruct (market s) as [obs|] eqn:Hm; [|left; auto].
  destruct (MultiAI.positions trader !! s) as [position|] eqn:Hpos.
  - right.
    fold (MultiAI.compositeOf cfg s obs).
    fold (MultiAI.refreshed trader s position (MultiAI.quotePrice obs)).
    destruct (JS.leb _ (- _)) eqn:Esl.
    { right; left. exists obs, position, StopLossReason.
      compare_in Esl. repeat split; try reflexivity. left. split; [reflexivity | exact Esl]. }
    compare_in Esl.
    assert (Hnsl : ~ MultiAI.stopLossHit config position (MultiAI.quotePrice obs))
      by (unfold MultiAI.stopLossHit; lra).
    destruct (JS.geb _ (JS.fmul _ 100)) eqn:Etp; unfold JS.geb in Etp.
    { right; left. exists obs, position, TakeProfitReason.
      compare_in Etp. repeat split; try reflexivity. right; left. auto. }
    compare_in Etp.
    assert (Hntp : ~ MultiAI.takeProfitHit config position (MultiAI.quotePrice obs))
      by (unfold MultiAI.takeProfitHit; lra).
    destruct (JS.ltb _ (MultiAI.sellScore config)) eqn:Ess.
    { right; left. exists obs, position, SellSignalReason.
      compare_in Ess. repeat split; try reflexivity. right; right. auto. }
    compare_in Ess. left. exists obs, position. auto 10.
  - fold (MultiAI.compositeOf cfg s obs).
    destruct (JS.geb _ (MultiAI.buyScore config)) eqn:Ebuy; [|left; auto].
    destruct (Nat.ltb _ _) eqn:Ecount; [|left; auto].
    destruct (JS.geb _ 10) eqn:Eamt; [|left; auto].
    destruct (JS.geb (MultiAI.currentCash trader) _) eqn:Ecash; [|left; auto].
    unfold JS.geb in *. compare_in Ebuy. compare_in Eamt. compare_in Ecash.
    apply Nat.ltb_lt in Ecount.
    right; right; right. exists obs. cbn. auto 10.
Qed.

Lemma executeSell_refreshed (trader : MultiAI.AITrader) (s : string)
    (position : MultiAI.AIPosition) (price : Q) (reason : Reason) :
  MultiAI.positions trader !! s = Some position ->
  let t' := MultiAI.executeSell (MultiAI.refreshed trader s position price) s price reason in
  MultiAI.trades t' =
    {| MultiAI.t_symbol := s; MultiAI.t_action := SELL; MultiAI.t_price := price;
       MultiAI.t_shares := MultiAI.shares position;
       MultiAI.t_amount := MultiAI.shares position * price;
       MultiAI.t_reason := reason;
       MultiAI.t_pnl := Some ((price - MultiAI.avgCost position) * MultiAI.shares position) |}
    :: MultiAI.trades trader /\
  MultiAI.positions t' = delete s (MultiAI.positions trader) /\
  MultiAI.currentCash t' = MultiAI.currentCash trader + MultiAI.shares position * price /\
  MultiAI.initialCapital t' = MultiAI.initialCapital trader.
Proof.
  intros Hpos. cbv zeta.
  unfold MultiAI.executeSell, MultiAI.refreshed, MultiAI.withPositions.
  cbn [MultiAI.positions]. rewrite lookup_insert_eq. cbn.
  rewrite delete_insert_eq. auto.
Qed.

(** The trades one pass of the loop body adds: none, the exit of the
    symbol, or its entry; positions of other symbols are not touched. *)
Lemma analyzeSymbol_step (cfg : option Chiron.StoredWeights) (config : MultiAI.Thresholds)
    (market : string -> option MultiAI.Observation) (trader : MultiAI.AITrader)
    (th : list MultiAI.Thought) (s : string) :
  let r := MultiAI.analyzeSymbol cfg config market (trader, th) s in
  (MultiAI.trades (fst r) = MultiAI.trades trader
   \/ exists tr,
        MultiAI.trades (fst r) = tr :: MultiAI.trades trader /\ MultiAI.t_symbol tr = s /\
        ((MultiAI.t_action tr = SELL /\ is_Some (MultiAI.positions trader !! s)
          /\ MultiAI.positions (fst r) !! s = None)
         \/ (MultiAI.t_action tr = BUY /\ MultiAI.positions trader !! s = None))) /\
  (forall s', s' <> s -> MultiAI.positions (fst r) !! s' = MultiAI.positions trader !! s').
Proof.
  cbv zeta.
  destruct (analyzeSymbol_inv cfg config market trader th s)
    as [[-> _] | [(obs & position & _ & Hpos & _ & _ & _ & ->)
       | [(obs & position & reason & _ & Hpos & _ & ->)
         | (obs & _ & Hpos & _ & _ & _ & _ & ->)]]]; cbn [fst].
  - split; [left; reflexivity | reflexivity].
  - split; [left; reflexivity|]. intros s' Hne. cbn. apply lookup_insert_ne. congruence.
  - destruct (executeSell_refreshed trader s position (MultiAI.quotePrice obs) reason Hpos)
      as (Htr & Hps & _ & _).
    split.
    + right. eexists. split; [exact Htr|]. split; [reflexivity|]. left.
      split; [reflexivity|]. split; [eauto|]. rewrite Hps. apply lookup_delete_eq.
    + intros s' Hne. rewrite Hps. apply lookup_delete_ne. congruence.
  - split.
    + right. eexists. split; [reflexivity|]. split; [reflexivity|]. right. auto.
    + intros s' Hne. cbn. apply lookup_insert_ne. congruence.
Qed.

(** The trades a whole symbol loop adds, for symbols visited once each. *)
Lemma analyzeSymbols_trades (cfg : option Chiron.StoredWeights) (config : MultiAI.Thresholds)
    (market : string -> option MultiAI.Observation) (syms : list string) :
  NoDup syms ->
  forall (trader : MultiAI.AITrader) (th : list MultiAI.Thought),
    let r := MultiAI.analyzeSymbols cfg config market syms (trader, th) in
    exists new,
      MultiAI.trades (fst r) = new ++ MultiAI.trades trader /\
      (forall tr, tr ∈ new -> MultiAI.t_symbol tr ∈ syms) /\
      NoDup (MultiAI.t_symbol <$> new) /\
      (forall tr, tr ∈ new -> MultiAI.t_action tr = SELL ->
                  is_Some (MultiAI.positions trader !! MultiAI.t_symbol tr) /\
                  MultiAI.positions (fst r) !! MultiAI.t_symbol tr = None) /\
      (forall tr, tr ∈ new -> MultiAI.t_action tr = BUY ->
                  MultiAI.positions trader !! MultiAI.t_symbol tr = None) /\
      (forall s, s ∉ syms -> MultiAI.positions (fst r) !! s = MultiAI.positions trader !! s).
Proof.
  induction syms as [|s syms IH]; intros Hnodup trader th; cbv zeta.
  - exists []. cbn. split; [reflexivity|]. split; [intros tr Htr; inversion Htr|].
    split; [apply NoDup_nil; exact I|].
    split; [intros tr Htr; inversion Htr|]. split; [intros tr Htr; inversion Htr|].
    reflexivity.
  - apply NoDup_cons in Hnodup as [Hnotin Hnodup].
    unfold MultiAI.analyzeSymbols. cbn [fold_left].
    destruct (analyzeSymbol_step cfg config market trader th s) as [Hstep Hother].
    destruct (MultiAI.analyzeSymbol cfg config market (trader, th) s) as [t1 th1].
    cbn [fst] in Hstep, Hother.
    fold (MultiAI.analyzeSymbols cfg config market syms (t1, th1)).
    destruct (IH Hnodup t1 th1) as (new2 & Htr2 & Hsym2 & Hnd2 & Hsell2 & Hbuy2 & Hpos2).
    set (r := MultiAI.analyzeSymbols cfg config market syms (t1, th1)) in *.
    assert (Hfresh : forall tr, tr ∈ new2 -> MultiAI.t_symbol tr <> s).
    { intros tr Hin Heq. apply Hnotin. rewrite <- Heq. apply Hsym2, Hin. }
    destruct Hstep as [Hsame | (tr1 & Htr1 & Hs1 & Hkind)].
    + exists new2. rewrite Htr2, Hsame. split; [reflexivity|].
      split; [intros tr Hin; right; apply Hsym2, Hin|]. split; [exact Hnd2|].
      split; [|split].
      * intros tr Hin Hsl. destruct (Hsell2 tr Hin Hsl) as [Hheld Hgone].
        split; [|exact Hgone]. rewrite <- Hother; [exact Hheld | apply Hfresh, Hin].
      * intros tr Hin Hb. rewrite <- Hother; [apply Hbuy2; assumption | apply Hfresh, Hin].
      * intros s' Hs'. apply not_elem_of_cons in Hs' as [Hne Hs'].
        rewrite Hpos2; [apply Hother, Hne | exact Hs'].
    + exists (new2 ++ [tr1]). rewrite Htr2, Htr1, <- app_assoc. split; [reflexivity|].
      split; [|split; [|split; [|split]]].
      * intros tr Hin. apply elem_of_app in Hin as [Hin|Hin].
        -- right. apply Hsym2, Hin.
        -- apply list_elem_of_singleton in Hin as ->. rewrite Hs1. left.
      * rewrite fmap_app. apply NoDup_app. split; [exact Hnd2|]. split.
        -- intros x Hx Hx1. cbn in Hx1. apply list_elem_of_singleton in Hx1 as ->.
           apply list_elem_of_fmap in Hx as (tr & Heq & Hin).
           apply (Hfresh tr Hin). congruence.
        -- cbn. apply NoDup_singleton.
      * intros tr Hin Hsl. apply elem_of_app in Hin as [Hin|Hin].
        -- destruct (Hsell2 tr Hin Hsl) as [Hheld Hgone]. split; [|exact Hgone].
           rewrite <- Hother; [exact Hheld | apply Hfresh, Hin].
        -- apply list_elem_of_singleton in Hin as ->. rewrite Hs1.
           destruct Hkind as [(_ & Hheld & Hnone) | (Hb & _)]; [|congruence].
           split; [exact Hheld|]. rewrite Hpos2; assumption.
      * intros tr Hin Hb. apply elem_of_app in Hin as [Hin|Hin].
        -- rewrite <- Hother; [apply Hbuy2; assumption | apply Hfresh, Hin].
        -- apply list_elem_of_singleton in Hin as ->. rewrite Hs1.
           destruct Hkind as [(Hsl & _) | (_ & Hnone)]; [congruence | exact Hnone].
      * intros s' Hs'. apply not_elem_of_cons in Hs' as [Hne Hs'].
        rewrite Hpos2; [apply Hother, Hne | exact Hs'].
Qed.

Lemma THRESHOLDS_symbols_NoDup (personality : MultiAI.AIPersonality) :
  NoDup (MultiAI.symbols (MultiAI.THRESHOLDS personality)).
Proof.
  destruct personality; cbn;
    match goal with |- NoDup ?l => apply (bool_decide_unpack (NoDup l)) end;
    vm_compute; exact I.
Qed.

(** *** Accounting of the trader pool *)

Lemma sumBuys_cons (tr : MultiAI.AITrade) (l : list MultiAI.AITrade) :
  MultiAI.sumBuys (tr :: l) =
  match MultiAI.t_action tr with
  | BUY => MultiAI.t_amount tr + MultiAI.sumBuys l
  | SELL => MultiAI.sumBuys l
  end.
Proof. reflexivity. Qed.

Lemma sumSells_cons (tr : MultiAI.AITrade) (l : list MultiAI.AITrade) :
  MultiAI.sumSells (tr :: l) =
  match MultiAI.t_action tr with
  | SELL => MultiAI.t_amount tr + MultiAI.sumSells l
  | BUY => MultiAI.sumSells l
  end.
Proof. reflexivity. Qed.

#[local] Arguments MultiAI.sumBuys : simpl never.
#[local] Arguments MultiAI.sumSells : simpl never.

Lemma analyzeSymbol_sound (cfg : option Chiron.StoredWeights) (config : MultiAI.Thresholds)
    (market : string -> option MultiAI.Observation) (trader : MultiAI.AITrader)
    (th : list MultiAI.Thought) (s : string) :
  MultiAI.positivePrices market -> MultiAI.sound trader ->
  MultiAI.sound (fst (MultiAI.analyzeSymbol cfg config market (trader, th) s)).
Proof.
  intros Hprices (Hbal & Hcash & Hshares).
  destruct (analyzeSymbol_inv cfg config market trader th s)
    as [[-> _] | [(obs & position & _ & Hpos & _ & _ & _ & ->)
       | [(obs & position & reason & Hm & Hpos & _ & ->)
         | (obs & Hm & Hpos & _ & _ & Hten & Hle & ->)]]]; cbn [fst].
  - exact (conj Hbal (conj Hcash Hshares)).
  - unfold MultiAI.sound. cbn. split; [assumption|]. split; [assumption|].
    apply map_Forall_insert_2; [|exact Hshares]. cbn. exact (Hshares _ _ Hpos).
  - destruct (executeSell_refreshed trader s position (MultiAI.quotePrice obs) reason Hpos)
      as (Htr & Hps & Hc & Hi).
    pose proof (Hprices _ _ Hm) as Hprice.
    pose proof (Hshares _ _ Hpos) as [Hsh _]. cbn in Hsh.
    assert (Hamt : 0 <= MultiAI.shares position * MultiAI.quotePrice obs)
      by (apply Qmult_le_0_compat; lra).
    unfold MultiAI.sound. rewrite Htr, Hps, Hc, Hi, sumBuys_cons, sumSells_cons. cbn.
    split; [lra|]. split; [lra|]. apply map_Forall_delete, Hshares.
  - pose proof (Hprices _ _ Hm) as Hprice.
    unfold MultiAI.sound. cbn. rewrite sumBuys_cons, sumSells_cons. cbn.
    split; [lra|]. split; [lra|].
    apply map_Forall_insert_2; [|exact Hshares]. cbn. split; [|exact Hprice].
    apply Qlt_shift_div_l; [exact Hprice | lra].
Qed.

Lemma analyzeSymbols_sound (cfg : option Chiron.StoredWeights) (config : MultiAI.Thresholds)
    (market : string -> option MultiAI.Observation) (syms : list string) :
  MultiAI.positivePrices market ->
  forall acc, MultiAI.sound (fst acc) ->
              MultiAI.sound (fst (MultiAI.analyzeSymbols cfg config market syms acc)).
Proof.
  intros Hprices. induction syms as [|s syms IH]; intros [trader th] Hsound; [exact Hsound|].
  unfold MultiAI.analyzeSymbols. cbn [fold_left].
  apply IH, analyzeSymbol_sound; assumption.
Qed.

Lemma analyzeAndTrade_sound (cfg : option Chiron.StoredWeights)
    (market : string -> option MultiAI.Observation) (personality : MultiAI.AIPersonality)
    (trader : MultiAI.AITrader) :
  MultiAI.positivePrices market -> MultiAI.sound trader ->
  MultiAI.sound (MultiAI.analyzeAndTrade cfg market personality trader).
Proof.
  intros Hprices Hsound. unfold MultiAI.analyzeAndTrade.
  pose proof (analyzeSymbols_sound cfg (MultiAI.THRESHOLDS personality) market
                (MultiAI.symbols (MultiAI.THRESHOLDS personality)) Hprices (trader, [])
                Hsound) as H.
  exact H.
Qed.

Lemma ticks_sound (cfg : option Chiron.StoredWeights) (personality : MultiAI.AIPersonality)
    (markets : list (string -> option MultiAI.Observation)) :
  Forall MultiAI.positivePrices markets ->
  forall trader, MultiAI.sound trader ->
                 MultiAI.sound (MultiAI.ticks cfg personality markets trader).
Proof.
  induction 1 as [|market markets Hm _ IH]; intros trader Hsound; [exact Hsound|].
  unfold MultiAI.ticks. cbn [fold_left]. apply IH, analyzeAndTrade_sound; assumption.
Qed.

Lemma newTrader_sound (personality : MultiAI.AIPersonality) :
  MultiAI.sound (MultiAI.newTrader personality).
Proof.
  unfold MultiAI.sound. cbn. split; [reflexivity|]. split; [discriminate|].
  apply map_Forall_empty.
Qed.

(** An entry of the tick debits no more than the cash of the trader. *)
Lemma analyzeSymbol_entry_affordable (cfg : option Chiron.StoredWeights)
    (config : MultiAI.Thresholds) (market : string -> option MultiAI.Observation)
    (trader : MultiAI.AITrader) (th : list MultiAI.Thought) (s : string)
    (tr : MultiAI.AITrade) :
  let t' := fst (MultiAI.analyzeSymbol cfg config market (trader, th) s) in
  MultiAI.trades t' = tr :: MultiAI.trades trader ->
  MultiAI.t_action tr = BUY ->
  MultiAI.positions trader !! s = None /\
  MultiAI.t_amount tr <= MultiAI.currentCash trader /\
  MultiAI.currentCash t' = MultiAI.currentCash trader - MultiAI.t_amount tr.
Proof.
  cbv zeta.
  assert (Hcons : forall (l : list MultiAI.AITrade) x, l = x :: l -> False).
  { intros l x Heq. apply (f_equal length) in Heq. cbn in Heq. lia. }
  destruct (analyzeSymbol_inv cfg config market trader th s)
    as [[-> _] | [(obs & position & _ & Hpos & _ & _ & _ & ->)
       | [(obs & position & reason & Hm & Hpos & _ & ->)
         | (obs & Hm & Hpos & _ & _ & Hten & Hle & ->)]]]; cbn [fst].
  - intros Heq. destruct (Hcons _ _ Heq).
  - cbn. intros Heq. destruct (Hcons _ _ Heq).
  - destruct (executeSell_refreshed trader s position (MultiAI.quotePrice obs) reason Hpos)
      as (Htr & _). rewrite Htr. intros Heq Hb. injection Heq as <-. discriminate Hb.
  - cbn. intros Heq _. injection Heq as <-. cbn. auto.
Qed.

(** *** Accounting of the paper ledger *)

Lemma paper_sumBuys_cons (tr : PaperBroker.Trade) (l : list PaperBroker.Trade) :
  PaperBroker.sumBuys (tr :: l) =
  match PaperBroker.t_action tr with
  | BUY => PaperBroker.t_total tr + PaperBroker.sumBuys l
  | SELL => PaperBroker.sumBuys l
  end.
Proof. reflexivity. Qed.

Lemma paper_sumSells_cons (tr : PaperBroker.Trade) (l : list PaperBroker.Trade) :
  PaperBroker.sumSells (tr :: l) =
  match PaperBroker.t_action tr with
  | SELL => PaperBroker.t_total tr + PaperBroker.sumSells l
  | BUY => PaperBroker.sumSells l
  end.
Proof. reflexivity. Qed.

(** An executed buy debits a positive total within nine tenths of the cash. *)
Lemma buy_affordable (symbol : string) (price : Q) (reason : Reason) (score : Q)
    (st st' : PaperBroker.Ledger) (trade : PaperBroker.Trade) :
  0 < price ->
  PaperBroker.buy symbol price reason score st = (Some trade, st') ->
  0 < PaperBroker.t_total trade /\
  PaperBroker.t_total trade <= PaperBroker.cash st * 0.9 /\
  PaperBroker.t_total trade <= PaperBroker.cash st.
Proof.
  intros Hprice Hbuy.
  apply buy_executed in Hbuy as (Hinv & Hone & Hsh & Htot & _).
  pose proof (floor_times_le (PaperBroker.investment symbol price st) price Hprice) as Hfl.
  rewrite <- Hsh, <- Htot in Hfl.
  assert (Hcap : PaperBroker.investment symbol price st <= PaperBroker.cash st * 0.9)
    by apply Q.le_min_r.
  assert (Hpos : 0 < PaperBroker.t_shares trade * price)
    by (apply Qmult_lt_0_compat; lra).
  rewrite <- Htot in Hpos. lra.
Qed.

Lemma step_balanced (op : PaperBroker.Op) (st : PaperBroker.Ledger) :
  PaperBroker.balanced st -> PaperBroker.balanced (snd (PaperBroker.step op st)).
Proof.
  unfold PaperBroker.balanced. intros Hbal.
  destruct op as [symbol price reason score | symbol price reason score sellAll];
    cbn [PaperBroker.step].
  - destruct (PaperBroker.buy symbol price reason score st) as [[trade|] st'] eqn:Hbuy.
    + apply buy_executed in Hbuy as (_ & _ & _ & _ & Hact & _ & Hcash & Htr & Hsc & _).
      cbn [snd]. rewrite Hcash, Htr, Hsc, paper_sumBuys_cons, paper_sumSells_cons, Hact. lra.
    + pose proof (buy_null_unchanged symbol price reason score st) as Hsame.
      rewrite Hbuy in Hsame. cbn in *. rewrite Hsame; [exact Hbal | reflexivity].
  - destruct (PaperBroker.sell symbol price reason score sellAll st) as [[trade|] st'] eqn:Hsell.
    + apply sell_executed in Hsell
        as (position & _ & _ & _ & _ & Hact & _ & Hcash & Htr & Hsc & _).
      cbn [snd]. rewrite Hcash, Htr, Hsc, paper_sumBuys_cons, paper_sumSells_cons, Hact. lra.
    + pose proof (sell_null_unchanged symbol price reason score sellAll st) as Hsame.
      rewrite Hsell in Hsame. cbn in *. rewrite Hsame; [exact Hbal | reflexivity].
Qed.

Lemma step_startingCapital (op : PaperBroker.Op) (st : PaperBroker.Ledger) :
  PaperBroker.startingCapital (snd (PaperBroker.step op st)) = PaperBroker.startingCapital st.
Proof.
  destruct op as [symbol price reason score | symbol price reason score sellAll];
    cbn [PaperBroker.step].
  - unfold PaperBroker.buy. destruct (JS.ltb _ 100); [reflexivity|].
    destruct (JS.ltb _ 1); reflexivity.
  - unfold PaperBroker.sell. destruct (PaperBroker.positions st !! symbol); [|reflexivity].
    destruct (JS.leb _ 0); reflexivity.
Qed.

Lemma step_cash_nonneg (op : PaperBroker.Op) (st : PaperBroker.Ledger) :
  0 < PaperBroker.opPrice op -> 0 <= PaperBroker.cash st ->
  0 <= PaperBroker.cash (snd (PaperBroker.step op st)).
Proof.
  intros Hprice Hcash.
  destruct op as [symbol price reason score | symbol price reason score sellAll];
    cbn [PaperBroker.step PaperBroker.opPrice] in *.
  - destruct (PaperBroker.buy symbol price reason score st) as [[trade|] st'] eqn:Hbuy.
    + pose proof (buy_affordable _ _ _ _ _ _ _ Hprice Hbuy) as (_ & _ & Hle).
      apply buy_executed in Hbuy as (_ & _ & _ & _ & _ & _ & Hc & _).
      cbn [snd]. rewrite Hc. lra.
    + pose proof (buy_null_unchanged symbol price reason score st) as Hsame.
      rewrite Hbuy in Hsame. cbn in *. rewrite Hsame; [exact Hcash | reflexivity].
  - destruct (PaperBroker.sell symbol price reason score sellAll st) as [[trade|] st'] eqn:Hsell.
    + apply sell_executed in Hsell
        as (position & _ & Hpos & Hsh & Htot & _ & _ & Hc & _).
      assert (Hsold : 0 < PaperBroker.t_shares trade).
      { rewrite Hsh. destruct sellAll; [exact Hpos | apply ceil_half_pos, Hpos]. }
      assert (Hamt : 0 <= PaperBroker.t_shares trade * price)
        by (apply Qmult_le_0_compat; lra).
      cbn [snd]. rewrite Hc, Htot. lra.
    + pose proof (sell_null_unchanged symbol price reason score sellAll st) as Hsame.
      rewrite Hsell in Hsame. cbn in *. rewrite Hsame; [exact Hcash | reflexivity].
Qed.

Lemma run_accounting (ops : list PaperBroker.Op) :
  Forall (fun op => 0 < PaperBroker.opPrice op) ops ->
  forall st, PaperBroker.balanced st -> 0 <= PaperBroker.cash st ->
    PaperBroker.balanced (PaperBroker.run ops st) /\
    0 <= PaperBroker.cash (PaperBroker.run ops st) /\
    PaperBroker.startingCapital (PaperBroker.run ops st) = PaperBroker.startingCapital st.
Proof.
  induction 1 as [|op ops Hop _ IH]; intros st Hbal Hcash; [auto|].
  unfold PaperBroker.run. cbn [fold_left].
  fold (PaperBroker.run ops (snd (PaperBroker.step op st))).
  destruct (IH (snd (PaperBroker.step op st)))
    as (Hb & Hc & Hs); [apply step_balanced, Hbal | apply step_cash_nonneg; assumption |].
  rewrite step_startingCapital in Hs. auto.
Qed.

(** C1: after any history of buys and sells at positive prices on a
    ledger opened with a non-negative capital, and after any number of
    ticks of a trader of the pool on markets with positive prices, cash is
    the starting capital minus the amounts of the recorded buys plus the
    amounts of the recorded sells and is not negative; every executed buy
    debits no more than the cash available before it. *)
Theorem cash_accounting_and_affordability
    (capital : Q) (ops : list PaperBroker.Op)
    (cfg : option Chiron.StoredWeights) (personality : MultiAI.AIPersonality)
    (markets : list (string -> option MultiAI.Observation)) :
  0 <= capital ->
  Forall (fun op => 0 < PaperBroker.opPrice op) ops ->
  Forall MultiAI.positivePrices markets ->
  let ledger := PaperBroker.run ops (PaperBroker.opened capital) in
  let trader := MultiAI.ticks cfg personality markets (MultiAI.newTrader personality) in
  (PaperBroker.cash ledger ==
     capital - PaperBroker.sumBuys (PaperBroker.trades ledger)
     + PaperBroker.sumSells (PaperBroker.trades ledger) /\
   0 <= PaperBroker.cash ledger) /\
  (forall symbol price reason score st st' trade,
     0 < price ->
     PaperBroker.buy symbol price reason score st = (Some trade, st') ->
     PaperBroker.t_total trade <= PaperBroker.cash st /\
     PaperBroker.cash st' = PaperBroker.cash st - PaperBroker.t_total trade) /\
  (MultiAI.currentCash trader ==
     MultiAI.initialCapital trader - MultiAI.sumBuys (MultiAI.trades trader)
     + MultiAI.sumSells (MultiAI.trades trader) /\
   0 <= MultiAI.currentCash trader) /\
  (forall config market t th s tr,
     let t' := fst (MultiAI.analyzeSymbol cfg config market (t, th) s) in
     MultiAI.trades t' = tr :: MultiAI.trades t ->
     MultiAI.t_action tr = BUY ->
     MultiAI.t_amount tr <= MultiAI.currentCash t /\
     MultiAI.currentCash t' = MultiAI.currentCash t - MultiAI.t_amount tr).
Proof.
  intros Hcap Hops Hmarkets. cbv zeta.
  split; [|split; [|split]].
  - destruct (run_accounting ops Hops (PaperBroker.opened capital)) as (Hb & Hc & Hs).
    + unfold PaperBroker.balanced. cbn. lra.
    + exact Hcap.
    + unfold PaperBroker.balanced in Hb. rewrite Hs in Hb. cbn in Hb. auto.
  - intros symbol price reason score st st' trade Hprice Hbuy.
    pose proof (buy_affordable _ _ _ _ _ _ _ Hprice Hbuy) as (_ & _ & Hle).
    apply buy_executed in Hbuy as (_ & _ & _ & _ & _ & _ & Hc & _). auto.
  - destruct (ticks_sound cfg personality markets Hmarkets _ (newTrader_sound personality))
      as (Hb & Hc & _). auto.
  - intros config market t th s tr Htr Hact.
    destruct (analyzeSymbol_entry_affordable cfg config market t th s tr Htr Hact)
      as (_ & Hle & Hc). auto.
Qed.

Lemma cash_accounting_and_affordability_witness :
  let ops := [PaperBroker.OpBuy "X" 100 BuySignalReason 70;
              PaperBroker.OpBuy "S" 100 BuySignalReason 70;
              PaperBroker.OpSell "X" 200 SellSignalReason 30 true;
              PaperBroker.OpBuy "S" 120 AddToWinnerReason 70] in
  let market := fun _ : string =>
    Some {| MultiAI.quotePrice := 100; MultiAI.atlasScore := None;
            MultiAI.orionScore := 90; MultiAI.phoenixScore := 90;
            MultiAI.aetherScore := None |} in
  0 <= 5000 /\
  Forall (fun op => 0 < PaperBroker.opPrice op) ops /\
  Forall MultiAI.positivePrices [market] /\
  0 <= PaperBroker.cash (PaperBroker.run ops (PaperBroker.opened 5000)) /\
  0 <= MultiAI.currentCash
         (MultiAI.ticks None MultiAI.aggressive [market] (MultiAI.newTrader MultiAI.aggressive)).
Proof.
  intros ops market.
  assert (H0 : 0 <= 5000) by discriminate.
  assert (Hops : Forall (fun op => 0 < PaperBroker.opPrice op) ops)
    by (repeat (constructor; [reflexivity|]); constructor).
  assert (Hm : Forall MultiAI.positivePrices [market]).
  { constructor; [|constructor]. intros s obs Hobs. injection Hobs as <-. reflexivity. }
  pose proof (cash_accounting_and_affordability 5000 ops None MultiAI.aggressive [market]
                H0 Hops Hm) as ((_ & Hcash) & _ & (_ & Htrader) & _).
  auto.
Defined.

(** *** Order of the checks of a tick *)

Lemma analyzeAndTrade_fields (cfg : option Chiron.StoredWeights)
    (market : string -> option MultiAI.Observation) (personality : MultiAI.AIPersonality)
    (trader : MultiAI.AITrader) :
  let r := MultiAI.analyzeSymbols cfg (MultiAI.THRESHOLDS personality) market
             (MultiAI.symbols (MultiAI.THRESHOLDS personality)) (trader, []) in
  MultiAI.trades (MultiAI.analyzeAndTrade cfg market personality trader) = MultiAI.trades (fst r) /\
  MultiAI.positions (MultiAI.analyzeAndTrade cfg market personality trader)
  = MultiAI.positions (fst r).
Proof. split; reflexivity. Qed.

Lemma exit_taken (cfg : option Chiron.StoredWeights) (config : MultiAI.Thresholds)
    (market : string -> option MultiAI.Observation) (trader : MultiAI.AITrader)
    (th : list MultiAI.Thought) (s : string) (obs : MultiAI.Observation)
    (position : MultiAI.AIPosition) :
  market s = Some obs -> MultiAI.positions trader !! s = Some position ->
  let r := MultiAI.analyzeSymbol cfg config market (trader, th) s in
  let price := MultiAI.quotePrice obs in
  (exists reason,
     MultiAI.exitFor config position price (MultiAI.compositeOf cfg s obs) reason /\
     MultiAI.trades (fst r) =
       {| MultiAI.t_symbol := s; MultiAI.t_action := SELL; MultiAI.t_price := price;
          MultiAI.t_shares := MultiAI.shares position;
          MultiAI.t_amount := MultiAI.shares position * price;
          MultiAI.t_reason := reason;
          MultiAI.t_pnl := Some ((price - MultiAI.avgCost position) * MultiAI.shares position) |}
       :: MultiAI.trades trader /\
     MultiAI.positions (fst r) !! s = None /\ snd r = th ++ [(s, reason)])
  \/ (~ MultiAI.stopLossHit config position price /\
      ~ MultiAI.takeProfitHit config position price /\
      MultiAI.sellScore config <= MultiAI.compositeOf cfg s obs /\
      MultiAI.trades (fst r) = MultiAI.trades trader /\
      is_Some (MultiAI.positions (fst r) !! s) /\ snd r = th).
Proof.
  intros Hm Hpos. cbv zeta.
  destruct (analyzeSymbol_inv cfg config market trader th s)
    as [[_ [Hno|Hno]] | [(obs' & position' & Hm' & Hpos' & Hnsl & Hntp & Hss & ->)
       | [(obs' & position' & reason & Hm' & Hpos' & Hexit & ->)
         | (obs' & _ & Hno & _)]]]; try congruence.
  - assert (obs' = obs) as -> by congruence.
    assert (position' = position) as -> by congruence.
    right. cbn. rewrite lookup_insert_eq. eauto 10.
  - assert (obs' = obs) as -> by congruence.
    assert (position' = position) as -> by congruence.
    left. exists reason. split; [exact Hexit|]. cbn [fst snd].
    destruct (executeSell_refreshed trader s position (MultiAI.quotePrice obs) reason Hpos)
      as (Htr & Hps & _).
    split; [exact Htr|]. split; [|reflexivity].
    rewrite Hps. apply lookup_delete_eq.
Qed.

Lemma determineAction_stop_loss (symbol : string) (price : Q) (d : Argus.ArgusDecision)
    (st : PaperBroker.Ledger) :
  Agent.hasPosition symbol st = true ->
  PaperBroker.shouldStopLoss symbol price st = true ->
  Agent.determineAction symbol price d st = (Agent.ActSell, StopLossReason).
Proof. intros Hhas Hsl. unfold Agent.determineAction. rewrite Hhas, Hsl. reflexivity. Qed.

Lemma determineAction_entry (symbol : string) (price : Q) (d : Argus.ArgusDecision)
    (st : PaperBroker.Ledger) :
  fst (Agent.determineAction symbol price d st) = Agent.ActBuy ->
  Agent.hasPosition symbol st = false \/
  (PaperBroker.shouldStopLoss symbol price st = false /\
   Agent.SELL_THRESHOLD <= inject_Z (Argus.compositeScore d)).
Proof.
  unfold Agent.determineAction.
  destruct (Agent.hasPosition symbol st); [|auto].
  destruct (PaperBroker.shouldStopLoss symbol price st); cbn [andb]; [discriminate|].
  destruct (JS.ltb _ Agent.SELL_THRESHOLD) eqn:Ess; [discriminate|].
  compare_in Ess. auto.
Qed.

(** *** The watchlist scan of the agent *)

(** With auto-trading on, a held position whose stop-loss fires is sold
    and the trade carries the stop-loss reason, whatever the scores are. *)
Lemma agent_stop_loss_recorded (cfg : option Chiron.StoredWeights) (symbol : string)
    (obs : Agent.Observation) (st : PaperBroker.Ledger) :
  Agent.hasPosition symbol st = true ->
  PaperBroker.shouldStopLoss symbol (Agent.quotePrice obs) st = true ->
  let res := Agent.analyzeAndTrade true cfg symbol obs st in
  Agent.action (fst res) = Agent.ActSell /\
  Agent.reason (fst res) = StopLossReason /\
  exists tr,
    Agent.trade (fst res) = Some tr /\
    PaperBroker.trades (snd res) = tr :: PaperBroker.trades st /\
    PaperBroker.t_action tr = SELL /\ PaperBroker.t_reason tr = StopLossReason /\
    PaperBroker.positions (snd res) !! symbol = None.
Proof.
  intros Hhas Hsl. cbv zeta. unfold Agent.analyzeAndTrade.
  rewrite (determineAction_stop_loss symbol (Agent.quotePrice obs) _ st Hhas Hsl).
  set (composite := inject_Z _).
  unfold Agent.hasPosition, PaperBroker.getPosition in Hhas.
  unfold PaperBroker.sell.
  destruct (PaperBroker.positions st !! symbol) as [position|]; [|discriminate].
  unfold JS.gtb in Hhas. apply ltb_true in Hhas.
  destruct (JS.leb (PaperBroker.shares position) 0) eqn:Ele;
    [apply leb_true in Ele; lra|].
  cbn. split; [reflexivity|]. split; [reflexivity|].
  eexists. split; [reflexivity|]. split; [reflexivity|]. split; [reflexivity|].
  split; [reflexivity|]. apply lookup_delete_eq.
Qed.

(** One call of the agent records at most one trade, for the symbol it
    was called on, touches no other position, and a sell closes the
    position. *)
Lemma agent_analyzeAndTrade_step (auto : bool) (cfg : option Chiron.StoredWeights)
    (symbol : string) (obs : Agent.Observation) (st : PaperBroker.Ledger) :
  let st' := snd (Agent.analyzeAndTrade auto cfg symbol obs st) in
  (PaperBroker.trades st' = PaperBroker.trades st
   \/ exists tr,
        PaperBroker.trades st' = tr :: PaperBroker.trades st /\
        PaperBroker.t_symbol tr = symbol /\
        (PaperBroker.t_action tr = SELL -> PaperBroker.positions st' !! symbol = None)) /\
  (forall s', s' <> symbol ->
              PaperBroker.positions st' !! s' = PaperBroker.positions st !! s').
Proof.
  cbv zeta. unfold Agent.analyzeAndTrade.
  destruct (Agent.determineAction _ _ _ st) as [action reason].
  set (composite := inject_Z _).
  destruct auto; [|cbn; auto].
  destruct action; [| |cbn; auto].
  - destruct (PaperBroker.buy symbol (Agent.quotePrice obs) reason composite st)
      as [[trade|] st'] eqn:Hbuy; cbn [snd].
    + apply buy_executed in Hbuy as (_ & _ & _ & _ & Hact & Hsym & _ & Htr & _ & Hps).
      split.
      * right. exists trade. split; [exact Htr|]. split; [exact Hsym|]. congruence.
      * intros s' Hne. rewrite Hps. apply lookup_insert_ne. congruence.
    + pose proof (buy_null_unchanged symbol (Agent.quotePrice obs) reason composite st) as Hsame.
      rewrite Hbuy in Hsame. cbn in Hsame. rewrite Hsame; auto.
  - destruct (PaperBroker.sell symbol (Agent.quotePrice obs) reason composite true st)
      as [[trade|] st'] eqn:Hsell; cbn [snd].
    + apply sell_executed in Hsell
        as (position & _ & _ & _ & _ & _ & Hsym & _ & Htr & _ & Hps).
      split.
      * right. exists trade. split; [exact Htr|]. split; [exact Hsym|].
        intros _. rewrite Hps. apply lookup_delete_eq.
      * intros s' Hne. rewrite Hps. apply lookup_delete_ne. congruence.
    + pose proof (sell_null_unchanged symbol (Agent.quotePrice obs) reason composite true st)
        as Hsame.
      rewrite Hsell in Hsame. cbn in Hsame. rewrite Hsame; auto.
Qed.

Lemma scanWatchlist_trades (auto : bool) (cfg : option Chiron.StoredWeights)
    (market : string -> option Agent.Observation) (symbols : list string) :
  NoDup symbols ->
  forall (signals : list Agent.TradingSignal) (st : PaperBroker.Ledger),
    let st' :=
      snd (fold_left
             (fun (acc : list Agent.TradingSignal * PaperBroker.Ledger) symbol =>
                match market symbol with
                | Some obs =>
                    let '(signal, st') := Agent.analyzeAndTrade auto cfg symbol obs (snd acc) in
                    (fst acc ++ [signal], st')
                | None => acc
                end)
             symbols (signals, st)) in
    exists new,
      PaperBroker.trades st' = new ++ PaperBroker.trades st /\
      (forall tr, tr ∈ new -> PaperBroker.t_symbol tr ∈ symbols) /\
      NoDup (PaperBroker.t_symbol <$> new) /\
      (forall tr, tr ∈ new -> PaperBroker.t_action tr = SELL ->
                  PaperBroker.positions st' !! PaperBroker.t_symbol tr = None) /\
      (forall s, s ∉ symbols -> PaperBroker.positions st' !! s = PaperBroker.positions st !! s).
Proof.
  induction symbols as [|s symbols IH]; intros Hnodup signals st; cbv zeta.
  - exists []. cbn. split; [reflexivity|]. split; [intros tr Htr; inversion Htr|].
    split; [apply NoDup_nil; exact I|]. split; [intros tr Htr; inversion Htr | reflexivity].
  - apply NoDup_cons in Hnodup as [Hnotin Hnodup]. cbn [fold_left].
    assert (Hstep : exists signals1 st1,
      match market s with
      | Some obs =>
          let '(signal, st') := Agent.analyzeAndTrade auto cfg s obs (snd (signals, st)) in
          (fst (signals, st) ++ [signal], st')
      | None => (signals, st)
      end = (signals1, st1) /\
      (PaperBroker.trades st1 = PaperBroker.trades st
       \/ exists tr,
            PaperBroker.trades st1 = tr :: PaperBroker.trades st /\
            PaperBroker.t_symbol tr = s /\
            (PaperBroker.t_action tr = SELL -> PaperBroker.positions st1 !! s = None)) /\
      (forall s', s' <> s ->
                  PaperBroker.positions st1 !! s' = PaperBroker.positions st !! s')).
    { destruct (market s) as [obs|]; [|exists signals, st; auto].
      pose proof (agent_analyzeAndTrade_step auto cfg s obs st) as Hcall. cbv zeta in Hcall.
      cbn [fst snd].
      destruct (Agent.analyzeAndTrade auto cfg s obs st) as [signal st1].
      exists (signals ++ [signal]), st1. auto. }
    destruct Hstep as (signals1 & st1 & -> & Hkind & Hother).
    destruct (IH Hnodup signals1 st1) as (new2 & Htr2 & Hsym2 & Hnd2 & Hsell2 & Hpos2).
    cbv zeta in Htr2, Hsell2, Hpos2.
    match goal with |- context [snd ?f] => set (final := snd f) in * end.
    assert (Hfresh : forall tr, tr ∈ new2 -> PaperBroker.t_symbol tr <> s).
    { intros tr Hin Heq. apply Hnotin. rewrite <- Heq. apply Hsym2, Hin. }
    destruct Hkind as [Hsame | (tr1 & Htr1 & Hs1 & Hclosed)].
    + exists new2. rewrite Htr2, Hsame. split; [reflexivity|].
      split; [intros tr Hin; right; apply Hsym2, Hin|]. split; [exact Hnd2|].
      split; [exact Hsell2|].
      intros s' Hs'. apply not_elem_of_cons in Hs' as [Hne Hs'].
      rewrite Hpos2; [apply Hother, Hne | exact Hs'].
    + exists (new2 ++ [tr1]). rewrite Htr2, Htr1, <- app_assoc. split; [reflexivity|].
      split; [|split; [|split]].
      * intros tr Hin. apply elem_of_app in Hin as [Hin|Hin].
        -- right. apply Hsym2, Hin.
        -- apply list_elem_of_singleton in Hin as ->. rewrite Hs1. left.
      * rewrite fmap_app. apply NoDup_app. split; [exact Hnd2|]. split.
        -- intros x Hx Hx1. cbn in Hx1. apply list_elem_of_singleton in Hx1 as ->.
           apply list_elem_of_fmap in Hx as (tr & Heq & Hin).
           apply (Hfresh tr Hin). congruence.
        -- cbn. apply NoDup_singleton.
      * intros tr Hin Hsl. apply elem_of_app in Hin as [Hin|Hin]; [apply Hsell2; assumption|].
        apply list_elem_of_singleton in Hin as ->. rewrite Hs1.
        rewrite Hpos2; [apply Hclosed, Hsl | exact Hnotin].
      * intros s' Hs'. apply not_elem_of_cons in Hs' as [Hne Hs'].
        rewrite Hpos2; [apply Hother, Hne | exact Hs'].
Qed.

(** What a whole symbol loop does with one held symbol of a
    duplicate-free list: it exits it once, at the quoted price and for
    the reason of the first exit check that fires, or leaves it held and
    untraded. *)
Lemma analyzeSymbols_symbol (cfg : option Chiron.StoredWeights) (config : MultiAI.Thresholds)
    (market : string -> option MultiAI.Observation) (syms : list string) :
  NoDup syms ->
  forall (trader : MultiAI.AITrader) (th : list MultiAI.Thought) (s : string)
         (obs : MultiAI.Observation) (position : MultiAI.AIPosition),
    s ∈ syms -> market s = Some obs -> MultiAI.positions trader !! s = Some position ->
    let r := MultiAI.analyzeSymbols cfg config market syms (trader, th) in
    let price := MultiAI.quotePrice obs in
    exists new,
      MultiAI.trades (fst r) = new ++ MultiAI.trades trader /\
      ((exists reason tr,
          MultiAI.exitFor config position price (MultiAI.compositeOf cfg s obs) reason /\
          tr ∈ new /\ MultiAI.t_symbol tr = s /\ MultiAI.t_action tr = SELL /\
          MultiAI.t_reason tr = reason /\ MultiAI.t_price tr = price /\
          MultiAI.t_pnl tr
          = Some ((price - MultiAI.avgCost position) * MultiAI.shares position) /\
          (forall tr', tr' ∈ new -> MultiAI.t_symbol tr' = s -> tr' = tr) /\
          MultiAI.positions (fst r) !! s = None)
       \/ (~ MultiAI.stopLossHit config position price /\
           ~ MultiAI.takeProfitHit config position price /\
           MultiAI.sellScore config <= MultiAI.compositeOf cfg s obs /\
           (forall tr', tr' ∈ new -> MultiAI.t_symbol tr' <> s) /\
           is_Some (MultiAI.positions (fst r) !! s))).
Proof.
  intros Hnd trader th s obs position Hin Hm Hpos. cbv zeta.
  apply list_elem_of_split in Hin as (l1 & l2 & ->).
  apply NoDup_app in Hnd as (Hnd1 & Hdisj & Hnd2).
  apply NoDup_cons in Hnd2 as [Hnot2 Hnd2].
  assert (Hnot1 : s ∉ l1) by (intros H; apply (Hdisj s H); left).
  unfold MultiAI.analyzeSymbols. rewrite fold_left_app. cbn [fold_left].
  fold (MultiAI.analyzeSymbols cfg config market l1 (trader, th)).
  destruct (analyzeSymbols_trades cfg config market l1 Hnd1 trader th)
    as (new1 & Htr1 & Hsym1 & _ & _ & _ & Hpos1).
  destruct (MultiAI.analyzeSymbols cfg config market l1 (trader, th)) as [t1 th1].
  cbn [fst] in Htr1, Hpos1.
  rewrite <- (Hpos1 s Hnot1) in Hpos.
  pose proof (exit_taken cfg config market t1 th1 s obs position Hm Hpos) as Hexit.
  cbv zeta in Hexit.
  destruct (MultiAI.analyzeSymbol cfg config market (t1, th1) s) as [t2 th2].
  cbn [fst snd] in Hexit.
  fold (MultiAI.analyzeSymbols cfg config market l2 (t2, th2)).
  destruct (analyzeSymbols_trades cfg config market l2 Hnd2 t2 th2)
    as (new2 & Htr2 & Hsym2 & _ & _ & _ & Hpos2).
  set (r := MultiAI.analyzeSymbols cfg config market l2 (t2, th2)) in *.
  assert (Hfresh1 : forall tr, tr ∈ new1 -> MultiAI.t_symbol tr <> s).
  { intros tr Htr Heq. apply Hnot1. rewrite <- Heq. apply Hsym1, Htr. }
  assert (Hfresh2 : forall tr, tr ∈ new2 -> MultiAI.t_symbol tr <> s).
  { intros tr Htr Heq. apply Hnot2. rewrite <- Heq. apply Hsym2, Htr. }
  destruct Hexit
    as [(reason & Hfor & Htrade & Hgone & _) | (Hnsl & Hntp & Hss & Hsame & Hheld & _)].
  - eexists (new2 ++ _ :: new1). split.
    { rewrite Htr2, Htrade, Htr1, <- app_assoc. reflexivity. }
    left. exists reason. eexists. split; [exact Hfor|].
    split; [apply elem_of_app; right; left|].
    cbn [MultiAI.t_symbol MultiAI.t_action MultiAI.t_reason MultiAI.t_price MultiAI.t_pnl].
    split; [reflexivity|]. split; [reflexivity|]. split; [reflexivity|].
    split; [reflexivity|]. split; [reflexivity|]. split.
    + intros tr' Hin' Hs'. apply elem_of_app in Hin' as [Hin'|Hin'].
      * destruct (Hfresh2 tr' Hin' Hs').
      * apply elem_of_cons in Hin' as [->|Hin']; [reflexivity|].
        destruct (Hfresh1 tr' Hin' Hs').
    + rewrite (Hpos2 s Hnot2). exact Hgone.
  - exists (new2 ++ new1). split.
    { rewrite Htr2, Hsame, Htr1, <- app_assoc. reflexivity. }
    right. split; [exact Hnsl|]. split; [exact Hntp|]. split; [exact Hss|]. split.
    + intros tr' Hin' Hs'. apply elem_of_app in Hin' as [Hin'|Hin'].
      * destruct (Hfresh2 tr' Hin' Hs').
      * destruct (Hfresh1 tr' Hin' Hs').
    + rewrite (Hpos2 s Hnot2). exact Hheld.
Qed.

(** C3: in a tick of a personality, a held symbol of its list (with
    data and a positive average cost) is only ever sold: the tick records
    at most one trade for it, a sell that removes the position, so the
    entry check is not run for it and an exited position is not
    re-entered; the exit checks are taken in the order stop-loss,
    take-profit, sell signal, and the sell recorded carries the reason of
    the first that fires, stop-loss and not the sell signal when both
    hold; when none fires the symbol is not traded and stays held.  Over
    the whole tick no symbol is traded twice.  The single-symbol agent
    checks the stop-loss before the sell signal and both before an entry,
    records the stop-loss sell when the stop-loss fires, and its scan of
    a duplicate-free watchlist trades no symbol twice. *)
Theorem exits_precede_entries_stop_loss_first :
  (forall cfg market personality t0 s obs position,
     s ∈ MultiAI.symbols (MultiAI.THRESHOLDS personality) ->
     market s = Some obs ->
     MultiAI.positions t0 !! s = Some position ->
     0 < MultiAI.avgCost position ->
     let config := MultiAI.THRESHOLDS personality in
     let price := MultiAI.quotePrice obs in
     let composite := MultiAI.compositeOf cfg s obs in
     let t' := MultiAI.analyzeAndTrade cfg market personality t0 in
     exists new,
       MultiAI.trades t' = new ++ MultiAI.trades t0 /\
       (forall tr, tr ∈ new -> MultiAI.t_symbol tr = s ->
                   MultiAI.t_action tr = SELL /\ MultiAI.positions t' !! s = None) /\
       (forall tr tr', tr ∈ new -> tr' ∈ new ->
                       MultiAI.t_symbol tr = s -> MultiAI.t_symbol tr' = s -> tr = tr') /\
       (MultiAI.stopLossHit config position price ->
        exists tr, tr ∈ new /\ MultiAI.t_symbol tr = s /\
                   MultiAI.t_reason tr = StopLossReason) /\
       (~ MultiAI.stopLossHit config position price ->
        MultiAI.takeProfitHit config position price ->
        exists tr, tr ∈ new /\ MultiAI.t_symbol tr = s /\
                   MultiAI.t_reason tr = TakeProfitReason) /\
       (~ MultiAI.stopLossHit config position price ->
        ~ MultiAI.takeProfitHit config position price ->
        composite < MultiAI.sellScore config ->
        exists tr, tr ∈ new /\ MultiAI.t_symbol tr = s /\
                   MultiAI.t_reason tr = SellSignalReason) /\
       (~ MultiAI.stopLossHit config position price ->
        ~ MultiAI.takeProfitHit config position price ->
        MultiAI.sellScore config <= composite ->
        (forall tr, tr ∈ new -> MultiAI.t_symbol tr <> s) /\
        is_Some (MultiAI.positions t' !! s)) /\
       (MultiAI.stopLossHit config position price ->
        composite < MultiAI.sellScore config ->
        forall tr, tr ∈ new -> MultiAI.t_symbol tr = s ->
                   MultiAI.t_reason tr = StopLossReason)) /\
  (forall cfg market personality t0,
     let t' := MultiAI.analyzeAndTrade cfg market personality t0 in
     exists new,
       MultiAI.trades t' = new ++ MultiAI.trades t0 /\
       NoDup (MultiAI.t_symbol <$> new) /\
       (forall tr, tr ∈ new -> MultiAI.t_action tr = SELL ->
                   MultiAI.positions t' !! MultiAI.t_symbol tr = None) /\
       (forall ex en, ex ∈ new -> en ∈ new ->
                      MultiAI.t_action ex = SELL -> MultiAI.t_action en = BUY ->
                      MultiAI.t_symbol ex <> MultiAI.t_symbol en)) /\
  (forall symbol p d st,
     (Agent.hasPosition symbol st = true ->
      PaperBroker.shouldStopLoss symbol p st = true ->
      Agent.determineAction symbol p d st = (Agent.ActSell, StopLossReason)) /\
     (fst (Agent.determineAction symbol p d st) = Agent.ActBuy ->
      Agent.hasPosition symbol st = false \/
      (PaperBroker.shouldStopLoss symbol p st = false /\
       Agent.SELL_THRESHOLD <= inject_Z (Argus.compositeScore d)))) /\
  (forall cfg symbol obs st,
     Agent.hasPosition symbol st = true ->
     PaperBroker.shouldStopLoss symbol (Agent.quotePrice obs) st = true ->
     let res := Agent.analyzeAndTrade true cfg symbol obs st in
     exists tr,
       Agent.trade (fst res) = Some tr /\
       PaperBroker.trades (snd res) = tr :: PaperBroker.trades st /\
       PaperBroker.t_action tr = SELL /\ PaperBroker.t_reason tr = StopLossReason /\
       PaperBroker.positions (snd res) !! symbol = None) /\
  (forall auto cfg market symbols st,
     NoDup symbols ->
     let st' := snd (Agent.scanWatchlist auto cfg market symbols st) in
     exists new,
       PaperBroker.trades st' = new ++ PaperBroker.trades st /\
       NoDup (PaperBroker.t_symbol <$> new) /\
       (forall tr, tr ∈ new -> PaperBroker.t_action tr = SELL ->
                   PaperBroker.positions st' !! PaperBroker.t_symbol tr = None)).
Proof.
  split; [|split; [|split; [|split]]].
  - intros cfg market personality t0 s obs position Hin Hm Hpos _. cbv zeta.
    destruct (analyzeAndTrade_fields cfg market personality t0) as [-> ->].
    destruct (analyzeSymbols_symbol cfg (MultiAI.THRESHOLDS personality) market
                (MultiAI.symbols (MultiAI.THRESHOLDS personality))
                (THRESHOLDS_symbols_NoDup personality) t0 [] s obs position Hin Hm Hpos)
      as (new & Htr & Hcase).
    cbv zeta in Htr, Hcase.
    set (r := MultiAI.analyzeSymbols _ _ _ _ _) in *.
    set (config := MultiAI.THRESHOLDS personality) in *.
    exists new. split; [exact Htr|].
    destruct Hcase
      as [(reason & trade & Hfor & Hin' & Hs & Hact & Hreason & _ & _ & Honly & Hgone)
         | (Hnsl & Hntp & Hss & Hnone & Hheld)].
    + split; [intros tr Htr' Hs'; rewrite (Honly tr Htr' Hs'); auto|].
      split; [intros tr tr' H1 H2 Hs1 Hs2;
              rewrite (Honly tr H1 Hs1), (Honly tr' H2 Hs2); reflexivity|].
      destruct Hfor as [(-> & Hsl) | [(-> & Hnsl & Htp) | (-> & Hnsl & Hntp & Hlow)]].
      * split; [intros _; eauto|]. split; [intros Hn; contradiction|].
        split; [intros Hn; contradiction|]. split; [intros Hn; contradiction|].
        intros _ _ tr Htr' Hs'. rewrite (Honly tr Htr' Hs'). exact Hreason.
      * split; [intros Hn; contradiction|]. split; [intros _ _; eauto|].
        split; [intros _ Hn; contradiction|]. split; [intros _ Hn; contradiction|].
        intros Hn; contradiction.
      * split; [intros Hn; contradiction|]. split; [intros _ Hn; contradiction|].
        split; [intros _ _ _; eauto|]. split; [intros _ _ Hss; lra|].
        intros Hn; contradiction.
    + split; [intros tr Htr' Hs'; destruct (Hnone tr Htr' Hs')|].
      split; [intros tr tr' H1 _ Hs1 _; destruct (Hnone tr H1 Hs1)|].
      split; [intros Hn; contradiction|]. split; [intros _ Hn; contradiction|].
      split; [intros _ _ Hlow; lra|]. split; [intros _ _ _; auto|].
      intros Hn; contradiction.
  - intros cfg market personality t0. cbv zeta.
    destruct (analyzeAndTrade_fields cfg market personality t0) as [-> ->].
    destruct (analyzeSymbols_trades cfg (MultiAI.THRESHOLDS personality) market
                (MultiAI.symbols (MultiAI.THRESHOLDS personality))
                (THRESHOLDS_symbols_NoDup personality) t0 [])
      as (new & Htr & _ & Hnd & Hsell & Hbuy & _).
    exists new. split; [exact Htr|]. split; [exact Hnd|]. split.
    + intros tr Hin Hact. apply (Hsell tr Hin Hact).
    + intros ex en Hex Hen Hsx Hbn Heq.
      destruct (Hsell ex Hex Hsx) as [[held Hheld] _].
      pose proof (Hbuy en Hen Hbn) as Hnone. congruence.
  - intros symbol p d st. split.
    + apply determineAction_stop_loss.
    + apply determineAction_entry.
  - intros cfg symbol obs st Hhas Hsl.
    apply (agent_stop_loss_recorded cfg symbol obs st Hhas Hsl).
  - intros auto cfg market symbols st Hnodup. cbv zeta.
    destruct (scanWatchlist_trades auto cfg market symbols Hnodup [] st)
      as (new & Htr & _ & Hnd & Hsell & _).
    exists new. auto.
Qed.

Lemma exits_precede_entries_stop_loss_first_witness :
  let position := {| MultiAI.symbol := "NVDA"; MultiAI.shares := 2; MultiAI.avgCost := 100;
                     MultiAI.currentPrice := 100; MultiAI.pnl := 0; MultiAI.pnlPercent := 0 |} in
  let trader := MultiAI.withPositions (MultiAI.newTrader MultiAI.aggressive)
                                      {["NVDA" := position]} in
  let obs := {| MultiAI.quotePrice := 94; MultiAI.atlasScore := None;
                MultiAI.orionScore := 10; MultiAI.phoenixScore := 10;
                MultiAI.aetherScore := None |} in
  let market := fun sym : string => if String.eqb sym "NVDA" then Some obs else None in
  let config := MultiAI.THRESHOLDS MultiAI.aggressive in
  let t' := MultiAI.analyzeAndTrade None market MultiAI.aggressive trader in
  "NVDA" ∈ MultiAI.symbols config /\
  market "NVDA" = Some obs /\
  MultiAI.positions trader !! "NVDA" = Some position /\
  0 < MultiAI.avgCost position /\
  MultiAI.stopLossHit config position 94 /\
  MultiAI.compositeOf None "NVDA" obs < MultiAI.sellScore config /\
  exists new tr,
    MultiAI.trades t' = new ++ MultiAI.trades trader /\
    tr ∈ new /\ MultiAI.t_symbol tr = "NVDA" /\ MultiAI.t_action tr = SELL /\
    MultiAI.t_reason tr = StopLossReason /\
    MultiAI.positions t' !! "NVDA" = None.
Proof.
  intros position trader obs market config t'.
  assert (Hin : "NVDA" ∈ MultiAI.symbols config) by (cbn; left).
  assert (Hm : market "NVDA" = Some obs) by reflexivity.
  assert (Hpos : MultiAI.positions trader !! "NVDA" = Some position)
    by (apply lookup_singleton_eq).
  assert (Hcost : 0 < MultiAI.avgCost position) by reflexivity.
  assert (Hsl : MultiAI.stopLossHit config position 94) by (vm_compute; discriminate).
  assert (Hlow : MultiAI.compositeOf None "NVDA" obs < MultiAI.sellScore config)
    by (vm_compute; reflexivity).
  split; [exact Hin|]. split; [exact Hm|]. split; [exact Hpos|]. split; [exact Hcost|].
  split; [exact Hsl|]. split; [exact Hlow|].
  destruct (proj1 exits_precede_entries_stop_loss_first None market MultiAI.aggressive trader
              "NVDA" obs position Hin Hm Hpos Hcost)
    as (new & Htr & Hsold & _ & Hstop & _).
  destruct (Hstop Hsl) as (tr & Htrin & Hs & Hreason).
  destruct (Hsold tr Htrin Hs) as [Hact Hgone].
  exists new, tr. auto 10.
Defined.

(** C4: a buy of the paper ledger on a held symbol (of non-negative
    shares) leaves the position
    with the summed shares and the quantity-weighted average cost
    (oldShares * oldAvgCost + newShares * price) / (oldShares + newShares),
    strictly between the old average cost and the price when they differ;
    10 shares bought at 100 and 10 more at 120 cost 110 on average; the
    trader pool only enters symbols it does not hold. *)
Theorem buy_blends_average_cost :
  (forall symbol price reason score st st' trade existing,
     PaperBroker.positions st !! symbol = Some existing ->
     0 <= PaperBroker.shares existing ->
     PaperBroker.buy symbol price reason score st = (Some trade, st') ->
     exists h,
       PaperBroker.positions st' !! symbol = Some h /\
       PaperBroker.shares h = PaperBroker.shares existing + PaperBroker.t_shares trade /\
       PaperBroker.avgCost h =
         (PaperBroker.shares existing * PaperBroker.avgCost existing
          + PaperBroker.t_shares trade * price)
         / (PaperBroker.shares existing + PaperBroker.t_shares trade) /\
       (0 < PaperBroker.shares existing -> PaperBroker.avgCost existing < price ->
        PaperBroker.avgCost existing < PaperBroker.avgCost h < price) /\
       (0 < PaperBroker.shares existing -> price < PaperBroker.avgCost existing ->
        price < PaperBroker.avgCost h < PaperBroker.avgCost existing)) /\
  (let ops := [PaperBroker.OpBuy "X" 100 BuySignalReason 70;
               PaperBroker.OpBuy "S" 100 BuySignalReason 70;
               PaperBroker.OpSell "X" 200 SellSignalReason 30 true] in
   let st := PaperBroker.run ops (PaperBroker.opened 5000) in
   let res := PaperBroker.buy "S" 120 AddToWinnerReason 70 st in
   PaperBroker.positions st !! "S"
     = Some {| PaperBroker.shares := 10; PaperBroker.avgCost := 100 |} /\
   exists trade h,
     fst res = Some trade /\ PaperBroker.t_shares trade = 10 /\
     PaperBroker.t_price trade = 120 /\
     PaperBroker.positions (snd res) !! "S" = Some h /\
     PaperBroker.shares h == 20 /\ PaperBroker.avgCost h == 110 /\
     100 < PaperBroker.avgCost h < 120) /\
  (forall cfg config market t th s tr,
     MultiAI.trades (fst (MultiAI.analyzeSymbol cfg config market (t, th) s))
       = tr :: MultiAI.trades t ->
     MultiAI.t_action tr = BUY ->
     MultiAI.positions t !! s = None).
Proof.
  split; [|split].
  - intros symbol price reason score st st' trade existing Hex _ Hbuy.
    destruct (buy_blend _ _ _ _ _ _ _ _ Hex Hbuy) as (_ & Hone & Hlook).
    eexists. split; [exact Hlook|]. cbn. split; [reflexivity|]. split; [reflexivity|].
    split; intros Hpos Hlt.
    + apply blend_between; lra.
    + apply blend_between_above; lra.
  - cbv zeta. split; [vm_compute; reflexivity|].
    eexists. eexists. split; [vm_compute; reflexivity|].
    split; [reflexivity|]. split; [reflexivity|].
    split; [vm_compute; reflexivity|].
    split; [reflexivity|]. split; [reflexivity|]. split; reflexivity.
  - intros cfg config market t th s tr Htr Hact.
    apply (analyzeSymbol_entry_affordable cfg config market t th s tr Htr Hact).
Qed.

Lemma buy_blends_average_cost_witness :
  let st := {| PaperBroker.cash := 4800;
               PaperBroker.positions :=
                 {["S" := {| PaperBroker.shares := 10; PaperBroker.avgCost := 100 |}]};
               PaperBroker.trades := [];
               PaperBroker.startingCapital := 5800 |} in
  let res := PaperBroker.buy "S" 120 AddToWinnerReason 70 st in
  PaperBroker.positions st !! "S"
    = Some {| PaperBroker.shares := 10; PaperBroker.avgCost := 100 |} /\
  exists trade h,
    res = (Some trade, snd res) /\
    PaperBroker.positions (snd res) !! "S" = Some h /\
    PaperBroker.avgCost h == 110 /\
    100 < PaperBroker.avgCost h < 120.
Proof.
  intros st res.
  assert (Hex : PaperBroker.positions st !! "S"
                = Some {| PaperBroker.shares := 10; PaperBroker.avgCost := 100 |})
    by (apply lookup_singleton_eq).
  split; [exact Hex|].
  destruct res as [[trade|] st'] eqn:Hres; [|vm_compute in Hres; discriminate Hres].
  assert (Hheld : 0 <= 10) by discriminate.
  destruct (proj1 buy_blends_average_cost "S" 120 AddToWinnerReason 70 st st' trade _ Hex
              Hheld Hres)
    as (h & Hlook & Hshares & Havg & Hbelow & _).
  exists trade, h. split; [reflexivity|]. split; [exact Hlook|].
  assert (Hts : PaperBroker.t_shares trade = 10)
    by (vm_compute in Hres; injection Hres as <- _; reflexivity).
  split.
  - rewrite Havg, Hts. reflexivity.
  - apply Hbelow; cbn; reflexivity.
Defined.

(** ** Worked scenarios *)

(** A fresh aggressive trader (cash 1000, position size 0.25, buy score 58)
    seeing a composite score of 84 at a price of 100 buys 250 worth, 2.5
    shares, and keeps 750. *)
Example aggressive_entry_scenario :
  let obs := {| MultiAI.quotePrice := 100; MultiAI.atlasScore := None;
                MultiAI.orionScore := 90; MultiAI.phoenixScore := 90;
                MultiAI.aetherScore := None |} in
  let market := fun sym : string => if String.eqb sym "NVDA" then Some obs else None in
  let t := fst (MultiAI.analyzeSymbol None (MultiAI.THRESHOLDS MultiAI.aggressive) market
                  (MultiAI.newTrader MultiAI.aggressive, []) "NVDA") in
  MultiAI.compositeOf None "NVDA" obs == 84 /\
  MultiAI.currentCash t == 750 /\
  exists tr,
    MultiAI.trades t = [tr] /\ MultiAI.t_action tr = BUY /\
    MultiAI.t_amount tr == 250 /\ MultiAI.t_shares tr == 2.5.
Proof.
  cbv zeta. split; [reflexivity|]. split; [reflexivity|].
  eexists. split; [vm_compute; reflexivity|]. repeat split; reflexivity.
Qed.

(** A position bought at 100 and quoted at 94 is down 6 percent: with the
    aggressive stop of 6 percent it is sold for the stop-loss reason even
    with a composite score of 84. *)
Example stop_loss_scenario :
  let position := {| MultiAI.symbol := "NVDA"; MultiAI.shares := 2.5; MultiAI.avgCost := 100;
                     MultiAI.currentPrice := 100; MultiAI.pnl := 0; MultiAI.pnlPercent := 0 |} in
  let trader := MultiAI.withPositions (MultiAI.newTrader MultiAI.aggressive)
                                      {["NVDA" := position]} in
  let obs := {| MultiAI.quotePrice := 94; MultiAI.atlasScore := None;
                MultiAI.orionScore := 90; MultiAI.phoenixScore := 90;
                MultiAI.aetherScore := None |} in
  let market := fun sym : string => if String.eqb sym "NVDA" then Some obs else None in
  let r := MultiAI.analyzeSymbol None (MultiAI.THRESHOLDS MultiAI.aggressive) market
             (trader, []) "NVDA" in
  MultiAI.pnlPercent (MultiAI.refresh position 94) == -6 /\
  MultiAI.compositeOf None "NVDA" obs == 84 /\
  snd r = [("NVDA", StopLossReason)] /\
  MultiAI.positions (fst r) !! "NVDA" = None.
Proof.
  cbv zeta. split; [reflexivity|]. split; [reflexivity|].
  split; vm_compute; reflexivity.
Qed.

(** A position bought at 10 and quoted at 9.4 is down 6 percent on
    paper, but the percentage the tick computes from the doubles is
    -5.9999999999999964: the aggressive stop of 6 percent does not fire,
    and with a composite score below the sell threshold the position is
    sold on the sell signal instead. *)
Example stop_loss_rounding_scenario :
  let position := {| MultiAI.symbol := "NVDA"; MultiAI.shares := 25; MultiAI.avgCost := 10;
                     MultiAI.currentPrice := 10; MultiAI.pnl := 0; MultiAI.pnlPercent := 0 |} in
  let trader := MultiAI.withPositions (MultiAI.newTrader MultiAI.aggressive)
                                      {["NVDA" := position]} in
  let quote := JS.double 9.4 in
  let obs := {| MultiAI.quotePrice := quote; MultiAI.atlasScore := None;
                MultiAI.orionScore := 10; MultiAI.phoenixScore := 10;
                MultiAI.aetherScore := None |} in
  let market := fun sym : string => if String.eqb sym "NVDA" then Some obs else None in
  let r := MultiAI.analyzeSymbol None (MultiAI.THRESHOLDS MultiAI.aggressive) market
             (trader, []) "NVDA" in
  MultiAI.pnlPercent (MultiAI.refresh position quote) == - (1688849860263935 # 281474976710656) /\
  -6 < MultiAI.pnlPercent (MultiAI.refresh position quote) /\
  ~ MultiAI.stopLossHit (MultiAI.THRESHOLDS MultiAI.aggressive) position quote /\
  snd r = [("NVDA", SellSignalReason)] /\
  MultiAI.positions (fst r) !! "NVDA" = None.
Proof.
  cbv zeta. split; [vm_compute; reflexivity|]. split; [vm_compute; reflexivity|].
  split; [vm_compute; intros H; apply H; reflexivity|].
  split; vm_compute; reflexivity.
Qed.

(** * Further properties of the code *)

(** ** The optimiser and the synthesiser *)

Lemma getBaseWeights_sum (r : Chiron.ChironMarketRegime) :
  Chiron.weightSum (Chiron.core (Chiron.getBaseWeights r)) == 1 /\
  Chiron.weightSum (Chiron.pulse (Chiron.getBaseWeights r)) == 1.
Proof. destruct r; split; reflexivity. Qed.

Lemma blendWeight_sum (b l : Chiron.ModuleWeights) :
  Chiron.weightSum (Chiron.blendWeight 0.6 b l)
  == 0.4 * Chiron.weightSum b + 0.6 * Chiron.weightSum l.
Proof. unfold Chiron.weightSum. simpl. ring. Qed.

(** X1: the two weight vectors [evaluate] returns have non-negative slots
    that sum to one, in every regime, without learned weights and with
    any non-negative learned weights. *)
Theorem evaluate_weights_sum_to_one
    (cfg : option Chiron.StoredWeights) (ctx : Chiron.ChironContext) :
  Chiron.learnedNonneg cfg ->
  let r := Chiron.evaluate cfg ctx in
  Chiron.weightSum (Chiron.coreWeights r) == 1 /\
  Chiron.weightSum (Chiron.pulseWeights r) == 1 /\
  Chiron.nonneg (Chiron.coreWeights r) /\ Chiron.nonneg (Chiron.pulseWeights r).
Proof.
  intros Hcfg. cbv zeta.
  destruct (evaluate_nonneg cfg ctx Hcfg) as [Hc Hp].
  split; [|split; [|split; assumption]].
  - unfold Chiron.evaluate. cbn [Chiron.coreWeights].
    destruct (getBaseWeights_sum (Chiron.detectRegime ctx)) as [Hs _].
    apply normalizeWeights_sum.
    destruct cfg as [l|]; cbn [Chiron.core Chiron.blendWeights].
    + destruct Hcfg as [Hl _]. pose proof (weightSum_nonneg _ Hl).
      rewrite blendWeight_sum, Hs. lra.
    + rewrite Hs. discriminate.
  - unfold Chiron.evaluate. cbn [Chiron.pulseWeights].
    destruct (getBaseWeights_sum (Chiron.detectRegime ctx)) as [_ Hs].
    apply normalizeWeights_sum.
    destruct cfg as [l|]; cbn [Chiron.pulse Chiron.blendWeights].
    + destruct Hcfg as [_ Hl]. pose proof (weightSum_nonneg _ Hl).
      rewrite blendWeight_sum, Hs. lra.
    + rewrite Hs. discriminate.
Qed.

Lemma evaluate_weights_sum_to_one_witness :
  let learned := {| Chiron.learnedCore := Chiron.mkWeights 3 0 0 1 0 0 0 2;
                    Chiron.learnedPulse := Chiron.mkWeights 0 5 0 0 1 0 0 0;
                    Chiron.learningNotes := [] |} in
  let ctx := Argus.chironContext (Argus.noInputs "NVDA") in
  Chiron.learnedNonneg (Some learned) /\
  Chiron.weightSum (Chiron.coreWeights (Chiron.evaluate (Some learned) ctx)) == 1.
Proof.
  intros learned ctx.
  assert (H : Chiron.learnedNonneg (Some learned)).
  { split; unfold Chiron.nonneg; cbn; repeat split; discriminate. }
  split; [exact H|].
  exact (proj1 (evaluate_weights_sum_to_one (Some learned) ctx H)).
Defined.

Lemma detectRegime_not_NewsShock (ctx : Chiron.ChironContext) :
  Chiron.detectRegime ctx <> Chiron.NewsShock.
Proof.
  unfold Chiron.detectRegime. cbv zeta.
  destruct (JS.ltb _ 40); [intros Hd; discriminate Hd|].
  destruct (_ && _); [intros Hd; discriminate Hd|].
  destruct (JS.gtb _ 60); intros Hd; discriminate Hd.
Qed.

Lemma detectRegime_no_chop (ctx : Chiron.ChironContext) :
  Chiron.chopIndex ctx = None ->
  Chiron.detectRegime ctx = Chiron.RiskOff \/ Chiron.detectRegime ctx = Chiron.Neutral.
Proof.
  intros Hchop. unfold Chiron.detectRegime. rewrite Hchop. cbn [JS.nullish]. cbv zeta.
  destruct (JS.ltb _ 40); [auto|]. rewrite andb_false_r. auto.
Qed.

(** X2: [makeDecision] never hands a chop index to the optimiser, so the
    regime it gets is Risk-Off exactly when a macro score below 40 is
    present and Neutral otherwise: the Trend and Chop weight tables are
    never selected by a decision.  No context at all yields News-Shock. *)
Theorem makeDecision_regime_riskoff_or_neutral
    (cfg : option Chiron.StoredWeights) (inputs : Argus.ModuleInputs)
    (ctx : Chiron.ChironContext) :
  let regime := Chiron.regime (Chiron.evaluate cfg (Argus.chironContext inputs)) in
  (regime = Chiron.RiskOff <-> exists a, Argus.in_aether inputs = Some a /\ a < 40) /\
  (regime = Chiron.Neutral <-> ~ exists a, Argus.in_aether inputs = Some a /\ a < 40) /\
  Chiron.detectRegime ctx <> Chiron.NewsShock /\
  (Chiron.chopIndex ctx = None ->
   Chiron.detectRegime ctx = Chiron.RiskOff \/ Chiron.detectRegime ctx = Chiron.Neutral).
Proof.
  cbv zeta. unfold Chiron.evaluate. cbn [Chiron.regime].
  assert (Hreg : Chiron.detectRegime (Argus.chironContext inputs) =
                 if JS.ltb (JS.nullish (Argus.in_aether inputs) 50) 40
                 then Chiron.RiskOff else Chiron.Neutral).
  { unfold Chiron.detectRegime, Argus.chironContext, Argus.collectScores. cbn.
    destruct (JS.ltb _ 40); [reflexivity|].
    rewrite andb_false_r. reflexivity. }
  rewrite Hreg.
  split; [|split; [|split]].
  - destruct (Argus.in_aether inputs) as [a|]; cbn [JS.nullish].
    + destruct (JS.ltb a 40) eqn:E; compare_in E.
      * split; [eauto | reflexivity].
      * split; [intros Hd; discriminate Hd|]. intros (a' & Ha & Hlt). injection Ha as <-. lra.
    + split; [intros Hd; discriminate Hd|]. intros (a & Ha & _). discriminate.
  - destruct (Argus.in_aether inputs) as [a|]; cbn [JS.nullish].
    + destruct (JS.ltb a 40) eqn:E; compare_in E.
      * split; [intros Hd; discriminate Hd|]. intros Hn. exfalso. apply Hn. eauto.
      * split; [|reflexivity]. intros _ (a' & Ha & Hlt). injection Ha as <-. lra.
    + split; [|reflexivity]. intros _ (a & Ha & _). discriminate.
  - apply detectRegime_not_NewsShock.
  - apply detectRegime_no_chop.
Qed.

Lemma accumulate_scaled (k w w' : Q) (s : option Q) (acc acc' : Q * Q) :
  Notions.accScaled k acc acc' -> w' == w * k ->
  Notions.accScaled k (Argus.accumulate s w acc) (Argus.accumulate s w' acc').
Proof.
  intros [Hf Ht] Hw. destruct s as [v|]; [|split; assumption].
  unfold Notions.accScaled. cbn [Argus.accumulate fst snd].
  rewrite Hf, Ht, Hw. split; ring.
Qed.

Lemma scaled_result (k : Q) (acc acc' : Q * Q) :
  ~ k == 0 -> Notions.accScaled k acc acc' ->
  (if Qeq_dec (snd acc') 0 then 50 else fst acc' / snd acc')
  == (if Qeq_dec (snd acc) 0 then 50 else fst acc / snd acc).
Proof.
  intros Hk [Hf Ht].
  destruct (Qeq_dec (snd acc') 0) as [H0'|Hn']; destruct (Qeq_dec (snd acc) 0) as [H0|Hn].
  - reflexivity.
  - exfalso. rewrite Ht in H0'. apply Qmult_integral in H0' as [H|H]; contradiction.
  - exfalso. apply Hn'. rewrite Ht, H0. ring.
  - rewrite Hf, Ht. field. split; assumption.
Qed.

Lemma calculateWeightedScore_scaled (scores : Argus.ModuleScores) (w w' : Chiron.ModuleWeights)
    (k : Q) :
  ~ k == 0 ->
  Chiron.atlas w' == Chiron.atlas w * k -> Chiron.orion w' == Chiron.orion w * k ->
  Chiron.phoenix w' == Chiron.phoenix w * k -> Chiron.aether w' == Chiron.aether w * k ->
  Chiron.demeter w' == Chiron.demeter w * k -> Chiron.cronos w' == Chiron.cronos w * k ->
  Chiron.hermes w' == Chiron.hermes w * k ->
  Argus.calculateWeightedScore scores w' == Argus.calculateWeightedScore scores w.
Proof.
  intros Hk Ha Ho Hp Hae Hd Hc Hh. unfold Argus.calculateWeightedScore.
  apply (scaled_result k); [exact Hk|].
  repeat (apply accumulate_scaled; [|assumption]).
  split; cbn; ring.
Qed.

(** X3: normalising a weight vector does not change any weighted score:
    [calculateWeightedScore] gives the same number for a vector and for its
    normalisation, so a decision's core and pulse scores are the weighted
    averages under the regime's (blended) table itself. *)
Theorem normalisation_leaves_scores (scores : Argus.ModuleScores) (w : Chiron.ModuleWeights)
    (inputs : Argus.ModuleInputs) :
  Argus.calculateWeightedScore scores (Chiron.normalizeWeights w)
  == Argus.calculateWeightedScore scores w /\
  Argus.rawCoreScore None inputs
  == Argus.calculateWeightedScore (Argus.collectScores inputs)
       (Chiron.core (Chiron.getBaseWeights (Chiron.detectRegime (Argus.chironContext inputs)))) /\
  Argus.rawPulseScore None inputs
  == Argus.calculateWeightedScore (Argus.collectScores inputs)
       (Chiron.pulse (Chiron.getBaseWeights (Chiron.detectRegime (Argus.chironContext inputs)))).
Proof.
  assert (Hnorm : forall s v, Argus.calculateWeightedScore s (Chiron.normalizeWeights v)
                              == Argus.calculateWeightedScore s v).
  { intros s v. unfold Chiron.normalizeWeights.
    destruct (Qeq_dec (Chiron.weightSum v) 0) as [|Hne]; [reflexivity|].
    apply (calculateWeightedScore_scaled s v _ (/ Chiron.weightSum v)); cbn;
      try reflexivity.
    intros Hinv. apply Hne.
    rewrite <- (Qinv_involutive (Chiron.weightSum v)), Hinv. reflexivity. }
  split; [apply Hnorm|]. split; apply Hnorm.
Qed.

Lemma base_cronos_zero (ctx : Chiron.ChironContext) :
  Chiron.cronos (Chiron.coreWeights (Chiron.evaluate None ctx)) == 0 /\
  Chiron.cronos (Chiron.pulseWeights (Chiron.evaluate None ctx)) == 0.
Proof.
  unfold Chiron.evaluate. cbn [Chiron.coreWeights Chiron.pulseWeights].
  destruct (Chiron.detectRegime ctx); split; reflexivity.
Qed.

Lemma weightless_cronos (scores scores' : Argus.ModuleScores) (w : Chiron.ModuleWeights) :
  Chiron.cronos w == 0 ->
  Argus.atlas scores' = Argus.atlas scores -> Argus.orion scores' = Argus.orion scores ->
  Argus.phoenix scores' = Argus.phoenix scores -> Argus.aether scores' = Argus.aether scores ->
  Argus.demeter scores' = Argus.demeter scores -> Argus.news scores' = Argus.news scores ->
  Argus.calculateWeightedScore scores' w == Argus.calculateWeightedScore scores w.
Proof.
  intros Hw Ha Ho Hp Hae Hd Hn. unfold Argus.calculateWeightedScore.
  rewrite Ha, Ho, Hp, Hae, Hd, Hn.
  apply (scaled_result 1); [discriminate|].
  apply accumulate_scaled; [|ring].
  set (acc := Argus.accumulate (Argus.demeter scores) _ _).
  destruct (Argus.cronos scores) as [v|], (Argus.cronos scores') as [v'|];
    unfold Notions.accScaled; cbn [Argus.accumulate fst snd]; rewrite ?Hw; split; ring.
Qed.

Lemma evaluate_withCronos (cfg : option Chiron.StoredWeights) (inputs : Argus.ModuleInputs)
    (c : option Q) :
  Chiron.evaluate cfg (Argus.chironContext (Notions.withCronos inputs c))
  = Chiron.evaluate cfg (Argus.chironContext inputs).
Proof.
  unfold Chiron.evaluate.
  assert (Hr : Chiron.detectRegime (Argus.chironContext (Notions.withCronos inputs c))
               = Chiron.detectRegime (Argus.chironContext inputs)).
  { unfold Chiron.detectRegime, Argus.chironContext, Argus.collectScores, Notions.withCronos.
    cbn. reflexivity. }
  rewrite Hr. reflexivity.
Qed.

(** X4: without learned weights the timing (cronos) slot weighs nothing
    in every regime: whatever the timing score is, present or absent, the
    core, pulse and composite scores of a decision are the same.  (It
    still counts as a reporting module for the confidence.) *)
Theorem cronos_score_never_moves_scores (inputs : Argus.ModuleInputs) (c : option Q) :
  Argus.rawCoreScore None (Notions.withCronos inputs c) == Argus.rawCoreScore None inputs /\
  Argus.rawPulseScore None (Notions.withCronos inputs c) == Argus.rawPulseScore None inputs /\
  Argus.compositeScore (Argus.makeDecision None (Notions.withCronos inputs c))
  = Argus.compositeScore (Argus.makeDecision None inputs) /\
  Argus.coreScore (Argus.makeDecision None (Notions.withCronos inputs c))
  = Argus.coreScore (Argus.makeDecision None inputs) /\
  Argus.pulseScore (Argus.makeDecision None (Notions.withCronos inputs c))
  = Argus.pulseScore (Argus.makeDecision None inputs).
Proof.
  assert (Hc : Argus.rawCoreScore None (Notions.withCronos inputs c)
               == Argus.rawCoreScore None inputs).
  { unfold Argus.rawCoreScore. rewrite evaluate_withCronos.
    apply weightless_cronos; [exact (proj1 (base_cronos_zero _)) | reflexivity ..]. }
  assert (Hp : Argus.rawPulseScore None (Notions.withCronos inputs c)
               == Argus.rawPulseScore None inputs).
  { unfold Argus.rawPulseScore. rewrite evaluate_withCronos.
    apply weightless_cronos; [exact (proj2 (base_cronos_zero _)) | reflexivity ..]. }
  split; [exact Hc|]. split; [exact Hp|].
  unfold Argus.makeDecision.
  cbn [Argus.compositeScore Argus.coreScore Argus.pulseScore].
  change (Argus.news (Argus.collectScores (Notions.withCronos inputs c)))
    with (Argus.news (Argus.collectScores inputs)).
  set (n := Argus.normalizeNews _). clearbody n.
  set (x := Argus.rawCoreScore None (Notions.withCronos inputs c)) in *.
  set (y := Argus.rawPulseScore None (Notions.withCronos inputs c)) in *.
  set (x' := Argus.rawCoreScore None inputs) in *.
  set (y' := Argus.rawPulseScore None inputs) in *.
  clearbody x y x' y'.
  split; [|split]; apply Math_round_comp.
  - rewrite Hc, Hp. reflexivity.
  - exact Hc.
  - exact Hp.
Qed.

Lemma geb_true (x y : Q) : JS.geb x y = true <-> y <= x.
Proof. unfold JS.geb. apply leb_true. Qed.

Lemma geb_false (x y : Q) : JS.geb x y = false <-> x < y.
Proof. unfold JS.geb. apply leb_false. Qed.

Lemma signalRank_ge (s : Q) :
  ((1 <= Notions.signalRank (Argus.getSignal s))%nat <-> 35 <= s) /\
  ((2 <= Notions.signalRank (Argus.getSignal s))%nat <-> 50 <= s) /\
  ((3 <= Notions.signalRank (Argus.getSignal s))%nat <-> 65 <= s) /\
  ((4 <= Notions.signalRank (Argus.getSignal s))%nat <-> 80 <= s).
Proof.
  unfold Argus.getSignal.
  destruct (JS.geb s 80) eqn:A; destruct (JS.geb s 65) eqn:B;
    destruct (JS.geb s 50) eqn:C; destruct (JS.geb s 35) eqn:D;
    rewrite ?geb_true, ?geb_false in *; cbn;
    repeat split; intros H; first [lia | lra].
Qed.

(** X5: the signal label never gets worse when the score rises, and it
    is Buy or Strong-Buy exactly from 65 up, Sell or Strong-Sell exactly
    below 50. *)
Theorem getSignal_monotone (s1 s2 : Q) :
  (s1 <= s2 ->
   (Notions.signalRank (Argus.getSignal s1) <= Notions.signalRank (Argus.getSignal s2))%nat) /\
  ((3 <= Notions.signalRank (Argus.getSignal s1))%nat <-> 65 <= s1) /\
  ((Notions.signalRank (Argus.getSignal s1) <= 1)%nat <-> s1 < 50).
Proof.
  destruct (signalRank_ge s1) as (H1 & H2 & H3 & H4).
  destruct (signalRank_ge s2) as (K1 & K2 & K3 & K4).
  split; [|split; [exact H3|]].
  - intros Hle.
    assert (Hr : (Notions.signalRank (Argus.getSignal s1) <= 4)%nat)
      by (destruct (Argus.getSignal s1); cbn; lia).
    destruct (Notions.signalRank (Argus.getSignal s1)) as [|[|[|[|[|n]]]]] eqn:E;
      [lia | apply K1 | apply K2 | apply K3 | apply K4 | lia].
    + assert (35 <= s1) by (apply H1; lia). lra.
    + assert (50 <= s1) by (apply H2; lia). lra.
    + assert (65 <= s1) by (apply H3; lia). lra.
    + assert (80 <= s1) by (apply H4; lia). lra.
  - split.
    + intros Hr. destruct (Qlt_le_dec s1 50) as [|Hge]; [assumption|].
      apply H2 in Hge. lia.
    + intros Hlt. destruct (le_lt_dec 2 (Notions.signalRank (Argus.getSignal s1))) as [Hr|Hr];
        [apply H2 in Hr; lra | lia].
Qed.

Lemma getSignal_monotone_witness :
  62 <= 71 /\
  (Notions.signalRank (Argus.getSignal 62) <= Notions.signalRank (Argus.getSignal 71))%nat.
Proof.
  assert (H : 62 <= 71) by discriminate.
  split; [exact H|]. exact (proj1 (getSignal_monotone 62 71) H).
Defined.

Lemma gtb_true (x y : Q) : JS.gtb x y = true <-> y < x.
Proof. unfold JS.gtb. apply ltb_true. Qed.

(** X6: a High confidence needs at least three reporting modules, core
    and pulse scores less than 15 apart, and either both from 65 up with
    a news score above 20 or both at most 35 with a news score below -20.
    A decision made without a sentiment (news score 0) is therefore never
    High; in particular no decision of the trader pool is. *)
Theorem high_confidence_needs_news
    (core pulse news : Q) (scores : Argus.ModuleScores)
    (cfg : option Chiron.StoredWeights) (inputs : Argus.ModuleInputs)
    (symbol : string) (obs : MultiAI.Observation) :
  (Argus.calculateConfidence core pulse news scores = Argus.High ->
   (3 <= Argus.availableModules scores)%nat /\
   Qabs (core - pulse) < 15 /\
   ((65 <= core /\ 65 <= pulse /\ 20 < news) \/
    (core <= 35 /\ pulse <= 35 /\ news < -20))) /\
  (Argus.newsSentiment inputs = None ->
   Argus.confidence (Argus.makeDecision cfg inputs) <> Argus.High) /\
  Argus.confidence (Argus.makeDecision cfg (MultiAI.decisionInputs symbol obs)) <> Argus.High.
Proof.
  assert (Hhigh : forall c p n s,
    Argus.calculateConfidence c p n s = Argus.High ->
    (3 <= Argus.availableModules s)%nat /\
    Qabs (c - p) < 15 /\
    ((65 <= c /\ 65 <= p /\ 20 < n) \/ (c <= 35 /\ p <= 35 /\ n < -20))).
  { intros c p n s. unfold Argus.calculateConfidence.
    destruct (Nat.ltb_spec (Argus.availableModules s) 3) as [|Hge]; [discriminate|].
    cbv zeta. unfold JS.Math_abs.
    destruct (JS.ltb (Qabs (c - p)) 15) eqn:Ediff.
    - apply ltb_true in Ediff.
      destruct (JS.geb c 65) eqn:E1, (JS.geb p 65) eqn:E2, (JS.gtb n 20) eqn:E3,
               (JS.leb c 35) eqn:E4, (JS.leb p 35) eqn:E5, (JS.ltb n (-20)) eqn:E6;
        cbn [andb orb]; try discriminate; intros _;
        rewrite ?geb_true, ?gtb_true, ?leb_true, ?ltb_true in *;
        (split; [exact Hge|]; split; [exact Ediff|]); auto.
    - destruct (JS.ltb (Qabs (c - p)) 30); discriminate. }
  assert (Hnone : forall i, Argus.newsSentiment i = None ->
                            Argus.confidence (Argus.makeDecision cfg i) <> Argus.High).
  { intros i Hn Hc. unfold Argus.makeDecision in Hc. cbn [Argus.confidence] in Hc.
    apply Hhigh in Hc as (_ & _ & Hnews).
    unfold Argus.collectScores in Hnews. cbn [Argus.news] in Hnews. rewrite Hn in Hnews.
    cbn in Hnews. destruct Hnews as [(_ & _ & H) | (_ & _ & H)]; lra. }
  split; [apply Hhigh|]. split; [apply Hnone|]. apply Hnone. reflexivity.
Qed.

Lemma accumulate_between (lo hi : Q) (s : option Q) (w : Q) (acc : Q * Q) :
  Notions.within lo hi s -> 0 <= w -> Notions.accBetween lo hi acc ->
  Notions.accBetween lo hi (Argus.accumulate s w acc).
Proof.
  intros Hs Hw (Ht & Hlo & Hhi). destruct s as [v|]; cbn in Hs; [|repeat split; assumption].
  unfold Notions.accBetween. cbn [Argus.accumulate fst snd].
  assert (H1 : lo * w <= v * w) by (apply Qmult_le_compat_r; lra).
  assert (H2 : v * w <= hi * w) by (apply Qmult_le_compat_r; lra).
  split; [lra|]. split; lra.
Qed.

(** X7: with non-negative weights a weighted score is a weighted average:
    it lies between any two bounds that enclose every value entering it
    (the present module scores and the normalised news score), unless no
    present module carries weight, in which case it is the neutral 50. *)
Theorem weighted_score_is_an_average
    (scores : Argus.ModuleScores) (w : Chiron.ModuleWeights) (lo hi : Q) :
  Chiron.nonneg w ->
  Forall (Notions.within lo hi) (Notions.enteringValues scores) ->
  Argus.calculateWeightedScore scores w = 50 \/
  lo <= Argus.calculateWeightedScore scores w <= hi.
Proof.
  intros (Wa & Wo & Wae & Wd & Wp & Wh & _ & Wc) Hall.
  unfold Notions.enteringValues in Hall.
  repeat match goal with
         | H : Forall _ (_ :: _) |- _ => apply Forall_cons in H as [? H]
         end.
  unfold Argus.calculateWeightedScore.
  match goal with
  | |- context [Argus.accumulate ?s ?x ?a] =>
      lazymatch s with
      | _ <$> _ => assert (Hacc : Notions.accBetween lo hi (Argus.accumulate s x a))
      end
  end.
  { repeat (apply accumulate_between; [assumption | assumption |]).
    unfold Notions.accBetween. cbn. lra. }
  match type of Hacc with Notions.accBetween _ _ ?a => set (acc := a) in * end.
  clearbody acc. destruct Hacc as (Ht & Hlo & Hhi).
  destruct (Qeq_dec (snd acc) 0) as [|Hne]; [left; reflexivity|].
  right. assert (Hpos : 0 < snd acc) by lra. split.
  - apply Qle_shift_div_l; [exact Hpos | lra].
  - apply Qle_shift_div_r; [exact Hpos | lra].
Qed.

Lemma weighted_score_is_an_average_witness :
  let scores := {| Argus.atlas := Some 62; Argus.orion := Some 70; Argus.phoenix := None;
                   Argus.aether := Some 66; Argus.demeter := None; Argus.cronos := None;
                   Argus.news := Some 30 |} in
  let w := Chiron.mkWeights 0.25 0.20 0.20 0.15 0.05 0.05 0.10 0.0 in
  Chiron.nonneg w /\
  Forall (Notions.within 62 70) (Notions.enteringValues scores) /\
  (Argus.calculateWeightedScore scores w = 50 \/
   62 <= Argus.calculateWeightedScore scores w <= 70).
Proof.
  intros scores w.
  assert (Hw : Chiron.nonneg w) by (unfold Chiron.nonneg; cbn; repeat split; discriminate).
  assert (Hall : Forall (Notions.within 62 70) (Notions.enteringValues scores)).
  { unfold Notions.enteringValues. repeat (apply Forall_cons; split);
      try apply Forall_nil; cbn; try exact I; split; discriminate. }
  split; [exact Hw|]. split; [exact Hall|].
  exact (weighted_score_is_an_average scores w 62 70 Hw Hall).
Defined.

(** ** The paper ledger: sizing, valuation and round trips *)

Lemma or_else_price (p d : Q) : ~ p == 0 -> JS.or_else (Some p) d = p.
Proof. intros Hp. unfold JS.or_else. destruct (Qeq_dec p 0); [contradiction | reflexivity]. Qed.

Lemma heldValue_insert (prices : gmap string Q) (m : gmap string PaperBroker.Holding)
    (s : string) (h : PaperBroker.Holding) :
  m !! s = None ->
  PaperView.heldValue prices (<[s := h]> m) ==
    PaperView.heldValue prices m
    + PaperBroker.shares h * JS.or_else (prices !! s) (PaperBroker.avgCost h).
Proof.
  intros Hnone. unfold PaperView.heldValue.
  match goal with |- map_fold ?f _ _ == _ =>
    refine (map_fold_insert Qeq f 0 s h m _ _ Hnone) end.
  - intros j z x y Hxy. rewrite Hxy. reflexivity.
  - intros j1 j2 z1 z2 y _ _ _. ring.
Qed.

Lemma heldValue_delete (prices : gmap string Q) (m : gmap string PaperBroker.Holding)
    (s : string) (h : PaperBroker.Holding) :
  m !! s = Some h ->
  PaperView.heldValue prices m ==
    PaperView.heldValue prices (delete s m)
    + PaperBroker.shares h * JS.or_else (prices !! s) (PaperBroker.avgCost h).
Proof.
  intros Hsome. unfold PaperView.heldValue.
  match goal with |- map_fold ?f _ _ == _ =>
    refine (map_fold_delete Qeq f 0 s h m _ _ Hsome) end.
  - intros j z x y Hxy. rewrite Hxy. reflexivity.
  - intros j1 j2 z1 z2 y _ _ _. ring.
Qed.

Lemma heldValue_replace (prices : gmap string Q) (m : gmap string PaperBroker.Holding)
    (s : string) (old h : PaperBroker.Holding) :
  m !! s = Some old ->
  PaperView.heldValue prices (<[s := h]> m) ==
    PaperView.heldValue prices m
    - PaperBroker.shares old * JS.or_else (prices !! s) (PaperBroker.avgCost old)
    + PaperBroker.shares h * JS.or_else (prices !! s) (PaperBroker.avgCost h).
Proof.
  intros Hsome.
  rewrite <- (insert_delete_eq m s h).
  rewrite heldValue_insert by apply lookup_delete_eq.
  rewrite (heldValue_delete prices m s old Hsome). ring.
Qed.

Lemma getTotalValue_split (prices : gmap string Q) (st : PaperBroker.Ledger) :
  PaperBroker.getTotalValue prices st ==
    PaperBroker.cash st + PaperView.heldValue prices (PaperBroker.positions st).
Proof.
  unfold PaperBroker.getTotalValue, PaperView.heldValue.
  rewrite !map_fold_foldr.
  induction (map_to_list (PaperBroker.positions st)) as [|[k h] l IH]; cbn.
  - ring.
  - rewrite IH. ring.
Qed.

(** X8: a trade at the price the holdings are valued at moves value
    between cash and the position and creates none: after [buy] and after
    [sell] (full or partial) the total value of the ledger, under any
    price list that quotes the traded symbol at the trade price, is the
    one before the call.  The price is not zero. *)
Theorem trades_conserve_total_value (symbol : string) (price : Q) (reason : Reason)
    (score : Q) (sellAll : bool) (prices : gmap string Q) (st : PaperBroker.Ledger) :
  ~ price == 0 ->
  prices !! symbol = Some price ->
  PaperBroker.getTotalValue prices (snd (PaperBroker.buy symbol price reason score st))
    == PaperBroker.getTotalValue prices st /\
  PaperBroker.getTotalValue prices (snd (PaperBroker.sell symbol price reason score sellAll st))
    == PaperBroker.getTotalValue prices st.
Proof.
  intros Hprice Hquote. split.
  - destruct (PaperBroker.buy symbol price reason score st) as [[trade|] st'] eqn:Hbuy.
    + apply buy_executed in Hbuy as (_ & _ & _ & Htotal & _ & _ & Hcash & _ & _ & Hps).
      cbn [snd]. rewrite !getTotalValue_split, Hcash, Hps, Htotal.
      destruct (PaperBroker.positions st !! symbol) as [existing|] eqn:Hex.
      * rewrite (heldValue_replace prices _ symbol existing _ Hex).
        rewrite Hquote, !or_else_price by exact Hprice. cbn. ring.
      * rewrite (heldValue_insert prices _ symbol _ Hex).
        rewrite Hquote, or_else_price by exact Hprice. cbn. ring.
    + pose proof (buy_null_unchanged symbol price reason score st) as Hsame.
      rewrite Hbuy in Hsame. cbn in *. rewrite Hsame; reflexivity.
  - destruct (PaperBroker.sell symbol price reason score sellAll st) as [[trade|] st'] eqn:Hsell.
    + apply sell_executed in Hsell
        as (position & Hlook & _ & Hsh & Htotal & _ & _ & Hcash & _ & _ & Hps).
      cbn [snd]. rewrite !getTotalValue_split, Hcash, Hps, Htotal.
      destruct sellAll.
      * rewrite (heldValue_delete prices _ symbol position Hlook).
        rewrite Hquote, or_else_price by exact Hprice. rewrite Hsh. ring.
      * rewrite (heldValue_replace prices _ symbol position _ Hlook).
        rewrite Hquote, !or_else_price by exact Hprice. cbn. ring.
    + pose proof (sell_null_unchanged symbol price reason score sellAll st) as Hsame.
      rewrite Hsell in Hsame. cbn in *. rewrite Hsame; reflexivity.
Qed.

Lemma trades_conserve_total_value_witness :
  let st := snd (PaperBroker.buy "AAPL" 100 BuySignalReason 70 (PaperBroker.opened 5000)) in
  let prices : gmap string Q := {[ "AAPL" := 100 ]} in
  ~ 100 == 0 /\
  prices !! "AAPL" = Some 100 /\
  PaperBroker.getTotalValue prices (snd (PaperBroker.buy "AAPL" 100 BuySignalReason 70 st))
    == PaperBroker.getTotalValue prices st /\
  PaperBroker.getTotalValue prices
    (snd (PaperBroker.sell "AAPL" 100 BuySignalReason 70 false st))
    == PaperBroker.getTotalValue prices st.
Proof.
  intros st prices.
  assert (Hp : ~ 100 == 0) by discriminate.
  assert (Hq : prices !! "AAPL" = Some 100) by reflexivity.
  split; [exact Hp|]. split; [exact Hq|].
  exact (trades_conserve_total_value "AAPL" 100 BuySignalReason 70 false prices st Hp Hq).
Defined.

(** X9: the size of an executed [buy] at a positive price: a whole
    number of shares, at least one; the amount is at most 20% of the
    total value of the ledger (the traded symbol valued at the trade
    price) and at most 90% of the cash, so at least a tenth of the cash
    is left; and one more share would not have fitted the sized
    investment. *)
Theorem buy_size_limits (symbol : string) (price : Q) (reason : Reason) (score : Q)
    (st st' : PaperBroker.Ledger) (trade : PaperBroker.Trade) :
  0 < price ->
  PaperBroker.buy symbol price reason score st = (Some trade, st') ->
  (exists n : Z, (1 <= n)%Z /\ PaperBroker.t_shares trade = inject_Z n) /\
  PaperBroker.t_total trade
    <= PaperBroker.MAX_POSITION_SIZE * PaperBroker.getTotalValue {[symbol := price]} st /\
  PaperBroker.t_total trade <= 0.9 * PaperBroker.cash st /\
  0.1 * PaperBroker.cash st <= PaperBroker.cash st' /\
  PaperBroker.investment symbol price st < PaperBroker.t_total trade + price.
Proof.
  intros Hprice Hbuy.
  apply buy_executed in Hbuy as (_ & Hone & Hsh & Htotal & _ & _ & Hcash & _).
  pose proof (floor_times_le (PaperBroker.investment symbol price st) price Hprice) as Hfl.
  rewrite <- Hsh, <- Htotal in Hfl.
  assert (Hinv1 : PaperBroker.investment symbol price st
                  <= PaperBroker.getTotalValue {[symbol := price]} st
                     * PaperBroker.MAX_POSITION_SIZE).
  { unfold PaperBroker.investment, JS.Math_min. apply Q.le_min_l. }
  assert (Hinv2 : PaperBroker.investment symbol price st <= PaperBroker.cash st * 0.9).
  { unfold PaperBroker.investment, JS.Math_min. apply Q.le_min_r. }
  split; [|split; [|split; [|split]]].
  - exists (JS.Math_floor (PaperBroker.investment symbol price st / price)).
    split; [|exact Hsh].
    rewrite Hsh in Hone. change 1 with (inject_Z 1) in Hone.
    rewrite <- Zle_Qle in Hone. exact Hone.
  - set (v := PaperBroker.getTotalValue _ _) in *.
    set (m := PaperBroker.MAX_POSITION_SIZE) in *. lra.
  - lra.
  - rewrite Hcash. lra.
  - pose proof (Qlt_floor (PaperBroker.investment symbol price st / price)) as Hlt.
    rewrite inject_Z_plus in Hlt. change (inject_Z 1) with 1 in Hlt.
    fold (JS.Math_floor (PaperBroker.investment symbol price st / price)) in Hlt.
    rewrite <- Hsh in Hlt.
    assert (Hmul : (PaperBroker.investment symbol price st / price) * price
                   < (PaperBroker.t_shares trade + 1) * price).
    { apply Qmult_lt_r; assumption. }
    assert (Hdiv : (PaperBroker.investment symbol price st / price) * price
                   == PaperBroker.investment symbol price st) by (field; lra).
    rewrite Hdiv in Hmul. rewrite Htotal.
    set (i := PaperBroker.investment symbol price st) in *.
    set (n := PaperBroker.t_shares trade) in *.
    assert (Hexp : (n + 1) * price == n * price + price) by ring.
    rewrite Hexp in Hmul. exact Hmul.
Qed.

Lemma buy_size_limits_witness :
  let st := PaperBroker.opened 5000 in
  let r := PaperBroker.buy "AAPL" 30 BuySignalReason 70 st in
  0 < 30 /\
  exists trade, fst r = Some trade /\
  PaperBroker.t_total trade
    <= PaperBroker.MAX_POSITION_SIZE * PaperBroker.getTotalValue {["AAPL" := 30]} st /\
  0.1 * PaperBroker.cash st <= PaperBroker.cash (snd r) /\
  PaperBroker.investment "AAPL" 30 st < PaperBroker.t_total trade + 30.
Proof.
  intros st r.
  assert (Hp : 0 < 30) by reflexivity.
  split; [exact Hp|].
  destruct r as [[trade|] st'] eqn:Hr; [|discriminate Hr].
  exists trade. split; [reflexivity|].
  destruct (buy_size_limits "AAPL" 30 BuySignalReason 70 st st' trade Hp Hr)
    as (_ & H1 & _ & H2 & H3).
  split; [exact H1|]. split; [exact H2 | exact H3].
Defined.

(** X10: a round trip.  On a ledger without a position in the symbol, an
    executed [buy] (at a price that is not zero) followed by a full
    [sell] always executes, restores the position map, leaves the cash
    changed by exactly the number of shares times the price difference,
    and records the two trades on top of the history. *)
Theorem buy_then_sell_all_round_trip (symbol : string) (p1 p2 : Q) (r1 r2 : Reason)
    (s1 s2 : Q) (st st1 : PaperBroker.Ledger) (t1 : PaperBroker.Trade) :
  ~ p1 == 0 ->
  PaperBroker.positions st !! symbol = None ->
  PaperBroker.buy symbol p1 r1 s1 st = (Some t1, st1) ->
  exists t2 st2,
    PaperBroker.sell symbol p2 r2 s2 true st1 = (Some t2, st2) /\
    PaperBroker.positions st2 = PaperBroker.positions st /\
    PaperBroker.t_shares t2 = PaperBroker.t_shares t1 /\
    PaperBroker.cash st2 == PaperBroker.cash st + PaperBroker.t_shares t1 * (p2 - p1) /\
    PaperBroker.trades st2 = t2 :: t1 :: PaperBroker.trades st.
Proof.
  intros _ Hnone Hbuy.
  apply buy_executed in Hbuy as (_ & Hone & _ & Htotal & _ & _ & Hcash & Htr & _ & Hps).
  rewrite Hnone in Hps.
  unfold PaperBroker.sell. rewrite Hps, lookup_insert_eq. cbn [PaperBroker.shares].
  assert (Hpos : JS.leb (PaperBroker.t_shares t1) 0 = false) by (apply leb_false; lra).
  rewrite Hpos. eexists. eexists. split; [reflexivity|]. cbn.
  split; [apply delete_insert_id; exact Hnone|].
  split; [reflexivity|]. split.
  - rewrite Hcash, Htotal. ring.
  - rewrite Htr. reflexivity.
Qed.

Lemma buy_then_sell_all_round_trip_witness :
  let st := PaperBroker.opened 5000 in
  ~ 100 == 0 /\
  PaperBroker.positions st !! "AAPL" = None /\
  exists t1 st1 t2 st2,
    PaperBroker.buy "AAPL" 100 BuySignalReason 70 st = (Some t1, st1) /\
    PaperBroker.sell "AAPL" 110 SellSignalReason 30 true st1 = (Some t2, st2) /\
    PaperBroker.positions st2 = PaperBroker.positions st /\
    PaperBroker.cash st2 == PaperBroker.cash st + PaperBroker.t_shares t1 * (110 - 100).
Proof.
  intros st.
  assert (Hprice : ~ 100 == 0) by discriminate.
  assert (Hnone : PaperBroker.positions st !! "AAPL" = None) by reflexivity.
  split; [exact Hprice|]. split; [exact Hnone|].
  destruct (PaperBroker.buy "AAPL" 100 BuySignalReason 70 st) as [[t1|] st1] eqn:Hbuy;
    [|discriminate Hbuy].
  exists t1, st1.
  destruct (buy_then_sell_all_round_trip "AAPL" 100 110 BuySignalReason SellSignalReason
              70 30 st st1 t1 Hprice Hnone Hbuy) as (t2 & st2 & Hsell & Hps & _ & Hcash & _).
  exists t2, st2.
  split; [reflexivity|]. split; [exact Hsell|]. split; [exact Hps | exact Hcash].
Defined.

(** X11: [shouldStopLoss] around the 90% level.  For a position of
    positive average cost the test fires at every price at or below 90%
    of the average cost less the rounding margin, and at no price above
    90% plus the margin; it never fires for a symbol without a position;
    right after a first [buy] of a symbol at a positive price the level
    is 90% of that price.  Inside the margin the rounded percentage
    decides: with an average cost of 6.3 and a price of 5.67 (the doubles
    nearest to them) the test fires although the price is above nine
    tenths of the cost, and a price of 0.9 on a cost of 1 does not fire,
    while 90 on a cost of 100 does. *)
Theorem shouldStopLoss_around_ninety_percent (symbol : string) (currentPrice : Q)
    (st : PaperBroker.Ledger) :
  (forall position,
     PaperBroker.positions st !! symbol = Some position ->
     0 < PaperBroker.avgCost position ->
     (currentPrice <= PaperBroker.avgCost position * (0.9 - Notions.margin) ->
      PaperBroker.shouldStopLoss symbol currentPrice st = true) /\
     (PaperBroker.shouldStopLoss symbol currentPrice st = true ->
      currentPrice <= PaperBroker.avgCost position * (0.9 + Notions.margin))) /\
  (PaperBroker.positions st !! symbol = None ->
   PaperBroker.shouldStopLoss symbol currentPrice st = false) /\
  (forall price reason score trade st',
     0 < price ->
     PaperBroker.positions st !! symbol = None ->
     PaperBroker.buy symbol price reason score st = (Some trade, st') ->
     (currentPrice <= price * (0.9 - Notions.margin) ->
      PaperBroker.shouldStopLoss symbol currentPrice st' = true) /\
     (PaperBroker.shouldStopLoss symbol currentPrice st' = true ->
      currentPrice <= price * (0.9 + Notions.margin))) /\
  (let held := fun cost : Q =>
     {| PaperBroker.cash := 0;
        PaperBroker.positions :=
          {[symbol := {| PaperBroker.shares := 1; PaperBroker.avgCost := cost |}]};
        PaperBroker.trades := []; PaperBroker.startingCapital := 0 |} in
   PaperBroker.shouldStopLoss symbol (JS.double 5.67) (held (JS.double 6.3)) = true /\
   JS.double 6.3 * 0.9 < JS.double 5.67 /\
   PaperBroker.shouldStopLoss symbol (JS.double 0.9) (held 1) = false /\
   PaperBroker.shouldStopLoss symbol 90 (held 100) = true).
Proof.
  assert (Hlevel : forall a : Q, 0 < a ->
            (currentPrice <= a * (0.9 - Notions.margin) ->
             JS.leb (JS.fmul (JS.fdiv (JS.fsub currentPrice a) a) 100)
                    PaperBroker.STOP_LOSS_PERCENT = true) /\
            (JS.leb (JS.fmul (JS.fdiv (JS.fsub currentPrice a) a) 100)
                    PaperBroker.STOP_LOSS_PERCENT = true ->
             currentPrice <= a * (0.9 + Notions.margin))).
  { intros a Ha. rewrite leb_true. unfold PaperBroker.STOP_LOSS_PERCENT.
    destruct (percent_below currentPrice a 10 Ha) as [Hfire Hfired]; [reflexivity | discriminate |].
    cbv zeta in Hfire, Hfired. set (t := JS.fmul _ _) in *.
    unfold Notions.margin in *.
    change (10 / 100) with (10 * (1 # 100)) in Hfire, Hfired.
    split; intros H.
    - assert (Ht : t <= - (10)) by (apply Hfire; lra). lra.
    - assert (Ht : t <= - (10)) by lra. apply Hfired in Ht. lra. }
  split; [|split; [|split]].
  - intros position Hlook Havg. unfold PaperBroker.shouldStopLoss. rewrite Hlook.
    apply Hlevel, Havg.
  - intros Hnone. unfold PaperBroker.shouldStopLoss. rewrite Hnone. reflexivity.
  - intros price reason score trade st' Hprice Hnone Hbuy.
    apply buy_executed in Hbuy as (_ & _ & _ & _ & _ & _ & _ & _ & _ & Hps).
    rewrite Hnone in Hps.
    unfold PaperBroker.shouldStopLoss. rewrite Hps, lookup_insert_eq.
    cbn [PaperBroker.avgCost]. apply Hlevel, Hprice.
  - cbv zeta. unfold PaperBroker.shouldStopLoss. cbn [PaperBroker.positions].
    rewrite !lookup_singleton_eq. cbn [PaperBroker.avgCost].
    split; [vm_compute; reflexivity|]. split; [vm_compute; reflexivity|].
    split; vm_compute; reflexivity.
Qed.

(** *** The portfolio projection *)

Lemma getPortfolio_fold (currentPrices : gmap string Q) (c : Q)
    (l : list (string * PaperBroker.Holding)) :
  let g := fun (symbol : string) (pos : PaperBroker.Holding) (acc : list PaperView.Position * Q) =>
             (fst acc ++ [PaperView.project currentPrices symbol pos],
              snd acc + PaperView.marketValue (PaperView.project currentPrices symbol pos)) in
  let f := fun (symbol : string) (pos : PaperBroker.Holding) (total : Q) =>
             total + PaperBroker.shares pos
                     * JS.or_else (currentPrices !! symbol) (PaperBroker.avgCost pos) in
  fst (foldr (uncurry g) ([], c) l)
    = reverse (map (uncurry (PaperView.project currentPrices)) l) /\
  snd (foldr (uncurry g) ([], c) l) = foldr (uncurry f) c l.
Proof.
  intros g f. induction l as [|[k h] l [IH1 IH2]]; [split; reflexivity|].
  cbn [foldr map uncurry]. unfold g at 1 3. cbn [fst snd].
  rewrite IH1, IH2, reverse_cons. split; reflexivity.
Qed.

(** X12: [getPortfolio] agrees with the valuation used for sizing:
    its [totalValue] is [getTotalValue] under the same prices, its
    profit is that value less the starting capital, it lists exactly
    one entry per held symbol, and every entry carries the holding's
    shares and average cost with [marketValue = shares * currentPrice]
    and [unrealizedPL = marketValue - shares * avgCost]. *)
Theorem getPortfolio_consistent (currentPrices : gmap string Q) (st : PaperBroker.Ledger) :
  let pf := PaperView.getPortfolio currentPrices st in
  PaperView.totalValue pf = PaperBroker.getTotalValue currentPrices st /\
  PaperView.totalPL pf = PaperBroker.getTotalValue currentPrices st
                         - PaperBroker.startingCapital st /\
  PaperView.cash pf = PaperBroker.cash st /\
  length (PaperView.positions pf) = size (PaperBroker.positions st) /\
  (forall p : PaperView.Position,
     p ∈ PaperView.positions pf <->
     exists pos, PaperBroker.positions st !! PaperView.symbol p = Some pos /\
                 p = PaperView.project currentPrices (PaperView.symbol p) pos) /\
  (forall p : PaperView.Position,
     p ∈ PaperView.positions pf ->
     PaperView.marketValue p = PaperView.shares p * PaperView.currentPrice p /\
     PaperView.unrealizedPL p
       = PaperView.marketValue p - PaperView.shares p * PaperView.avgCost p).
Proof.
  cbv zeta.
  assert (Hin : forall p : PaperView.Position,
            p ∈ PaperView.positions (PaperView.getPortfolio currentPrices st) <->
            exists pos, PaperBroker.positions st !! PaperView.symbol p = Some pos /\
                        p = PaperView.project currentPrices (PaperView.symbol p) pos).
  { intros p. unfold PaperView.getPortfolio. cbn [PaperView.positions].
    rewrite map_fold_foldr.
    rewrite (proj1 (getPortfolio_fold currentPrices (PaperBroker.cash st) _)).
    rewrite elem_of_reverse, list_elem_of_fmap. split.
    - intros [[k h] [-> Hel]]. apply elem_of_map_to_list in Hel.
      exists h. split; [exact Hel | reflexivity].
    - intros [pos [Hlook Hp]]. exists (PaperView.symbol p, pos). split; [exact Hp|].
      apply elem_of_map_to_list. exact Hlook. }
  unfold PaperView.getPortfolio at 1 2 3 4. cbn [PaperView.totalValue PaperView.totalPL
    PaperView.cash PaperView.positions].
  rewrite !map_fold_foldr.
  destruct (getPortfolio_fold currentPrices (PaperBroker.cash st)
              (map_to_list (PaperBroker.positions st))) as [H1 H2].
  cbv zeta in H1, H2.
  split; [|split; [|split; [|split; [|split]]]].
  - unfold PaperBroker.getTotalValue. rewrite map_fold_foldr. exact H2.
  - unfold PaperBroker.getTotalValue. rewrite map_fold_foldr, <- H2. reflexivity.
  - reflexivity.
  - rewrite H1, length_reverse, length_map. apply length_map_to_list.
  - exact Hin.
  - intros p Hp. apply Hin in Hp as [pos [_ ->]]. split; reflexivity.
Qed.

(** *** Whole shares *)

Lemma ceil_half_whole (n : Z) :
  JS.Math_ceil (inject_Z n / 2) = ((n + 1) / 2)%Z.
Proof.
  unfold JS.Math_ceil, Qceiling, Qfloor. cbn.
  rewrite Z.mul_1_r. change (Z.pos (1 * 2)) with 2%Z.
  pose proof (Z.div_mod (- n) 2) as H1. pose proof (Z.mod_pos_bound (- n) 2) as H2.
  pose proof (Z.div_mod (n + 1) 2) as H3. pose proof (Z.mod_pos_bound (n + 1) 2) as H4.
  lia.
Qed.

Lemma sell_half_whole (s : Q) (n : Z) :
  s == inject_Z n ->
  inject_Z (JS.Math_ceil (s / 2)) == inject_Z ((n + 1) / 2) /\
  s - inject_Z (JS.Math_ceil (s / 2)) == inject_Z (n / 2).
Proof.
  intros Hs.
  assert (Hc : JS.Math_ceil (s / 2) = ((n + 1) / 2)%Z).
  { rewrite <- ceil_half_whole. unfold JS.Math_ceil. apply Qceiling_comp.
    rewrite Hs. reflexivity. }
  rewrite Hc. split; [reflexivity|].
  rewrite Hs. unfold Qminus. rewrite <- inject_Z_opp, <- inject_Z_plus.
  apply inject_Z_injective.
  pose proof (Z.div_mod n 2) as H1. pose proof (Z.mod_pos_bound n 2) as H2.
  pose proof (Z.div_mod (n + 1) 2) as H3. pose proof (Z.mod_pos_bound (n + 1) 2) as H4.
  lia.
Qed.

Lemma step_wholeShares (op : PaperBroker.Op) (st : PaperBroker.Ledger) :
  PaperView.wholeShares st -> PaperView.wholeShares (snd (PaperBroker.step op st)).
Proof.
  intros Hw. destruct op as [symbol price reason score | symbol price reason score sellAll];
    cbn [PaperBroker.step].
  - destruct (PaperBroker.buy symbol price reason score st) as [[trade|] st'] eqn:Hbuy.
    + apply buy_executed in Hbuy as (_ & Hone & Hsh & _ & _ & _ & _ & _ & _ & Hps).
      unfold PaperView.wholeShares in *. cbn [snd]. rewrite Hps.
      apply map_Forall_insert_2; [|exact Hw].
      rewrite Hsh in Hone. change 1 with (inject_Z 1) in Hone. rewrite <- Zle_Qle in Hone.
      destruct (PaperBroker.positions st !! symbol) as [existing|] eqn:Hex;
        cbn [PaperBroker.shares].
      * destruct (Hw _ _ Hex) as (n & Hn & Heq).
        exists (n + JS.Math_floor (PaperBroker.investment symbol price st / price))%Z.
        split; [lia|]. rewrite Heq, Hsh, inject_Z_plus. reflexivity.
      * exists (JS.Math_floor (PaperBroker.investment symbol price st / price)).
        split; [lia|]. rewrite Hsh. reflexivity.
    + pose proof (buy_null_unchanged symbol price reason score st) as Hsame.
      rewrite Hbuy in Hsame. cbn in *. rewrite Hsame; [exact Hw | reflexivity].
  - destruct (PaperBroker.sell symbol price reason score sellAll st) as [[trade|] st'] eqn:Hsell.
    + apply sell_executed in Hsell
        as (position & Hlook & _ & Hsh & _ & _ & _ & _ & _ & _ & Hps).
      unfold PaperView.wholeShares in *. cbn [snd]. rewrite Hps.
      destruct sellAll.
      * apply map_Forall_delete, Hw.
      * apply map_Forall_insert_2; [|exact Hw]. cbn [PaperBroker.shares].
        destruct (Hw _ _ Hlook) as (n & Hn & Heq).
        exists (n / 2)%Z. split; [apply Z.div_pos; lia|].
        rewrite Hsh. apply (sell_half_whole _ n Heq).
    + pose proof (sell_null_unchanged symbol price reason score sellAll st) as Hsame.
      rewrite Hsell in Hsame. cbn in *. rewrite Hsame; [exact Hw | reflexivity].
Qed.

Lemma run_wholeShares (ops : list PaperBroker.Op) (st : PaperBroker.Ledger) :
  PaperView.wholeShares st -> PaperView.wholeShares (PaperBroker.run ops st).
Proof.
  revert st. induction ops as [|op ops IH]; intros st Hw; [exact Hw|].
  cbn. apply IH, step_wholeShares, Hw.
Qed.

(** X13: the ledger only ever holds whole shares.  After any history
    of buys and sells (full or partial, at prices that are not zero) on
    a ledger opened empty, every position is a whole, non-negative
    number of shares; and a partial sell of a position of [n] whole
    shares sells [ceil(n/2)] of them and leaves [floor(n/2)]. *)
Theorem holdings_are_whole_shares (capital : Q) (ops : list PaperBroker.Op) :
  Forall (fun op => ~ PaperBroker.opPrice op == 0) ops ->
  let st := PaperBroker.run ops (PaperBroker.opened capital) in
  PaperView.wholeShares st /\
  (forall symbol price reason score position (n : Z),
     PaperBroker.positions st !! symbol = Some position ->
     PaperBroker.shares position == inject_Z n ->
     (0 < n)%Z ->
     exists trade st',
       PaperBroker.sell symbol price reason score false st = (Some trade, st') /\
       PaperBroker.t_shares trade == inject_Z ((n + 1) / 2) /\
       exists left, PaperBroker.positions st' !! symbol = Some left /\
                    PaperBroker.shares left == inject_Z (n / 2) /\
                    PaperBroker.avgCost left = PaperBroker.avgCost position).
Proof.
  intros _. cbv zeta. split.
  - apply run_wholeShares. unfold PaperView.wholeShares, PaperBroker.opened. cbn.
    apply map_Forall_empty.
  - intros symbol price reason score position n Hlook Heq Hn.
    unfold PaperBroker.sell. rewrite Hlook.
    assert (Hpos : JS.leb (PaperBroker.shares position) 0 = false).
    { apply leb_false. rewrite Heq. change 0 with (inject_Z 0). rewrite <- Zlt_Qlt. exact Hn. }
    rewrite Hpos. eexists. eexists. split; [reflexivity|]. cbn.
    destruct (sell_half_whole _ n Heq) as [Hsold Hleft].
    split; [exact Hsold|].
    eexists. split; [apply lookup_insert_eq|]. cbn. split; [exact Hleft | reflexivity].
Qed.

Lemma holdings_are_whole_shares_witness :
  let ops := [PaperBroker.OpBuy "AAPL" 30 BuySignalReason 70;
              PaperBroker.OpSell "AAPL" 33 SellSignalReason 30 false] in
  Forall (fun op => ~ PaperBroker.opPrice op == 0) ops /\
  PaperView.wholeShares (PaperBroker.run ops (PaperBroker.opened 5000)).
Proof.
  intros ops.
  assert (Hops : Forall (fun op => ~ PaperBroker.opPrice op == 0) ops).
  { repeat constructor; discriminate. }
  split; [exact Hops|].
  exact (proj1 (holdings_are_whole_shares 5000 ops Hops)).
Defined.

(** *** The stored state *)

Lemma newMap_entries (m : gmap string PaperBroker.Holding) :
  PaperView.newMap (map_to_list m) = m.
Proof.
  unfold PaperView.newMap.
  rewrite <- (fold_left_rev_right
                (fun (entry : string * PaperBroker.Holding) (acc : gmap string PaperBroker.Holding) =>
                   <[fst entry := snd entry]> acc)).
  change (list_to_map (rev (map_to_list m)) = m).
  rewrite <- (list_to_map_to_list m) at 2.
  apply list_to_map_proper.
  - rewrite <- (Permutation_rev (map_to_list m)). apply NoDup_fst_map_to_list.
  - symmetry. apply Permutation_rev.
Qed.

(** X14: what [saveState] writes, [loadState] reads back: loading the
    saved state of a ledger whose starting capital is not zero gives
    that ledger again, whatever the ledger loaded into; a stored
    starting capital of zero is replaced by the initial capital
    100000; and with nothing stored the ledger is left as it is. *)
Theorem saveState_loadState_round_trip (st st0 : PaperBroker.Ledger) :
  (~ PaperBroker.startingCapital st == 0 ->
   PaperView.loadState (Some (PaperView.saveState st)) st0 = st) /\
  (PaperBroker.startingCapital st == 0 ->
   PaperBroker.startingCapital (PaperView.loadState (Some (PaperView.saveState st)) st0)
     = PaperBroker.INITIAL_CAPITAL /\
   PaperBroker.cash (PaperView.loadState (Some (PaperView.saveState st)) st0)
     = PaperBroker.cash st /\
   PaperBroker.positions (PaperView.loadState (Some (PaperView.saveState st)) st0)
     = PaperBroker.positions st) /\
  PaperView.loadState None st0 = st0.
Proof.
  split; [|split; [|reflexivity]].
  - intros Hcap. destruct st as [c ps ts sc]. unfold PaperView.loadState, PaperView.saveState.
    cbn [PaperView.s_cash PaperView.s_positions PaperView.s_trades PaperView.s_startingCapital
         PaperBroker.positions PaperBroker.cash PaperBroker.trades PaperBroker.startingCapital]
      in *.
    rewrite newMap_entries, or_else_price by exact Hcap. reflexivity.
  - intros Hcap. destruct st as [c ps ts sc]. unfold PaperView.loadState, PaperView.saveState.
    cbn [PaperView.s_cash PaperView.s_positions PaperView.s_trades PaperView.s_startingCapital
         PaperBroker.positions PaperBroker.cash PaperBroker.trades PaperBroker.startingCapital]
      in *.
    rewrite newMap_entries. unfold JS.or_else.
    destruct (Qeq_dec sc 0); [|contradiction]. repeat split.
Qed.

(** ** The trader pool: bookkeeping, value and exits *)

Lemma analyzeSymbol_tidy (cfg : option Chiron.StoredWeights) (config : MultiAI.Thresholds)
    (market : string -> option MultiAI.Observation) (trader : MultiAI.AITrader)
    (th : list MultiAI.Thought) (s : string) :
  s ∈ MultiAI.symbols config ->
  PoolView.tidy config trader ->
  PoolView.tidy config (fst (MultiAI.analyzeSymbol cfg config market (trader, th) s)).
Proof.
  intros Hs (Hsize & Hcount & Hfiled).
  destruct (analyzeSymbol_inv cfg config market trader th s)
    as [[-> _] | [(obs & position & _ & Hpos & _ & _ & _ & ->)
       | [(obs & position & reason & Hm & Hpos & _ & ->)
         | (obs & Hm & Hpos & _ & Hroom & _ & _ & ->)]]]; cbn [fst].
  - exact (conj Hsize (conj Hcount Hfiled)).
  - unfold PoolView.tidy. cbn. split; [|split; [exact Hcount|]].
    + rewrite map_size_insert_Some by eauto. exact Hsize.
    + apply map_Forall_insert_2; [|exact Hfiled]. cbn. exact (Hfiled _ _ Hpos).
  - destruct (executeSell_refreshed trader s position (MultiAI.quotePrice obs) reason Hpos)
      as (Htr & Hps & _ & _).
    unfold PoolView.tidy. rewrite Htr, Hps. split; [|split].
    + rewrite map_size_delete_Some by eauto. lia.
    + unfold MultiAI.executeSell, MultiAI.refreshed, MultiAI.withPositions.
      cbn [MultiAI.positions]. rewrite lookup_insert_eq. cbn. rewrite Hcount. reflexivity.
    + apply map_Forall_delete, Hfiled.
  - unfold PoolView.tidy. cbn. split; [|split].
    + rewrite map_size_insert_None by exact Hpos. lia.
    + rewrite Hcount. reflexivity.
    + apply map_Forall_insert_2; [|exact Hfiled]. cbn. split; [reflexivity | exact Hs].
Qed.

Lemma analyzeSymbols_tidy (cfg : option Chiron.StoredWeights) (config : MultiAI.Thresholds)
    (market : string -> option MultiAI.Observation) (syms : list string) :
  (forall s, s ∈ syms -> s ∈ MultiAI.symbols config) ->
  forall acc, PoolView.tidy config (fst acc) ->
              PoolView.tidy config (fst (MultiAI.analyzeSymbols cfg config market syms acc)).
Proof.
  induction syms as [|s syms IH]; intros Hsub [trader th] Htidy; [exact Htidy|].
  unfold MultiAI.analyzeSymbols. cbn [fold_left].
  apply IH.
  - intros s' Hs'. apply Hsub. right. exact Hs'.
  - apply analyzeSymbol_tidy; [apply Hsub; left | exact Htidy].
Qed.

Lemma updateTraderStats_winRate (trader : MultiAI.AITrader) :
  0 <= MultiAI.winRate (MultiAI.updateTraderStats trader) <= 100.
Proof.
  unfold MultiAI.updateTraderStats. cbn [MultiAI.winRate].
  set (closed := List.filter MultiAI.isSell (MultiAI.trades trader)).
  pose proof (filter_length_le MultiAI.isWinning closed) as Hle.
  set (w := length (List.filter MultiAI.isWinning closed)) in *.
  destruct (Nat.ltb 0 (length closed)) eqn:Hc; [|split; discriminate].
  apply Nat.ltb_lt in Hc.
  assert (Hcq : 0 < inject_Z (Z.of_nat (length closed))).
  { change 0 with (inject_Z 0). rewrite <- Zlt_Qlt. lia. }
  assert (Hwq : 0 <= inject_Z (Z.of_nat w)).
  { change 0 with (inject_Z 0). rewrite <- Zle_Qle. lia. }
  assert (Hwc : inject_Z (Z.of_nat w) <= inject_Z (Z.of_nat (length closed))).
  { rewrite <- Zle_Qle. lia. }
  set (a := inject_Z (Z.of_nat w)) in *. set (c := inject_Z (Z.of_nat (length closed))) in *.
  assert (H0 : 0 <= a / c) by (apply Qle_shift_div_l; [exact Hcq | lra]).
  assert (H1 : a / c <= 1) by (apply Qle_shift_div_r; [exact Hcq | lra]).
  split; lra.
Qed.

Lemma analyzeAndTrade_tidy (cfg : option Chiron.StoredWeights)
    (market : string -> option MultiAI.Observation) (personality : MultiAI.AIPersonality)
    (trader : MultiAI.AITrader) :
  PoolView.tidy (MultiAI.THRESHOLDS personality) trader ->
  PoolView.tidy (MultiAI.THRESHOLDS personality)
                (MultiAI.analyzeAndTrade cfg market personality trader).
Proof.
  intros Htidy.
  exact (analyzeSymbols_tidy cfg (MultiAI.THRESHOLDS personality) market
           (MultiAI.symbols (MultiAI.THRESHOLDS personality)) (fun s H => H)
           (trader, []) Htidy).
Qed.

(** X15: the bookkeeping of the trader pool.  After any number of
    ticks of a personality from a fresh trader, whatever the market data:
    the trader holds at most [maxPositions] positions, each filed under
    its own symbol and each a symbol of the personality; the trade
    counter is the number of recorded trades; the win rate is a
    percentage between 0 and 100; and the trader keeps its personality
    and its initial capital of 1000. *)
Theorem pool_bookkeeping (cfg : option Chiron.StoredWeights)
    (personality : MultiAI.AIPersonality)
    (markets : list (string -> option MultiAI.Observation)) :
  let trader := MultiAI.ticks cfg personality markets (MultiAI.newTrader personality) in
  PoolView.tidy (MultiAI.THRESHOLDS personality) trader /\
  0 <= MultiAI.winRate trader <= 100 /\
  MultiAI.initialCapital trader = 1000 /\
  MultiAI.id trader = personality.
Proof.
  cbv zeta.
  assert (Hgen : forall trader,
            PoolView.tidy (MultiAI.THRESHOLDS personality) trader /\
            0 <= MultiAI.winRate trader <= 100 /\
            MultiAI.initialCapital trader = 1000 /\
            MultiAI.id trader = personality ->
            let trader' := MultiAI.ticks cfg personality markets trader in
            PoolView.tidy (MultiAI.THRESHOLDS personality) trader' /\
            0 <= MultiAI.winRate trader' <= 100 /\
            MultiAI.initialCapital trader' = 1000 /\
            MultiAI.id trader' = personality).
  { induction markets as [|market markets IH]; intros trader H; [exact H|].
    cbv zeta. unfold MultiAI.ticks. cbn [fold_left]. apply IH.
    destruct H as (Htidy & _ & Hcap & Hid).
    split; [apply analyzeAndTrade_tidy, Htidy|].
    split; [apply updateTraderStats_winRate|].
    assert (Hkeep : forall syms acc,
              MultiAI.initialCapital (fst acc) = 1000 /\ MultiAI.id (fst acc) = personality ->
              MultiAI.initialCapital
                (fst (MultiAI.analyzeSymbols cfg (MultiAI.THRESHOLDS personality) market syms acc))
                = 1000 /\
              MultiAI.id
                (fst (MultiAI.analyzeSymbols cfg (MultiAI.THRESHOLDS personality) market syms acc))
                = personality).
    { induction syms as [|s syms IHs]; intros [t th] Hk; [exact Hk|].
      unfold MultiAI.analyzeSymbols. cbn [fold_left]. apply IHs.
      destruct (analyzeSymbol_inv cfg (MultiAI.THRESHOLDS personality) market t th s)
        as [[-> _] | [(obs & position & _ & Hpos & _ & _ & _ & ->)
           | [(obs & position & reason & Hm & Hpos & _ & ->)
             | (obs & Hm & Hpos & _ & _ & _ & _ & ->)]]]; cbn [fst].
      - exact Hk.
      - exact Hk.
      - unfold MultiAI.executeSell, MultiAI.refreshed, MultiAI.withPositions.
        cbn [MultiAI.positions]. rewrite lookup_insert_eq. exact Hk.
      - exact Hk. }
    exact (Hkeep (MultiAI.symbols (MultiAI.THRESHOLDS personality)) (trader, [])
             (conj Hcap Hid)). }
  apply Hgen. split; [|split; [|split]].
  - unfold PoolView.tidy. cbn. split; [|split; [reflexivity | apply map_Forall_empty]].
    rewrite map_size_empty. lia.
  - cbn. split; discriminate.
  - reflexivity.
  - reflexivity.
Qed.

Lemma positionValue_insert (m : gmap string MultiAI.AIPosition) (s : string)
    (p : MultiAI.AIPosition) :
  m !! s = None ->
  PoolView.positionValue (<[s := p]> m) ==
    PoolView.positionValue m + MultiAI.shares p * MultiAI.currentPrice p.
Proof.
  intros Hnone. unfold PoolView.positionValue.
  match goal with |- map_fold ?f _ _ == _ =>
    refine (map_fold_insert Qeq f 0 s p m _ _ Hnone) end.
  - intros j z x y Hxy. rewrite Hxy. reflexivity.
  - intros j1 j2 z1 z2 y _ _ _. ring.
Qed.

Lemma positionValue_delete (m : gmap string MultiAI.AIPosition) (s : string)
    (p : MultiAI.AIPosition) :
  m !! s = Some p ->
  PoolView.positionValue m ==
    PoolView.positionValue (delete s m) + MultiAI.shares p * MultiAI.currentPrice p.
Proof.
  intros Hsome. unfold PoolView.positionValue.
  match goal with |- map_fold ?f _ _ == _ =>
    refine (map_fold_delete Qeq f 0 s p m _ _ Hsome) end.
  - intros j z x y Hxy. rewrite Hxy. reflexivity.
  - intros j1 j2 z1 z2 y _ _ _. ring.
Qed.

Lemma positionValue_replace (m : gmap string MultiAI.AIPosition) (s : string)
    (old p : MultiAI.AIPosition) :
  m !! s = Some old ->
  PoolView.positionValue (<[s := p]> m) ==
    PoolView.positionValue m - MultiAI.shares old * MultiAI.currentPrice old
    + MultiAI.shares p * MultiAI.currentPrice p.
Proof.
  intros Hsome.
  rewrite <- (insert_delete_eq m s p).
  rewrite positionValue_insert by apply lookup_delete_eq.
  rewrite (positionValue_delete m s old Hsome). ring.
Qed.

(** One pass of the loop body at unchanged prices moves value between
    cash and positions only. *)
Lemma analyzeSymbol_worth (cfg : option Chiron.StoredWeights) (config : MultiAI.Thresholds)
    (market : string -> option MultiAI.Observation) (trader : MultiAI.AITrader)
    (th : list MultiAI.Thought) (s : string) :
  MultiAI.positivePrices market ->
  PoolView.quotesUnchanged market trader ->
  let t' := fst (MultiAI.analyzeSymbol cfg config market (trader, th) s) in
  PoolView.worth t' == PoolView.worth trader /\ PoolView.quotesUnchanged market t'.
Proof.
  intros Hprices Hq. cbv zeta.
  destruct (analyzeSymbol_inv cfg config market trader th s)
    as [[-> _] | [(obs & position & Hm & Hpos & _ & _ & _ & ->)
       | [(obs & position & reason & Hm & Hpos & _ & ->)
         | (obs & Hm & Hpos & _ & _ & _ & _ & ->)]]]; cbn [fst].
  - split; [reflexivity | exact Hq].
  - pose proof (Hq _ _ _ Hpos Hm) as Hsame. split.
    + unfold PoolView.worth, MultiAI.refreshed, MultiAI.withPositions.
      cbn [MultiAI.currentCash MultiAI.positions].
      rewrite (positionValue_replace _ s position _ Hpos). cbn. rewrite Hsame. ring.
    + intros s' p obs' Hlook Hm'. cbn in Hlook.
      destruct (decide (s' = s)) as [->|Hne].
      * rewrite lookup_insert_eq in Hlook. injection Hlook as <-. cbn. congruence.
      * rewrite lookup_insert_ne in Hlook by congruence. exact (Hq _ _ _ Hlook Hm').
  - pose proof (Hq _ _ _ Hpos Hm) as Hsame.
    destruct (executeSell_refreshed trader s position (MultiAI.quotePrice obs) reason Hpos)
      as (_ & Hps & Hc & _).
    split.
    + unfold PoolView.worth. rewrite Hps, Hc.
      rewrite (positionValue_delete (MultiAI.positions trader) s position Hpos).
      rewrite Hsame. ring.
    + intros s' p obs' Hlook Hm'. rewrite Hps in Hlook.
      destruct (decide (s' = s)) as [->|Hne].
      * rewrite lookup_delete_eq in Hlook. discriminate.
      * rewrite lookup_delete_ne in Hlook by congruence. exact (Hq _ _ _ Hlook Hm').
  - pose proof (Hprices _ _ Hm) as Hprice. split.
    + unfold PoolView.worth, MultiAI.executeBuy. cbn [MultiAI.currentCash MultiAI.positions].
      rewrite (positionValue_insert _ s _ Hpos). cbn.
      set (a := MultiAI.currentCash trader * MultiAI.positionSize config).
      assert (Hdiv : a / MultiAI.quotePrice obs * MultiAI.quotePrice obs == a) by (field; lra).
      rewrite Hdiv. ring.
    + intros s' p obs' Hlook Hm'. cbn in Hlook.
      destruct (decide (s' = s)) as [->|Hne].
      * rewrite lookup_insert_eq in Hlook. injection Hlook as <-. cbn. congruence.
      * rewrite lookup_insert_ne in Hlook by congruence. exact (Hq _ _ _ Hlook Hm').
Qed.

Lemma analyzeSymbols_worth (cfg : option Chiron.StoredWeights) (config : MultiAI.Thresholds)
    (market : string -> option MultiAI.Observation) (syms : list string) :
  MultiAI.positivePrices market ->
  forall acc,
    PoolView.quotesUnchanged market (fst acc) ->
    PoolView.worth (fst (MultiAI.analyzeSymbols cfg config market syms acc))
      == PoolView.worth (fst acc) /\
    PoolView.quotesUnchanged market (fst (MultiAI.analyzeSymbols cfg config market syms acc)).
Proof.
  intros Hprices. induction syms as [|s syms IH]; intros [trader th] Hq;
    [split; [reflexivity | exact Hq]|].
  unfold MultiAI.analyzeSymbols. cbn [fold_left].
  destruct (analyzeSymbol_worth cfg config market trader th s Hprices Hq) as [Hw Hq'].
  fold (MultiAI.analyzeSymbols cfg config market syms
          (MultiAI.analyzeSymbol cfg config market (trader, th) s)).
  destruct (IH _ Hq') as [Hw' Hq''].
  split; [rewrite Hw'; exact Hw | exact Hq''].
Qed.

Lemma analyzeAndTrade_quotes (cfg : option Chiron.StoredWeights)
    (market : string -> option MultiAI.Observation) (personality : MultiAI.AIPersonality)
    (trader : MultiAI.AITrader) :
  MultiAI.positivePrices market ->
  PoolView.quotesUnchanged market trader ->
  PoolView.quotesUnchanged market (MultiAI.analyzeAndTrade cfg market personality trader).
Proof.
  intros Hprices Hq.
  exact (proj2 (analyzeSymbols_worth cfg (MultiAI.THRESHOLDS personality) market
                  (MultiAI.symbols (MultiAI.THRESHOLDS personality)) Hprices (trader, []) Hq)).
Qed.

(** X16: trading creates no value.  A tick whose quotes (all positive)
    are the prices the open positions were last refreshed at may enter
    and exit positions, but the total value it reports is the cash plus
    the value of the positions before the tick: entries and exits move
    value between cash and positions and nothing else. *)
Theorem tick_at_unchanged_prices_keeps_value (cfg : option Chiron.StoredWeights)
    (market : string -> option MultiAI.Observation) (personality : MultiAI.AIPersonality)
    (trader : MultiAI.AITrader) :
  MultiAI.positivePrices market ->
  PoolView.quotesUnchanged market trader ->
  MultiAI.totalValue (MultiAI.analyzeAndTrade cfg market personality trader)
    == PoolView.worth trader.
Proof.
  intros Hprices Hq.
  exact (proj1 (analyzeSymbols_worth cfg (MultiAI.THRESHOLDS personality) market
                  (MultiAI.symbols (MultiAI.THRESHOLDS personality)) Hprices (trader, []) Hq)).
Qed.

Lemma tick_at_unchanged_prices_keeps_value_witness :
  let market := fun _ : string =>
    Some {| MultiAI.quotePrice := 100; MultiAI.atlasScore := None;
            MultiAI.orionScore := 90; MultiAI.phoenixScore := 90;
            MultiAI.aetherScore := None |} in
  let trader := MultiAI.analyzeAndTrade None market MultiAI.aggressive
                  (MultiAI.newTrader MultiAI.aggressive) in
  MultiAI.positivePrices market /\
  PoolView.quotesUnchanged market trader /\
  size (MultiAI.positions trader) = 4%nat /\
  MultiAI.totalValue (MultiAI.analyzeAndTrade None market MultiAI.aggressive trader)
    == PoolView.worth trader.
Proof.
  intros market trader.
  assert (Hm : MultiAI.positivePrices market).
  { intros s obs Hobs. injection Hobs as <-. reflexivity. }
  assert (Hq : PoolView.quotesUnchanged market trader).
  { apply analyzeAndTrade_quotes; [exact Hm|].
    intros s p obs Hlook. cbn in Hlook. rewrite lookup_empty in Hlook. discriminate. }
  split; [exact Hm|]. split; [exact Hq|]. split; [vm_compute; reflexivity|].
  exact (tick_at_unchanged_prices_keeps_value None market MultiAI.aggressive trader Hm Hq).
Defined.

(** The thresholds of the table turn into whole percentages without
    rounding error, and leave room for the rounding margin. *)
Lemma THRESHOLDS_percent (personality : MultiAI.AIPersonality) :
  let config := MultiAI.THRESHOLDS personality in
  JS.fmul (JS.double (MultiAI.stopLoss config)) 100 == MultiAI.stopLoss config * 100 /\
  JS.fmul (JS.double (MultiAI.takeProfit config)) 100 == MultiAI.takeProfit config * 100 /\
  Notions.margin < MultiAI.stopLoss config <= 1 /\
  Notions.margin < MultiAI.takeProfit config <= 1.
Proof.
  destruct personality; cbv zeta;
    (split; [vm_compute; reflexivity|]); (split; [vm_compute; reflexivity|]);
    split; split; first [reflexivity | discriminate].
Qed.

(** The exit conditions of a tick in terms of the quoted price. *)
Lemma exit_levels (personality : MultiAI.AIPersonality) (position : MultiAI.AIPosition)
    (price : Q) :
  0 < MultiAI.avgCost position ->
  let config := MultiAI.THRESHOLDS personality in
  let a := MultiAI.avgCost position in
  (price <= a * (1 - MultiAI.stopLoss config - Notions.margin) ->
   MultiAI.stopLossHit config position price) /\
  (MultiAI.stopLossHit config position price ->
   price <= a * (1 - MultiAI.stopLoss config + Notions.margin)) /\
  (a * (1 + MultiAI.takeProfit config + Notions.margin) <= price ->
   MultiAI.takeProfitHit config position price) /\
  (MultiAI.takeProfitHit config position price ->
   a * (1 + MultiAI.takeProfit config - Notions.margin) <= price).
Proof.
  intros Ha. cbv zeta.
  destruct (THRESHOLDS_percent personality) as (Hsl & Htp & [Hsl1 Hsl2] & [Htp1 Htp2]).
  cbv zeta in Hsl, Htp.
  set (config := MultiAI.THRESHOLDS personality) in *.
  unfold MultiAI.stopLossHit, MultiAI.takeProfitHit.
  cbn [MultiAI.refresh MultiAI.pnlPercent].
  rewrite Hsl, Htp.
  set (sl := MultiAI.stopLoss config) in *. set (tp := MultiAI.takeProfit config) in *.
  set (a := MultiAI.avgCost position) in *.
  unfold Notions.margin in Hsl1, Htp1.
  destruct (percent_below price a (sl * 100) Ha) as [Hb1 Hb2]; [lra | lra |].
  destruct (percent_above price a (tp * 100) Ha) as [Ha1 Ha2]; [lra | lra |].
  cbv zeta in Hb1, Hb2, Ha1, Ha2. set (t := JS.fmul (JS.fdiv _ _) 100) in *.
  change (sl * 100 / 100) with (sl * 100 * (1 # 100)) in Hb1, Hb2.
  change (tp * 100 / 100) with (tp * 100 * (1 # 100)) in Ha1, Ha2.
  assert (E1 : a * (1 - sl * 100 * (1 # 100) - Notions.margin)
               == a * (1 - sl - Notions.margin)) by ring.
  assert (E2 : a * (1 - sl * 100 * (1 # 100) + Notions.margin)
               == a * (1 - sl + Notions.margin)) by ring.
  assert (E3 : a * (1 + tp * 100 * (1 # 100) + Notions.margin)
               == a * (1 + tp + Notions.margin)) by ring.
  assert (E4 : a * (1 + tp * 100 * (1 # 100) - Notions.margin)
               == a * (1 + tp - Notions.margin)) by ring.
  rewrite E1 in Hb1. rewrite E2 in Hb2. rewrite E3 in Ha1. rewrite E4 in Ha2.
  split; [|split; [|split]]; intros H.
  - assert (Ht : t <= - (sl * 100)) by (apply Hb1; exact H). lra.
  - apply Hb2. lra.
  - apply Ha1. exact H.
  - apply Ha2. exact H.
Qed.

(** X17: what the exits of a tick realise.  For a symbol of the list of
    a personality held with positive shares and average cost, in a tick
    of that personality: the stop-loss check fires at every price at or
    below [avgCost * (1 - stopLoss)] less the rounding margin and at no
    price above it plus the margin, and the take-profit check likewise
    around [avgCost * (1 + takeProfit)]; a trade the tick records for
    the symbol with the stop-loss reason carries a loss of at least
    [stopLoss] less the margin times the cost of the position and is not
    counted as a win; one recorded with the take-profit reason carries a
    gain of at least [takeProfit] less the margin times the cost and is
    counted as a win; and a quote at or below the stop-loss level less
    the margin always makes the tick record the stop-loss sell at that
    quote. *)
Theorem exits_realise_their_thresholds (cfg : option Chiron.StoredWeights)
    (personality : MultiAI.AIPersonality) (market : string -> option MultiAI.Observation)
    (trader : MultiAI.AITrader) (s : string)
    (obs : MultiAI.Observation) (position : MultiAI.AIPosition) :
  s ∈ MultiAI.symbols (MultiAI.THRESHOLDS personality) ->
  market s = Some obs ->
  MultiAI.positions trader !! s = Some position ->
  0 < MultiAI.shares position ->
  0 < MultiAI.avgCost position ->
  let config := MultiAI.THRESHOLDS personality in
  let price := MultiAI.quotePrice obs in
  let after := MultiAI.analyzeAndTrade cfg market personality trader in
  (price <= MultiAI.avgCost position * (1 - MultiAI.stopLoss config - Notions.margin) ->
   MultiAI.stopLossHit config position price) /\
  (MultiAI.stopLossHit config position price ->
   price <= MultiAI.avgCost position * (1 - MultiAI.stopLoss config + Notions.margin)) /\
  (MultiAI.avgCost position * (1 + MultiAI.takeProfit config + Notions.margin) <= price ->
   MultiAI.takeProfitHit config position price) /\
  (MultiAI.takeProfitHit config position price ->
   MultiAI.avgCost position * (1 + MultiAI.takeProfit config - Notions.margin) <= price) /\
  exists new,
    MultiAI.trades after = new ++ MultiAI.trades trader /\
    (forall tr, tr ∈ new -> MultiAI.t_symbol tr = s ->
       MultiAI.t_reason tr = StopLossReason ->
       exists pnl, MultiAI.t_pnl tr = Some pnl /\
                   pnl <= - ((MultiAI.stopLoss config - Notions.margin)
                             * PoolView.costBasis position) /\
                   MultiAI.isWinning tr = false) /\
    (forall tr, tr ∈ new -> MultiAI.t_symbol tr = s ->
       MultiAI.t_reason tr = TakeProfitReason ->
       exists pnl, MultiAI.t_pnl tr = Some pnl /\
                   (MultiAI.takeProfit config - Notions.margin) * PoolView.costBasis position
                   <= pnl /\
                   MultiAI.isWinning tr = true) /\
    (price <= MultiAI.avgCost position * (1 - MultiAI.stopLoss config - Notions.margin) ->
     exists tr, tr ∈ new /\ MultiAI.t_symbol tr = s /\
                MultiAI.t_reason tr = StopLossReason /\ MultiAI.t_action tr = SELL /\
                MultiAI.t_price tr = price).
Proof.
  intros Hin Hm Hpos Hsh Ha. cbv zeta.
  destruct (exit_levels personality position (MultiAI.quotePrice obs) Ha)
    as (Hstop1 & Hstop2 & Htake1 & Htake2).
  cbv zeta in Hstop1, Hstop2, Htake1, Htake2.
  destruct (THRESHOLDS_percent personality) as (_ & _ & [Hsl _] & [Htp _]).
  cbv zeta in Hsl, Htp.
  destruct (analyzeAndTrade_fields cfg market personality trader) as [-> _].
  destruct (analyzeSymbols_symbol cfg (MultiAI.THRESHOLDS personality) market
              (MultiAI.symbols (MultiAI.THRESHOLDS personality))
              (THRESHOLDS_symbols_NoDup personality) trader [] s obs position Hin Hm Hpos)
    as (new & Htr & Hcase).
  cbv zeta in Htr, Hcase.
  set (r := MultiAI.analyzeSymbols _ _ _ _ _) in *.
  set (config := MultiAI.THRESHOLDS personality) in *.
  set (price := MultiAI.quotePrice obs) in *.
  assert (Hcost : 0 < PoolView.costBasis position).
  { unfold PoolView.costBasis. apply Qmult_lt_0_compat; assumption. }
  assert (Hloss : MultiAI.stopLossHit config position price ->
                  (price - MultiAI.avgCost position) * MultiAI.shares position
                  <= - ((MultiAI.stopLoss config - Notions.margin)
                        * PoolView.costBasis position)).
  { intros H. apply Hstop2 in H. unfold PoolView.costBasis.
    set (a := MultiAI.avgCost position) in *. set (sh := MultiAI.shares position) in *.
    set (sl := MultiAI.stopLoss config) in *. set (m := Notions.margin) in *.
    assert (H1 : (price - a) * sh <= (- (sl - m) * a) * sh).
    { apply Qmult_le_compat_r; [|lra].
      assert (E : a * (1 - sl + m) == a + - (sl - m) * a) by ring.
      rewrite E in H. lra. }
    assert (H2 : (- (sl - m) * a) * sh == - ((sl - m) * (a * sh))) by ring.
    rewrite <- H2. exact H1. }
  assert (Hgain : MultiAI.takeProfitHit config position price ->
                  (MultiAI.takeProfit config - Notions.margin) * PoolView.costBasis position
                  <= (price - MultiAI.avgCost position) * MultiAI.shares position).
  { intros H. apply Htake2 in H. unfold PoolView.costBasis.
    set (a := MultiAI.avgCost position) in *. set (sh := MultiAI.shares position) in *.
    set (tp := MultiAI.takeProfit config) in *. set (m := Notions.margin) in *.
    assert (H1 : ((tp - m) * a) * sh <= (price - a) * sh).
    { apply Qmult_le_compat_r; [|lra].
      assert (E : a * (1 + tp - m) == a + (tp - m) * a) by ring.
      rewrite E in H. lra. }
    assert (H2 : ((tp - m) * a) * sh == (tp - m) * (a * sh)) by ring.
    rewrite <- H2. exact H1. }
  assert (Hslcost : 0 < (MultiAI.stopLoss config - Notions.margin) * PoolView.costBasis position)
    by (apply Qmult_lt_0_compat; [lra | assumption]).
  assert (Htpcost : 0 < (MultiAI.takeProfit config - Notions.margin)
                        * PoolView.costBasis position)
    by (apply Qmult_lt_0_compat; [lra | assumption]).
  split; [exact Hstop1|]. split; [exact Hstop2|].
  split; [exact Htake1|]. split; [exact Htake2|].
  exists new. split; [exact Htr|].
  destruct Hcase
    as [(reason & trade & Hfor & Hin' & Hs & Hact & Hreason & Hprice & Hpnl & Honly & _)
       | (Hnsl & _ & _ & Hnone & _)].
  - split; [|split].
    + intros tr Htr' Hs' Hr. rewrite (Honly tr Htr' Hs') in Hr |- *.
      rewrite Hreason in Hr.
      destruct Hfor as [[_ Hhit] | [[Hd _] | [Hd _]]]; try congruence.
      eexists. split; [exact Hpnl|]. split; [apply Hloss, Hhit|].
      unfold MultiAI.isWinning, JS.gtb. rewrite Hpnl. cbn [JS.nullish]. apply ltb_false.
      pose proof (Hloss Hhit). lra.
    + intros tr Htr' Hs' Hr. rewrite (Honly tr Htr' Hs') in Hr |- *.
      rewrite Hreason in Hr.
      destruct Hfor as [[Hd _] | [[_ [_ Hhit]] | [Hd _]]]; try congruence.
      eexists. split; [exact Hpnl|]. split; [apply Hgain, Hhit|].
      unfold MultiAI.isWinning, JS.gtb. rewrite Hpnl. cbn [JS.nullish]. apply ltb_true.
      pose proof (Hgain Hhit). lra.
    + intros Hlevel. apply Hstop1 in Hlevel.
      destruct Hfor as [[-> _] | [[_ [Hn _]] | [_ [Hn _]]]]; try contradiction.
      exists trade. auto 10.
  - split; [|split].
    + intros tr Htr' Hs'. destruct (Hnone tr Htr' Hs').
    + intros tr Htr' Hs'. destruct (Hnone tr Htr' Hs').
    + intros Hlevel. apply Hstop1 in Hlevel. contradiction.
Qed.

Lemma exits_realise_their_thresholds_witness :
  let trader := MultiAI.executeBuy (MultiAI.newTrader MultiAI.aggressive)
                  "NVDA" 100 250 BuySignalReason in
  let obs := {| MultiAI.quotePrice := 90; MultiAI.atlasScore := None;
                MultiAI.orionScore := 60; MultiAI.phoenixScore := 60;
                MultiAI.aetherScore := None |} in
  let market := fun _ : string => Some obs in
  let position := {| MultiAI.symbol := "NVDA"; MultiAI.shares := 250 / 100;
                     MultiAI.avgCost := 100; MultiAI.currentPrice := 100;
                     MultiAI.pnl := 0; MultiAI.pnlPercent := 0 |} in
  "NVDA" ∈ MultiAI.symbols (MultiAI.THRESHOLDS MultiAI.aggressive) /\
  market "NVDA" = Some obs /\
  MultiAI.positions trader !! "NVDA" = Some position /\
  0 < MultiAI.shares position /\
  0 < MultiAI.avgCost position /\
  exists new tr,
    MultiAI.trades (MultiAI.analyzeAndTrade None market MultiAI.aggressive trader)
      = new ++ MultiAI.trades trader /\
    tr ∈ new /\ MultiAI.t_symbol tr = "NVDA" /\
    MultiAI.t_reason tr = StopLossReason /\ MultiAI.t_action tr = SELL /\
    MultiAI.t_price tr = 90.
Proof.
  intros trader obs market position.
  assert (H0 : "NVDA" ∈ MultiAI.symbols (MultiAI.THRESHOLDS MultiAI.aggressive))
    by (cbn; left).
  assert (H1 : market "NVDA" = Some obs) by reflexivity.
  assert (H2 : MultiAI.positions trader !! "NVDA" = Some position) by reflexivity.
  assert (H3 : 0 < MultiAI.shares position) by reflexivity.
  assert (H4 : 0 < MultiAI.avgCost position) by reflexivity.
  split; [exact H0|]. split; [exact H1|]. split; [exact H2|]. split; [exact H3|].
  split; [exact H4|].
  destruct (proj2 (proj2 (proj2 (proj2
              (exits_realise_their_thresholds None MultiAI.aggressive market trader "NVDA"
                 obs position H0 H1 H2 H3 H4)))))
    as (new & Htr & _ & _ & Hstop).
  destruct Hstop as (tr & Hin & Hs & Hr & Hact & Hp); [vm_compute; discriminate|].
  exists new, tr. auto 10.
Defined.

(** ** The trading agent *)

Lemma includes_any (c : Argus.Confidence) : Agent.includes c Agent.MIN_CONFIDENCE_FOR_BUY = true.
Proof. destruct c; reflexivity. Qed.

(** The chain of checks of the agent as a table. *)
Lemma determineAction_table (symbol : string) (price : Q) (d : Argus.ArgusDecision)
    (st : PaperBroker.Ledger) :
  let c := inject_Z (Argus.compositeScore d) in
  let action := fst (Agent.determineAction symbol price d st) in
  let reason := snd (Agent.determineAction symbol price d st) in
  (action = Agent.ActSell -> Agent.hasPosition symbol st = true) /\
  (action = Agent.ActBuy ->
   50 <= c /\ (Agent.hasPosition symbol st = true -> 65 <= c /\ reason = AddToWinnerReason)) /\
  (Agent.hasPosition symbol st = false ->
   (50 <= c -> action = Agent.ActBuy) /\ (c < 50 -> action = Agent.ActHold)) /\
  (Agent.hasPosition symbol st = true ->
   PaperBroker.shouldStopLoss symbol price st = true ->
   action = Agent.ActSell /\ reason = StopLossReason) /\
  (Agent.hasPosition symbol st = true ->
   PaperBroker.shouldStopLoss symbol price st = false ->
   (c < 40 -> action = Agent.ActSell) /\
   (40 <= c -> c < 65 -> action = Agent.ActHold) /\
   (65 <= c -> action = Agent.ActBuy)).
Proof.
  cbv zeta. unfold Agent.determineAction.
  rewrite includes_any, andb_true_r.
  unfold Agent.SELL_THRESHOLD, Agent.BUY_THRESHOLD.
  generalize (inject_Z (Argus.compositeScore d)). intros c.
  destruct (Agent.hasPosition symbol st);
    destruct (PaperBroker.shouldStopLoss symbol price st);
    cbn [andb negb];
    destruct (JS.ltb c 40) eqn:E40; compare_in E40;
    destruct (JS.geb c 50) eqn:E50;
      try (apply geb_true in E50); try (apply geb_false in E50);
    destruct (JS.geb c 65) eqn:E65;
      try (apply geb_true in E65); try (apply geb_false in E65);
    cbn [fst snd];
    try (exfalso; lra);
    repeat split; intros;
    first [reflexivity | discriminate | lra | congruence].
Qed.

(** X18: the decision table of the agent.  A SELL signal is only
    raised for a symbol with a position of positive shares; a BUY signal
    needs a composite score of at least 50, and of at least 65 when the
    symbol is already held (adding to a position); without a position
    the signal is BUY exactly from 50 upwards, whatever the confidence;
    with a position whose stop-loss does not fire the signal is SELL
    below 40, HOLD from 40 to below 65 and BUY from 65 upwards.  With
    auto-trading on, a SELL signal is always executed and closes the
    position; and a signal that was not executed leaves the ledger
    as it was. *)
Theorem agent_decision_table (auto : bool) (cfg : option Chiron.StoredWeights)
    (symbol : string) (obs : Agent.Observation) (st : PaperBroker.Ledger) :
  let res := Agent.analyzeAndTrade auto cfg symbol obs st in
  let signal := fst res in
  let composite := inject_Z (Argus.compositeScore (Agent.decision signal)) in
  let held := Agent.hasPosition symbol st in
  let stop := PaperBroker.shouldStopLoss symbol (Agent.quotePrice obs) st in
  (Agent.action signal = Agent.ActSell -> held = true) /\
  (Agent.action signal = Agent.ActBuy ->
   50 <= composite /\ (held = true -> 65 <= composite /\ Agent.reason signal = AddToWinnerReason)) /\
  (held = false ->
   (50 <= composite -> Agent.action signal = Agent.ActBuy) /\
   (composite < 50 -> Agent.action signal = Agent.ActHold)) /\
  (held = true -> stop = true ->
   Agent.action signal = Agent.ActSell /\ Agent.reason signal = StopLossReason) /\
  (held = true -> stop = false ->
   (composite < 40 -> Agent.action signal = Agent.ActSell) /\
   (40 <= composite -> composite < 65 -> Agent.action signal = Agent.ActHold) /\
   (65 <= composite -> Agent.action signal = Agent.ActBuy)) /\
  (auto = true -> Agent.action signal = Agent.ActSell ->
   Agent.executed signal = true /\ PaperBroker.positions (snd res) !! symbol = None) /\
  (Agent.executed signal = false -> snd res = st).
Proof.
  cbv zeta. unfold Agent.analyzeAndTrade.
  generalize (Argus.makeDecision cfg (Agent.decide_inputs symbol obs)). intros d.
  pose proof (determineAction_table symbol (Agent.quotePrice obs) d st) as Htable.
  cbv zeta in Htable.
  destruct (Agent.determineAction symbol (Agent.quotePrice obs) d st) as [action reason].
  cbn [fst snd] in Htable.
  destruct (if auto then _ else _) as [result st'] eqn:Hres.
  cbn [fst snd Agent.action Agent.reason Agent.decision Agent.executed].
  revert Htable Hres.
  generalize (inject_Z (Argus.compositeScore d)). intros c (T1 & T2 & T3 & T4 & T5) Hres.
  split; [exact T1|]. split; [exact T2|]. split; [exact T3|].
  split; [exact T4|]. split; [exact T5|]. split.
  - intros -> ->. cbn in Hres.
    pose proof (T1 eq_refl) as Hheld.
    unfold Agent.hasPosition, PaperBroker.getPosition in Hheld.
    unfold PaperBroker.sell in Hres.
    destruct (PaperBroker.positions st !! symbol) as [position|]; [|discriminate].
    apply gtb_true in Hheld.
    assert (Hle : JS.leb (PaperBroker.shares position) 0 = false) by (apply leb_false; lra).
    rewrite Hle in Hres. injection Hres as <- <-. split; [reflexivity|].
    cbn. apply lookup_delete_eq.
  - intros Hd.
    assert (Hnone : result = None).
    { destruct result; [discriminate Hd | reflexivity]. }
    subst result.
    destruct auto; [|congruence]. destruct action; [| |congruence].
    + pose proof (buy_null_unchanged symbol (Agent.quotePrice obs) reason c st) as Hn.
      rewrite Hres in Hn. exact (Hn eq_refl).
    + pose proof (sell_null_unchanged symbol (Agent.quotePrice obs) reason c true st) as Hn.
      rewrite Hres in Hn. exact (Hn eq_refl).
Qed.

Lemma analyzeAndTrade_off (cfg : option Chiron.StoredWeights) (s : string)
    (obs : Agent.Observation) (st : PaperBroker.Ledger) :
  let r := Agent.analyzeAndTrade false cfg s obs st in
  snd r = st /\ Agent.executed (fst r) = false /\ Agent.trade (fst r) = None /\
  Agent.symbol (fst r) = s.
Proof.
  cbv zeta. unfold Agent.analyzeAndTrade.
  destruct (Agent.determineAction s (Agent.quotePrice obs) _ st) as [action reason].
  cbn. auto.
Qed.

Lemma scan_read_only (cfg : option Chiron.StoredWeights)
    (market : string -> option Agent.Observation) (symbols : list string) :
  forall (signals : list Agent.TradingSignal) (st : PaperBroker.Ledger),
    let r :=
      fold_left
        (fun (acc : list Agent.TradingSignal * PaperBroker.Ledger) symbol =>
           match market symbol with
           | Some obs =>
               let '(signal, st') := Agent.analyzeAndTrade false cfg symbol obs (snd acc) in
               (fst acc ++ [signal], st')
           | None => acc
           end)
        symbols (signals, st) in
    snd r = st /\
    exists new,
      fst r = signals ++ new /\
      Forall (fun signal => Agent.executed signal = false /\ Agent.trade signal = None) new /\
      Agent.symbol <$> new = filter (fun s => is_Some (market s)) symbols.
Proof.
  induction symbols as [|s symbols IH]; intros signals st; cbv zeta.
  - cbn. split; [reflexivity|]. exists []. rewrite app_nil_r. auto.
  - cbn [fold_left]. rewrite filter_cons.
    destruct (market s) as [obs|] eqn:Hm.
    + cbn [fst snd].
      pose proof (analyzeAndTrade_off cfg s obs st) as Hoff. cbv zeta in Hoff.
      destruct (Agent.analyzeAndTrade false cfg s obs st) as [signal st1].
      cbn [fst snd] in Hoff. destruct Hoff as (-> & Hex & Htr & Hs).
      destruct (IH (signals ++ [signal]) st) as (Hst & new & Hsig & Hall & Hsym).
      split; [exact Hst|].
      exists (signal :: new). split; [rewrite Hsig, <- app_assoc; reflexivity|].
      split; [constructor; [split; assumption | exact Hall]|].
      destruct (decide (is_Some (Some obs))) as [_|Hn]; [|destruct Hn; eauto].
      cbn [fmap list_fmap]. rewrite Hs. f_equal. exact Hsym.
    + destruct (IH signals st) as (Hst & new & Hsig & Hall & Hsym).
      split; [exact Hst|]. exists new. split; [exact Hsig|]. split; [exact Hall|].
      destruct (decide (is_Some (@None Agent.Observation))) as [Hs|_];
        [destruct Hs; discriminate | exact Hsym].
Qed.

Lemma analyzeSymbols_outage (cfg : option Chiron.StoredWeights) (config : MultiAI.Thresholds)
    (market : string -> option MultiAI.Observation) (syms : list string)
    (acc : MultiAI.AITrader * list MultiAI.Thought) :
  (forall s, s ∈ syms -> market s = None) ->
  MultiAI.analyzeSymbols cfg config market syms acc = acc.
Proof.
  induction syms as [|s syms IH]; intros Hnone; [reflexivity|].
  unfold MultiAI.analyzeSymbols. cbn [fold_left].
  unfold MultiAI.analyzeSymbol at 2. rewrite (Hnone s) by left.
  apply IH. intros s' Hs'. apply Hnone. right. exact Hs'.
Qed.

(** X19: nothing is traded without auto-trading or without data.  A
    watchlist scan with auto-trading off is read-only: the ledger is
    the one before the scan, no signal is marked executed or carries a
    trade, and there is one signal per symbol whose data could be
    fetched, in watchlist order.  A scan in which every fetch fails
    returns no signal and the unchanged ledger, whatever the
    auto-trading switch; and a tick of the trader pool in which every
    fetch fails leaves cash, positions and trades as they were and
    clears the thoughts. *)
Theorem nothing_traded_without_auto_trading_or_data (auto : bool)
    (cfg : option Chiron.StoredWeights) (market : string -> option Agent.Observation)
    (symbols : list string) (st : PaperBroker.Ledger)
    (poolMarket : string -> option MultiAI.Observation) (personality : MultiAI.AIPersonality)
    (trader : MultiAI.AITrader) :
  (let r := Agent.scanWatchlist false cfg market symbols st in
   snd r = st /\
   Forall (fun signal => Agent.executed signal = false /\ Agent.trade signal = None) (fst r) /\
   Agent.symbol <$> fst r = filter (fun s => is_Some (market s)) symbols) /\
  ((forall s, s ∈ symbols -> market s = None) ->
   Agent.scanWatchlist auto cfg market symbols st = ([], st)) /\
  ((forall s, poolMarket s = None) ->
   let trader' := MultiAI.analyzeAndTrade cfg poolMarket personality trader in
   MultiAI.currentCash trader' = MultiAI.currentCash trader /\
   MultiAI.positions trader' = MultiAI.positions trader /\
   MultiAI.trades trader' = MultiAI.trades trader /\
   MultiAI.tradeCount trader' = MultiAI.tradeCount trader /\
   MultiAI.lastThought trader' = []).
Proof.
  split; [|split].
  - cbv zeta. unfold Agent.scanWatchlist.
    destruct (scan_read_only cfg market symbols [] st) as (Hst & new & Hsig & Hall & Hsym).
    cbn [app] in Hsig. rewrite Hsig. auto.
  - intros Hnone. unfold Agent.scanWatchlist.
    generalize (@nil Agent.TradingSignal). revert st.
    induction symbols as [|s symbols IH]; intros st signals; [reflexivity|].
    cbn [fold_left]. rewrite (Hnone s) by left.
    apply IH. intros s' Hs'. apply Hnone. right. exact Hs'.
  - intros Hnone. cbv zeta. unfold MultiAI.analyzeAndTrade.
    rewrite analyzeSymbols_outage by (intros; apply Hnone).
    cbn. auto.
Qed.

(** ** The engines behind the scores *)

Lemma MONTHLY_RETURNS_values (month : Z) :
  Cronos.MONTHLY_RETURNS month = None \/
  exists r, Cronos.MONTHLY_RETURNS month = Some r /\
            (r = 1.0 \/ r = -0.3 \/ r = 1.2 \/ r = 1.5 \/ r = 0.3 \/ r = -0.1 \/ r = -0.5
             \/ r = 0.8 \/ r = 1.3).
Proof.
  unfold Cronos.MONTHLY_RETURNS.
  destruct month as [|p|p]; [left; reflexivity | | left; reflexivity].
  do 4 (destruct p as [p|p|]; try (left; reflexivity);
        try (right; eexists; split; [reflexivity|]; tauto)).
Qed.

(** X20: the timing score.  Whatever the date, the score of
    [CronosEngine.analyze] lies between 40 and 70, so its clamp to
    0..100 never acts; no earnings warning is ever raised; there is at
    most one warning, and one exactly on Saturdays, Sundays, Mondays and
    Fridays; a month labelled bearish scores at most 45 and a month
    labelled bullish at least 55, but January and July (a return of
    exactly 1.0) are labelled bullish while scoring only the +5 of a
    merely positive month. *)
Theorem cronos_score_between_40_and_70 (now : Cronos.Clock) (symbol : string) :
  let r := Cronos.analyze now symbol in
  40 <= Cronos.score r <= 70 /\
  Cronos.isEarningsSoon r = false /\
  (forall days, Cronos.EarningsWarning days ∉ Cronos.warnings r) /\
  (length (Cronos.warnings r) <= 1)%nat /\
  (Cronos.warnings r = [] <-> Cronos.tradingDay r = Cronos.NormalDay) /\
  (Cronos.seasonality r = Cronos.BearishSeason -> Cronos.score r <= 45) /\
  (Cronos.seasonality r = Cronos.BullishSeason -> 55 <= Cronos.score r) /\
  (Cronos.month now = 1%Z \/ Cronos.month now = 7%Z ->
   Cronos.seasonality r = Cronos.BullishSeason /\ Cronos.score r <= 60).
Proof.
  cbv zeta. unfold Cronos.analyze, Cronos.checkEarnings, Cronos.getSeasonality.
  cbn [app].
  split; [|split; [reflexivity|]].
  - cbn [Cronos.score].
    destruct (MONTHLY_RETURNS_values (Cronos.month now)) as [-> | (r & -> & Hr)].
    + destruct (28 <=? Cronos.day now)%Z; split; discriminate.
    + destruct Hr as [-> | [-> | [-> | [-> | [-> | [-> | [-> | [-> | ->]]]]]]]];
        destruct (28 <=? Cronos.day now)%Z; split; discriminate.
  - cbn [Cronos.warnings Cronos.tradingDay Cronos.seasonality Cronos.score].
    split; [|split; [|split; [|split; [|split]]]].
    + intros days Hin. destruct (Cronos.getTradingDay (Cronos.weekday now));
        cbn in Hin; repeat (apply elem_of_cons in Hin as [Hin|Hin]; [discriminate|]);
        inversion Hin.
    + destruct (Cronos.getTradingDay (Cronos.weekday now)); cbn; lia.
    + destruct (Cronos.getTradingDay (Cronos.weekday now)); cbn; split; intros H;
        first [reflexivity | discriminate].
    + destruct (MONTHLY_RETURNS_values (Cronos.month now)) as [-> | (r & -> & Hr)];
        [discriminate|].
      destruct Hr as [-> | [-> | [-> | [-> | [-> | [-> | [-> | [-> | ->]]]]]]]];
        destruct (28 <=? Cronos.day now)%Z; intros H; first [discriminate H | discriminate].
    + destruct (MONTHLY_RETURNS_values (Cronos.month now)) as [-> | (r & -> & Hr)];
        [discriminate|].
      destruct Hr as [-> | [-> | [-> | [-> | [-> | [-> | [-> | [-> | ->]]]]]]]];
        destruct (28 <=? Cronos.day now)%Z; intros H; first [discriminate H | discriminate].
    + intros [-> | ->]; cbn; (split; [reflexivity|]);
        destruct (28 <=? Cronos.day now)%Z; discriminate.
Qed.

Lemma atlas_profitability_bounds (f : Atlas.Fundamentals) :
  0 <= fst (Atlas.profitMarginPoints f) <= 15 /\ 0 <= fst (Atlas.roePoints f) <= 20.
Proof.
  unfold Atlas.profitMarginPoints, Atlas.roePoints. cbv zeta.
  repeat match goal with |- context [if ?b then _ else _] => destruct b end;
    cbn; repeat split; discriminate.
Qed.

Lemma atlas_health_bounds (f : Atlas.Fundamentals) :
  -5 <= fst (Atlas.debtToEquityPoints f) <= 15 /\
  -5 <= fst (Atlas.currentRatioPoints f) <= 15.
Proof.
  unfold Atlas.debtToEquityPoints, Atlas.currentRatioPoints. cbv zeta.
  repeat match goal with |- context [if ?b then _ else _] => destruct b end;
    cbn; repeat split; discriminate.
Qed.

Lemma atlas_valuation_bounds (f : Atlas.Fundamentals) :
  -3 <= fst (Atlas.peRatioPoints f) <= 18 /\
  0 <= fst (Atlas.pbRatioPoints f) <= 12 /\
  0 <= fst (Atlas.dividendYieldPoints f) <= 5.
Proof.
  unfold Atlas.peRatioPoints, Atlas.pbRatioPoints, Atlas.dividendYieldPoints. cbv zeta.
  repeat match goal with |- context [if ?b then _ else _] => destruct b end;
    cbn; repeat split; discriminate.
Qed.

(** X21: the fundamentals score.  For any fundamentals, present or
    missing: the raw profitability, health and valuation totals stay
    within 0..35, -10..30 and -3..35, so neither the upper clamp of the
    score nor the caps of the reported components ever act: the score
    is the sum of the three components, or 0 when that sum is negative;
    it lies in 0..100 and the verdict is the one of the score.  With no
    figure available at all the score is 10: missing debt counts as no
    debt (+15) and the default current ratio of 1 as a liquidity
    concern (-5). *)
Theorem atlas_score_is_component_sum (f : Atlas.Fundamentals) :
  let r := Atlas.analyze f in
  let c := Atlas.components r in
  0 <= Atlas.profitability c <= 35 /\
  -10 <= Atlas.health c <= 30 /\
  -3 <= Atlas.valuation c <= 35 /\
  Atlas.profitability c + Atlas.health c + Atlas.valuation c == Atlas.rawTotal f /\
  Atlas.score r == JS.Math_max 0 (Atlas.rawTotal f) /\
  0 <= Atlas.score r <= 100 /\
  Atlas.verdict r = Atlas.getVerdict (Atlas.score r) /\
  Atlas.score (Atlas.analyze Atlas.noData) == 10 /\
  Atlas.details (Atlas.analyze Atlas.noData) = [Atlas.MinimalDebt; Atlas.LiquidityConcern].
Proof.
  cbv zeta. unfold Atlas.analyze, Atlas.rawTotal.
  cbn [Atlas.components Atlas.profitability Atlas.health Atlas.valuation Atlas.score
       Atlas.verdict Atlas.details].
  destruct (atlas_profitability_bounds f) as [Hpm Hroe].
  destruct (atlas_health_bounds f) as [Hde Hcr].
  destruct (atlas_valuation_bounds f) as (Hpe & Hpb & Hdy).
  set (pm := fst (Atlas.profitMarginPoints f)) in *.
  set (roe := fst (Atlas.roePoints f)) in *.
  set (de := fst (Atlas.debtToEquityPoints f)) in *.
  set (cr := fst (Atlas.currentRatioPoints f)) in *.
  set (pe := fst (Atlas.peRatioPoints f)) in *.
  set (pb := fst (Atlas.pbRatioPoints f)) in *.
  set (dy := fst (Atlas.dividendYieldPoints f)) in *.
  unfold JS.Math_min, JS.Math_max.
  assert (Hp : Qmin 35 (0 + pm + roe) == 0 + pm + roe) by (apply Q.min_r; lra).
  assert (Hh : Qmin 30 (0 + de + cr) == 0 + de + cr) by (apply Q.min_r; lra).
  assert (Hv : Qmin 35 (0 + pe + pb + dy) == 0 + pe + pb + dy) by (apply Q.min_r; lra).
  set (total := 0 + pm + roe + (0 + de + cr) + (0 + pe + pb + dy)) in *.
  assert (Htotal : total <= 100) by (unfold total; lra).
  assert (Hmax : 0 <= Qmax 0 total <= 100).
  { split; [apply Q.le_max_l | apply Q.max_lub; lra]. }
  assert (Hs : Qmin 100 (Qmax 0 total) == Qmax 0 total) by (apply Q.min_r; lra).
  split; [rewrite Hp; lra|]. split; [rewrite Hh; lra|]. split; [rewrite Hv; lra|].
  split; [rewrite Hp, Hh, Hv; reflexivity|].
  split; [exact Hs|]. split; [rewrite Hs; exact Hmax|].
  split; [reflexivity|]. split; reflexivity.
Qed.

Lemma rsiTotals_nonneg (data : list Q) (period : nat) :
  0 <= fst (Orion.rsiTotals data period) /\ 0 <= snd (Orion.rsiTotals data period).
Proof.
  unfold Orion.rsiTotals.
  assert (Hgen : forall (l : list nat) (acc : Q * Q),
            0 <= fst acc /\ 0 <= snd acc ->
            let r := fold_left
                       (fun (acc : Q * Q) (i : nat) =>
                          let diff := JSArray.at_ data i - JSArray.at_ data (i - 1) in
                          if JS.geb diff 0 then (fst acc + diff, snd acc)
                          else (fst acc, snd acc + JS.Math_abs diff)) l acc in
            0 <= fst r /\ 0 <= snd r).
  { induction l as [|i l IH]; intros acc Hacc; [exact Hacc|].
    cbn [fold_left]. apply IH. cbv zeta.
    destruct (JS.geb _ 0) eqn:E; cbn [fst snd].
    - apply geb_true in E. destruct Hacc. split; lra.
    - destruct Hacc. split; [lra|]. unfold JS.Math_abs.
      pose proof (Qabs_nonneg (JSArray.at_ data i - JSArray.at_ data (i - 1))). lra. }
  apply Hgen. cbn. split; discriminate.
Qed.

Lemma rsi_formula_range (gains losses p : Q) :
  0 <= gains -> 0 < losses -> 0 < p ->
  0 <= 100 - 100 / (1 + (gains / p) / (losses / p)) < 100.
Proof.
  intros Hg Hl Hp.
  assert (Hlp : 0 < losses / p) by (apply Qlt_shift_div_l; lra).
  assert (Hgp : 0 <= gains / p) by (apply Qle_shift_div_l; lra).
  assert (Hrs : 0 <= (gains / p) / (losses / p)) by (apply Qle_shift_div_l; lra).
  set (rs := (gains / p) / (losses / p)) in *.
  assert (Hpos : 0 < 100 / (1 + rs)) by (apply Qlt_shift_div_l; lra).
  assert (Hle : 100 / (1 + rs) <= 100).
  { apply Qle_shift_div_r; [lra|]. nra. }
  split; lra.
Qed.

Lemma calculateRSI_range (data : list Q) (period : nat) :
  (0 < period)%nat -> 0 <= Orion.calculateRSI data period <= 100.
Proof.
  intros Hperiod. unfold Orion.calculateRSI.
  destruct (length data <? period + 1)%nat; [split; discriminate|].
  pose proof (rsiTotals_nonneg data period) as [Hg Hl].
  destruct (Orion.rsiTotals data period) as [gains losses]. cbn [fst snd] in *.
  destruct (Qeq_dec losses 0) as [Hz|Hnz]; [split; discriminate|].
  assert (Hp : 0 < inject_Z (Z.of_nat period)).
  { change 0 with (inject_Z 0). rewrite <- Zlt_Qlt. lia. }
  assert (Hlpos : 0 < losses).
  { destruct (Qlt_le_dec 0 losses) as [H|H]; [exact H|]. exfalso. apply Hnz. lra. }
  pose proof (rsi_formula_range gains losses _ Hg Hlpos Hp). lra.
Qed.

Lemma trendScore_range (currentPrice sma20 sma50 sma200 : Q) :
  -5 <= Orion.trendScore currentPrice sma20 sma50 sma200 <= 35.
Proof.
  unfold Orion.trendScore. cbv zeta.
  repeat match goal with |- context [if ?b then _ else _] => destruct b end;
    cbn; split; discriminate.
Qed.

Lemma momentumScore_range (rsi priceChange5d priceChange20d : Q) :
  0 <= rsi <= 100 ->
  0 <= Orion.momentumScore rsi priceChange5d priceChange20d <= 35.
Proof.
  intros Hrsi. unfold Orion.momentumScore. cbv zeta.
  destruct (JS.geb rsi 50) eqn:E50; destruct (JS.ltb rsi 70) eqn:E70;
    destruct (JS.geb rsi 30) eqn:E30; destruct (JS.ltb rsi 50) eqn:E50';
    destruct (JS.geb rsi 70) eqn:E70'; destruct (JS.ltb rsi 30) eqn:E30';
    cbn [andb];
    try (apply geb_true in E50); try (apply geb_false in E50);
    try (apply geb_true in E30); try (apply geb_false in E30);
    try (apply geb_true in E70'); try (apply geb_false in E70');
    compare_in E70; compare_in E50'; compare_in E30';
    try (exfalso; lra);
    repeat match goal with |- context [if ?b then _ else _] => destruct b end;
    cbn; split; discriminate.
Qed.

Lemma structureScore_range (volumeRatio priceChange5d volatility : Q) :
  10 <= Orion.structureScore volumeRatio priceChange5d volatility <= 30.
Proof.
  unfold Orion.structureScore. cbv zeta.
  repeat match goal with |- context [if ?b then _ else _] => destruct b end;
    cbn; split; discriminate.
Qed.

(** X22: the technical score.  For any candles and whatever the
    square-root function returns: with fewer than 50 candles the result
    is the neutral score 50; otherwise the trend, momentum and structure
    totals stay within -5..35, 0..35 and 10..30, so the clamp of the
    score never acts: the score is their sum and lies between 5 and
    100; the reported momentum and structure are the totals themselves
    and the reported trend is the total raised to 0, so the reported
    components add up to the score or to 5 more.  The 14-day RSI behind
    the momentum lies between 0 and 100. *)
Theorem orion_score_is_component_sum (Math_sqrt : Q -> Q) (candles : list Provider.Candle) :
  let r := Orion.calculateOrionScore Math_sqrt candles in
  let c := Orion.components r in
  ((length candles < 50)%nat -> Orion.score r = 50) /\
  0 <= Orion.score r <= 100 /\
  0 <= Orion.rsi (Orion.indicators r) <= 100 /\
  ((50 <= length candles)%nat ->
   5 <= Orion.score r /\
   0 <= Orion.trend c <= 35 /\ 0 <= Orion.momentum c <= 35 /\ 10 <= Orion.structure c <= 30 /\
   Orion.score r <= Orion.trend c + Orion.momentum c + Orion.structure c
     <= Orion.score r + 5).
Proof.
  cbv zeta. unfold Orion.calculateOrionScore.
  destruct (length candles <? 50)%nat eqn:Hlen.
  - apply Nat.ltb_lt in Hlen. cbn.
    split; [reflexivity|]. split; [split; discriminate|]. split; [split; discriminate|]. lia.
  - apply Nat.ltb_ge in Hlen.
    cbn [Orion.score Orion.components Orion.indicators Orion.rsi Orion.trend
         Orion.momentum Orion.structure].
    set (closePrices := map Provider.close candles).
    set (currentPrice := JSArray.at_ closePrices (length closePrices - 1)).
    set (sma200 := if (200 <=? length candles)%nat then _ else _).
    pose proof (calculateRSI_range closePrices 14 ltac:(lia)) as Hrsi.
    set (rsi := Orion.calculateRSI closePrices 14) in *.
    pose proof (trendScore_range currentPrice (Orion.calculateSMA closePrices 20)
                  (Orion.calculateSMA closePrices 50) sma200) as Ht.
    set (trend := Orion.trendScore _ _ _ _) in *.
    pose proof (momentumScore_range rsi (Orion.percentChange closePrices 5)
                  (Orion.percentChange closePrices 20) Hrsi) as Hm.
    set (momentum := Orion.momentumScore _ _ _) in *.
    pose proof (structureScore_range
                  (Orion.average (JSArray.slice_last 5 (map Provider.volume candles))
                   / Orion.average (JSArray.slice_last 20 (map Provider.volume candles)))
                  (Orion.percentChange closePrices 5)
                  (Orion.calculateVolatility Math_sqrt closePrices 20)) as Hs.
    set (structure := Orion.structureScore _ _ _) in *.
    unfold JS.Math_min, JS.Math_max.
    assert (Htot : Qmax 0 (trend + momentum + structure) == trend + momentum + structure)
      by (apply Q.max_r; lra).
    assert (Hscore : Qmin 100 (Qmax 0 (trend + momentum + structure))
                     == trend + momentum + structure).
    { rewrite Htot. apply Q.min_r. lra. }
    assert (Hmom : Qmin 35 (Qmax 0 momentum) == momentum).
    { rewrite (Q.max_r 0 momentum) by lra. apply Q.min_r. lra. }
    assert (Hstr : Qmin 30 (Qmax 0 structure) == structure).
    { rewrite (Q.max_r 0 structure) by lra. apply Q.min_r. lra. }
    assert (Htr : Qmin 35 (Qmax 0 trend) == Qmax 0 trend).
    { apply Q.min_r. apply Q.max_lub; lra. }
    assert (Htr0 : 0 <= Qmax 0 trend) by apply Q.le_max_l.
    assert (Htr1 : trend <= Qmax 0 trend) by apply Q.le_max_r.
    assert (Htr2 : Qmax 0 trend <= trend + 5).
    { apply Q.max_lub; lra. }
    assert (Htr3 : Qmax 0 trend <= 35) by (apply Q.max_lub; lra).
    split; [intros; lia|]. split; [rewrite Hscore; lra|]. split; [exact Hrsi|].
    intros _. rewrite Hscore, Hmom, Hstr, Htr. repeat split; lra.
Qed.

Lemma analyzeVIX_values (fetchCandles : string -> option (list Provider.Candle)) :
  15 <= fst (Aether.analyzeVIX fetchCandles) <= 80 /\
  (forall v, snd (Aether.analyzeVIX fetchCandles) = Some v -> 30 < v ->
             fst (Aether.analyzeVIX fetchCandles) == 15).
Proof.
  unfold Aether.analyzeVIX.
  destruct (fetchCandles "^VIX") as [candles|]; [|split; [split; discriminate | discriminate]].
  destruct (last candles) as [latest|]; [|split; [split; discriminate | discriminate]].
  cbv zeta. cbn [fst snd].
  destruct (JS.ltb (Provider.close latest) 15) eqn:E15; compare_in E15;
    destruct (JS.ltb (Provider.close latest) 20) eqn:E20; compare_in E20;
    destruct (JS.ltb (Provider.close latest) 25) eqn:E25; compare_in E25;
    destruct (JS.ltb (Provider.close latest) 30) eqn:E30; compare_in E30;
    (split; [split; discriminate|]); intros v Hv Hgt; injection Hv as <-;
    first [reflexivity | exfalso; lra].
Qed.

Lemma analyzeMarketTrend_range (fetchCandles : string -> option (list Provider.Candle)) :
  0 <= fst (Aether.analyzeMarketTrend fetchCandles) <= 100.
Proof.
  unfold Aether.analyzeMarketTrend.
  destruct (fetchCandles "SPY") as [candles|]; [|split; discriminate].
  destruct (length candles <? 50)%nat; [split; discriminate|].
  cbv zeta.
  repeat match goal with |- context [if ?b then _ else _] => destruct b end;
    cbn; split; discriminate.
Qed.

Lemma analyzeSectorRotation_range (fetchCandles : string -> option (list Provider.Candle)) :
  25 <= fst (Aether.analyzeSectorRotation fetchCandles) <= 75.
Proof.
  unfold Aether.analyzeSectorRotation. cbv zeta.
  repeat match goal with |- context [if ?b then _ else _] => destruct b end;
    cbn; split; discriminate.
Qed.

(** X23: the macro score.  Whatever the provider returns or fails to
    return: the market-trend score needs no clamp and the macro score is
    a whole number between 17 and 82; a VIX above 30 forces the regime
    Risk-Off and caps the score at 62, so Risk-On is never reported
    against it; Risk-On is reported exactly for a total of 70 or more
    with the VIX unavailable or at most 30; and when every fetch fails
    the score is 48 with the regime Caution, not a neutral 50. *)
Theorem aether_score_between_17_and_82 (fetchCandles : string -> option (list Provider.Candle)) :
  let r := Aether.evaluateMacro fetchCandles in
  (17 <= Aether.score r <= 82)%Z /\
  17 <= Aether.totalScore fetchCandles <= 163 / 2 /\
  (forall v, Aether.vixLevel r = Some v -> 30 < v ->
             Aether.regime r = Aether.RiskOff /\ (Aether.score r <= 62)%Z) /\
  (Aether.regime r = Aether.RiskOn <->
   70 <= Aether.totalScore fetchCandles /\
   forall v, Aether.vixLevel r = Some v -> v <= 30) /\
  Aether.score (Aether.evaluateMacro Aether.outage) = 48%Z /\
  Aether.regime (Aether.evaluateMacro Aether.outage) = Aether.Caution.
Proof.
  cbv zeta.
  pose proof (analyzeVIX_values fetchCandles) as [Hvix Hpanic].
  pose proof (analyzeMarketTrend_range fetchCandles) as Hmarket.
  pose proof (analyzeSectorRotation_range fetchCandles) as Hsector.
  assert (Htotal : 17 <= Aether.totalScore fetchCandles <= 163 / 2).
  { unfold Aether.totalScore.
    set (v := fst (Aether.analyzeVIX fetchCandles)) in *.
    set (m := fst (Aether.analyzeMarketTrend fetchCandles)) in *.
    set (s := fst (Aether.analyzeSectorRotation fetchCandles)) in *.
    change (163 / 2) with (163 # 2). lra. }
  unfold Aether.evaluateMacro.
  cbn [Aether.score Aether.regime Aether.vixLevel].
  split; [|split; [exact Htotal|split; [|split; [|split]]]].
  - apply Math_round_range.
    + change (inject_Z 17) with 17. lra.
    + change (inject_Z 82) with 82. change (163 / 2) with (163 # 2) in Htotal. lra.
  - intros v Hv Hgt. split.
    + unfold Aether.determineRegime. rewrite Hv.
      assert (Hg : JS.gtb v 30 = true) by (apply gtb_true; exact Hgt).
      rewrite Hg. reflexivity.
    + pose proof (Hpanic v Hv Hgt) as H15.
      apply Math_round_range with (lo := 17%Z).
      * change (inject_Z 17) with 17. lra.
      * change (inject_Z 62) with 62. unfold Aether.totalScore.
        set (vx := fst (Aether.analyzeVIX fetchCandles)) in *.
        set (m := fst (Aether.analyzeMarketTrend fetchCandles)) in *.
        set (s := fst (Aether.analyzeSectorRotation fetchCandles)) in *.
        lra.
  - unfold Aether.determineRegime.
    destruct (snd (Aether.analyzeVIX fetchCandles)) as [v|].
    + destruct (JS.gtb v 30) eqn:Ev.
      * apply gtb_true in Ev. split; [discriminate|].
        intros [_ Hle]. pose proof (Hle v eq_refl). lra.
      * unfold JS.gtb in Ev. compare_in Ev.
        destruct (JS.geb (Aether.totalScore fetchCandles) 70) eqn:E70.
        -- apply geb_true in E70. split; [|reflexivity].
           intros _. split; [exact E70|]. intros v' Hv'. injection Hv' as <-. exact Ev.
        -- apply geb_false in E70. split.
           ++ destruct (JS.geb _ 50); [discriminate|]. destruct (JS.geb _ 35); discriminate.
           ++ intros [Hge _]. lra.
    + destruct (JS.geb (Aether.totalScore fetchCandles) 70) eqn:E70.
      * apply geb_true in E70. split; [|reflexivity].
        intros _. split; [exact E70|]. intros v' Hv'. discriminate Hv'.
      * apply geb_false in E70. split.
        -- destruct (JS.geb _ 50); [discriminate|]. destruct (JS.geb _ 35); discriminate.
        -- intros [Hge _]. lra.
  - vm_compute. reflexivity.
  - vm_compute. reflexivity.
Qed.

Lemma hybridScore_range (isUptrend isPullback touchLowerBand rsiReversal divergence : bool)
    (currentRSI slope mid sigma vol avgVol : Q) :
  25 <= Phoenix.hybridScore isUptrend isPullback touchLowerBand rsiReversal divergence
          currentRSI slope mid sigma vol avgVol <= 105.
Proof.
  unfold Phoenix.hybridScore. cbv zeta.
  destruct isUptrend, isPullback, touchLowerBand, rsiReversal, divergence;
    repeat match goal with |- context [if ?b then _ else _] => destruct b end;
    cbn; split; discriminate.
Qed.

Lemma slice_last_nonempty {A : Type} (n : nat) (l : list A) :
  l <> [] -> (n <= length l)%nat -> JSArray.slice_last n l <> [].
Proof.
  intros Hne Hle. unfold JSArray.slice_last. destruct n as [|n]; [exact Hne|].
  intros Hnil. apply (f_equal length) in Hnil. rewrite length_drop in Hnil. cbn in Hnil. lia.
Qed.

(** X24: the channel score.  Whatever the candles, the configuration
    and the square-root function, [PhoenixEngine.analyze] returns a
    result (the latest candle it reads always exists).  With fewer than
    60 candles the result is the inactive placeholder with score 0;
    otherwise the score before the clamp lies between 25 and 105, so the
    reported score lies between 25 and 100: a score of 0 means exactly
    that there were fewer than 60 candles.  The status is active
    exactly above 60. *)
Theorem phoenix_score_zero_means_no_data (Math_sqrt : Q -> Q)
    (candles : list Provider.Candle) (config : Phoenix.PhoenixConfig) :
  exists r,
    Phoenix.analyze Math_sqrt candles config = Some r /\
    0 <= Phoenix.score r <= 100 /\
    ((length candles < 60)%nat -> r = Phoenix.insufficientData) /\
    ((60 <= length candles)%nat -> 25 <= Phoenix.score r) /\
    (Phoenix.score r == 0 <-> (length candles < 60)%nat) /\
    (Phoenix.status r = Phoenix.active <-> 60 < Phoenix.score r).
Proof.
  unfold Phoenix.analyze. cbv zeta.
  destruct (length candles <? 60)%nat eqn:Hlen.
  - apply Nat.ltb_lt in Hlen. exists Phoenix.insufficientData.
    split; [reflexivity|].
    change (Phoenix.score Phoenix.insufficientData) with 0.
    change (Phoenix.status Phoenix.insufficientData) with Phoenix.inactive.
    split; [split; discriminate|].
    split; [reflexivity|]. split; [lia|].
    split; [split; [intros _; exact Hlen | intros _; reflexivity]|].
    split; [discriminate | intros H; discriminate H].
  - apply Nat.ltb_ge in Hlen.
    assert (Hne : JSArray.slice_last (Nat.min (Phoenix.lookback config) (length candles)) candles
                  <> []).
    { apply slice_last_nonempty; [|lia]. intros ->. cbn in Hlen. lia. }
    destruct (last (JSArray.slice_last _ candles)) as [latest|] eqn:Hlast;
      [|apply last_None in Hlast; contradiction].
    eexists. split; [reflexivity|].
    cbn [Phoenix.score Phoenix.status].
    match goal with
    | |- context [Phoenix.hybridScore ?a ?b ?c ?d ?e ?f ?g ?h ?i ?j ?k] =>
        pose proof (hybridScore_range a b c d e f g h i j k) as Hraw;
        set (raw := Phoenix.hybridScore a b c d e f g h i j k) in *
    end.
    unfold JS.Math_min, JS.Math_max.
    assert (Hmax : Qmax raw 0 == raw) by (apply Q.max_l; lra).
    assert (Hlo : 25 <= Qmin (Qmax raw 0) 100).
    { apply Q.min_glb; [rewrite Hmax; lra | discriminate]. }
    assert (Hhi : Qmin (Qmax raw 0) 100 <= 100) by apply Q.le_min_r.
    set (s := Qmin (Qmax raw 0) 100) in *.
    split; [split; lra|]. split; [lia|]. split; [intros _; exact Hlo|].
    split; [split; [intros H0; exfalso; lra | lia]|].
    destruct (JS.gtb s 60) eqn:E60.
    + apply gtb_true in E60. tauto.
    + unfold JS.gtb in E60. compare_in E60. split; [discriminate | intros; exfalso; lra].
Qed.

Lemma windowTotals_nonneg (slice : list Q) :
  0 <= fst (Phoenix.windowTotals slice) /\ 0 <= snd (Phoenix.windowTotals slice).
Proof.
  unfold Phoenix.windowTotals.
  assert (Hgen : forall (l : list nat) (acc : Q * Q),
            0 <= fst acc /\ 0 <= snd acc ->
            let r := fold_left
                       (fun (acc : Q * Q) (j : nat) =>
                          let change := JSArray.at_ slice j - JSArray.at_ slice (j - 1) in
                          if JS.gtb change 0 then (fst acc + change, snd acc)
                          else (fst acc, snd acc - change)) l acc in
            0 <= fst r /\ 0 <= snd r).
  { induction l as [|j l IH]; intros acc Hacc; [exact Hacc|].
    cbn [fold_left]. apply IH. cbv zeta.
    destruct (JS.gtb _ 0) eqn:E; cbn [fst snd].
    - apply gtb_true in E. destruct Hacc. split; lra.
    - unfold JS.gtb in E. compare_in E. destruct Hacc. split; lra. }
  apply Hgen. cbn. split; discriminate.
Qed.

Lemma windowRSI_range (slice : list Q) (period : nat) :
  (0 < period)%nat ->
  0 <= Phoenix.windowRSI slice period < 100 /\
  (snd (Phoenix.windowTotals slice) == 0 -> Phoenix.windowRSI slice period == 10000 / 101).
Proof.
  intros Hperiod. unfold Phoenix.windowRSI.
  pose proof (windowTotals_nonneg slice) as [Hg Hl].
  destruct (Phoenix.windowTotals slice) as [gains losses]. cbn [fst snd] in *.
  assert (Hp : 0 < inject_Z (Z.of_nat period)).
  { change 0 with (inject_Z 0). rewrite <- Zlt_Qlt. lia. }
  cbv zeta.
  destruct (Qeq_dec (losses / inject_Z (Z.of_nat period)) 0) as [Hz|Hnz].
  - split; [split; [discriminate | reflexivity] | intros _; reflexivity].
  - assert (Hlpos : 0 < losses).
    { destruct (Qlt_le_dec 0 losses) as [H|H]; [exact H|]. exfalso. apply Hnz.
      assert (H0 : losses == 0) by lra. rewrite H0. field. lra. }
    split.
    + apply rsi_formula_range; assumption.
    + intros H0. exfalso. lra.
Qed.

Lemma sum_nonneg (l : list Q) : Forall (fun x => 0 <= x) l -> 0 <= JSArray.sum l.
Proof.
  unfold JSArray.sum.
  assert (Hgen : forall (l : list Q) (acc : Q),
            0 <= acc -> Forall (fun x => 0 <= x) l -> 0 <= fold_left Qplus l acc).
  { induction l0 as [|x l0 IH]; intros acc Hacc Hall; [exact Hacc|].
    cbn [fold_left]. inversion Hall; subst. apply IH; [lra | assumption]. }
  intros Hall. apply Hgen; [discriminate | exact Hall].
Qed.

Lemma trueRange_nonneg (high low prevClose : Q) : 0 <= Phoenix.trueRange high low prevClose.
Proof.
  unfold Phoenix.trueRange, JS.Math_max, JS.Math_abs.
  pose proof (Qabs_nonneg (low - prevClose)) as H.
  pose proof (Q.le_max_r (Qmax (high - low) (Qabs (high - prevClose))) (Qabs (low - prevClose))).
  lra.
Qed.

(** X25: the RSI and ATR of the channel engine.  For a positive
    period: [calculateRSIArray] gives one value per window, none with
    fewer than period + 1 closes, and every value lies in [0, 100):
    a window in which no close falls gives 100 - 100/101, never 100,
    whereas the RSI of the technical engine gives exactly 100 for such a
    window.  [calculateATR] is never negative, whatever the highs and
    lows, and 0 with fewer than period + 1 candles. *)
Theorem phoenix_rsi_below_100 (candles : list Provider.Candle) (period : nat) :
  (0 < period)%nat ->
  let closes := map Provider.close candles in
  Forall (fun v => 0 <= v < 100) (Phoenix.calculateRSIArray candles period) /\
  length (Phoenix.calculateRSIArray candles period) = (length candles - period)%nat /\
  (forall slice, snd (Phoenix.windowTotals slice) == 0 ->
                 Phoenix.windowRSI slice period == 10000 / 101) /\
  ((period + 1 <= length closes)%nat -> snd (Orion.rsiTotals closes period) == 0 ->
   Orion.calculateRSI closes period = 100) /\
  0 <= Phoenix.calculateATR candles period /\
  ((length candles < period + 1)%nat -> Phoenix.calculateATR candles period = 0).
Proof.
  intros Hperiod. cbv zeta.
  split; [|split; [|split; [|split; [|split]]]].
  - unfold Phoenix.calculateRSIArray. cbv zeta.
    destruct (length (map Provider.close candles) <? period + 1)%nat; [constructor|].
    apply List.Forall_map. apply Forall_forall. intros i _.
    apply windowRSI_range, Hperiod.
  - unfold Phoenix.calculateRSIArray. cbv zeta. rewrite length_map.
    destruct (length candles <? period + 1)%nat eqn:Hlen.
    + apply Nat.ltb_lt in Hlen. cbn. lia.
    + rewrite length_map, length_seq. reflexivity.
  - intros slice Hz. apply (windowRSI_range slice period Hperiod), Hz.
  - intros Hlen Hz. unfold Orion.calculateRSI.
    assert (Hl : (length (map Provider.close candles) <? period + 1)%nat = false)
      by (apply Nat.ltb_ge; exact Hlen).
    rewrite Hl.
    destruct (Orion.rsiTotals (map Provider.close candles) period) as [gains losses].
    cbn [snd] in Hz. destruct (Qeq_dec losses 0); [reflexivity | contradiction].
  - unfold Phoenix.calculateATR.
    destruct (length candles <? period + 1)%nat; [discriminate|]. cbv zeta.
    apply Qle_shift_div_l.
    + change 0 with (inject_Z 0). rewrite <- Zlt_Qlt. lia.
    + assert (H0 : 0 * inject_Z (Z.of_nat period) == 0) by ring. rewrite H0.
      apply sum_nonneg. unfold JSArray.slice_last.
      assert (Hall : Forall (fun x => 0 <= x)
                (map (fun i : nat =>
                        Phoenix.trueRange (JSArray.at_ (map Provider.high candles) i)
                          (JSArray.at_ (map Provider.low candles) i)
                          (JSArray.at_ (map Provider.close candles) (i - 1)))
                     (seq 1 (length candles - 1)))).
      { apply List.Forall_map. apply Forall_forall. intros i _.
        apply trueRange_nonneg. }
      destruct period as [|p]; [exact Hall|].
      apply Forall_drop. exact Hall.
  - intros Hlen. unfold Phoenix.calculateATR.
    apply Nat.ltb_lt in Hlen. rewrite Hlen. reflexivity.
Qed.

Lemma phoenix_rsi_below_100_witness :
  let candle := fun c : Q =>
    {| Provider.date := "d"; Provider.open := c; Provider.high := c + 1;
       Provider.low := c - 1; Provider.close := c; Provider.volume := 1000 |} in
  let candles := [candle 10; candle 11; candle 12; candle 11] in
  (0 < 2)%nat /\
  Forall (fun v => 0 <= v < 100) (Phoenix.calculateRSIArray candles 2) /\
  length (Phoenix.calculateRSIArray candles 2) = 2%nat /\
  0 <= Phoenix.calculateATR candles 2.
Proof.
  intros candle candles.
  assert (Hp : (0 < 2)%nat) by lia.
  split; [exact Hp|].
  destruct (phoenix_rsi_below_100 candles 2 Hp) as (H1 & H2 & _ & _ & H3 & _).
  split; [exact H1|]. split; [exact H2 | exact H3].
Defined.

(** ** The news sentiment *)

Lemma sentiment_ratio (p n : nat) :
  let P := inject_Z (Z.of_nat p) in
  let N := inject_Z (Z.of_nat n) in
  let score := (P - N) / JS.Math_max 1 (P + N) in
  -1 <= score <= 1 /\
  (1 # 5 < score <-> (3 * n < 2 * p)%nat) /\
  (score < - (1 # 5) <-> (3 * p < 2 * n)%nat).
Proof.
  cbv zeta. unfold JS.Math_max.
  assert (HP : 0 <= inject_Z (Z.of_nat p)).
  { change 0 with (inject_Z 0). rewrite <- Zle_Qle. lia. }
  assert (HN : 0 <= inject_Z (Z.of_nat n)).
  { change 0 with (inject_Z 0). rewrite <- Zle_Qle. lia. }
  assert (Hiff1 : 3 * inject_Z (Z.of_nat n) < 2 * inject_Z (Z.of_nat p) <-> (3 * n < 2 * p)%nat).
  { change 3 with (inject_Z 3). change 2 with (inject_Z 2).
    rewrite <- !inject_Z_mult, <- Zlt_Qlt. lia. }
  assert (Hiff2 : 3 * inject_Z (Z.of_nat p) < 2 * inject_Z (Z.of_nat n) <-> (3 * p < 2 * n)%nat).
  { change 3 with (inject_Z 3). change 2 with (inject_Z 2).
    rewrite <- !inject_Z_mult, <- Zlt_Qlt. lia. }
  assert (Hzero : (p + n)%nat = 0%nat \/
                  1 <= inject_Z (Z.of_nat p) + inject_Z (Z.of_nat n)).
  { destruct (Nat.eq_dec (p + n)%nat 0%nat) as [H0|Hne]; [left; exact H0|]. right.
    rewrite <- inject_Z_plus. change 1 with (inject_Z 1). rewrite <- Zle_Qle. lia. }
  set (P := inject_Z (Z.of_nat p)) in *. set (N := inject_Z (Z.of_nat n)) in *.
  assert (Hm1 : 1 <= Qmax 1 (P + N)) by apply Q.le_max_l.
  assert (Hm2 : P + N <= Qmax 1 (P + N)) by apply Q.le_max_r.
  set (M := Qmax 1 (P + N)) in *.
  assert (HM : 0 < M) by lra.
  assert (Hs : ((P - N) / M) * M == P - N) by (field; lra).
  pose proof (Qmult_le_r (-1) ((P - N) / M) M HM) as Hlo.
  pose proof (Qmult_le_r ((P - N) / M) 1 M HM) as Hhi.
  pose proof (Qmult_lt_r (1 # 5) ((P - N) / M) M HM) as Hpos.
  pose proof (Qmult_lt_r ((P - N) / M) (- (1 # 5)) M HM) as Hneg.
  set (score := (P - N) / M) in *.
  split; [split; [apply Hlo | apply Hhi]; lra|].
  destruct Hzero as [H0 | Hone].
  - assert (p = 0%nat) by lia. assert (n = 0%nat) by lia. subst p n.
    assert (HP0 : P == 0) by reflexivity. assert (HN0 : N == 0) by reflexivity.
    assert (Hsc : score * M == 0) by (rewrite Hs, HP0, HN0; reflexivity).
    split; split; intros H; try lia.
    + apply Hpos in H. lra.
    + apply Hneg in H. lra.
  - assert (HMeq : M == P + N) by (unfold M; apply Q.max_r; exact Hone).
    split; split; intros H.
    + apply Hiff1. apply Hpos in H. rewrite Hs, HMeq in H. lra.
    + apply Hpos. rewrite Hs, HMeq. apply Hiff1 in H. lra.
    + apply Hiff2. apply Hneg in H. rewrite Hs, HMeq in H. lra.
    + apply Hneg. rewrite Hs, HMeq. apply Hiff2 in H. lra.
Qed.

Lemma average_within_one (news : list News.NewsItem) :
  news <> [] -> News.scoresWithinOne news ->
  -1 <= News.r_score (News.sentimentOf news) <= 1.
Proof.
  intros Hne Hall. unfold News.sentimentOf.
  destruct (length news =? 0)%nat eqn:Hlen.
  { apply Nat.eqb_eq in Hlen. destruct news; [contradiction | discriminate]. }
  apply Nat.eqb_neq in Hlen. cbn [News.r_score].
  assert (Hgen : forall (l : list News.NewsItem) (acc k : Q),
            News.scoresWithinOne l -> - k <= acc <= k ->
            let total := fold_left (fun (sum : Q) (n : News.NewsItem) =>
                                      sum + JS.or_else (News.sentimentScore n) 0) l acc in
            - (k + inject_Z (Z.of_nat (length l))) <= total
              <= k + inject_Z (Z.of_nat (length l))).
  { induction l as [|x l IH]; intros acc k Hl Hacc; cbv zeta.
    - cbn [fold_left length]. change (inject_Z (Z.of_nat 0)) with 0. lra.
    - inversion Hl as [|? ? Hx Hl']; subst. cbn [fold_left length].
      pose proof (IH (acc + JS.or_else (News.sentimentScore x) 0) (k + 1) Hl'
                     ltac:(lra)) as H.
      cbv zeta in H. rewrite Nat2Z.inj_succ. unfold Z.succ. rewrite inject_Z_plus.
      change (inject_Z 1) with 1. lra. }
  pose proof (Hgen news 0 0 Hall ltac:(lra)) as Htotal. cbv zeta in Htotal.
  set (total := fold_left _ news 0) in *.
  assert (Hn : 0 < inject_Z (Z.of_nat (length news))).
  { change 0 with (inject_Z 0). rewrite <- Zlt_Qlt. lia. }
  set (n := inject_Z (Z.of_nat (length news))) in *.
  split.
  - apply Qle_shift_div_l; [exact Hn | lra].
  - apply Qle_shift_div_r; [exact Hn | lra].
Qed.

(** X26: the keyword sentiment.  Whatever a text includes, the score of
    [analyzeSentiment] lies between -1 and 1; the text is classed
    positive exactly when it holds more than one and a half times as
    many positive as negative keywords, negative in the mirrored case,
    and neutral otherwise (in particular with no keyword at all, where
    the score is 0).  The sentiment of a non-empty list of items whose
    scores lie between -1 and 1 is their average and lies between -1
    and 1 again, so the news score of a decision made from it lies
    between -100 and 100. *)
Theorem keyword_sentiment_within_one (includes : string -> bool)
    (news : list News.NewsItem) (cfg : option Chiron.StoredWeights)
    (inputs : Argus.ModuleInputs) :
  let a := News.analyzeSentiment includes in
  let p := fst (News.countKeywords includes News.POSITIVE_KEYWORDS) in
  let n := fst (News.countKeywords includes News.NEGATIVE_KEYWORDS) in
  -1 <= News.a_score a <= 1 /\
  (News.a_sentiment a = News.positive <-> (3 * n < 2 * p)%nat) /\
  (News.a_sentiment a = News.negative <-> (3 * p < 2 * n)%nat) /\
  (p = 0%nat -> n = 0%nat -> News.a_score a == 0 /\ News.a_sentiment a = News.neutral) /\
  (news <> [] -> News.scoresWithinOne news ->
   -1 <= News.r_score (News.sentimentOf news) <= 1 /\
   (Argus.newsSentiment inputs
      = Some {| Argus.score := News.r_score (News.sentimentOf news);
                Argus.summary := Pipeline.summaryLabel (News.r_summary (News.sentimentOf news)) |} ->
    -100 <= Argus.newsScore (Argus.makeDecision cfg inputs) <= 100)).
Proof.
  cbv zeta. unfold News.analyzeSentiment.
  destruct (News.countKeywords includes News.POSITIVE_KEYWORDS) as [p foundPositive].
  destruct (News.countKeywords includes News.NEGATIVE_KEYWORDS) as [n foundNegative].
  cbn [fst].
  destruct (sentiment_ratio p n) as (Hrange & Hpos & Hneg). cbv zeta in Hrange, Hpos, Hneg.
  set (score := (inject_Z (Z.of_nat p) - inject_Z (Z.of_nat n)) / _) in *.
  assert (Hcases :
    -1 <= News.a_score
            (if JS.gtb score 0.2
             then {| News.a_sentiment := News.positive; News.a_score := score;
                     News.a_quoted := take 3 foundPositive |}
             else if JS.ltb score (-0.2)
                  then {| News.a_sentiment := News.negative; News.a_score := score;
                          News.a_quoted := take 3 foundNegative |}
                  else {| News.a_sentiment := News.neutral; News.a_score := score;
                          News.a_quoted := [] |}) <= 1 /\
    (News.a_sentiment
       (if JS.gtb score 0.2
        then {| News.a_sentiment := News.positive; News.a_score := score;
                News.a_quoted := take 3 foundPositive |}
        else if JS.ltb score (-0.2)
             then {| News.a_sentiment := News.negative; News.a_score := score;
                     News.a_quoted := take 3 foundNegative |}
             else {| News.a_sentiment := News.neutral; News.a_score := score;
                     News.a_quoted := [] |}) = News.positive <-> (3 * n < 2 * p)%nat) /\
    (News.a_sentiment
       (if JS.gtb score 0.2
        then {| News.a_sentiment := News.positive; News.a_score := score;
                News.a_quoted := take 3 foundPositive |}
        else if JS.ltb score (-0.2)
             then {| News.a_sentiment := News.negative; News.a_score := score;
                     News.a_quoted := take 3 foundNegative |}
             else {| News.a_sentiment := News.neutral; News.a_score := score;
                     News.a_quoted := [] |}) = News.negative <-> (3 * p < 2 * n)%nat)).
  { destruct (JS.gtb score 0.2) eqn:Eg.
    - apply gtb_true in Eg. cbn.
      split; [exact Hrange|]. split.
      + split; [intros _; apply Hpos; lra | reflexivity].
      + split; [discriminate|]. intros H. apply Hneg in H. lra.
    - unfold JS.gtb in Eg. compare_in Eg.
      destruct (JS.ltb score (-0.2)) eqn:El.
      + compare_in El. cbn.
        split; [exact Hrange|]. split.
        * split; [discriminate|]. intros H. apply Hpos in H. lra.
        * split; [intros _; apply Hneg; lra | reflexivity].
      + compare_in El. cbn.
        split; [exact Hrange|]. split.
        * split; [discriminate|]. intros H. apply Hpos in H. lra.
        * split; [discriminate|]. intros H. apply Hneg in H. lra. }
  destruct Hcases as (C1 & C2 & C3).
  split; [exact C1|]. split; [exact C2|]. split; [exact C3|]. split.
  - intros -> ->. unfold score. cbn.
    split; [reflexivity|]. reflexivity.
  - intros Hne Hall. pose proof (average_within_one news Hne Hall) as Havg.
    split; [exact Havg|]. intros Hin.
    unfold Argus.makeDecision. cbn [Argus.newsScore].
    unfold Argus.collectScores. cbn [Argus.news]. rewrite Hin. cbn [fmap option_fmap option_map JS.nullish Argus.score].
    set (s := News.r_score (News.sentimentOf news)) in *.
    pose proof (Math_round_range (s * 100) (-100) 100) as Hr.
    change (inject_Z (-100)) with (-100) in Hr. change (inject_Z 100) with 100 in Hr.
    destruct Hr as [Hr1 Hr2]; [lra | lra |].
    rewrite Zle_Qle in Hr1, Hr2.
    change (inject_Z (-100)) with (-100) in Hr1. change (inject_Z 100) with 100 in Hr2.
    split; assumption.
Qed.

Lemma mock_feed_rotation (symbol : string) (h : Z) :
  (0 <= h)%Z ->
  let news :=
    fold_left
      (fun (selectedNews : list News.NewsItem) (i : Z) =>
         let index := ((h + i) mod Z.of_nat (length News.templates))%Z in
         match News.templates !! Z.to_nat index with
         | Some item => selectedNews ++ [News.mockItem symbol item]
         | None => selectedNews
         end)
      [0; 1; 2; 3; 4]%Z [] in
  News.r_score (News.sentimentOf news) == 0.28 /\
  News.r_summary (News.sentimentOf news) = News.Mixed /\
  News.newsCount (News.sentimentOf news) = 5%nat /\
  News.scoresWithinOne news.
Proof.
  intros Hh. cbv zeta.
  change (Z.of_nat (length News.templates)) with 5%Z.
  assert (Hmod : forall i, ((h + i) mod 5 = (h mod 5 + i) mod 5)%Z).
  { intros i. rewrite Z.add_mod_idemp_l by lia. reflexivity. }
  cbn [fold_left]. rewrite !Hmod.
  pose proof (Z.mod_pos_bound h 5 ltac:(lia)) as Hk.
  set (k := (h mod 5)%Z) in *.
  assert (Hcases : k = 0%Z \/ k = 1%Z \/ k = 2%Z \/ k = 3%Z \/ k = 4%Z) by lia.
  clearbody k.
  destruct Hcases as [-> | [-> | [-> | [-> | ->]]]]; cbn [Z.add Z.modulo Z.to_nat];
    (split; [vm_compute; reflexivity|]); (split; [vm_compute; reflexivity|]);
    (split; [vm_compute; reflexivity|]);
    unfold News.scoresWithinOne; repeat constructor; cbn; discriminate.
Qed.

(** X27: the simulated feed.  [generateMockNews] rotates through its
    five templates, so for every symbol it yields all five: the
    sentiment of the simulated news is the same 0.28 for every symbol,
    with the summary "mixed".  [fetchNewsForSymbol] never hands an empty
    list to the sentiment (an empty or failed fetch is replaced by the
    simulated news, and the cache only ever stores non-empty lists), so
    the "no news" answer is never given; and when the fetch fails with
    nothing fresh in the cache, the sentiment is that constant 0.28 and
    the cache is left as it was. *)
Theorem simulated_feed_sentiment_is_constant (now : Z)
    (fetched : option (list News.NewsItem)) (cache : gmap string News.CacheEntry)
    (symbol : string) :
  (News.r_score (News.sentimentOf (News.generateMockNews symbol)) == 0.28 /\
   News.r_summary (News.sentimentOf (News.generateMockNews symbol)) = News.Mixed /\
   News.newsCount (News.sentimentOf (News.generateMockNews symbol)) = 5%nat /\
   News.scoresWithinOne (News.generateMockNews symbol)) /\
  (News.cacheFilled cache ->
   let r := News.getNewsBasedSentiment now fetched cache symbol in
   (1 <= News.newsCount (fst r))%nat /\
   News.r_summary (fst r) <> News.NoNews /\
   News.cacheFilled (snd r)) /\
  (fetched = None -> cache !! ("news_" +:+ symbol) = None ->
   News.getNewsBasedSentiment now fetched cache symbol
     = (News.sentimentOf (News.generateMockNews symbol), cache)).
Proof.
  assert (Hmock : News.r_score (News.sentimentOf (News.generateMockNews symbol)) == 0.28 /\
                  News.r_summary (News.sentimentOf (News.generateMockNews symbol)) = News.Mixed /\
                  News.newsCount (News.sentimentOf (News.generateMockNews symbol)) = 5%nat /\
                  News.scoresWithinOne (News.generateMockNews symbol)).
  { unfold News.generateMockNews. cbv zeta.
    apply (mock_feed_rotation symbol (Z.abs (News.hashOf symbol))). apply Z.abs_nonneg. }
  assert (Hcount : forall news : list News.NewsItem,
            news <> [] ->
            (1 <= News.newsCount (News.sentimentOf news))%nat /\
            News.r_summary (News.sentimentOf news) <> News.NoNews).
  { intros news Hne. unfold News.sentimentOf.
    destruct news as [|x news]; [contradiction|].
    cbn [length Nat.eqb]. cbv zeta. cbn [News.newsCount News.r_summary].
    split; [lia|].
    destruct (JS.gtb _ 0.3); [discriminate|]. destruct (JS.ltb _ (-0.3)); discriminate. }
  assert (Hmockne : News.generateMockNews symbol <> []).
  { destruct Hmock as (_ & _ & Hc & _). intros Hnil. rewrite Hnil in Hc. discriminate Hc. }
  split; [exact Hmock|]. split.
  - intros Hfilled. cbv zeta. unfold News.getNewsBasedSentiment, News.fetchNewsForSymbol.
    cbv zeta.
    destruct (cache !! ("news_" +:+ symbol)) as [cached|] eqn:Hc.
    + destruct (now - News.timestamp cached <? News.CACHE_TTL)%Z.
      * cbn [fst snd]. pose proof (Hfilled _ _ Hc) as Hne. cbn in Hne.
        destruct (Hcount _ Hne). auto.
      * destruct fetched as [news|].
        -- destruct (0 <? length news)%nat eqn:Hl; cbn [fst snd].
           ++ apply Nat.ltb_lt in Hl.
              assert (Hne : news <> []) by (intros ->; cbn in Hl; lia).
              destruct (Hcount _ Hne). split; [assumption|]. split; [assumption|].
              apply map_Forall_insert_2; [exact Hne | exact Hfilled].
           ++ destruct (Hcount _ Hmockne). auto.
        -- cbn [fst snd]. destruct (Hcount _ Hmockne). auto.
    + destruct fetched as [news|].
      * destruct (0 <? length news)%nat eqn:Hl; cbn [fst snd].
        -- apply Nat.ltb_lt in Hl.
           assert (Hne : news <> []) by (intros ->; cbn in Hl; lia).
           destruct (Hcount _ Hne). split; [assumption|]. split; [assumption|].
           apply map_Forall_insert_2; [exact Hne | exact Hfilled].
        -- destruct (Hcount _ Hmockne). auto.
      * cbn [fst snd]. destruct (Hcount _ Hmockne). auto.
  - intros -> Hnone. unfold News.getNewsBasedSentiment, News.fetchNewsForSymbol.
    cbv zeta. rewrite Hnone. reflexivity.
Qed.

(** ** From market data to the decision *)

Lemma makeDecision_in_range (cfg : option Chiron.StoredWeights) (inputs : Argus.ModuleInputs) :
  Argus.scoresInRange inputs -> Chiron.learnedNonneg cfg ->
  let d := Argus.makeDecision cfg inputs in
  (0 <= Argus.compositeScore d <= 100)%Z /\
  (0 <= Argus.coreScore d <= 100)%Z /\
  (0 <= Argus.pulseScore d <= 100)%Z.
Proof.
  intros (Ha & Ho & Hp & Hae & Hd & Hc) Hcfg. cbv zeta.
  destruct (evaluate_nonneg cfg (Argus.chironContext inputs) Hcfg) as [Wc Wp].
  assert (Hcore : 0 <= Argus.rawCoreScore cfg inputs <= 100)
    by (apply calculateWeightedScore_range; assumption).
  assert (Hpulse : 0 <= Argus.rawPulseScore cfg inputs <= 100)
    by (apply calculateWeightedScore_range; assumption).
  unfold Argus.makeDecision.
  cbn [Argus.compositeScore Argus.coreScore Argus.pulseScore].
  pose proof (normalizeNews_range (JS.nullish (Argus.news (Argus.collectScores inputs)) 0)) as Hn.
  set (c := Argus.rawCoreScore cfg inputs) in *.
  set (p := Argus.rawPulseScore cfg inputs) in *.
  set (n := Argus.normalizeNews _) in *.
  split; [|split];
    apply Math_round_range; change (inject_Z 0) with 0; change (inject_Z 100) with 100; lra.
Qed.

Lemma atlas_score_range_aux (f : Atlas.Fundamentals) :
  0 <= Atlas.score (Atlas.analyze f) <= 100.
Proof.
  unfold Atlas.analyze. cbn [Atlas.score]. unfold JS.Math_min, JS.Math_max.
  split.
  - apply Q.min_glb; [discriminate | apply Q.le_max_l].
  - apply Q.le_min_l.
Qed.

Lemma orion_score_range_aux (Math_sqrt : Q -> Q) (candles : list Provider.Candle) :
  0 <= Orion.score (Orion.calculateOrionScore Math_sqrt candles) <= 100.
Proof.
  unfold Orion.calculateOrionScore.
  destruct (length candles <? 50)%nat; [split; discriminate|].
  cbn [Orion.score]. unfold JS.Math_min, JS.Math_max.
  split.
  - apply Q.min_glb; [discriminate | apply Q.le_max_l].
  - apply Q.le_min_l.
Qed.

Lemma aether_score_range_aux (fetchCandles : string -> option (list Provider.Candle)) :
  0 <= inject_Z (Aether.score (Aether.evaluateMacro fetchCandles)) <= 100.
Proof.
  pose proof (analyzeVIX_values fetchCandles) as [Hvix _].
  pose proof (analyzeMarketTrend_range fetchCandles) as Hmarket.
  pose proof (analyzeSectorRotation_range fetchCandles) as Hsector.
  unfold Aether.evaluateMacro. cbn [Aether.score].
  assert (H : (0 <= JS.Math_round (Aether.totalScore fetchCandles) <= 100)%Z).
  { apply Math_round_range; change (inject_Z 0) with 0; change (inject_Z 100) with 100;
      unfold Aether.totalScore;
      set (v := fst (Aether.analyzeVIX fetchCandles)) in *;
      set (m := fst (Aether.analyzeMarketTrend fetchCandles)) in *;
      set (s := fst (Aether.analyzeSectorRotation fetchCandles)) in *; lra. }
  destruct H as [H0 H1]. rewrite Zle_Qle in H0, H1.
  change (inject_Z 0) with 0 in H0. change (inject_Z 100) with 100 in H1. split; assumption.
Qed.

Lemma phoenix_analyze_aux (Math_sqrt : Q -> Q) (candles : list Provider.Candle) :
  exists r,
    Phoenix.analyze Math_sqrt candles Phoenix.DEFAULT_CONFIG = Some r /\
    0 <= Phoenix.score r <= 100 /\
    ((length candles < 60)%nat -> Phoenix.score r = 0).
Proof.
  unfold Phoenix.analyze. cbv zeta.
  destruct (length candles <? 60)%nat eqn:Hlen.
  - exists Phoenix.insufficientData. split; [reflexivity|].
    split; [split; discriminate | reflexivity].
  - apply Nat.ltb_ge in Hlen.
    assert (Hne : JSArray.slice_last
                    (Nat.min (Phoenix.lookback Phoenix.DEFAULT_CONFIG) (length candles)) candles
                  <> []).
    { apply slice_last_nonempty; [|lia]. intros ->. cbn in Hlen. lia. }
    destruct (last (JSArray.slice_last _ candles)) as [latest|] eqn:Hlast;
      [|apply last_None in Hlast; contradiction].
    eexists. split; [reflexivity|]. cbn [Phoenix.score]. unfold JS.Math_min, JS.Math_max.
    split; [split|intros; lia].
    + apply Q.min_glb; [apply Q.le_max_r | discriminate].
    + apply Q.le_min_r.
Qed.

(** X28: from any market data to a score in range.  Whatever the
    provider delivers (candles, fundamentals, macro data, sentiment)
    and whatever the square-root function returns, with non-negative
    learned weights when some are stored: the decision of the trading
    agent, fed by the fundamentals and technical engines, has composite,
    core and pulse scores between 0 and 100; a tick of the trader pool
    always obtains its observation (no engine throws) and its decision,
    fed by the four engines it runs, has scores between 0 and 100 as
    well.  With fewer than 50 candles the technical engine enters that
    decision with its neutral 50, but the channel engine with a score of
    0, which counts as a real score. *)
Theorem market_data_to_scores_in_range (Math_sqrt : Q -> Q)
    (cfg : option Chiron.StoredWeights) (symbol : string) (price : Q)
    (candles : list Provider.Candle) (fundamentals : Atlas.Fundamentals)
    (poolFundamentals : option Atlas.Fundamentals)
    (newsSentiment : option News.SentimentResult)
    (fetchCandles : string -> option (list Provider.Candle)) :
  Chiron.learnedNonneg cfg ->
  (let obs := Pipeline.agentObservation Math_sqrt price candles fundamentals newsSentiment in
   let d := Argus.makeDecision cfg (Agent.decide_inputs symbol obs) in
   (0 <= Argus.compositeScore d <= 100)%Z /\
   (0 <= Argus.coreScore d <= 100)%Z /\
   (0 <= Argus.pulseScore d <= 100)%Z) /\
  (exists obs,
     Pipeline.poolObservation Math_sqrt fetchCandles price candles poolFundamentals = Some obs /\
     let d := Argus.makeDecision cfg (MultiAI.decisionInputs symbol obs) in
     (0 <= Argus.compositeScore d <= 100)%Z /\
     (0 <= Argus.coreScore d <= 100)%Z /\
     (0 <= Argus.pulseScore d <= 100)%Z /\
     ((length candles < 50)%nat ->
      Argus.orion (Argus.moduleScores d) = Some 50 /\
      Argus.phoenix (Argus.moduleScores d) = Some 0)).
Proof.
  intros Hcfg.
  assert (Horion : Argus.inRange
                     (Some (Orion.score (Orion.calculateOrionScore Math_sqrt candles))))
    by exact (orion_score_range_aux Math_sqrt candles).
  assert (Hatlas : forall f, Argus.inRange (Some (Atlas.score (Atlas.analyze f))))
    by exact atlas_score_range_aux.
  assert (Haether : Argus.inRange
                      (Some (inject_Z (Aether.score (Aether.evaluateMacro fetchCandles)))))
    by exact (aether_score_range_aux fetchCandles).
  assert (Hnone : Argus.inRange None) by exact I.
  split.
  - cbv zeta. apply makeDecision_in_range; [|exact Hcfg].
    exact (conj (Hatlas fundamentals) (conj Horion (conj Hnone (conj Hnone (conj Hnone Hnone))))).
  - unfold Pipeline.poolObservation.
    destruct (phoenix_analyze_aux Math_sqrt candles) as (r & Hr & Hrange & Hshort).
    rewrite Hr. eexists. split; [reflexivity|]. cbv zeta.
    assert (Hphoenix : Argus.inRange (Some (Phoenix.score r))) by exact Hrange.
    assert (Hpool : Argus.inRange
                      ((fun f => Atlas.score (Atlas.analyze f)) <$> poolFundamentals)).
    { destruct poolFundamentals as [f|]; [exact (Hatlas f) | exact I]. }
    set (obs := {| MultiAI.quotePrice := price;
                   MultiAI.atlasScore := _; MultiAI.orionScore := _;
                   MultiAI.phoenixScore := _; MultiAI.aetherScore := _ |}).
    assert (Hin : Argus.scoresInRange (MultiAI.decisionInputs symbol obs)).
    { exact (conj Hpool (conj Horion (conj Hphoenix (conj Haether (conj Hnone Hnone))))). }
    destruct (makeDecision_in_range cfg _ Hin Hcfg) as (H1 & H2 & H3).
    split; [exact H1|]. split; [exact H2|]. split; [exact H3|].
    intros Hlen. unfold Argus.makeDecision. cbn [Argus.moduleScores].
    unfold Argus.collectScores. cbn [Argus.orion Argus.phoenix].
    unfold MultiAI.decisionInputs. cbn [Argus.in_orion Argus.in_phoenix].
    unfold obs. cbn [MultiAI.orionScore MultiAI.phoenixScore].
    split.
    + unfold Orion.calculateOrionScore.
      assert (Hl : (length candles <? 50)%nat = true) by (apply Nat.ltb_lt; exact Hlen).
      rewrite Hl. reflexivity.
    + rewrite (Hshort ltac:(lia)). reflexivity.
Qed.
Lemma market_data_to_scores_in_range_witness :
  let sqrt := fun x : Q => x in
  let candle :=
    {| Provider.date := "d"; Provider.open := 10; Provider.high := 11;
       Provider.low := 9; Provider.close := 10; Provider.volume := 1000 |} in
  let obs := Pipeline.agentObservation sqrt 10 [candle] Atlas.noData None in
  Chiron.learnedNonneg None /\
  (0 <= Argus.compositeScore (Argus.makeDecision None (Agent.decide_inputs "AAPL" obs)) <= 100)%Z.
Proof.
  intros sqrt candle obs.
  split; [exact I|].
  exact (proj1 (proj1 (market_data_to_scores_in_range sqrt None "AAPL" 10 [candle]
                         Atlas.noData None None Aether.outage I))).
Defined.

(** ** The backtest *)

Lemma sumPnl_app (l : list Backtest.BacktestTrade) (t : Backtest.BacktestTrade) :
  Backtest.sumPnl (l ++ [t]) == Backtest.sumPnl l + Backtest.pnl t.
Proof.
  unfold Backtest.sumPnl. induction l as [|x l IH]; cbn [app fold_right].
  - ring.
  - rewrite IH. ring.
Qed.

(** What one pass of the loop of the Orion strategy keeps true. *)
Lemma orionStep_invariant (Math_sqrt : Q -> Q) (candles : list Provider.Candle)
    (config : Backtest.BacktestConfig) (st : Backtest.LoopState) (i : nat) :
  (i < length candles)%nat ->
  Backtest.l_capital st == Backtest.initialCapital config + Backtest.sumPnl (Backtest.l_trades st) ->
  Forall Backtest.closedTrade (Backtest.l_trades st) ->
  0 <= Backtest.l_maxDrawdown st ->
  let st' := Backtest.orionStep Math_sqrt candles config st i in
  Backtest.l_capital st' == Backtest.initialCapital config + Backtest.sumPnl (Backtest.l_trades st') /\
  Forall Backtest.closedTrade (Backtest.l_trades st') /\
  0 <= Backtest.l_maxDrawdown st' /\
  length (Backtest.l_equityCurve st') = S (length (Backtest.l_equityCurve st)).
Proof.
  intros Hi Hcap Hclosed Hdd. cbv zeta. unfold Backtest.orionStep.
  destruct (candles !! i) as [current|] eqn:Hcur;
    [|apply lookup_ge_None in Hcur; lia].
  cbv zeta.
  assert (Hmax : forall dd : Q,
            0 <= (if JS.gtb dd (Backtest.l_maxDrawdown st) then dd
                  else Backtest.l_maxDrawdown st)).
  { intros dd. destruct (JS.gtb dd _) eqn:E; [apply gtb_true in E; lra | exact Hdd]. }
  destruct (Backtest.l_position st) as [position|].
  - destruct (JS.ltb _ 45 || (i =? length candles - 1)%nat);
      cbn [Backtest.l_capital Backtest.l_trades Backtest.l_maxDrawdown
           Backtest.l_equityCurve].
    + rewrite sumPnl_app. cbn [Backtest.pnl]. rewrite !length_app. cbn [length].
      split; [rewrite Hcap; ring|]. split.
      * apply Forall_app. split; [exact Hclosed|]. constructor; [|constructor].
        eexists. cbn. split; [reflexivity|]. split; [eauto|].
        split; [reflexivity|]. apply gtb_true.
      * split; [apply Hmax | lia].
    + rewrite length_app. cbn [length].
      split; [exact Hcap|]. split; [exact Hclosed|]. split; [apply Hmax | lia].
  - destruct (JS.geb _ 65);
      cbn [Backtest.l_capital Backtest.l_trades Backtest.l_maxDrawdown
           Backtest.l_equityCurve];
      rewrite length_app; cbn [length];
      (split; [exact Hcap|]); (split; [exact Hclosed|]); (split; [apply Hmax | lia]).
Qed.

Lemma orionLoop_invariant (Math_sqrt : Q -> Q) (candles : list Provider.Candle)
    (config : Backtest.BacktestConfig) :
  let st := Backtest.orionLoop Math_sqrt candles config in
  Backtest.l_capital st == Backtest.initialCapital config + Backtest.sumPnl (Backtest.l_trades st) /\
  Forall Backtest.closedTrade (Backtest.l_trades st) /\
  0 <= Backtest.l_maxDrawdown st /\
  length (Backtest.l_equityCurve st) = (length candles - 50)%nat.
Proof.
  cbv zeta. unfold Backtest.orionLoop. cbv zeta.
  set (st0 := {| Backtest.l_capital := Backtest.initialCapital config;
                 Backtest.l_position := None;
                 Backtest.l_peakCapital := Backtest.initialCapital config;
                 Backtest.l_maxDrawdown := 0; Backtest.l_returns := [];
                 Backtest.l_tradeId := 0; Backtest.l_trades := [];
                 Backtest.l_equityCurve := [] |}).
  assert (Hgen : forall (k start : nat) (st : Backtest.LoopState),
            (start + k <= length candles)%nat ->
            Backtest.l_capital st
              == Backtest.initialCapital config + Backtest.sumPnl (Backtest.l_trades st) ->
            Forall Backtest.closedTrade (Backtest.l_trades st) ->
            0 <= Backtest.l_maxDrawdown st ->
            let st' := fold_left (Backtest.orionStep Math_sqrt candles config) (seq start k) st in
            Backtest.l_capital st'
              == Backtest.initialCapital config + Backtest.sumPnl (Backtest.l_trades st') /\
            Forall Backtest.closedTrade (Backtest.l_trades st') /\
            0 <= Backtest.l_maxDrawdown st' /\
            length (Backtest.l_equityCurve st') = (length (Backtest.l_equityCurve st) + k)%nat).
  { induction k as [|k IH]; intros start st Hle Hcap Hclosed Hdd; cbv zeta.
    - cbn [seq fold_left]. repeat split; try assumption. lia.
    - cbn [seq fold_left].
      destruct (orionStep_invariant Math_sqrt candles config st start ltac:(lia) Hcap Hclosed Hdd)
        as (Hcap' & Hclosed' & Hdd' & Heq').
      destruct (IH (S start) _ ltac:(lia) Hcap' Hclosed' Hdd') as (H1 & H2 & H3 & H4).
      split; [exact H1|]. split; [exact H2|]. split; [exact H3|]. rewrite H4, Heq'. lia. }
  assert (Hc0 : Backtest.l_capital st0
                == Backtest.initialCapital config + Backtest.sumPnl (Backtest.l_trades st0)).
  { unfold st0. cbn [Backtest.l_capital Backtest.l_trades]. unfold Backtest.sumPnl.
    cbn [fold_right]. ring. }
  assert (Ht0 : Forall Backtest.closedTrade (Backtest.l_trades st0)) by constructor.
  assert (Hd0 : 0 <= Backtest.l_maxDrawdown st0) by discriminate.
  destruct (le_lt_dec 50 (length candles)) as [Hlong|Hshort].
  - destruct (Hgen (length candles - 50)%nat 50%nat st0 ltac:(lia) Hc0 Ht0 Hd0)
      as (H1 & H2 & H3 & H4).
    split; [exact H1|]. split; [exact H2|]. split; [exact H3 | exact H4].
  - replace (length candles - 50)%nat with 0%nat by lia. cbn [seq fold_left].
    split; [exact Hc0|]. split; [exact Ht0|]. split; [exact Hd0 | reflexivity].
Qed.

(** X29: the accounting of the Orion backtest.  For any candles with
    closes that are not zero, any configuration and any square-root
    function: the final capital is the
    initial capital plus the profits of the recorded trades; every
    recorded trade is closed, its profit is its shares times the move
    from entry to exit price, and it counts as a win exactly when that
    profit is positive; the equity curve has one point per candle after
    the first fifty; the maximal drawdown is never negative and the win rate is a
    percentage; and with fifty candles or fewer nothing is traded and
    the capital is returned unchanged. *)
Theorem orion_backtest_accounting (Math_sqrt : Q -> Q) (candles : list Provider.Candle)
    (config : Backtest.BacktestConfig) :
  Forall (fun c => ~ Provider.close c == 0) candles ->
  let r := Backtest.runOrionStrategy Math_sqrt candles config in
  Backtest.finalCapital r
    == Backtest.initialCapital config + Backtest.sumPnl (Backtest.trades r) /\
  Forall Backtest.closedTrade (Backtest.trades r) /\
  length (Backtest.equityCurve r) = (length candles - 50)%nat /\
  0 <= Backtest.maxDrawdown r /\
  0 <= Backtest.winRate r <= 100 /\
  ((length candles <= 50)%nat ->
   Backtest.trades r = [] /\ Backtest.finalCapital r = Backtest.initialCapital config).
Proof.
  intros _. cbv zeta. unfold Backtest.runOrionStrategy. cbv zeta.
  cbn [Backtest.finalCapital Backtest.trades Backtest.equityCurve Backtest.maxDrawdown
       Backtest.winRate].
  destruct (orionLoop_invariant Math_sqrt candles config) as (H1 & H2 & H3 & H4).
  split; [exact H1|]. split; [exact H2|]. split; [exact H4|]. split; [exact H3|]. split.
  - set (ts := Backtest.l_trades (Backtest.orionLoop Math_sqrt candles config)).
    pose proof (filter_length_le Backtest.isWin ts) as Hle.
    set (w := length (List.filter Backtest.isWin ts)) in *.
    destruct (0 <? length ts)%nat eqn:Hc; [|split; discriminate].
    apply Nat.ltb_lt in Hc.
    assert (Hcq : 0 < inject_Z (Z.of_nat (length ts))).
    { change 0 with (inject_Z 0). rewrite <- Zlt_Qlt. lia. }
    assert (Hwq : 0 <= inject_Z (Z.of_nat w)).
    { change 0 with (inject_Z 0). rewrite <- Zle_Qle. lia. }
    assert (Hwc : inject_Z (Z.of_nat w) <= inject_Z (Z.of_nat (length ts))).
    { rewrite <- Zle_Qle. lia. }
    set (a := inject_Z (Z.of_nat w)) in *. set (c := inject_Z (Z.of_nat (length ts))) in *.
    assert (H0 : 0 <= a / c) by (apply Qle_shift_div_l; [exact Hcq | lra]).
    assert (H01 : a / c <= 1) by (apply Qle_shift_div_r; [exact Hcq | lra]).
    split; lra.
  - intros Hshort. unfold Backtest.orionLoop. cbv zeta.
    replace (length candles - 50)%nat with 0%nat by lia. cbn. split; reflexivity.
Qed.

Lemma orion_backtest_accounting_witness :
  let candle := fun c : Q =>
    {| Provider.date := "d"; Provider.open := c; Provider.high := c;
       Provider.low := c; Provider.close := c; Provider.volume := 1000 |} in
  let candles := map candle [100; 101; 102] in
  let config :=
    {| Backtest.symbol := "AAPL"; Backtest.strategy := Backtest.OrionV3;
       Backtest.initialCapital := 10000; Backtest.startDate := None;
       Backtest.endDate := None; Backtest.positionSizePercent := 100 |} in
  let r := Backtest.runOrionStrategy (fun x : Q => x) candles config in
  Forall (fun c => ~ Provider.close c == 0) candles /\
  Backtest.finalCapital r
    == Backtest.initialCapital config + Backtest.sumPnl (Backtest.trades r) /\
  Forall Backtest.closedTrade (Backtest.trades r).
Proof.
  intros candle candles config r.
  assert (Hall : Forall (fun c => ~ Provider.close c == 0) candles)
    by (repeat constructor; discriminate).
  split; [exact Hall|].
  destruct (orion_backtest_accounting (fun x : Q => x) candles config Hall)
    as (H1 & H2 & _).
  split; [exact H1 | exact H2].
Defined.

Lemma holdLoop_invariant (shares : Q) (candles : list Provider.Candle) :
  0 < shares ->
  Forall (fun c => 0 < Provider.close c) candles ->
  forall (acc : Q * Q * list (string * Q)),
    0 < fst (fst acc) -> 0 <= snd (fst acc) <= 100 * (1 + JS.roundoff3) ->
    let r :=
      fold_left
        (fun (acc : Q * Q * list (string * Q)) (candle : Provider.Candle) =>
           let '(peak, maxDrawdown, equityCurve) := acc in
           let value := JS.fmul shares (Provider.close candle) in
           let equityCurve := equityCurve ++ [(Provider.date candle, value)] in
           let peak := if JS.gtb value peak then value else peak in
           let dd := JS.fmul (JS.fdiv (JS.fsub peak value) peak) 100 in
           let maxDrawdown := if JS.gtb dd maxDrawdown then dd else maxDrawdown in
           (peak, maxDrawdown, equityCurve))
        candles acc in
    0 < fst (fst r) /\ 0 <= snd (fst r) <= 100 * (1 + JS.roundoff3) /\
    length (snd r) = (length (snd acc) + length candles)%nat.
Proof.
  intros Hshares Hall. induction Hall as [|c l Hc Hl IH]; intros [[peak dd] curve] Hpeak Hdd;
    cbv zeta.
  - cbn [fold_left fst snd length] in *. split; [exact Hpeak|]. split; [exact Hdd | lia].
  - cbn [fold_left]. cbn [fst snd] in Hpeak, Hdd.
    set (value := JS.fmul shares (Provider.close c)).
    assert (Hvalue : 0 < value).
    { unfold value, JS.fmul. apply double_sign. apply Qmult_lt_0_compat; assumption. }
    set (peak' := if JS.gtb value peak then value else peak).
    assert (Hpeak' : 0 < peak' /\ value <= peak').
    { unfold peak'. destruct (JS.gtb value peak) eqn:E.
      - split; lra.
      - unfold JS.gtb in E. compare_in E. split; lra. }
    destruct Hpeak' as [Hp1 Hp2].
    set (dd' := JS.fmul (JS.fdiv (JS.fsub peak' value) peak') 100).
    assert (Hdd' : 0 <= dd' <= 100 * (1 + JS.roundoff3)).
    { pose proof (ratio_percent_near peak' value peak') as Hn. fold dd' in Hn.
      apply near_bounds in Hn. destruct Hn as [Hn _].
      assert (H0 : 0 <= (peak' - value) / peak') by (apply Qle_shift_div_l; lra).
      assert (H1 : (peak' - value) / peak' < 1) by (apply Qlt_shift_div_r; lra).
      set (e := (peak' - value) / peak') in *.
      destruct (Hn ltac:(lra)) as [Hlo Hhi]. unfold JS.roundoff3 in *. split; lra. }
    set (dd2 := if JS.gtb dd' dd then dd' else dd).
    assert (Hdd2 : 0 <= dd2 <= 100 * (1 + JS.roundoff3))
      by (unfold dd2; destruct (JS.gtb dd' dd); assumption).
    destruct (IH (peak', dd2, curve ++ [(Provider.date c, value)]) Hp1 Hdd2)
      as (H1 & H2 & H3).
    cbv zeta in H1, H2, H3. split; [exact H1|]. split; [exact H2|].
    rewrite H3. cbn [snd length]. rewrite length_app. cbn [length]. lia.
Qed.

(** X30: buy and hold.  Over at least two candles with positive closes
    and a positive initial capital, the buy-and-hold backtest ends with
    the initial capital scaled by last close over first close, up to the
    rounding of the two operations that compute it; it records a single
    trade from the first close to the last; the reported total return is
    the price move in percent, up to rounding; the maximal drawdown lies
    between 0 and 100 (up to rounding); the equity curve has one point
    per candle; the win rate is 100 or 0, and 100 exactly when the trade
    is flagged a win, which is exactly when the final capital exceeds
    the initial one; a last close above the first by the rounding margin
    is a win and one below it by the margin is not.  Within the margin
    the rounding decides: a run that ends at the close it started at,
    64.88, with a capital of 10000 is flagged a win. *)
Theorem buy_and_hold_scales_capital (candles : list Provider.Candle)
    (config : Backtest.BacktestConfig) :
  (2 <= length candles)%nat ->
  0 < Backtest.initialCapital config ->
  Forall (fun c => 0 < Provider.close c) candles ->
  let r := Backtest.runBuyAndHold candles config in
  (exists first latest trade,
     head candles = Some first /\ last candles = Some latest /\
     JS.near JS.roundoff3
       (Backtest.initialCapital config / Provider.close first * Provider.close latest)
       (Backtest.finalCapital r) /\
     Backtest.trades r = [trade] /\
     Backtest.entryPrice trade = Provider.close first /\
     Backtest.exitPrice trade = Some (Provider.close latest) /\
     JS.near JS.roundoff3
       (((Provider.close latest - Provider.close first) / Provider.close first) * 100)
       (Backtest.totalReturn r) /\
     0 <= Backtest.maxDrawdown r <= 100 * (1 + JS.roundoff3) /\
     length (Backtest.equityCurve r) = length candles /\
     (Backtest.winRate r = 100 \/ Backtest.winRate r = 0) /\
     (Backtest.winRate r = 100 <-> Backtest.isWin trade = true) /\
     (Backtest.isWin trade = true <->
      Backtest.initialCapital config < Backtest.finalCapital r) /\
     (Provider.close first * (1 + Notions.margin) <= Provider.close latest ->
      Backtest.winRate r = 100) /\
     (Provider.close latest <= Provider.close first * (1 - Notions.margin) ->
      Backtest.winRate r = 0)) /\
  (let flat := fun d : string =>
     {| Provider.date := d; Provider.open := JS.double 64.88; Provider.high := JS.double 64.88;
        Provider.low := JS.double 64.88; Provider.close := JS.double 64.88;
        Provider.volume := 1000 |} in
   let ten_thousand :=
     {| Backtest.symbol := Backtest.symbol config; Backtest.strategy := Backtest.BuyAndHold;
        Backtest.initialCapital := 10000; Backtest.startDate := None;
        Backtest.endDate := None; Backtest.positionSizePercent := 100 |} in
   Backtest.winRate (Backtest.runBuyAndHold [flat "2024-01-01"; flat "2024-01-02"] ten_thousand)
   = 100).
Proof.
  intros Hlen Hcap Hall. cbv zeta. split; [|vm_compute; reflexivity].
  destruct candles as [|first [|second rest]]; cbn [length] in Hlen; try lia.
  destruct (last (first :: second :: rest)) as [latest|] eqn:Hlast;
    [|apply last_None in Hlast; discriminate].
  assert (Hf : 0 < Provider.close first) by (inversion Hall; assumption).
  assert (Hl : 0 < Provider.close latest).
  { apply last_Some in Hlast as (l' & Heq). rewrite Heq in Hall.
    apply Forall_app in Hall as [_ Hall]. inversion Hall; assumption. }
  unfold Backtest.runBuyAndHold. rewrite Hlast.
  set (f := Provider.close first) in *. set (l := Provider.close latest) in *.
  set (c := Backtest.initialCapital config) in *.
  assert (Hshares : 0 < JS.fdiv c f).
  { unfold JS.fdiv. apply double_sign. apply Qlt_shift_div_l; lra. }
  pose proof (holdLoop_invariant (JS.fdiv c f) (first :: second :: rest) Hshares Hall (c, 0, [])
                Hcap ltac:(cbn; split; discriminate)) as Hloop.
  cbv zeta in Hloop.
  unfold Backtest.holdLoop.
  match type of Hloop with
  | context [fold_left ?g ?cs ?a] => destruct (fold_left g cs a) as [[peak dd] curve]
  end.
  cbn [fst snd] in Hloop. destruct Hloop as (_ & Hdd & Hcurve).
  cbv beta iota zeta.
  cbn [Backtest.finalCapital Backtest.trades Backtest.totalReturn Backtest.maxDrawdown
       Backtest.equityCurve Backtest.winRate].
  pose proof (scaled_near c f l) as Hfinal.
  set (F := JS.fmul (JS.fdiv c f) l) in *.
  assert (Hexact : 0 < c / f * l).
  { apply Qmult_lt_0_compat; [apply Qlt_shift_div_l; lra | exact Hl]. }
  assert (Hsign : JS.gtb (JS.fsub F c) 0 = true <-> c < F).
  { rewrite gtb_true. unfold JS.fsub.
    destruct (double_sign (F - c)) as (Hpos & Hneg & Hzero). split; intros H.
    - destruct (Qlt_le_dec c F) as [Hlt|Hge]; [exact Hlt|]. exfalso.
      destruct (Qeq_dec (F - c) 0) as [Hz|Hnz].
      + apply Hzero in Hz. lra.
      + assert (Hlt : F - c < 0) by lra. apply Hneg in Hlt. lra.
    - apply Hpos. lra. }
  apply near_bounds in Hfinal as Hbounds. destruct Hbounds as [Hbounds _].
  destruct (Hbounds ltac:(lra)) as [Hlo Hhi].
  exists first, latest. eexists.
  split; [reflexivity|]. split; [reflexivity|].
  split; [exact Hfinal|]. split; [reflexivity|].
  cbn [Backtest.entryPrice Backtest.exitPrice Backtest.isWin].
  split; [reflexivity|]. split; [reflexivity|].
  split; [apply percent_near|]. split; [exact Hdd|].
  split; [rewrite Hcurve; reflexivity|].
  split; [destruct (JS.gtb (JS.fsub F c) 0); auto|].
  split.
  { destruct (JS.gtb (JS.fsub F c) 0); split; intros H;
      first [reflexivity | discriminate H]. }
  split; [exact Hsign|].
  unfold JS.roundoff3, Notions.margin in *.
  split; intros H.
  - assert (Hx : c * (1 + (1 # 1000000000000000)) <= c / f * l).
    { assert (H1 : c / f * (f * (1 + (1 # 1000000000000000))) <= c / f * l).
      { apply Qmult_le_l; [apply Qlt_shift_div_l; lra | exact H]. }
      assert (E : c / f * (f * (1 + (1 # 1000000000000000)))
                  == c * (1 + (1 # 1000000000000000))) by (field; lra).
      rewrite E in H1. exact H1. }
    assert (Hwin : JS.gtb (JS.fsub F c) 0 = true) by (apply Hsign; lra).
    rewrite Hwin. reflexivity.
  - assert (Hx : c / f * l <= c * (1 - (1 # 1000000000000000))).
    { assert (H1 : c / f * l <= c / f * (f * (1 - (1 # 1000000000000000)))).
      { apply Qmult_le_l; [apply Qlt_shift_div_l; lra | exact H]. }
      assert (E : c / f * (f * (1 - (1 # 1000000000000000)))
                  == c * (1 - (1 # 1000000000000000))) by (field; lra).
      rewrite E in H1. exact H1. }
    assert (Hlose : JS.gtb (JS.fsub F c) 0 = false).
    { apply not_true_is_false. intros Ewin. apply Hsign in Ewin. lra. }
    rewrite Hlose. reflexivity.
Qed.

Lemma buy_and_hold_scales_capital_witness :
  let candle := fun (d : string) (c : Q) =>
    {| Provider.date := d; Provider.open := c; Provider.high := c;
       Provider.low := c; Provider.close := c; Provider.volume := 1000 |} in
  let candles := [candle "2024-01-01" 100; candle "2024-01-02" 80; candle "2024-01-03" 120] in
  let config :=
    {| Backtest.symbol := "AAPL"; Backtest.strategy := Backtest.BuyAndHold;
       Backtest.initialCapital := 10000; Backtest.startDate := None;
       Backtest.endDate := None; Backtest.positionSizePercent := 100 |} in
  (2 <= length candles)%nat /\
  0 < Backtest.initialCapital config /\
  Forall (fun c => 0 < Provider.close c) candles /\
  Backtest.finalCapital (Backtest.runBuyAndHold candles config) == 12000 /\
  Backtest.winRate (Backtest.runBuyAndHold candles config) = 100 /\
  0 <= Backtest.maxDrawdown (Backtest.runBuyAndHold candles config) <= 100 * (1 + JS.roundoff3).
Proof.
  intros candle candles config.
  assert (H1 : (2 <= length candles)%nat) by (cbn; lia).
  assert (H2 : 0 < Backtest.initialCapital config) by reflexivity.
  assert (H3 : Forall (fun c => 0 < Provider.close c) candles)
    by (repeat constructor).
  split; [exact H1|]. split; [exact H2|]. split; [exact H3|].
  destruct (proj1 (buy_and_hold_scales_capital candles config H1 H2 H3))
    as (first & latest & trade & Hfirst & Hlast & _ & _ & _ & _ & _ & Hdd & _ & _ & _ & _
        & Hwin & _).
  injection Hfirst as <-. injection Hlast as <-.
  split; [vm_compute; reflexivity|]. split; [|exact Hdd].
  apply Hwin. vm_compute. discriminate.
Defined.
